(** * The simulated LoRa/FSK radio driver (src/radio/radio-simul/radio.c)

    A shallow embedding of the driver: its parameter model
    ([RadioSetTxConfig], [RadioSetRxConfig]), the time-on-air calculator
    ([RadioTimeOnAir]) over IEEE-754 binary64 arithmetic, and the packet
    bridge ([RadioSend], [RadioRx]) over an explicit world of globals,
    standard input and an event trace. *)

From Stdlib Require Import ZArith List Bool String Ascii Lia.
From Stdlib Require Import QArith Qpower Qround Lqa.
From Stdlib Require Import Floats.SpecFloat.
Import ListNotations.
Local Set Warnings "-register-all".
Local Set Warnings "-abstract-large-number".
Local Open Scope Z_scope.

(** ** Fixed-width integers *)

Definition wrap (w z : Z) : Z := z mod 2 ^ w.
Definition uint8 (z : Z) : Z := wrap 8 z.
Definition uint16 (z : Z) : Z := wrap 16 z.
Definition uint32 (z : Z) : Z := wrap 32 z.

Definition is_uint8 (z : Z) : Prop := 0 <= z < 256.
Definition is_uint16 (z : Z) : Prop := 0 <= z < 65536.
Definition is_uint32 (z : Z) : Prop := 0 <= z < 4294967296.

(** ** C [double]: IEEE-754 binary64, round to nearest even *)

Module Double.

Definition prec : Z := 53.
Definition emax : Z := 1024.

Definition double : Type := spec_float.

Definition add : double -> double -> double := SFadd prec emax.
Definition mul : double -> double -> double := SFmul prec emax.
Definition div : double -> double -> double := SFdiv prec emax.
Definition ltb : double -> double -> bool := SFltb.

(** Conversion of a C integer to [double]. *)
Definition of_int (z : Z) : double := binary_normalize prec emax z 0 false.

(** A decimal literal [n/d] (such as [32.768] = 32768/1000): both
    integers are exact, and the division rounds the quotient once. *)
Definition literal (n d : Z) : double := div (of_int n) (of_int d).

(** [floor], [ceil] and [rint] of <math.h> share one shape: a value with a
    fractional part is split into quotient and remainder by its
    denominator [2^(-e)], and [pick] chooses the integer. *)
Definition to_integral (pick : bool -> Z -> Z -> Z -> Z) (x : double) : double :=
  match x with
  | S754_finite s m e =>
      if 0 <=? e then x
      else
        let d := 2 ^ (- e) in
        binary_normalize prec emax (pick s (Zpos m / d) (Zpos m mod d) d) 0 s
  | _ => x
  end.

Definition pick_floor (s : bool) (q r d : Z) : Z :=
  if s then - (if r =? 0 then q else q + 1) else q.

Definition pick_ceil (s : bool) (q r d : Z) : Z :=
  if s then - q else (if r =? 0 then q else q + 1).

(** [rint] in the default rounding mode: to nearest, ties to even. *)
Definition pick_rint (s : bool) (q r d : Z) : Z :=
  let n := match 2 * r ?= d with
           | Lt => q
           | Gt => q + 1
           | Eq => if Z.even q then q else q + 1
           end in
  if s then - n else n.

Definition floor : double -> double := to_integral pick_floor.
Definition ceil : double -> double := to_integral pick_ceil.
Definition rint : double -> double := to_integral pick_rint.

(** Conversion [double] -> [uint32_t]: the value is truncated toward zero;
    the behaviour is undefined ([None]) when the truncated value does not
    fit, and for infinities and NaN. *)
Definition to_uint32 (x : double) : option Z :=
  match x with
  | S754_zero _ => Some 0
  | S754_finite s m e =>
      let t := if 0 <=? e then Zpos m * 2 ^ e else Zpos m / 2 ^ (- e) in
      if s then (if t =? 0 then Some 0 else None)
      else if t <? 4294967296 then Some t else None
  | _ => None
  end.

(** Conversion [double] -> [float] (binary32), used by [frequency]. *)
Definition to_float32 (x : double) : spec_float :=
  match x with
  | S754_finite s m e => binary_round 24 128 s m e
  | _ => x
  end.

End Double.

Arguments Double.add : simpl never.
Arguments Double.mul : simpl never.
Arguments Double.div : simpl never.
Arguments Double.ltb : simpl never.
Arguments Double.of_int : simpl never.
Arguments Double.literal : simpl never.
Arguments Double.floor : simpl never.
Arguments Double.ceil : simpl never.
Arguments Double.rint : simpl never.
Arguments Double.to_uint32 : simpl never.

(** ** Enumerations of radio.h and sx126x.h *)

Inductive RadioModems_t := MODEM_FSK | MODEM_LORA.

Inductive RadioState_t := RF_IDLE | RF_RX_RUNNING | RF_TX_RUNNING | RF_CAD.

Inductive RadioPacketTypes_t := PACKET_TYPE_GFSK | PACKET_TYPE_LORA | PACKET_TYPE_NONE.

Inductive RadioOperatingModes_t :=
  MODE_SLEEP | MODE_STDBY_RC | MODE_STDBY_XOSC | MODE_FS
| MODE_TX | MODE_RX | MODE_RX_DC | MODE_CAD.

Inductive RadioModShapings_t :=
  MOD_SHAPING_OFF | MOD_SHAPING_G_BT_03 | MOD_SHAPING_G_BT_05
| MOD_SHAPING_G_BT_07 | MOD_SHAPING_G_BT_1.

Inductive RadioPreambleDetection_t :=
  RADIO_PREAMBLE_DETECTOR_OFF | RADIO_PREAMBLE_DETECTOR_08_BITS
| RADIO_PREAMBLE_DETECTOR_16_BITS | RADIO_PREAMBLE_DETECTOR_24_BITS
| RADIO_PREAMBLE_DETECTOR_32_BITS.

Inductive RadioAddressComp_t :=
  RADIO_ADDRESSCOMP_FILT_OFF | RADIO_ADDRESSCOMP_FILT_NODE
| RADIO_ADDRESSCOMP_FILT_NODE_BROAD.

Inductive RadioPacketLengthModes_t :=
  RADIO_PACKET_FIXED_LENGTH | RADIO_PACKET_VARIABLE_LENGTH.

(** The GFSK CRC types are distinct enumerators; [RADIO_CRC_2_BYTES] and
    [RADIO_CRC_2_BYTES_CCIT] are two of them. *)
Inductive RadioCrcTypes_t :=
  RADIO_CRC_OFF | RADIO_CRC_1_BYTES | RADIO_CRC_2_BYTES
| RADIO_CRC_1_BYTES_INV | RADIO_CRC_2_BYTES_INV
| RADIO_CRC_2_BYTES_IBM | RADIO_CRC_2_BYTES_CCIT.

Inductive RadioDcFree_t := RADIO_DC_FREE_OFF | RADIO_DC_FREEWHITENING.

Definition RadioPacketLengthModes_eqb (a b : RadioPacketLengthModes_t) : bool :=
  match a, b with
  | RADIO_PACKET_FIXED_LENGTH, RADIO_PACKET_FIXED_LENGTH => true
  | RADIO_PACKET_VARIABLE_LENGTH, RADIO_PACKET_VARIABLE_LENGTH => true
  | _, _ => false
  end.

Definition RadioCrcTypes_eqb (a b : RadioCrcTypes_t) : bool :=
  match a, b with
  | RADIO_CRC_OFF, RADIO_CRC_OFF => true
  | RADIO_CRC_1_BYTES, RADIO_CRC_1_BYTES => true
  | RADIO_CRC_2_BYTES, RADIO_CRC_2_BYTES => true
  | RADIO_CRC_1_BYTES_INV, RADIO_CRC_1_BYTES_INV => true
  | RADIO_CRC_2_BYTES_INV, RADIO_CRC_2_BYTES_INV => true
  | RADIO_CRC_2_BYTES_IBM, RADIO_CRC_2_BYTES_IBM => true
  | RADIO_CRC_2_BYTES_CCIT, RADIO_CRC_2_BYTES_CCIT => true
  | _, _ => false
  end.

(** The LoRa fields are written through casts from integers and booleans
    and read back in arithmetic, so their enumerators are kept as the
    integers they stand for. *)

(** Modelled from the spec: the enumeration types of sx126x.h, which is
    not part of the translation unit: spreading factors 5..12 are their
    own number, the LoRa bandwidth classes 125/250/500 kHz start at the
    base offset 4, and header type and CRC mode are the booleans they are
    cast from.  None of these enumerations has a negative enumerator, so
    the compilers of the host (gcc, clang) give them the type
    [unsigned int]: a field of these types holds a 32-bit unsigned value,
    and arithmetic that involves one is carried out modulo 2^32. *)
Definition LORA_SF5 : Z := 5.
Definition LORA_SF6 : Z := 6.
Definition LORA_SF7 : Z := 7.
Definition LORA_SF12 : Z := 12.
Definition LORA_BW_125 : Z := 4.
Definition LORA_BW_250 : Z := 5.
Definition LORA_BW_500 : Z := 6.
Definition LORA_PACKET_VARIABLE_LENGTH : Z := 0.
Definition LORA_PACKET_FIXED_LENGTH : Z := 1.
Definition LORA_CRC_OFF : Z := 0.
Definition LORA_CRC_ON : Z := 1.

Definition Z_of_bool (b : bool) : Z := if b then 1 else 0.

(** ** The parameter model: [MockRadio_t] *)

Record GfskModulationParams_t := {
  Gfsk_BitRate : Z;
  Gfsk_Fdev : Z;
  Gfsk_ModulationShaping : RadioModShapings_t;
  Gfsk_Bandwidth : Z
}.

Record LoRaModulationParams_t := {
  LoRa_SpreadingFactor : Z;
  LoRa_Bandwidth : Z;
  LoRa_CodingRate : Z;
  LoRa_LowDatarateOptimize : Z
}.

Record ModulationParams_t := {
  Mod_PacketType : RadioPacketTypes_t;
  Mod_Gfsk : GfskModulationParams_t;
  Mod_LoRa : LoRaModulationParams_t
}.

Record GfskPacketParams_t := {
  Gfsk_PreambleLength : Z;
  Gfsk_PreambleMinDetect : RadioPreambleDetection_t;
  Gfsk_SyncWordLength : Z;
  Gfsk_AddrComp : RadioAddressComp_t;
  Gfsk_HeaderType : RadioPacketLengthModes_t;
  Gfsk_PayloadLength : Z;
  Gfsk_CrcLength : RadioCrcTypes_t;
  Gfsk_DcFree : RadioDcFree_t
}.

Record LoRaPacketParams_t := {
  LoRa_PreambleLength : Z;
  LoRa_HeaderType : Z;
  LoRa_PayloadLength : Z;
  LoRa_CrcMode : Z;
  LoRa_InvertIQ : Z
}.

Record PacketParams_t := {
  Pkt_PacketType : RadioPacketTypes_t;
  Pkt_Gfsk : GfskPacketParams_t;
  Pkt_LoRa : LoRaPacketParams_t
}.

(** Modelled from the spec: the declaration of [MockRadio_t] (mock_radio.h)
    is not under src/; it holds the modulation and the packet parameters of
    both modems. *)
Record MockRadio_t := {
  ModulationParams : ModulationParams_t;
  PacketParams : PacketParams_t
}.

(** ** Tables *)

Record FskBandwidth_t := { bandwidth : Z; RegValue : Z }.

(** Precomputed FSK bandwidth register values; the last entry is the
    invalid-bandwidth sentinel. *)
Definition FskBandwidths : list FskBandwidth_t :=
  [ {| bandwidth := 4800;   RegValue := 0x1F |};
    {| bandwidth := 5800;   RegValue := 0x17 |};
    {| bandwidth := 7300;   RegValue := 0x0F |};
    {| bandwidth := 9700;   RegValue := 0x1E |};
    {| bandwidth := 11700;  RegValue := 0x16 |};
    {| bandwidth := 14600;  RegValue := 0x0E |};
    {| bandwidth := 19500;  RegValue := 0x1D |};
    {| bandwidth := 23400;  RegValue := 0x15 |};
    {| bandwidth := 29300;  RegValue := 0x0D |};
    {| bandwidth := 39000;  RegValue := 0x1C |};
    {| bandwidth := 46900;  RegValue := 0x14 |};
    {| bandwidth := 58600;  RegValue := 0x0C |};
    {| bandwidth := 78200;  RegValue := 0x1B |};
    {| bandwidth := 93800;  RegValue := 0x13 |};
    {| bandwidth := 117300; RegValue := 0x0B |};
    {| bandwidth := 156200; RegValue := 0x1A |};
    {| bandwidth := 187200; RegValue := 0x12 |};
    {| bandwidth := 234300; RegValue := 0x0A |};
    {| bandwidth := 312000; RegValue := 0x19 |};
    {| bandwidth := 373600; RegValue := 0x11 |};
    {| bandwidth := 467000; RegValue := 0x09 |};
    {| bandwidth := 500000; RegValue := 0x00 |} ].

Definition Bandwidths : list Z := [ LORA_BW_125; LORA_BW_250; LORA_BW_500 ].

(** The body of [RadioGetFskBandwidthRegValue] is empty: it reads neither
    its argument nor the table and returns no value. *)
Definition RadioGetFskBandwidthRegValue (bandwidth : Z) : option Z := None.

(**                                        SF12    SF11    SF10    SF9    SF8    SF7 *)
Definition RadioLoRaSymbTime : list (list Double.double) :=
  let ms := fun n => Double.literal n 1000 in
  [ [ ms 32768; ms 16384; ms 8192; ms 4096; ms 2048; ms 1024 ];   (* 125 KHz *)
    [ ms 16384; ms 8192;  ms 4096; ms 2048; ms 1024; ms 512 ];    (* 250 KHz *)
    [ ms 8192;  ms 4096;  ms 2048; ms 1024; ms 512;  ms 256 ] ].  (* 500 KHz *)

(** Reading a C array: an index outside the array is undefined. *)
Definition index {A : Type} (a : list A) (i : Z) : option A :=
  if (i <? 0) || (Z.of_nat (List.length a) <=? i) then None
  else nth_error a (Z.to_nat i).

(** ** Globals of the driver that the configuration calls touch *)

Record Radio_t := {
  MockRadio : MockRadio_t;
  TxTimeout : Z;
  RxTimeout : Z;
  RxContinuous : bool;
  IrqFired : bool;
  MaxPayloadLength : Z;
  frequency : spec_float;
  OperatingMode : RadioOperatingModes_t
}.

Definition with_MockRadio (r : Radio_t) (m : MockRadio_t) : Radio_t :=
  {| MockRadio := m; TxTimeout := TxTimeout r; RxTimeout := RxTimeout r;
     RxContinuous := RxContinuous r; IrqFired := IrqFired r;
     MaxPayloadLength := MaxPayloadLength r; frequency := frequency r;
     OperatingMode := OperatingMode r |}.

Definition with_TxTimeout (r : Radio_t) (t : Z) : Radio_t :=
  {| MockRadio := MockRadio r; TxTimeout := t; RxTimeout := RxTimeout r;
     RxContinuous := RxContinuous r; IrqFired := IrqFired r;
     MaxPayloadLength := MaxPayloadLength r; frequency := frequency r;
     OperatingMode := OperatingMode r |}.

Definition with_frequency (r : Radio_t) (f : spec_float) : Radio_t :=
  {| MockRadio := MockRadio r; TxTimeout := TxTimeout r; RxTimeout := RxTimeout r;
     RxContinuous := RxContinuous r; IrqFired := IrqFired r;
     MaxPayloadLength := MaxPayloadLength r; frequency := f;
     OperatingMode := OperatingMode r |}.

Definition with_IrqFired (r : Radio_t) (b : bool) : Radio_t :=
  {| MockRadio := MockRadio r; TxTimeout := TxTimeout r; RxTimeout := RxTimeout r;
     RxContinuous := RxContinuous r; IrqFired := b;
     MaxPayloadLength := MaxPayloadLength r; frequency := frequency r;
     OperatingMode := OperatingMode r |}.

(** The zero-initialised globals at program start. *)
Definition MockRadio_zero : MockRadio_t :=
  {| ModulationParams :=
       {| Mod_PacketType := PACKET_TYPE_GFSK;
          Mod_Gfsk := {| Gfsk_BitRate := 0; Gfsk_Fdev := 0;
                         Gfsk_ModulationShaping := MOD_SHAPING_OFF;
                         Gfsk_Bandwidth := 0 |};
          Mod_LoRa := {| LoRa_SpreadingFactor := 0; LoRa_Bandwidth := 0;
                         LoRa_CodingRate := 0; LoRa_LowDatarateOptimize := 0 |} |};
     PacketParams :=
       {| Pkt_PacketType := PACKET_TYPE_GFSK;
          Pkt_Gfsk := {| Gfsk_PreambleLength := 0;
                         Gfsk_PreambleMinDetect := RADIO_PREAMBLE_DETECTOR_OFF;
                         Gfsk_SyncWordLength := 0;
                         Gfsk_AddrComp := RADIO_ADDRESSCOMP_FILT_OFF;
                         Gfsk_HeaderType := RADIO_PACKET_FIXED_LENGTH;
                         Gfsk_PayloadLength := 0;
                         Gfsk_CrcLength := RADIO_CRC_1_BYTES;
                         Gfsk_DcFree := RADIO_DC_FREE_OFF |};
          Pkt_LoRa := {| LoRa_PreambleLength := 0; LoRa_HeaderType := 0;
                         LoRa_PayloadLength := 0; LoRa_CrcMode := 0;
                         LoRa_InvertIQ := 0 |} |} |}.

Definition Radio_start : Radio_t :=
  {| MockRadio := MockRadio_zero; TxTimeout := 0; RxTimeout := 0;
     RxContinuous := false; IrqFired := false; MaxPayloadLength := 0xFF;
     frequency := S754_zero false; OperatingMode := MODE_SLEEP |}.

(** ** Driver operations on the parameter model *)

Definition RadioGetStatus (r : Radio_t) : RadioState_t := RF_IDLE.

Definition RadioSetModem (modem : RadioModems_t) (r : Radio_t) : Radio_t := r.

Definition RadioStandby (r : Radio_t) : Radio_t := r.

Definition RadioSleep (r : Radio_t) : Radio_t := r.

Definition RadioSetChannel (freq : Z) (r : Radio_t) : Radio_t :=
  with_frequency r
    (Double.to_float32 (Double.div (Double.of_int freq) (Double.literal 1000000 1))).

Definition RadioIsChannelFree (modem : RadioModems_t) (freq rssiThresh maxCarrierSenseTime : Z)
  : bool := true.

Definition RadioRandom : Z := 5.

Definition RadioCheckRfFrequency (frequency : Z) : bool := true.

Definition RadioGetWakeupTime : Z := 5.

(** [RadioSetRxConfig] has an empty body: nothing is stored. *)
Definition RadioSetRxConfig (modem : RadioModems_t) (bandwidth datarate coderate
    bandwidthAfc preambleLen symbTimeout : Z) (fixLen : bool) (payloadLen : Z)
    (crcOn freqHopOn : bool) (hopPeriod : Z) (iqInverted rxContinuous : bool)
    (r : Radio_t) : Radio_t := r.

Definition modem_of_PacketType (t : RadioPacketTypes_t) : RadioModems_t :=
  match t with PACKET_TYPE_GFSK => MODEM_FSK | _ => MODEM_LORA end.

(** [RadioSetTxConfig]; [None] when [Bandwidths[bandwidth]] reads outside
    the three-entry table.  The type of the field [Gfsk.Bandwidth] is
    declared in sx126x.h, which is not part of the translation unit: the
    assignment converts the [uint32_t] argument to that type, and
    [to_Gfsk_Bandwidth] is this conversion. *)
Definition RadioSetTxConfig_with (to_Gfsk_Bandwidth : Z -> Z)
    (modem : RadioModems_t) (power fdev bandwidth datarate
    coderate preambleLen : Z) (fixLen crcOn freqHopOn : bool) (hopPeriod : Z)
    (iqInverted : bool) (timeout : Z) (r : Radio_t) : option Radio_t :=
  let M := MockRadio r in
  match modem with
  | MODEM_FSK =>
      let mp := {| Mod_PacketType := PACKET_TYPE_GFSK;
                   Mod_Gfsk := {| Gfsk_BitRate := datarate;
                                  Gfsk_Fdev := fdev;
                                  Gfsk_ModulationShaping := MOD_SHAPING_G_BT_1;
                                  Gfsk_Bandwidth := to_Gfsk_Bandwidth bandwidth |};
                   Mod_LoRa := Mod_LoRa (ModulationParams M) |} in
      let pp := {| Pkt_PacketType := PACKET_TYPE_GFSK;
                   Pkt_Gfsk :=
                     {| Gfsk_PreambleLength := uint16 (Z.shiftl preambleLen 3);
                        Gfsk_PreambleMinDetect := RADIO_PREAMBLE_DETECTOR_08_BITS;
                        Gfsk_SyncWordLength := Z.shiftl 3 3;
                        Gfsk_AddrComp := RADIO_ADDRESSCOMP_FILT_OFF;
                        Gfsk_HeaderType := if fixLen then RADIO_PACKET_FIXED_LENGTH
                                           else RADIO_PACKET_VARIABLE_LENGTH;
                        Gfsk_PayloadLength := Gfsk_PayloadLength (Pkt_Gfsk (PacketParams M));
                        Gfsk_CrcLength := if crcOn then RADIO_CRC_2_BYTES_CCIT
                                          else RADIO_CRC_OFF;
                        Gfsk_DcFree := RADIO_DC_FREEWHITENING |};
                   Pkt_LoRa := Pkt_LoRa (PacketParams M) |} in
      let r1 := with_MockRadio r {| ModulationParams := mp; PacketParams := pp |} in
      let r2 := RadioStandby r1 in
      let r3 := RadioSetModem (modem_of_PacketType (Mod_PacketType (ModulationParams (MockRadio r2)))) r2 in
      Some (with_TxTimeout r3 timeout)
  | MODEM_LORA =>
      match index Bandwidths bandwidth with
      | None => None
      | Some bw =>
          let ldro :=
            if ((bandwidth =? 0) && ((datarate =? 11) || (datarate =? 12)))
               || ((bandwidth =? 1) && (datarate =? 12))
            then 0x01 else 0x00 in
          let mp := {| Mod_PacketType := PACKET_TYPE_LORA;
                       Mod_Gfsk := Mod_Gfsk (ModulationParams M);
                       Mod_LoRa := {| LoRa_SpreadingFactor := datarate;
                                      LoRa_Bandwidth := bw;
                                      LoRa_CodingRate := coderate;
                                      LoRa_LowDatarateOptimize := ldro |} |} in
          let preamble :=
            if (datarate =? LORA_SF5) || (datarate =? LORA_SF6)
            then (if preambleLen <? 12 then 12 else preambleLen)
            else preambleLen in
          let pp := {| Pkt_PacketType := PACKET_TYPE_LORA;
                       Pkt_Gfsk := Pkt_Gfsk (PacketParams M);
                       Pkt_LoRa := {| LoRa_PreambleLength := preamble;
                                      LoRa_HeaderType := Z_of_bool fixLen;
                                      LoRa_PayloadLength := MaxPayloadLength r;
                                      LoRa_CrcMode := Z_of_bool crcOn;
                                      LoRa_InvertIQ := Z_of_bool iqInverted |} |} in
          let r1 := with_MockRadio r {| ModulationParams := mp; PacketParams := pp |} in
          let r2 := RadioStandby r1 in
          let r3 := RadioSetModem (modem_of_PacketType (Mod_PacketType (ModulationParams (MockRadio r2)))) r2 in
          Some (with_TxTimeout r3 timeout)
      end
  end.

(** Modelled from the spec: the declaration of the field [Gfsk.Bandwidth]
    (sx126x.h) is not under src/; the bandwidths are register-mapped and a
    register value ([RegValue] of [FskBandwidths]) is one byte, so the
    field is taken as a [uint8_t].  No operation of the driver reads the
    field. *)
Definition RadioSetTxConfig := RadioSetTxConfig_with uint8.

(** [RadioTimeOnAir]; [None] where the C expression is undefined: a table
    index out of range, or a [double] that does not fit [uint32_t].  In
    the LoRa branch the spreading factor, the bandwidth, the coding rate,
    the CRC mode and the header type are enumeration fields: the table
    indices, the numerator and the denominator of the quotient and the
    coding-rate factor are [unsigned int] expressions, reduced modulo
    2^32. *)
Definition RadioTimeOnAir (modem : RadioModems_t) (pktLen : Z) (r : Radio_t) : option Z :=
  let mp := ModulationParams (MockRadio r) in
  let pp := PacketParams (MockRadio r) in
  match modem with
  | MODEM_FSK =>
      let g := Pkt_Gfsk pp in
      let bytes :=
        Double.add
          (Double.add
             (Double.add
                (Double.of_int (Gfsk_PreambleLength g + Z.shiftr (Gfsk_SyncWordLength g) 3))
                (if RadioPacketLengthModes_eqb (Gfsk_HeaderType g) RADIO_PACKET_FIXED_LENGTH
                 then Double.of_int 0 else Double.of_int 1))
             (Double.of_int pktLen))
          (if RadioCrcTypes_eqb (Gfsk_CrcLength g) RADIO_CRC_2_BYTES
           then Double.of_int 2 else Double.of_int 0) in
      Double.to_uint32
        (Double.rint
           (Double.mul
              (Double.div (Double.mul (Double.of_int 8) bytes)
                          (Double.of_int (Gfsk_BitRate (Mod_Gfsk mp))))
              (Double.literal 1000 1)))
  | MODEM_LORA =>
      let l := Mod_LoRa mp in
      let p := Pkt_LoRa pp in
      match index RadioLoRaSymbTime (uint32 (LoRa_Bandwidth l - 4)) with
      | None => None
      | Some row =>
          match index row (uint32 (12 - LoRa_SpreadingFactor l)) with
          | None => None
          | Some ts =>
              let tPreamble :=
                Double.mul (Double.add (Double.of_int (LoRa_PreambleLength p))
                                       (Double.literal 425 100)) ts in
              let tmp :=
                Double.mul
                  (Double.ceil
                     (Double.div
                        (Double.of_int
                           (uint32
                              (8 * pktLen - 4 * LoRa_SpreadingFactor l + 28
                               + 16 * LoRa_CrcMode p
                               - (if LoRa_HeaderType p =? LORA_PACKET_FIXED_LENGTH
                                  then 20 else 0))))
                        (Double.of_int
                           (uint32
                              (4 * (LoRa_SpreadingFactor l
                                    - (if 0 <? LoRa_LowDatarateOptimize l
                                       then 2 else 0)))))))
                  (Double.of_int (uint32 (Z.rem (LoRa_CodingRate l) 4 + 4))) in
              let nPayload :=
                Double.add (Double.of_int 8)
                           (if Double.ltb (Double.of_int 0) tmp then tmp
                            else Double.of_int 0) in
              let tPayload := Double.mul nPayload ts in
              let tOnAir := Double.add tPreamble tPayload in
              Double.to_uint32 (Double.floor (Double.add tOnAir (Double.literal 999 1000)))
          end
      end
  end.


(** ** Text *)

(** Characters are [ascii], text is a list of them.  A quotation mark
    inside a literal is written as an apostrophe and put in place by [dq]
    (the driver's texts contain no apostrophe). *)
Definition text : Type := list ascii.

Definition quote : ascii := "034"%char.
Definition backslash : ascii := "092"%char.
Definition LF : ascii := "010"%char.
Definition CR : ascii := "013"%char.
Definition NUL : ascii := "000"%char.

Definition lit (s : string) : text := list_ascii_of_string s.

Definition dq (s : string) : text :=
  map (fun c => if Ascii.eqb c "'"%char then quote else c) (list_ascii_of_string s).

Definition code (c : ascii) : Z := Z.of_N (N_of_ascii c).

Definition digit_char (d : Z) : ascii := ascii_of_N (Z.to_N (48 + d)).

Definition is_digit (c : ascii) : bool := (48 <=? code c) && (code c <=? 57).

(** [%u] and [%d] of printf for a non-negative value: decimal, most
    significant digit first. *)
Fixpoint dec_digits (fuel : nat) (n : Z) (acc : text) : text :=
  match fuel with
  | O => acc
  | S f =>
      let acc' := digit_char (n mod 10) :: acc in
      if n <? 10 then acc' else dec_digits f (n / 10) acc'
  end.

Definition dec_u (n : Z) : text := dec_digits (S (Z.to_nat (Z.log2 n))) n [].

Definition dec_d (n : Z) : text :=
  if n <? 0 then "-"%char :: dec_u (- n) else dec_u n.

(** [%02d]: at least two characters, padded with a zero. *)
Definition dec_02d (n : Z) : text :=
  let t := dec_d n in
  if (List.length t <? 2)%nat then "0"%char :: t else t.

(** The [k] low decimal digits of [n], most significant first. *)
Fixpoint fixed_digits (k : nat) (n : Z) : text :=
  match k with
  | O => []
  | S k' => digit_char (n / 10 ^ Z.of_nat k' mod 10) :: fixed_digits k' n
  end.

Definition round_half_even (n d : Z) : Z :=
  let q := n / d in
  match 2 * (n mod d) ?= d with
  | Lt => q
  | Gt => q + 1
  | Eq => if Z.even q then q else q + 1
  end.

(** [%f] of printf: six decimals of the exact binary value, rounded to
    nearest, ties to even. *)
Definition printf_f (x : spec_float) : text :=
  match x with
  | S754_nan => lit "nan"
  | S754_infinity s => (if s then lit "-" else []) ++ lit "inf"
  | S754_zero s => (if s then lit "-" else []) ++ lit "0.000000"
  | S754_finite s m e =>
      let n := if 0 <=? e then Zpos m * 2 ^ e * 1000000
               else round_half_even (Zpos m * 1000000) (2 ^ (- e)) in
      (if s then lit "-" else [])
        ++ dec_u (n / 1000000) ++ "."%char :: fixed_digits 6 (n mod 1000000)
  end.

(** The broken-down local time that [localtime] returns, and [strftime]
    with the driver's format "%Y-%m-%dT%H:%M:%S.000000Z". *)
Record tm_t := {
  tm_year : Z; tm_mon : Z; tm_mday : Z; tm_hour : Z; tm_min : Z; tm_sec : Z
}.

Definition strftime_iso (t : tm_t) : text :=
  dec_d (tm_year t + 1900) ++ "-"%char :: dec_02d (tm_mon t + 1)
    ++ "-"%char :: dec_02d (tm_mday t)
    ++ "T"%char :: dec_02d (tm_hour t)
    ++ ":"%char :: dec_02d (tm_min t)
    ++ ":"%char :: dec_02d (tm_sec t) ++ lit ".000000Z".

Record timeval := { tv_sec : Z; tv_usec : Z }.

(** ** Transport codec: base64 *)

Module Base64.

Definition alphabet : text :=
  lit "ABCDEFGHIJKLMNOPQRSTUVWXYZabcdefghijklmnopqrstuvwxyz0123456789+/".

Definition pad : ascii := "="%char.

Definition encode_sextet (n : Z) : ascii := nth (Z.to_nat n) alphabet pad.

Fixpoint find_index (c : ascii) (l : text) (i : Z) : option Z :=
  match l with
  | [] => None
  | x :: r => if Ascii.eqb c x then Some i else find_index c r (i + 1)
  end.

Definition decode_sextet (c : ascii) : option Z := find_index c alphabet 0.

(** Modelled from the spec: [base64_encode] of base64.h, which is not
    under src/: an arbitrary byte sequence to standard base64 text,
    padded to a multiple of four characters with [=].  Three bytes form
    a 24-bit group that is cut into four sextets. *)
Fixpoint base64_encode (data : list Z) : text :=
  match data with
  | [] => []
  | [a] =>
      let t := Z.shiftl a 16 in
      [ encode_sextet (Z.land (Z.shiftr t 18) 63);
        encode_sextet (Z.land (Z.shiftr t 12) 63); pad; pad ]
  | [a; b] =>
      let t := Z.shiftl a 16 + Z.shiftl b 8 in
      [ encode_sextet (Z.land (Z.shiftr t 18) 63);
        encode_sextet (Z.land (Z.shiftr t 12) 63);
        encode_sextet (Z.land (Z.shiftr t 6) 63); pad ]
  | a :: b :: c :: rest =>
      let t := Z.shiftl a 16 + Z.shiftl b 8 + c in
      encode_sextet (Z.land (Z.shiftr t 18) 63)
        :: encode_sextet (Z.land (Z.shiftr t 12) 63)
        :: encode_sextet (Z.land (Z.shiftr t 6) 63)
        :: encode_sextet (Z.land t 63)
        :: base64_encode rest
  end.

Definition byte_of (t : Z) (shift : Z) : Z := Z.land (Z.shiftr t shift) 255.

(** Modelled from the spec: [base64_decode] of base64.h, the exact
    inverse of the encoding; it fails ([None]) on a character outside the
    alphabet, on a length that is not a multiple of four, and on padding
    anywhere but in the last one or two places. *)
Fixpoint base64_decode (s : text) : option (list Z) :=
  match s with
  | [] => Some []
  | c0 :: c1 :: c2 :: c3 :: rest =>
      match decode_sextet c0, decode_sextet c1 with
      | Some s0, Some s1 =>
          match rest with
          | [] =>
              if Ascii.eqb c3 pad then
                if Ascii.eqb c2 pad then
                  let t := Z.shiftl s0 18 + Z.shiftl s1 12 in
                  Some [ byte_of t 16 ]
                else
                  match decode_sextet c2 with
                  | Some s2 =>
                      let t := Z.shiftl s0 18 + Z.shiftl s1 12 + Z.shiftl s2 6 in
                      Some [ byte_of t 16; byte_of t 8 ]
                  | None => None
                  end
              else
                match decode_sextet c2, decode_sextet c3 with
                | Some s2, Some s3 =>
                    let t := Z.shiftl s0 18 + Z.shiftl s1 12 + Z.shiftl s2 6 + s3 in
                    Some [ byte_of t 16; byte_of t 8; byte_of t 0 ]
                | _, _ => None
                end
          | _ =>
              match decode_sextet c2, decode_sextet c3, base64_decode rest with
              | Some s2, Some s3, Some tl =>
                  let t := Z.shiftl s0 18 + Z.shiftl s1 12 + Z.shiftl s2 6 + s3 in
                  Some (byte_of t 16 :: byte_of t 8 :: byte_of t 0 :: tl)
              | _, _, _ => None
              end
          end
      | _, _ => None
      end
  | _ => None
  end.

End Base64.

(** ** Transport codec: the JSON envelope *)

Module Json.

Inductive JSON_Value :=
| JSONNull
| JSONBoolean (b : bool)
| JSONNumber (digits : text)
| JSONString (s : text)
| JSONArray (items : list JSON_Value)
| JSONObject (members : list (text * JSON_Value)).

Inductive token :=
| TLBrace | TRBrace | TLBracket | TRBracket | TColon | TComma
| TString (s : text)
| TWord (w : text)
| TBad.

(** The states of the lexer: outside any string or word; in a string;
    after a backslash; in the four hexadecimal digits of an escape by code
    point, [n] of them still to come, after a lead surrogate or not;
    after a lead surrogate, where a backslash and a [u] must follow; in a
    word. *)
Inductive lex_state :=
| LDefault
| LString (acc : text)
| LEscape (acc : text)
| LUnicode (acc : text) (lead : option Z) (n : nat) (cp : Z)
| LTrail (acc : text) (lead : Z) (backslash_seen : bool)
| LWord (acc : text).

Definition is_space (c : ascii) : bool :=
  let n := code c in (n =? 32) || (n =? 9) || (n =? 10) || (n =? 13).

(** Characters of numbers and of the literals true, false and null. *)
Definition is_word_char (c : ascii) : bool :=
  let n := code c in
  is_digit c || (n =? 43) || (n =? 45) || (n =? 46)
  || ((65 <=? n) && (n <=? 90)) || ((97 <=? n) && (n <=? 122)).

Definition unescape (c : ascii) : option ascii :=
  let n := code c in
  if n =? 34 then Some quote
  else if n =? 92 then Some backslash
  else if n =? 47 then Some "/"%char
  else if n =? 98 then Some "008"%char
  else if n =? 102 then Some "012"%char
  else if n =? 110 then Some LF
  else if n =? 114 then Some CR
  else if n =? 116 then Some "009"%char
  else None.

Definition hex_value (c : ascii) : option Z :=
  let n := code c in
  if is_digit c then Some (n - 48)
  else if (97 <=? n) && (n <=? 102) then Some (n - 87)
  else if (65 <=? n) && (n <=? 70) then Some (n - 55)
  else None.

Definition byte_char (b : Z) : ascii := ascii_of_N (Z.to_N b).

(** The UTF-8 bytes of a code point. *)
Definition utf8 (cp : Z) : text :=
  if cp <? 0x80 then [ byte_char cp ]
  else if cp <? 0x800 then
    [ byte_char (Z.lor 0xC0 (Z.shiftr cp 6));
      byte_char (Z.lor 0x80 (Z.land cp 0x3F)) ]
  else if cp <? 0x10000 then
    [ byte_char (Z.lor 0xE0 (Z.shiftr cp 12));
      byte_char (Z.lor 0x80 (Z.land (Z.shiftr cp 6) 0x3F));
      byte_char (Z.lor 0x80 (Z.land cp 0x3F)) ]
  else
    [ byte_char (Z.lor 0xF0 (Z.shiftr cp 18));
      byte_char (Z.lor 0x80 (Z.land (Z.shiftr cp 12) 0x3F));
      byte_char (Z.lor 0x80 (Z.land (Z.shiftr cp 6) 0x3F));
      byte_char (Z.lor 0x80 (Z.land cp 0x3F)) ].

(** The end of an escape by code point: a code point outside the
    surrogates is put into the string; a lead surrogate waits for its
    trail surrogate, and the pair is one code point; a trail surrogate
    without a lead one, or a lead one without a trail one, is an error. *)
Definition unicode_done (acc : text) (lead : option Z) (cp : Z) : option lex_state :=
  match lead with
  | None =>
      if (cp <? 0xD800) || (0xDFFF <? cp) then Some (LString (rev (utf8 cp) ++ acc))
      else if cp <=? 0xDBFF then Some (LTrail acc cp false)
      else None
  | Some hi =>
      if (0xDC00 <=? cp) && (cp <=? 0xDFFF)
      then Some (LString (rev (utf8 (0x10000 + (hi - 0xD800) * 0x400 + (cp - 0xDC00)))
                          ++ acc))
      else None
  end.

(** One step outside any string or word. *)
Definition lex_default (c : ascii) : list token * option lex_state :=
  let n := code c in
  if is_space c then ([], Some LDefault)
  else if n =? 123 then ([TLBrace], Some LDefault)
  else if n =? 125 then ([TRBrace], Some LDefault)
  else if n =? 91 then ([TLBracket], Some LDefault)
  else if n =? 93 then ([TRBracket], Some LDefault)
  else if n =? 58 then ([TColon], Some LDefault)
  else if n =? 44 then ([TComma], Some LDefault)
  else if n =? 34 then ([], Some (LString []))
  else if is_word_char c then ([], Some (LWord [c]))
  else ([TBad], None).

Definition lex_step (st : lex_state) (c : ascii) : list token * option lex_state :=
  match st with
  | LDefault => lex_default c
  | LString acc =>
      if code c =? 34 then ([TString (rev acc)], Some LDefault)
      else if code c =? 92 then ([], Some (LEscape acc))
      else if code c <? 32 then ([TBad], None)
      else ([], Some (LString (c :: acc)))
  | LEscape acc =>
      if code c =? 117 then ([], Some (LUnicode acc None 4 0))
      else
        match unescape c with
        | Some c' => ([], Some (LString (c' :: acc)))
        | None => ([TBad], None)
        end
  | LUnicode acc lead n cp =>
      match hex_value c with
      | Some d =>
          match n with
          | S (S n') => ([], Some (LUnicode acc lead (S n') (16 * cp + d)))
          | _ =>
              match unicode_done acc lead (16 * cp + d) with
              | Some st' => ([], Some st')
              | None => ([TBad], None)
              end
          end
      | None => ([TBad], None)
      end
  | LTrail acc lead false =>
      if code c =? 92 then ([], Some (LTrail acc lead true)) else ([TBad], None)
  | LTrail acc lead true =>
      if code c =? 117 then ([], Some (LUnicode acc (Some lead) 4 0)) else ([TBad], None)
  | LWord acc =>
      if is_word_char c then ([], Some (LWord (c :: acc)))
      else let (ts, st') := lex_default c in (TWord (rev acc) :: ts, st')
  end.

Definition lex_end (st : lex_state) : list token :=
  match st with
  | LDefault => []
  | LWord acc => [TWord (rev acc)]
  | _ => [TBad]
  end.

(** The tokens of a text; an unreadable character ends them with [TBad]. *)
Fixpoint lex (st : lex_state) (s : text) : list token :=
  match s with
  | [] => lex_end st
  | c :: r =>
      let (ts, st') := lex_step st c in
      ts ++ match st' with Some st'' => lex st'' r | None => [] end
  end.

(** The grammar of a JSON number, as an automaton over its characters. *)
Inductive num_state :=
| NStart | NMinus | NZero | NInt | NDot | NFrac | NExp | NExpSign | NExpDigits.

Definition num_step (st : num_state) (c : ascii) : option num_state :=
  let n := code c in
  match st with
  | NStart => if n =? 45 then Some NMinus
              else if n =? 48 then Some NZero
              else if is_digit c then Some NInt else None
  | NMinus => if n =? 48 then Some NZero
              else if is_digit c then Some NInt else None
  | NZero => if n =? 46 then Some NDot
             else if (n =? 101) || (n =? 69) then Some NExp else None
  | NInt => if is_digit c then Some NInt
            else if n =? 46 then Some NDot
            else if (n =? 101) || (n =? 69) then Some NExp else None
  | NDot => if is_digit c then Some NFrac else None
  | NFrac => if is_digit c then Some NFrac
             else if (n =? 101) || (n =? 69) then Some NExp else None
  | NExp => if (n =? 43) || (n =? 45) then Some NExpSign
            else if is_digit c then Some NExpDigits else None
  | NExpSign => if is_digit c then Some NExpDigits else None
  | NExpDigits => if is_digit c then Some NExpDigits else None
  end.

Definition num_final (st : num_state) : bool :=
  match st with
  | NZero | NInt | NFrac | NExpDigits => true
  | _ => false
  end.

Fixpoint is_number_from (st : num_state) (w : text) : bool :=
  match w with
  | [] => num_final st
  | c :: r => match num_step st c with
              | Some st' => is_number_from st' r
              | None => false
              end
  end.

Definition is_number (w : text) : bool := is_number_from NStart w.

Fixpoint text_eqb (a b : text) : bool :=
  match a, b with
  | [], [] => true
  | x :: a', y :: b' => Ascii.eqb x y && text_eqb a' b'
  | _, _ => false
  end.

Definition value_of_word (w : text) : option JSON_Value :=
  if text_eqb w (lit "true") then Some (JSONBoolean true)
  else if text_eqb w (lit "false") then Some (JSONBoolean false)
  else if text_eqb w (lit "null") then Some JSONNull
  else if is_number w then Some (JSONNumber w)
  else None.

Fixpoint lookup (name : text) (members : list (text * JSON_Value)) : option JSON_Value :=
  match members with
  | [] => None
  | (k, v) :: r => if text_eqb k name then Some v else lookup name r
  end.

(** Recursive descent over the tokens; a member name may occur once in
    an object. *)
Fixpoint parse_value (fuel : nat) (ts : list token) : option (JSON_Value * list token) :=
  match fuel with
  | O => None
  | S f =>
      match ts with
      | TString s :: r => Some (JSONString s, r)
      | TWord w :: r =>
          match value_of_word w with
          | Some v => Some (v, r)
          | None => None
          end
      | TLBrace :: TRBrace :: r => Some (JSONObject [], r)
      | TLBrace :: r => parse_members f r []
      | TLBracket :: TRBracket :: r => Some (JSONArray [], r)
      | TLBracket :: r => parse_items f r []
      | _ => None
      end
  end
with parse_members (fuel : nat) (ts : list token) (acc : list (text * JSON_Value))
  : option (JSON_Value * list token) :=
  match fuel with
  | O => None
  | S f =>
      match ts with
      | TString k :: TColon :: r =>
          match parse_value f r with
          | Some (v, r') =>
              match lookup k acc with
              | Some _ => None
              | None =>
                  match r' with
                  | TComma :: r'' => parse_members f r'' ((k, v) :: acc)
                  | TRBrace :: r'' => Some (JSONObject (rev ((k, v) :: acc)), r'')
                  | _ => None
                  end
              end
          | None => None
          end
      | _ => None
      end
  end
with parse_items (fuel : nat) (ts : list token) (acc : list JSON_Value)
  : option (JSON_Value * list token) :=
  match fuel with
  | O => None
  | S f =>
      match parse_value f ts with
      | Some (v, r') =>
          match r' with
          | TComma :: r'' => parse_items f r'' (v :: acc)
          | TRBracket :: r'' => Some (JSONArray (rev (v :: acc)), r'')
          | _ => None
          end
      | None => None
      end
  end.

(** Modelled from the spec: the JSON library (parson.h) is not under
    src/: a structural parse of one document at the start of the text;
    what follows the document is not looked at; [None] is the library's
    NULL.  A string holds bytes: a control character must be escaped, and
    an escape by code point (backslash u) stands for the UTF-8 bytes of
    the code point. *)
Definition json_parse_string (s : text) : option JSON_Value :=
  let ts := lex LDefault s in
  match parse_value (S (List.length ts)) ts with
  | Some (v, _) => Some v
  | None => None
  end.

Definition JSON_Object : Type := list (text * JSON_Value).

Definition json_value_get_object (v : option JSON_Value) : option JSON_Object :=
  match v with
  | Some (JSONObject m) => Some m
  | _ => None
  end.

Definition json_object_get_value (o : option JSON_Object) (name : text)
  : option JSON_Value :=
  match o with
  | Some m => lookup name m
  | None => None
  end.

Definition json_object_get_object (o : option JSON_Object) (name : text)
  : option JSON_Object :=
  json_value_get_object (json_object_get_value o name).

Definition json_object_get_string (o : option JSON_Object) (name : text)
  : option text :=
  match json_object_get_value o name with
  | Some (JSONString s) => Some s
  | _ => None
  end.

Definition json_array_get_value (v : option JSON_Value) (i : nat) : option JSON_Value :=
  match v with
  | Some (JSONArray l) => nth_error l i
  | _ => None
  end.

(** The value of a number that is written as a plain run of digits. *)
Fixpoint digits_value (w : text) (acc : Z) : option Z :=
  match w with
  | [] => Some acc
  | c :: r => if is_digit c then digits_value r (10 * acc + (code c - 48)) else None
  end.

Definition json_object_get_integer (o : option JSON_Object) (name : text) : option Z :=
  match json_object_get_value o name with
  | Some (JSONNumber (c :: w)) => digits_value (c :: w) 0
  | _ => None
  end.

End Json.

Arguments Json.value_of_word : simpl never.

(** ** The world of the packet bridge *)

(** The upper layer's callbacks; [true] stands for a handle that is not
    NULL. *)
Record RadioEvents_t := {
  cb_TxDone : bool;
  cb_TxTimeout : bool;
  cb_RxDone : bool;
  cb_RxTimeout : bool;
  cb_RxError : bool;
  cb_CadDone : bool
}.

(** What the driver does to the outside, in order: text written to
    standard output, and calls of the upper layer's callbacks. *)
Inductive event :=
| Ev_printf (s : text)
| Ev_PrintHexBuffer (b : list Z)
| Ev_TxDone
| Ev_RxDone (payload : list Z) (size rssi snr : Z)
| Ev_RxTimeout.

Record World := {
  radio : Radio_t;
  RadioEvents : option RadioEvents_t;
  rx_buffer : list Z;
  stdin : text;
  trace : list event
}.

Definition rx_buffer_size : Z := 512.

Definition World_start (input : text) : World :=
  {| radio := Radio_start; RadioEvents := None;
     rx_buffer := repeat 0 512; stdin := input; trace := [] |}.

Definition with_radio (w : World) (r : Radio_t) : World :=
  {| radio := r; RadioEvents := RadioEvents w; rx_buffer := rx_buffer w;
     stdin := stdin w; trace := trace w |}.

Definition emit (e : event) (w : World) : World :=
  {| radio := radio w; RadioEvents := RadioEvents w; rx_buffer := rx_buffer w;
     stdin := stdin w; trace := trace w ++ [e] |}.

(** How a call ends: it returns, the process exits, or the behaviour is
    undefined in C (NULL call, read or write outside an object, uninitialised
    read). *)
Inductive outcome (A : Type) :=
| Returned (a : A)
| Exited
| Undefined.
Arguments Returned {A} a.
Arguments Exited {A}.
Arguments Undefined {A}.

Definition bind {A B : Type} (o : outcome A) (k : A -> outcome B) : outcome B :=
  match o with
  | Returned a => k a
  | Exited => Exited
  | Undefined => Undefined
  end.

Notation "x <- a ;; b" := (bind a (fun x => b))
  (at level 61, a at next level, right associativity).

(** A call through [RadioEvents->f]. *)
Definition call_event (f : RadioEvents_t -> bool) (e : event) (w : World) : outcome World :=
  match RadioEvents w with
  | Some ev => if f ev then Returned (emit e w) else Undefined
  | None => Undefined
  end.

Definition RadioInit (events : option RadioEvents_t) (w : World) : World :=
  {| radio := with_IrqFired (radio w) false; RadioEvents := events;
     rx_buffer := rx_buffer w; stdin := stdin w; trace := trace w |}.

(** The line that [RadioSend] prints. *)
Definition rxpk_line (time_str : text) (millis : Z) (freq : spec_float) (size : Z)
    (data : text) : text :=
  dq "{'rxpk':[{'time':'" ++ time_str ++ dq "', 'tmst':" ++ dec_u millis
    ++ dq ",'chan':2,'rfch':0,'freq':" ++ printf_f freq
    ++ dq ",'stat':1,'modu':'LORA','datr':'SF7BW125','codr':'4/6','rssi':-35,'lsnr':5.1,'size':"
    ++ dec_u size ++ dq ",'data':'" ++ data ++ dq "'}]}" ++ [CR; LF].

(** [RadioSend]; the local time [now] and the time of day [tv] are what
    [localtime] and [gettimeofday] return during the call. *)
Definition RadioSend (now : tm_t) (tv : timeval) (buffer : list Z) (size : Z) (w : World)
  : outcome World :=
  let time_str := strftime_iso now in
  if (Z.of_nat (List.length buffer) <? size) then Undefined
  else
    let data := Base64.base64_encode (firstn (Z.to_nat size) buffer) in
    let millis := uint32 (wrap 64 (wrap 64 (tv_sec tv) * 1000 + wrap 64 (tv_usec tv) / 1000)) in
    let w1 := emit (Ev_printf (rxpk_line time_str millis (frequency (radio w)) size data)) w in
    call_event cb_TxDone Ev_TxDone w1.

(** [fgets(in, n, stdin)]: at most [n - 1] characters, up to and with the
    first line feed; [None] at the end of the input. *)
Fixpoint fgets_chars (n : nat) (s : text) : text * text :=
  match n, s with
  | O, _ => ([], s)
  | _, [] => ([], [])
  | S n', c :: r =>
      if Ascii.eqb c LF then ([c], r)
      else let (l, r') := fgets_chars n' r in (c :: l, r')
  end.

Definition fgets (n : nat) (s : text) : option (text * text) :=
  match s with
  | [] => None
  | _ => Some (fgets_chars (n - 1) s)
  end.

(** The C string held by a character array: up to the first NUL. *)
Fixpoint cstring (s : text) : text :=
  match s with
  | [] => []
  | c :: r => if Ascii.eqb c NUL then [] else c :: cstring r
  end.

(** Writing [data] at the start of the receive buffer. *)
Definition store (data buf : list Z) : list Z := data ++ skipn (List.length data) buf.

(** [RadioRx]; [poll_result] is what [poll] returns during the call. *)
Definition RadioRx (timeout : Z) (poll_result : Z) (w : World) : outcome World :=
  let w := emit (Ev_printf (lit "Radio Rx with timeout " ++ dec_u timeout ++ [CR; LF])) w in
  if negb (poll_result =? 1) then Exited
  else
    match fgets 1024 (stdin w) with
    | None => Exited
    | Some (line, rest) =>
        let w := {| radio := radio w; RadioEvents := RadioEvents w;
                    rx_buffer := rx_buffer w; stdin := rest; trace := trace w |} in
        let root_val := Json.json_parse_string (cstring line) in
        match Json.json_object_get_object (Json.json_value_get_object root_val) (lit "txpk") with
        | Some txpk_obj =>
            match Json.json_object_get_string (Some txpk_obj) (lit "data") with
            | None => Undefined
            | Some str =>
                match Base64.base64_decode (cstring str) with
                | None => Undefined
                | Some bytes =>
                    if rx_buffer_size <? Z.of_nat (List.length bytes) then Undefined
                    else
                      let output_length := Z.of_nat (List.length bytes) in
                      let w := {| radio := radio w; RadioEvents := RadioEvents w;
                                  rx_buffer := store bytes (rx_buffer w);
                                  stdin := stdin w; trace := trace w |} in
                      let payload := firstn (Z.to_nat output_length) (rx_buffer w) in
                      let w := emit (Ev_PrintHexBuffer payload) w in
                      call_event cb_RxDone
                        (Ev_RxDone payload (uint16 output_length) (-110) 5) w
                end
            end
        | None => call_event cb_RxTimeout Ev_RxTimeout w
        end
    end.

(** ** Sequences of driver operations *)

Inductive operation :=
| Op_Init (events : option RadioEvents_t)
| Op_SetModem (modem : RadioModems_t)
| Op_SetChannel (freq : Z)
| Op_SetRxConfig (modem : RadioModems_t) (bandwidth datarate coderate bandwidthAfc
    preambleLen symbTimeout : Z) (fixLen : bool) (payloadLen : Z)
    (crcOn freqHopOn : bool) (hopPeriod : Z) (iqInverted rxContinuous : bool)
| Op_SetTxConfig (modem : RadioModems_t) (power fdev bandwidth datarate coderate
    preambleLen : Z) (fixLen crcOn freqHopOn : bool) (hopPeriod : Z)
    (iqInverted : bool) (timeout : Z)
| Op_Send (now : tm_t) (tv : timeval) (buffer : list Z) (size : Z)
| Op_Rx (timeout : Z) (poll_result : Z)
| Op_Sleep
| Op_Standby.

Definition run_operation (o : operation) (w : World) : outcome World :=
  match o with
  | Op_Init events => Returned (RadioInit events w)
  | Op_SetModem modem => Returned (with_radio w (RadioSetModem modem (radio w)))
  | Op_SetChannel freq => Returned (with_radio w (RadioSetChannel freq (radio w)))
  | Op_SetRxConfig modem bandwidth datarate coderate bandwidthAfc preambleLen
      symbTimeout fixLen payloadLen crcOn freqHopOn hopPeriod iqInverted rxContinuous =>
      Returned (with_radio w
        (RadioSetRxConfig modem bandwidth datarate coderate bandwidthAfc preambleLen
           symbTimeout fixLen payloadLen crcOn freqHopOn hopPeriod iqInverted
           rxContinuous (radio w)))
  | Op_SetTxConfig modem power fdev bandwidth datarate coderate preambleLen fixLen
      crcOn freqHopOn hopPeriod iqInverted timeout =>
      match RadioSetTxConfig modem power fdev bandwidth datarate coderate preambleLen
              fixLen crcOn freqHopOn hopPeriod iqInverted timeout (radio w) with
      | Some r => Returned (with_radio w r)
      | None => Undefined
      end
  | Op_Send now tv buffer size => RadioSend now tv buffer size w
  | Op_Rx timeout poll_result => RadioRx timeout poll_result w
  | Op_Sleep => Returned (with_radio w (RadioSleep (radio w)))
  | Op_Standby => Returned (with_radio w (RadioStandby (radio w)))
  end.

Fixpoint run (ops : list operation) (w : World) : outcome World :=
  match ops with
  | [] => Returned w
  | o :: rest => w' <- run_operation o w ;; run rest w'
  end.

(** ** The specification's side of the claims *)

(** The [bandwidth] argument of a LoRa configuration call selects
    [0: 125 kHz, 1: 250 kHz, 2: 500 kHz]. *)
Definition bandwidth_kHz (bandwidth : Z) : Z :=
  if bandwidth =? 0 then 125 else if bandwidth =? 1 then 250 else 500.

(** The bandwidth that a stored [LoRa.Bandwidth] enumerator stands for. *)
Definition LoRa_Bandwidth_kHz (bw : Z) : Z :=
  if bw =? LORA_BW_125 then 125
  else if bw =? LORA_BW_250 then 250
  else if bw =? LORA_BW_500 then 500 else 0.

(** The invariant of the low-data-rate-optimization flag, in the words of
    the specification. *)
Definition low_datarate_required (kHz sf : Z) : bool :=
  ((kHz =? 125) && ((sf =? 11) || (sf =? 12))) || ((kHz =? 250) && (sf =? 12)).

(** The effective preamble length, in the words of the specification. *)
Definition effective_preamble (sf preambleLen : Z) : Z :=
  if ((sf =? 5) || (sf =? 6)) && (preambleLen <? 12) then 12 else preambleLen.

Definition stored_ldro (r : Radio_t) : Z :=
  LoRa_LowDatarateOptimize (Mod_LoRa (ModulationParams (MockRadio r))).

Definition stored_sf (r : Radio_t) : Z :=
  LoRa_SpreadingFactor (Mod_LoRa (ModulationParams (MockRadio r))).

Definition stored_bw (r : Radio_t) : Z :=
  LoRa_Bandwidth (Mod_LoRa (ModulationParams (MockRadio r))).

Definition stored_preamble (r : Radio_t) : Z :=
  LoRa_PreambleLength (Pkt_LoRa (PacketParams (MockRadio r))).

Definition stored_fsk_bandwidth (r : Radio_t) : Z :=
  Gfsk_Bandwidth (Mod_Gfsk (ModulationParams (MockRadio r))).

(** The bandwidth clamp of the specification: the smallest tabulated
    bandwidth that is at least the requested one, else the largest; the
    table is [FskBandwidths] without its invalid last entry. *)
Definition tabulated_bandwidths : list Z :=
  map bandwidth (removelast FskBandwidths).

Definition clamp_fsk_bandwidth (requested : Z) : Z :=
  match find (fun b => requested <=? b) tabulated_bandwidths with
  | Some b => b
  | None => last tabulated_bandwidths 0
  end.

(** Rounding of the quotient [n/d] of non-negative integers to the nearest
    integer, halves away from zero. *)
Definition round_half_away (n d : Z) : Z := (2 * n + d) / (2 * d).

(** The FSK airtime of the specification. *)
Definition fsk_airtime_spec (bitRate preambleLen : Z) (variableHeader crc2 : bool)
    (payloadLength : Z) : Z :=
  round_half_away
    (1000 * 8 * (preambleLen + 3 + (if variableHeader then 1 else 0) + payloadLength
                 + (if crc2 then 2 else 0)))
    bitRate.

(** The FSK airtime for a configuration without preamble and CRC: the
    quotient and the product are rounded as [double]s, and [rint] rounds
    the result to the nearest integer, halves to the even one. *)
Definition fsk_airtime_rint (bitRate : Z) (variableHeader : bool) (payloadLength : Z)
  : option Z :=
  Double.to_uint32
    (Double.rint
       (Double.mul
          (Double.div
             (Double.of_int (8 * (3 + (if variableHeader then 1 else 0) + payloadLength)))
             (Double.of_int bitRate))
          (Double.of_int 1000))).

(** The larger of two [double]s; the second when they do not compare. *)
Definition dmax (x y : Double.double) : Double.double :=
  if Double.ltb y x then x else y.

Definition bandwidth_class (kHz : Z) : option Z :=
  if kHz =? 125 then Some 0
  else if kHz =? 250 then Some 1
  else if kHz =? 500 then Some 2 else None.

(** The LoRa airtime of the specification, operation by operation in
    [double] arithmetic. *)
Definition lora_airtime_reference (SF kHz codingRate : Z) (crcOn fixedHeader : bool)
    (preambleLength payloadLength : Z) : option Z :=
  let lowDataRateOptimize := Z_of_bool (low_datarate_required kHz SF) in
  match bandwidth_class kHz with
  | None => None
  | Some bandwidthClass =>
      match index RadioLoRaSymbTime bandwidthClass with
      | None => None
      | Some row =>
          match index row (12 - SF) with
          | None => None
          | Some ts =>
              let tPreamble :=
                Double.mul (Double.add (Double.of_int preambleLength)
                                       (Double.literal 425 100)) ts in
              let tmp :=
                Double.mul
                  (Double.ceil
                     (Double.div
                        (Double.of_int (8 * payloadLength - 4 * SF + 28
                                        + 16 * Z_of_bool crcOn
                                        - (if fixedHeader then 20 else 0)))
                        (Double.of_int (4 * (SF - 2 * lowDataRateOptimize)))))
                  (Double.of_int (codingRate mod 4 + 4)) in
              let n := Double.add (Double.of_int 8) (dmax tmp (Double.of_int 0)) in
              Double.to_uint32
                (Double.floor
                   (Double.add (Double.add tPreamble (Double.mul n ts))
                               (Double.literal 999 1000)))
          end
      end
  end.

(** The LoRa airtime in integers: the payload symbol count and the
    milliseconds of [l] quarter symbols of [2^(SF - c + 3) / 1000] ms. *)
Definition ceil_div (a b : Z) : Z := - ((- a) / b).

Definition payload_symbols (SF : Z) (ldro : bool) (codingRate : Z) (crcOn fixedHeader : bool)
    (payloadLength : Z) : Z :=
  8 + Z.max 0
        (ceil_div (8 * payloadLength - 4 * SF + 28 + 16 * Z_of_bool crcOn
                   - (if fixedHeader then 20 else 0))
                  (4 * (SF - 2 * Z_of_bool ldro))
         * (codingRate mod 4 + 4)).

Definition lora_airtime_ms (SF bandwidth codingRate : Z) (crcOn fixedHeader : bool)
    (preambleLength payloadLength : Z) : Z :=
  let n := payload_symbols SF (low_datarate_required (bandwidth_kHz bandwidth) SF)
             codingRate crcOn fixedHeader payloadLength in
  ((4 * preambleLength + 17 + 4 * n) * 2 ^ (SF - bandwidth + 1) + 999) / 1000.

(** Counting the calls of a callback in a trace. *)
Definition is_TxDone (e : event) : bool :=
  match e with Ev_TxDone => true | _ => false end.

Definition is_RxDone (e : event) : bool :=
  match e with Ev_RxDone _ _ _ _ => true | _ => false end.

Definition is_RxTimeout (e : event) : bool :=
  match e with Ev_RxTimeout => true | _ => false end.

Definition is_printf (e : event) : bool :=
  match e with Ev_printf _ => true | _ => false end.

Definition calls (p : event -> bool) (t : list event) : nat :=
  List.length (filter p t).

(** The events that a call adds to the trace. *)
Definition new_events (before after : World) : list event :=
  skipn (List.length (trace before)) (trace after).

Definition is_byte (z : Z) : Prop := 0 <= z < 256.

(** A text is one line when its only line feed is its last character. *)
Definition one_line (s : text) : Prop :=
  exists body, s = body ++ [LF] /\ ~ In LF body.

(** ** Concrete configurations and worlds used in the examples *)

Definition SetTxConfig_FSK (bitRate bandwidth preambleLen : Z) (fixLen crcOn : bool)
  : option Radio_t :=
  RadioSetTxConfig MODEM_FSK 14 25000 bandwidth bitRate 0 preambleLen fixLen crcOn
    false 0 false 3000 Radio_start.

Definition SetTxConfig_LoRa (bandwidth datarate coderate preambleLen : Z)
    (fixLen crcOn : bool) (r : Radio_t) : option Radio_t :=
  RadioSetTxConfig MODEM_LORA 14 0 bandwidth datarate coderate preambleLen fixLen crcOn
    false 0 false 3000 r.

Definition SetRxConfig_LoRa (bandwidth datarate coderate preambleLen : Z)
    (fixLen crcOn : bool) (r : Radio_t) : Radio_t :=
  RadioSetRxConfig MODEM_LORA bandwidth datarate coderate 0 preambleLen 5 fixLen 0 crcOn
    false 0 false false r.

Definition TimeOnAir_after (modem : RadioModems_t) (pktLen : Z) (o : option Radio_t)
  : option Z :=
  match o with
  | Some r => RadioTimeOnAir modem pktLen r
  | None => None
  end.

Definition all_callbacks : RadioEvents_t :=
  {| cb_TxDone := true; cb_TxTimeout := true; cb_RxDone := true;
     cb_RxTimeout := true; cb_RxError := true; cb_CadDone := true |}.

Definition sample_tm : tm_t :=
  {| tm_year := 126; tm_mon := 9; tm_mday := 30; tm_hour := 9; tm_min := 5; tm_sec := 7 |}.

Definition sample_tv : timeval := {| tv_sec := 1793350000; tv_usec := 123456 |}.

(** A driver that was initialised with all callbacks and tuned to
    868.1 MHz, with [input] waiting on standard input. *)
Definition sample_world (input : text) : World :=
  with_radio (RadioInit (Some all_callbacks) (World_start input))
             (RadioSetChannel 868100000 Radio_start).

Definition hello : list Z := [72; 101; 108; 108; 111].

(** A downlink line whose payload is [n] times the base64 letter [A]. *)
Definition txpk_line (data : text) : text :=
  dq "{'txpk':{'data':'" ++ data ++ dq "'}}" ++ [LF].

(** A downlink line of 1029 characters: 1000 spaces before the document
    that carries the five bytes of [hello]. *)
Definition long_txpk_line : text :=
  repeat " "%char 1000 ++ txpk_line (lit "SGVsbG8=").

(** ** Definitions that support the proofs *)

(** Structural equality of [double]s. *)
Definition double_eqb (x y : spec_float) : bool :=
  match x, y with
  | S754_zero a, S754_zero b => Bool.eqb a b
  | S754_infinity a, S754_infinity b => Bool.eqb a b
  | S754_nan, S754_nan => true
  | S754_finite a m e, S754_finite b m' e' => Bool.eqb a b && Pos.eqb m m' && Z.eqb e e'
  | _, _ => false
  end.

(** The integers [0 .. n-1]. *)
Definition range (n : nat) : list Z := map Z.of_nat (seq 0 n).

(** The sum of the FSK byte counts, as [RadioTimeOnAir] adds them for a
    configuration without preamble and CRC, times eight. *)
Definition fsk_bits (variableHeader : bool) (pktLen : Z) : Double.double :=
  Double.mul (Double.of_int 8)
    (Double.add
       (Double.add
          (Double.add (Double.of_int 3)
                      (if variableHeader then Double.of_int 1 else Double.of_int 0))
          (Double.of_int pktLen))
       (Double.of_int 0)).

(** Characters that may stand in a JSON string as they are, and do not
    end a line. *)
Definition is_plain (c : ascii) : bool :=
  negb (code c =? 34) && negb (code c =? 92) && negb (code c =? 10)
  && (32 <=? code c).

Definition is_nonzero_digit (c : ascii) : bool := is_digit c && negb (code c =? 48).

(** The lexer as a transducer: the tokens of a piece of text and the state
    after it ([None] after an unreadable character). *)
Fixpoint lex_run (st : Json.lex_state) (s : text) : list Json.token * option Json.lex_state :=
  match s with
  | [] => ([], Some st)
  | c :: r =>
      let (ts, st') := Json.lex_step st c in
      match st' with
      | Some st'' => let (ts', st3) := lex_run st'' r in (ts ++ ts', st3)
      | None => (ts, None)
      end
  end.

Definition is_finite (x : spec_float) : bool :=
  match x with
  | S754_zero _ | S754_finite _ _ _ => true
  | _ => false
  end.

Definition all_ascii : list ascii := map (fun n => ascii_of_nat n) (seq 0 256).

(** The tokens and the document of the line that [RadioSend] prints, for a
    given time text, number texts and data text. *)
Definition rxpk_tokens (time w_tmst w_chan w_rfch w_freq w_stat w_rssi w_lsnr w_size
    data : text) : list Json.token :=
  [ Json.TLBrace; Json.TString (lit "rxpk"); Json.TColon; Json.TLBracket; Json.TLBrace;
    Json.TString (lit "time"); Json.TColon; Json.TString time; Json.TComma;
    Json.TString (lit "tmst"); Json.TColon; Json.TWord w_tmst; Json.TComma;
    Json.TString (lit "chan"); Json.TColon; Json.TWord w_chan; Json.TComma;
    Json.TString (lit "rfch"); Json.TColon; Json.TWord w_rfch; Json.TComma;
    Json.TString (lit "freq"); Json.TColon; Json.TWord w_freq; Json.TComma;
    Json.TString (lit "stat"); Json.TColon; Json.TWord w_stat; Json.TComma;
    Json.TString (lit "modu"); Json.TColon; Json.TString (lit "LORA"); Json.TComma;
    Json.TString (lit "datr"); Json.TColon; Json.TString (lit "SF7BW125"); Json.TComma;
    Json.TString (lit "codr"); Json.TColon; Json.TString (lit "4/6"); Json.TComma;
    Json.TString (lit "rssi"); Json.TColon; Json.TWord w_rssi; Json.TComma;
    Json.TString (lit "lsnr"); Json.TColon; Json.TWord w_lsnr; Json.TComma;
    Json.TString (lit "size"); Json.TColon; Json.TWord w_size; Json.TComma;
    Json.TString (lit "data"); Json.TColon; Json.TString data;
    Json.TRBrace; Json.TRBracket; Json.TRBrace ].

Definition rxpk_members (time w_tmst w_chan w_rfch w_freq w_stat w_rssi w_lsnr w_size
    data : text) : Json.JSON_Object :=
  [ (lit "time", Json.JSONString time);
    (lit "tmst", Json.JSONNumber w_tmst);
    (lit "chan", Json.JSONNumber w_chan);
    (lit "rfch", Json.JSONNumber w_rfch);
    (lit "freq", Json.JSONNumber w_freq);
    (lit "stat", Json.JSONNumber w_stat);
    (lit "modu", Json.JSONString (lit "LORA"));
    (lit "datr", Json.JSONString (lit "SF7BW125"));
    (lit "codr", Json.JSONString (lit "4/6"));
    (lit "rssi", Json.JSONNumber w_rssi);
    (lit "lsnr", Json.JSONNumber w_lsnr);
    (lit "size", Json.JSONNumber w_size);
    (lit "data", Json.JSONString data) ].

Definition tmst_of (tv : timeval) : Z :=
  uint32 (wrap 64 (wrap 64 (tv_sec tv) * 1000 + wrap 64 (tv_usec tv) / 1000)).

(** *** Values of [double]s as rationals *)

(** What [k] single right shifts leave of a mantissa [m]: the quotient, the
    round bit and the sticky bit. *)
Definition shr_inv (m n : Z) (mrs : shr_record) : Prop :=
  shr_m mrs = m / 2 ^ n
  /\ shr_r mrs = (2 ^ n <=? 2 * (m mod 2 ^ n))
  /\ shr_s mrs = negb ((m mod 2 ^ n =? 0) || (2 * (m mod 2 ^ n) =? 2 ^ n)).

(** Zero or a positive finite number. *)
Definition nonneg_finite (x : spec_float) : bool :=
  match x with
  | S754_zero false | S754_finite false _ _ => true
  | _ => false
  end.

Definition expo (x : spec_float) : Z :=
  match x with
  | S754_finite _ _ e => e
  | _ => -1074
  end.

Definition pow2 (e : Z) : Q := Qpower 2 e.

(** The value [m * 2^e]. *)
Definition F2Q (m e : Z) : Q := (inject_Z m * pow2 e)%Q.

Definition B2Q (x : spec_float) : Q :=
  match x with
  | S754_finite s m e => F2Q (if s then Zneg m else Zpos m) e
  | _ => 0%Q
  end.

(** A value that a [double] holds exactly. *)
Definition representable (v : Q) : Prop :=
  exists N E : Z, 0 <= N < 2 ^ 53 /\ -1074 <= E /\ (v == F2Q N E)%Q.

(** The [double]s that the airtime computation meets: zero or positive,
    with an exponent of at most 0. *)
Definition ok (x : spec_float) : Prop := nonneg_finite x = true /\ expo x <= 0.

(** [r] is [v] rounded: within [eps] of it. *)
Definition near (r v eps : Q) : Prop := (r - v <= eps)%Q /\ (v - r <= eps)%Q.

(** The value that [ceil] returns for an integer quotient [c] of a
    numerator that is negative or not: minus zero for a quotient between
    -1 and 0. *)
Definition ceil_result (c : Z) (negative : bool) : spec_float :=
  if (c =? 0) && negative then S754_zero true else Double.of_int c.

(** The payload symbol count as [RadioTimeOnAir] computes it from the
    rounded-up quotient. *)
Definition nPayload_of (q : spec_float) (k : Z) : spec_float :=
  let tmp := Double.mul q (Double.of_int k) in
  Double.add (Double.of_int 8)
             (if Double.ltb (Double.of_int 0) tmp then tmp else Double.of_int 0).

(** The symbol time of spreading factor [SF] at bandwidth class
    [bandwidth], in milliseconds: [2^SF / (125 * 2^bandwidth)]. *)
Definition symbol_time_ms (SF bandwidth : Z) : Q :=
  (inject_Z (2 ^ (SF - bandwidth + 3)) / 1000)%Q.

(** ** The operating mode and the interrupt dispatcher *)

Definition with_OperatingMode (r : Radio_t) (mode : RadioOperatingModes_t) : Radio_t :=
  {| MockRadio := MockRadio r; TxTimeout := TxTimeout r; RxTimeout := RxTimeout r;
     RxContinuous := RxContinuous r; IrqFired := IrqFired r;
     MaxPayloadLength := MaxPayloadLength r; frequency := frequency r;
     OperatingMode := mode |}.

Definition MockGetOperatingMode (r : Radio_t) : RadioOperatingModes_t := OperatingMode r.

Definition MockSetOperatingMode (mode : RadioOperatingModes_t) (r : Radio_t) : Radio_t :=
  with_OperatingMode r mode.

Definition RadioOperatingModes_eqb (a b : RadioOperatingModes_t) : bool :=
  match a, b with
  | MODE_SLEEP, MODE_SLEEP | MODE_STDBY_RC, MODE_STDBY_RC
  | MODE_STDBY_XOSC, MODE_STDBY_XOSC | MODE_FS, MODE_FS
  | MODE_TX, MODE_TX | MODE_RX, MODE_RX | MODE_RX_DC, MODE_RX_DC
  | MODE_CAD, MODE_CAD => true
  | _, _ => false
  end.

(** The callbacks of the upper layer as [RadioIrqProcess] calls them. *)
Inductive irq_call :=
| Irq_TxDone
| Irq_RxDone (size rssi snr : Z)
| Irq_RxError
| Irq_CadDone (channelActivityDetected : bool)
| Irq_TxTimeout
| Irq_RxTimeout.

(** The driver and the callbacks that the dispatcher has called, in order. *)
Definition irq_state : Type := (World * list irq_call)%type.

(** A call through [RadioEvents->f] behind the test
    [( RadioEvents != NULL ) && ( RadioEvents->f != NULL )]. *)
Definition guarded_call (f : RadioEvents_t -> bool) (c : irq_call) (s : irq_state)
  : irq_state :=
  match RadioEvents (fst s) with
  | Some ev => if f ev then (fst s, snd s ++ [c]) else s
  | None => s
  end.

(** A call through [RadioEvents->f] without a test. *)
Definition unguarded_call (f : RadioEvents_t -> bool) (c : irq_call) (s : irq_state)
  : outcome irq_state :=
  match RadioEvents (fst s) with
  | Some ev => if f ev then Returned (fst s, snd s ++ [c]) else Undefined
  | None => Undefined
  end.

Definition set_mode (mode : RadioOperatingModes_t) (s : irq_state) : irq_state :=
  (with_radio (fst s) (MockSetOperatingMode mode (radio (fst s))), snd s).

Section IrqProcess.

(** The interrupt masks of sx126x.h and [poll_timers] of the timer module
    are not part of the translation unit; the dispatcher is modelled for
    any masks and any [poll_timers]. *)
Variables IRQ_TX_DONE IRQ_RX_DONE IRQ_PREAMBLE_DETECTED IRQ_SYNCWORD_VALID
  IRQ_HEADER_VALID IRQ_HEADER_ERROR IRQ_CRC_ERROR IRQ_CAD_DONE
  IRQ_CAD_ACTIVITY_DETECTED IRQ_RX_TX_TIMEOUT : Z.
Variable poll_timers : World -> outcome World.

(** The test [( irqRegs & mask ) == mask]. *)
Definition irq_is (irqRegs mask : Z) : bool := Z.land irqRegs mask =? mask.

(** The body of [if( IrqFired == true )], after the flag is cleared.  In
    the branch of [IRQ_RX_DONE] the callback is passed the local [size],
    which is never assigned: calling it reads an indeterminate value. *)
Definition irq_dispatch (irqRegs : Z) (s : irq_state) : outcome irq_state :=
  s <- (if irq_is irqRegs IRQ_TX_DONE then unguarded_call cb_TxDone Irq_TxDone s
        else Returned s) ;;
  s <- (if irq_is irqRegs IRQ_RX_DONE then
          let s := if negb (RxContinuous (radio (fst s))) then set_mode MODE_STDBY_RC s
                   else s in
          match RadioEvents (fst s) with
          | Some ev => if cb_RxDone ev then Undefined else Returned s
          | None => Returned s
          end
        else Returned s) ;;
  s <- (if irq_is irqRegs IRQ_CRC_ERROR then
          let s := if negb (RxContinuous (radio (fst s))) then set_mode MODE_STDBY_RC s
                   else s in
          Returned (guarded_call cb_RxError Irq_RxError s)
        else Returned s) ;;
  s <- (if irq_is irqRegs IRQ_CAD_DONE then
          let s := set_mode MODE_STDBY_RC s in
          Returned (guarded_call cb_CadDone
                      (Irq_CadDone (irq_is irqRegs IRQ_CAD_ACTIVITY_DETECTED)) s)
        else Returned s) ;;
  s <- (if irq_is irqRegs IRQ_RX_TX_TIMEOUT then
          if RadioOperatingModes_eqb (MockGetOperatingMode (radio (fst s))) MODE_TX then
            Returned (guarded_call cb_TxTimeout Irq_TxTimeout (set_mode MODE_STDBY_RC s))
          else if RadioOperatingModes_eqb (MockGetOperatingMode (radio (fst s))) MODE_RX then
            Returned (guarded_call cb_RxTimeout Irq_RxTimeout s)
          else Returned s
        else Returned s) ;;
  s <- (if irq_is irqRegs IRQ_PREAMBLE_DETECTED then Returned s else Returned s) ;;
  s <- (if irq_is irqRegs IRQ_SYNCWORD_VALID then Returned s else Returned s) ;;
  s <- (if irq_is irqRegs IRQ_HEADER_VALID then Returned s else Returned s) ;;
  if irq_is irqRegs IRQ_HEADER_ERROR then
    Returned (guarded_call cb_RxTimeout Irq_RxTimeout s)
  else Returned s.

(** [RadioIrqProcess]: the timers are polled, and when [IrqFired] is set it
    is cleared and the interrupt register, which is the constant 0, is
    dispatched. *)
Definition RadioIrqProcess (w : World) : outcome irq_state :=
  w <- poll_timers w ;;
  if IrqFired (radio w) then
    let w := with_radio w (with_IrqFired (radio w) false) in
    let irqRegs := 0 in
    irq_dispatch irqRegs (w, [])
  else Returned (w, []).

End IrqProcess.

(** ** Counting the operations of a sequence *)

Definition is_Op_Send (o : operation) : bool :=
  match o with Op_Send _ _ _ _ => true | _ => false end.

Definition is_Op_Rx (o : operation) : bool :=
  match o with Op_Rx _ _ => true | _ => false end.

Definition is_Op_Init (o : operation) : bool :=
  match o with Op_Init _ => true | _ => false end.

Definition count_ops (p : operation -> bool) (ops : list operation) : nat :=
  List.length (filter p ops).

(** A [RadioSetTxConfig] call for the LoRa modem. *)
Definition is_LoRa_SetTxConfig (o : operation) : bool :=
  match o with
  | Op_SetTxConfig MODEM_LORA _ _ _ _ _ _ _ _ _ _ _ _ => true
  | _ => false
  end.

(** ** The LoRa airtime in exact arithmetic *)

(** The numerator of the quotient in the payload symbol count, before its
    reduction modulo 2^32. *)
Definition lora_numerator (SF : Z) (crcOn fixedHeader : bool) (payloadLength : Z) : Z :=
  8 * payloadLength - 4 * SF + 28 + 16 * Z_of_bool crcOn
  - (if fixedHeader then 20 else 0).

(** The payload symbol count as the driver computes it: the numerator is
    reduced modulo 2^32 before the division, so that the quotient is never
    negative. *)
Definition payload_symbols_uint32 (SF : Z) (ldro : bool) (codingRate : Z)
    (crcOn fixedHeader : bool) (payloadLength : Z) : Z :=
  8 + ceil_div (uint32 (lora_numerator SF crcOn fixedHeader payloadLength))
               (4 * (SF - 2 * Z_of_bool ldro))
      * (codingRate mod 4 + 4).

(** The airtime in whole milliseconds for that symbol count, where it
    fits a [uint32_t]. *)
Definition lora_airtime_uint32 (SF bandwidth codingRate : Z) (crcOn fixedHeader : bool)
    (preambleLength payloadLength : Z) : option Z :=
  let n := payload_symbols_uint32 SF (low_datarate_required (bandwidth_kHz bandwidth) SF)
             codingRate crcOn fixedHeader payloadLength in
  let t := ((4 * preambleLength + 17 + 4 * n) * 2 ^ (SF - bandwidth + 1) + 999) / 1000 in
  if t <? 4294967296 then Some t else None.

(** The time on air of the frame in milliseconds as a rational number,
    before the final rounding up: preamble plus 4.25 symbols plus the
    payload symbols, times the symbol time. *)
Definition lora_airtime_exact (SF bandwidth codingRate : Z) (crcOn fixedHeader : bool)
    (preambleLength payloadLength : Z) : Q :=
  ((inject_Z preambleLength + (17 # 4)
    + inject_Z (payload_symbols SF (low_datarate_required (bandwidth_kHz bandwidth) SF)
                  codingRate crcOn fixedHeader payloadLength))
   * symbol_time_ms SF bandwidth)%Q.

(** The millisecond count that [RadioSend] prints, without the wrap-around
    of the 32-bit [millis]. *)
Definition millis_of (tv : timeval) : Z := tv_sec tv * 1000 + tv_usec tv / 1000.

(** ** The FSK airtime in exact arithmetic *)

(** The number of bytes that [RadioTimeOnAir] counts for an FSK frame
    after [RadioSetTxConfig]: the stored preamble length, which is the
    16-bit [preambleLen << 3], the three bytes of the sync word, the length
    byte of a variable-length frame, and the payload. *)
Definition fsk_airtime_bytes (preambleLen : Z) (fixLen : bool) (pktLen : Z) : Z :=
  uint16 (Z.shiftl preambleLen 3) + 3 + (if fixLen then 0 else 1) + pktLen.

(** ** The callbacks after a sequence of operations *)

(** The event sink that the last [RadioInit] of a sequence installs, or
    the one before the sequence when it holds none. *)
Definition callbacks_after (ops : list operation) (events : option RadioEvents_t)
  : option RadioEvents_t :=
  fold_left (fun ev o => match o with Op_Init e => e | _ => ev end) ops events.

(** ** The lines of the input *)

(** [line] is the first line of the input [line ++ rest]: it ends with
    its only line feed, or it has none and the input ends with it. *)
Definition first_line (line rest : text) : Prop :=
  one_line line \/ (line <> [] /\ ~ In LF line /\ rest = []).

(** * Theorems *)

(** ** The parameter model *)

Lemma index_Bandwidths (b bw : Z) :
  index Bandwidths b = Some bw -> (b = 0 \/ b = 1 \/ b = 2) /\ bw = b + 4.
Proof.
  unfold index. destruct (b <? 0) eqn:Hneg; [discriminate|].
  apply Z.ltb_ge in Hneg.
  destruct (Z.of_nat (List.length Bandwidths) <=? b) eqn:Hup; [discriminate|].
  apply Z.leb_gt in Hup. cbn [orb List.length Bandwidths] in *.
  assert (Hb : b = 0 \/ b = 1 \/ b = 2) by (cbn in Hup; lia).
  destruct Hb as [-> | [-> | ->]]; cbn; intros H; inversion H;
    (split; [lia | reflexivity]).
Qed.

Lemma index_Bandwidths_defined (b : Z) :
  b = 0 \/ b = 1 \/ b = 2 -> index Bandwidths b = Some (b + 4).
Proof. intros [-> | [-> | ->]]; reflexivity. Qed.

(** C3 (as amended).  After every [RadioSetTxConfig] call with the LoRa
    modem, whatever the state before the call, the stored
    low-data-rate-optimization flag is 1 when the stored bandwidth is
    125 kHz and the stored spreading factor is 11 or 12, or the bandwidth
    is 250 kHz and the spreading factor 12, and 0 otherwise;
    [RadioSetRxConfig] stores nothing and leaves the flag as it was. *)
Theorem SetTxConfig_low_datarate_optimize
    (power fdev bandwidth datarate coderate preambleLen : Z)
    (fixLen crcOn freqHopOn : bool) (hopPeriod : Z) (iqInverted : bool) (timeout : Z)
    (r r' : Radio_t)
    (Hcall : RadioSetTxConfig MODEM_LORA power fdev bandwidth datarate coderate
               preambleLen fixLen crcOn freqHopOn hopPeriod iqInverted timeout r
             = Some r') :
  stored_sf r' = datarate
  /\ LoRa_Bandwidth_kHz (stored_bw r') = bandwidth_kHz bandwidth
  /\ stored_ldro r'
     = Z_of_bool (low_datarate_required (LoRa_Bandwidth_kHz (stored_bw r')) (stored_sf r'))
  /\ (forall bandwidth' datarate' coderate' bandwidthAfc preambleLen' symbTimeout
        fixLen' payloadLen crcOn' freqHopOn' hopPeriod' iqInverted' rxContinuous,
        stored_ldro
          (RadioSetRxConfig MODEM_LORA bandwidth' datarate' coderate' bandwidthAfc
             preambleLen' symbTimeout fixLen' payloadLen crcOn' freqHopOn' hopPeriod'
             iqInverted' rxContinuous r')
        = stored_ldro r').
Proof.
  unfold RadioSetTxConfig, RadioSetTxConfig_with in Hcall.
  destruct (index Bandwidths bandwidth) as [bw|] eqn:Hbw; [|discriminate].
  apply index_Bandwidths in Hbw. destruct Hbw as [Hb ->].
  inversion Hcall; subst r'; clear Hcall.
  unfold stored_sf, stored_bw, stored_ldro; simpl.
  split; [reflexivity|].
  split; [destruct Hb as [-> | [-> | ->]]; reflexivity|].
  split; [|reflexivity].
  destruct Hb as [-> | [-> | ->]]; simpl;
    unfold low_datarate_required; simpl;
    destruct (datarate =? 11), (datarate =? 12); reflexivity.
Qed.

Lemma SetTxConfig_low_datarate_optimize_witness :
  exists r',
    SetTxConfig_LoRa 0 12 1 8 false true Radio_start = Some r'
    /\ stored_ldro r' = 1
    /\ stored_ldro (SetRxConfig_LoRa 2 7 1 8 false true r') = stored_ldro r'.
Proof.
  eexists. split; [reflexivity|].
  pose proof (SetTxConfig_low_datarate_optimize 14 0 0 12 1 8 false true false 0 false
                3000 Radio_start _ eq_refl) as [_ [_ [H1 H2]]].
  split; [exact H1 | exact (H2 2 7 1 0 8 5 false 0 true false 0 false false)].
Defined.

(** C3, counterexample.  A transmit configuration at 500 kHz, SF7 clears
    the flag; a receive configuration at 125 kHz, SF12, for which the
    flag is required, leaves it cleared. *)
Lemma SetRxConfig_low_datarate_optimize_stale :
  exists r,
    SetTxConfig_LoRa 2 7 1 8 false true Radio_start = Some r
    /\ low_datarate_required (bandwidth_kHz 0) 12 = true
    /\ stored_ldro (SetRxConfig_LoRa 0 12 1 8 false true r) = 0.
Proof. eexists. split; [reflexivity|]. split; reflexivity. Qed.

(** C4 (as amended).  For every [RadioSetTxConfig] call with the LoRa
    modem: when the spreading factor is 5 or 6 and the requested preamble
    length is below 12, the stored preamble length is 12; when the
    requested length is at least 12, or the spreading factor is 7 to 12,
    the requested length is stored unchanged; [RadioSetRxConfig] stores
    nothing and leaves the preamble length as it was. *)
Theorem SetTxConfig_preamble_floor
    (power fdev bandwidth datarate coderate preambleLen : Z)
    (fixLen crcOn freqHopOn : bool) (hopPeriod : Z) (iqInverted : bool) (timeout : Z)
    (r r' : Radio_t)
    (Hcall : RadioSetTxConfig MODEM_LORA power fdev bandwidth datarate coderate
               preambleLen fixLen crcOn freqHopOn hopPeriod iqInverted timeout r
             = Some r') :
  stored_preamble r' = effective_preamble datarate preambleLen
  /\ ((datarate = 5 \/ datarate = 6) -> preambleLen < 12 -> stored_preamble r' = 12)
  /\ (12 <= preambleLen \/ 7 <= datarate <= 12 -> stored_preamble r' = preambleLen)
  /\ (forall bandwidth' datarate' coderate' bandwidthAfc preambleLen' symbTimeout
        fixLen' payloadLen crcOn' freqHopOn' hopPeriod' iqInverted' rxContinuous,
        stored_preamble
          (RadioSetRxConfig MODEM_LORA bandwidth' datarate' coderate' bandwidthAfc
             preambleLen' symbTimeout fixLen' payloadLen crcOn' freqHopOn' hopPeriod'
             iqInverted' rxContinuous r')
        = stored_preamble r').
Proof.
  unfold RadioSetTxConfig, RadioSetTxConfig_with in Hcall.
  destruct (index Bandwidths bandwidth) as [bw|] eqn:Hbw; [|discriminate].
  inversion Hcall; subst r'; clear Hcall.
  unfold stored_preamble, effective_preamble, LORA_SF5, LORA_SF6; simpl.
  repeat split.
  - destruct ((datarate =? 5) || (datarate =? 6)); reflexivity.
  - intros Hsf Hlt.
    assert (Hb : ((datarate =? 5) || (datarate =? 6)) = true)
      by (destruct Hsf as [-> | ->]; reflexivity).
    rewrite Hb. apply Z.ltb_lt in Hlt. now rewrite Hlt.
  - intros [Hge | Hsf].
    + assert (Hlt : (preambleLen <? 12) = false) by (apply Z.ltb_ge; lia).
      rewrite Hlt. now destruct ((datarate =? 5) || (datarate =? 6)).
    + assert (H5 : (datarate =? 5) = false) by (apply Z.eqb_neq; lia).
      assert (H6 : (datarate =? 6) = false) by (apply Z.eqb_neq; lia).
      now rewrite H5, H6.
Qed.

Lemma SetTxConfig_preamble_floor_witness :
  exists r',
    SetTxConfig_LoRa 0 5 1 8 false true Radio_start = Some r'
    /\ stored_preamble r' = 12.
Proof.
  eexists. split; [reflexivity|].
  pose proof (SetTxConfig_preamble_floor 14 0 0 5 1 8 false true false 0 false
                3000 Radio_start _ eq_refl) as [_ [H _]].
  apply H; [left; reflexivity | lia].
Defined.

(** C4, counterexample.  On a freshly started driver a receive
    configuration with spreading factor 5 and preamble length 8 leaves the
    stored preamble length at 0, not 12; and with spreading factor 7 and
    preamble length 20 it leaves it at 0, not 20. *)
Lemma SetRxConfig_preamble_not_stored :
  effective_preamble 5 8 = 12
  /\ stored_preamble (SetRxConfig_LoRa 0 5 1 8 false true Radio_start) = 0
  /\ stored_preamble (SetRxConfig_LoRa 0 7 1 20 false true Radio_start) = 0.
Proof. repeat split. Qed.

(** C9 (as amended).  Every FSK [RadioSetTxConfig] call is accepted and
    stores the requested bandwidth converted to the type of the field
    [Gfsk.Bandwidth], whatever that type is, tabulated or not: no clamp is
    applied.  [RadioSetRxConfig], which receives the AFC bandwidth, stores
    nothing; the table of 21 bandwidths from 4800 Hz to 467000 Hz (and an
    invalid last entry) is not consulted, as
    [RadioGetFskBandwidthRegValue] returns no value. *)
Theorem SetTxConfig_fsk_bandwidth_unclamped (to_Gfsk_Bandwidth : Z -> Z)
    (power fdev bandwidth datarate coderate preambleLen : Z)
    (fixLen crcOn freqHopOn : bool) (hopPeriod : Z) (iqInverted : bool) (timeout : Z)
    (r : Radio_t) :
  (exists r',
      RadioSetTxConfig_with to_Gfsk_Bandwidth MODEM_FSK power fdev bandwidth datarate
        coderate preambleLen fixLen crcOn freqHopOn hopPeriod iqInverted timeout r
      = Some r'
      /\ stored_fsk_bandwidth r' = to_Gfsk_Bandwidth bandwidth)
  /\ (forall modem bandwidthAfc symbTimeout payloadLen rxContinuous,
        RadioSetRxConfig modem bandwidth datarate coderate bandwidthAfc preambleLen
          symbTimeout fixLen payloadLen crcOn freqHopOn hopPeriod iqInverted
          rxContinuous r = r)
  /\ RadioGetFskBandwidthRegValue bandwidth = None
  /\ List.length tabulated_bandwidths = 21%nat
  /\ hd 0 tabulated_bandwidths = 4800
  /\ last tabulated_bandwidths 0 = 467000.
Proof.
  split; [eexists; split; reflexivity|].
  repeat split.
Qed.

Lemma wrap_5000 (bits : Z) : 0 <= bits -> wrap bits 5000 <> 5800.
Proof.
  intros Hb. unfold wrap.
  destruct (Z_le_gt_dec 13 bits) as [Hw|Hw].
  - assert (H : 2 ^ 13 <= 2 ^ bits) by (apply Z.pow_le_mono_r; lia).
    rewrite Z.mod_small by (change (2 ^ 13) with 8192 in H; lia). lia.
  - assert (H : 2 ^ bits <= 2 ^ 12) by (apply Z.pow_le_mono_r; lia).
    assert (Hp : 0 < 2 ^ bits) by (apply Z.pow_pos_nonneg; lia).
    pose proof (Z.mod_pos_bound 5000 (2 ^ bits) Hp) as Hm.
    change (2 ^ 12) with 4096 in H. lia.
Qed.

(** C9, counterexample.  For a request of 5000 Hz the clamp of the
    specification selects 5800 Hz; the driver stores 5000 converted to the
    type of the field, which is 136 for a field of one byte and is not
    5800 for an unsigned field of any width. *)
Lemma SetTxConfig_fsk_bandwidth_not_clamped :
  clamp_fsk_bandwidth 5000 = 5800
  /\ (exists r',
        SetTxConfig_FSK 50000 5000 5 false true = Some r'
        /\ stored_fsk_bandwidth r' = 136)
  /\ (forall bits, 0 <= bits ->
        exists r',
          RadioSetTxConfig_with (wrap bits) MODEM_FSK 14 25000 5000 50000 0 5 false true
            false 0 false 3000 Radio_start = Some r'
          /\ stored_fsk_bandwidth r' = wrap bits 5000
          /\ stored_fsk_bandwidth r' <> clamp_fsk_bandwidth 5000).
Proof.
  split; [reflexivity|]. split; [eexists; split; reflexivity|].
  intros bits Hb. eexists. split; [reflexivity|]. split; [reflexivity|].
  apply wrap_5000. exact Hb.
Qed.

(** ** The driver status *)

Lemma run_app (ops1 ops2 : list operation) (w : World) :
  run (ops1 ++ ops2) w = (w' <- run ops1 w ;; run ops2 w').
Proof.
  revert w. induction ops1 as [|o ops1 IH]; intros w; simpl; [reflexivity|].
  destruct (run_operation o w); simpl; auto.
Qed.

(** C10.  After every sequence of driver operations (init, set-modem,
    set-channel, configuration calls, Send, Rx, sleep, standby) that
    returns, and after each of its prefixes, [RadioGetStatus] returns
    [RF_IDLE]. *)
Theorem GetStatus_always_idle (ops : list operation) (w w' : World)
    (Hrun : run ops w = Returned w') :
  RadioGetStatus (radio w') = RF_IDLE
  /\ forall ops1 ops2 w1, ops = ops1 ++ ops2 -> run ops1 w = Returned w1 ->
       RadioGetStatus (radio w1) = RF_IDLE.
Proof. split; [reflexivity | intros; reflexivity]. Qed.

Lemma GetStatus_always_idle_witness :
  exists w',
    run [ Op_Init (Some all_callbacks); Op_SetChannel 868100000;
          Op_SetTxConfig MODEM_LORA 14 0 0 7 1 8 false true false 0 false 3000;
          Op_Send sample_tm sample_tv hello 5; Op_Standby; Op_Sleep ]
        (World_start []) = Returned w'
    /\ RadioGetStatus (radio w') = RF_IDLE.
Proof.
  eexists. split; [vm_compute; reflexivity|].
  refine (proj1 (GetStatus_always_idle
                   [ Op_Init (Some all_callbacks); Op_SetChannel 868100000;
                     Op_SetTxConfig MODEM_LORA 14 0 0 7 1 8 false true false 0 false 3000;
                     Op_Send sample_tm sample_tv hello 5; Op_Standby; Op_Sleep ]
                   (World_start []) _ _)).
  vm_compute; reflexivity.
Defined.

(** ** Time on air: FSK *)

Lemma double_eqb_eq (x y : spec_float) : double_eqb x y = true -> x = y.
Proof.
  destruct x as [a|a| |a m e], y as [b|b| |b m' e']; simpl; try discriminate;
    try reflexivity.
  - intros H. apply Bool.eqb_prop in H. now subst.
  - intros H. apply Bool.eqb_prop in H. now subst.
  - intros H. apply andb_prop in H. destruct H as [H He].
    apply andb_prop in H. destruct H as [Hs Hm].
    apply Bool.eqb_prop in Hs. apply Pos.eqb_eq in Hm. apply Z.eqb_eq in He.
    now subst.
Qed.

Lemma forallb_range (P : Z -> bool) (n : nat) :
  forallb P (range n) = true -> forall z, 0 <= z < Z.of_nat n -> P z = true.
Proof.
  intros H z Hz. rewrite forallb_forall in H. apply H.
  unfold range. apply in_map_iff. exists (Z.to_nat z). split; [lia|].
  apply in_seq. lia.
Qed.

Lemma fsk_bits_exact (h : bool) (pktLen : Z) :
  is_uint8 pktLen ->
  fsk_bits h pktLen = Double.of_int (8 * (3 + (if h then 1 else 0) + pktLen)).
Proof.
  intros Hp. apply double_eqb_eq.
  revert pktLen Hp.
  apply (forallb_range
           (fun p => double_eqb (fsk_bits h p)
                       (Double.of_int (8 * (3 + (if h then 1 else 0) + p))))
           256).
  destruct h; vm_compute; reflexivity.
Qed.

Lemma literal_1000 : Double.literal 1000 1 = Double.of_int 1000.
Proof. vm_compute. reflexivity. Qed.

(** C1 (as amended).  For every FSK configuration established by
    [RadioSetTxConfig] with a preamble of zero bytes and CRC off, and
    every payload length, [RadioTimeOnAir] returns
    8 x (3 + (1 if variable header) + payloadLength) / bitRate x 1000,
    quotient and product rounded as [double]s, rounded to the nearest
    integer with halves to the even one ([rint]). *)
Theorem TimeOnAir_fsk_rint
    (power fdev bandwidth bitRate coderate : Z) (fixLen freqHopOn : bool)
    (hopPeriod : Z) (iqInverted : bool) (timeout pktLen : Z) (r : Radio_t)
    (Hlen : is_uint8 pktLen) :
  exists r',
    RadioSetTxConfig MODEM_FSK power fdev bandwidth bitRate coderate 0 fixLen false
      freqHopOn hopPeriod iqInverted timeout r = Some r'
    /\ RadioTimeOnAir MODEM_FSK pktLen r' = fsk_airtime_rint bitRate (negb fixLen) pktLen.
Proof.
  eexists. split; [reflexivity|].
  unfold RadioTimeOnAir, fsk_airtime_rint. cbn -[Z.mul Z.add].
  rewrite literal_1000.
  pose proof (fsk_bits_exact (negb fixLen) pktLen Hlen) as Hb.
  unfold fsk_bits in Hb.
  destruct fixLen; cbn -[Z.mul Z.add] in Hb |- *;
    match goal with
    | |- context [Double.of_int (uint16 ?a + ?b)] => change (uint16 a + b) with 3
    end;
    rewrite Hb; reflexivity.
Qed.

Lemma TimeOnAir_fsk_rint_witness :
  exists r',
    SetTxConfig_FSK 640 50000 0 true false = Some r'
    /\ RadioTimeOnAir MODEM_FSK 22 r' = Some 312.
Proof.
  destruct (TimeOnAir_fsk_rint 14 25000 50000 640 0 true false 0 false 3000 22
              Radio_start) as [r' [H1 H2]].
  - unfold is_uint8. lia.
  - exists r'. split; [exact H1|]. rewrite H2. vm_compute. reflexivity.
Defined.

(** C1, counterexample.  With bitRate 50000, a preamble of 5 bytes,
    variable header, no CRC and 10 bytes of payload the driver returns 9,
    where the formula gives 3; and with bitRate 640, no preamble, fixed
    header, no CRC and 22 bytes, where the formula gives 312.5, the driver
    returns 312 and rounding halves away from zero gives 313. *)
Lemma TimeOnAir_fsk_differs :
  TimeOnAir_after MODEM_FSK 10 (SetTxConfig_FSK 50000 50000 5 false false) = Some 9
  /\ fsk_airtime_spec 50000 5 true false 10 = 3
  /\ TimeOnAir_after MODEM_FSK 22 (SetTxConfig_FSK 640 50000 0 true false) = Some 312
  /\ fsk_airtime_spec 640 0 false false 22 = 313.
Proof. repeat split; vm_compute; reflexivity. Qed.

(** With CRC on, the two CRC bytes are not counted either: the stored
    [RADIO_CRC_2_BYTES_CCIT] is compared with [RADIO_CRC_2_BYTES]. *)
Lemma TimeOnAir_fsk_ignores_crc :
  TimeOnAir_after MODEM_FSK 10 (SetTxConfig_FSK 50000 50000 0 false true)
  = TimeOnAir_after MODEM_FSK 10 (SetTxConfig_FSK 50000 50000 0 false false)
  /\ fsk_airtime_spec 50000 0 true true 10 = 3
  /\ TimeOnAir_after MODEM_FSK 10 (SetTxConfig_FSK 50000 50000 0 false true) = Some 2.
Proof. repeat split; vm_compute; reflexivity. Qed.

(** ** Time on air: LoRa, against the reference computation *)

Lemma uint32_small (z : Z) : 0 <= z < 4294967296 -> uint32 z = z.
Proof. intros H. unfold uint32, wrap. apply Z.mod_small. exact H. Qed.

(** For a payload length whose numerator is not negative,
    [RadioTimeOnAir] equals the reference computation of the
    specification, operation by operation in [double] arithmetic. *)
Lemma TimeOnAir_lora_reference_nonneg
    (power fdev bandwidth datarate coderate preambleLen : Z)
    (fixLen crcOn freqHopOn : bool) (hopPeriod : Z) (iqInverted : bool)
    (timeout pktLen : Z) (r : Radio_t)
    (Hbw : 0 <= bandwidth <= 2) (Hsf : 7 <= datarate <= 12) (Hcr : is_uint8 coderate)
    (Hlen : is_uint8 pktLen)
    (Hnum : 0 <= lora_numerator datarate crcOn fixLen pktLen) :
  exists r',
    RadioSetTxConfig MODEM_LORA power fdev bandwidth datarate coderate preambleLen
      fixLen crcOn freqHopOn hopPeriod iqInverted timeout r = Some r'
    /\ RadioTimeOnAir MODEM_LORA pktLen r'
       = lora_airtime_reference datarate (bandwidth_kHz bandwidth) coderate crcOn fixLen
           preambleLen pktLen.
Proof.
  assert (Hb : bandwidth = 0 \/ bandwidth = 1 \/ bandwidth = 2) by lia.
  assert (Hs : datarate = 7 \/ datarate = 8 \/ datarate = 9 \/ datarate = 10
               \/ datarate = 11 \/ datarate = 12) by lia.
  unfold RadioSetTxConfig, RadioSetTxConfig_with. rewrite (index_Bandwidths_defined _ Hb).
  eexists. split; [reflexivity|].
  unfold RadioTimeOnAir, lora_airtime_reference, dmax.
  unfold is_uint8 in *. unfold lora_numerator in Hnum.
  pose proof (Z.rem_mod_nonneg coderate 4 ltac:(lia) ltac:(lia)) as Hrem.
  pose proof (Z.mod_pos_bound coderate 4 ltac:(lia)) as Hk.
  destruct Hb as [-> | [-> | ->]];
    destruct Hs as [-> | [-> | [-> | [-> | [-> | ->]]]]];
    destruct fixLen, crcOn; cbn [Z_of_bool] in Hnum;
    cbn -[Z.mul Z.add Z.sub Z.rem Z.modulo uint32];
    rewrite Hrem, !uint32_small by lia; reflexivity.
Qed.

(** C2, the failing input.  At spreading factor 12, 500 kHz, coding rate
    4/5, CRC on, variable header and a preamble of 8 symbols, the
    numerator for an empty payload is -4; the driver computes it as the
    [unsigned int] 4294967292, never reaches the clamp of a negative [tmp]
    that it writes, and returns 3665038953 ms where the reference
    computation gives 166 ms.  For a payload of one byte, whose numerator
    is 4, both give 207 ms. *)
Theorem TimeOnAir_lora_reference_diverges :
  lora_numerator 12 true false 0 = -4
  /\ TimeOnAir_after MODEM_LORA 0 (SetTxConfig_LoRa 2 12 1 8 false true Radio_start)
     = Some 3665038953
  /\ lora_airtime_reference 12 500 1 true false 8 0 = Some 166
  /\ TimeOnAir_after MODEM_LORA 1 (SetTxConfig_LoRa 2 12 1 8 false true Radio_start)
     = Some 207
  /\ lora_airtime_reference 12 500 1 true false 8 1 = Some 207.
Proof. repeat split; vm_compute; reflexivity. Qed.

(** ** Transport codec: base64 round trip *)

Lemma list_ind3 {A : Type} (P : list A -> Prop) :
  P [] -> (forall a, P [a]) -> (forall a b, P [a; b]) ->
  (forall a b c l, P l -> P (a :: b :: c :: l)) ->
  forall l, P l.
Proof.
  intros H0 H1 H2 H3.
  assert (H : forall l, P l /\ (forall a, P (a :: l)) /\ (forall a b, P (a :: b :: l))).
  { induction l as [|x l [IH0 [IH1 IH2]]].
    - repeat split; auto.
    - repeat split; auto. }
  intros l. apply H.
Qed.

Lemma sextet_range (x : Z) : 0 <= Z.land x 63 < 64.
Proof.
  change 63 with (Z.ones 6). rewrite Z.land_ones by lia.
  apply Z.mod_pos_bound. reflexivity.
Qed.

Lemma decode_encode_sextet (n : Z) :
  0 <= n < 64 -> Base64.decode_sextet (Base64.encode_sextet n) = Some n.
Proof.
  intros Hn.
  assert (H : (match Base64.decode_sextet (Base64.encode_sextet n) with
               | Some m => m =? n
               | None => false
               end) = true).
  { revert n Hn.
    apply (forallb_range
             (fun n => match Base64.decode_sextet (Base64.encode_sextet n) with
                       | Some m => m =? n
                       | None => false
                       end) 64).
    vm_compute. reflexivity. }
  destruct (Base64.decode_sextet (Base64.encode_sextet n)); [|discriminate].
  apply Z.eqb_eq in H. now subst.
Qed.

Lemma encode_sextet_not_pad (n : Z) :
  0 <= n < 64 -> Ascii.eqb (Base64.encode_sextet n) Base64.pad = false.
Proof.
  intros Hn.
  assert (H : negb (Ascii.eqb (Base64.encode_sextet n) Base64.pad) = true).
  { revert n Hn.
    apply (forallb_range (fun n => negb (Ascii.eqb (Base64.encode_sextet n) Base64.pad)) 64).
    vm_compute. reflexivity. }
  now apply negb_true_iff in H.
Qed.

Ltac shifts_to_arith :=
  unfold Base64.byte_of;
  change 63 with (Z.ones 6); change 255 with (Z.ones 8);
  rewrite ?Z.land_ones by lia;
  rewrite ?Z.shiftr_div_pow2, ?Z.shiftl_mul_pow2 by lia;
  change (2 ^ 0) with 1; change (2 ^ 6) with 64; change (2 ^ 8) with 256;
  change (2 ^ 12) with 4096; change (2 ^ 16) with 65536; change (2 ^ 18) with 262144.

Lemma sextets_sum (t : Z) :
  0 <= t < 16777216 ->
  (t / 262144) mod 64 * 262144 + (t / 4096) mod 64 * 4096
  + (t / 64) mod 64 * 64 + t mod 64 = t.
Proof.
  intros Ht.
  change 262144 with (64 * 64 * 64). change 4096 with (64 * 64).
  rewrite <- !Z.div_div by lia.
  pose proof (Z.div_mod t 64 ltac:(lia)) as H0.
  pose proof (Z.mod_pos_bound t 64 ltac:(lia)) as B0.
  set (q1 := t / 64) in *.
  pose proof (Z.div_mod q1 64 ltac:(lia)) as H1.
  pose proof (Z.mod_pos_bound q1 64 ltac:(lia)) as B1.
  set (q2 := q1 / 64) in *.
  pose proof (Z.div_mod q2 64 ltac:(lia)) as H2.
  pose proof (Z.mod_pos_bound q2 64 ltac:(lia)) as B2.
  set (q3 := q2 / 64) in *.
  assert (0 <= q3 < 64) by lia.
  rewrite (Z.mod_small q3 64) by lia.
  lia.
Qed.

Lemma bytes_of_group (a b c : Z) :
  is_byte a -> is_byte b -> is_byte c ->
  let t := a * 65536 + b * 256 + c in
  (t / 65536) mod 256 = a /\ (t / 256) mod 256 = b /\ (t / 1) mod 256 = c.
Proof.
  unfold is_byte. intros Ha Hb Hc. cbv zeta.
  assert (H16 : (a * 65536 + b * 256 + c) / 65536 = a).
  { symmetry. apply (Z.div_unique _ _ a (b * 256 + c)); lia. }
  assert (H8 : (a * 65536 + b * 256 + c) / 256 = a * 256 + b).
  { symmetry. apply (Z.div_unique _ _ (a * 256 + b) c); lia. }
  rewrite H16, H8, Z.div_1_r.
  repeat split.
  - apply Z.mod_small; lia.
  - symmetry. apply (Z.mod_unique _ _ a b); lia.
  - symmetry. apply (Z.mod_unique _ _ (a * 256 + b) c); lia.
Qed.

Lemma group3_roundtrip (a b c : Z) :
  is_byte a -> is_byte b -> is_byte c ->
  let t := Z.shiftl a 16 + Z.shiftl b 8 + c in
  let t' := Z.shiftl (Z.land (Z.shiftr t 18) 63) 18
            + Z.shiftl (Z.land (Z.shiftr t 12) 63) 12
            + Z.shiftl (Z.land (Z.shiftr t 6) 63) 6 + Z.land t 63 in
  Base64.byte_of t' 16 = a /\ Base64.byte_of t' 8 = b /\ Base64.byte_of t' 0 = c.
Proof.
  intros Ha Hb Hc. cbv zeta. shifts_to_arith.
  rewrite sextets_sum by (unfold is_byte in *; lia).
  apply (bytes_of_group a b c Ha Hb Hc).
Qed.

Lemma group2_roundtrip (a b : Z) :
  is_byte a -> is_byte b ->
  let t := Z.shiftl a 16 + Z.shiftl b 8 in
  let t' := Z.shiftl (Z.land (Z.shiftr t 18) 63) 18
            + Z.shiftl (Z.land (Z.shiftr t 12) 63) 12
            + Z.shiftl (Z.land (Z.shiftr t 6) 63) 6 in
  Base64.byte_of t' 16 = a /\ Base64.byte_of t' 8 = b.
Proof.
  intros Ha Hb. cbv zeta. shifts_to_arith.
  set (t := a * 65536 + b * 256).
  assert (Ht : 0 <= t < 16777216) by (unfold is_byte in *; subst t; lia).
  assert (H0 : t mod 64 = 0).
  { symmetry. apply (Z.mod_unique _ _ (a * 1024 + b * 4) 0); subst t; lia. }
  pose proof (sextets_sum t Ht) as Hs. rewrite H0, Z.add_0_r in Hs. rewrite Hs.
  assert (Hz : is_byte 0) by (unfold is_byte; lia).
  destruct (bytes_of_group a b 0 Ha Hb Hz) as [H1 [H2 _]].
  rewrite Z.add_0_r in H1, H2. split; assumption.
Qed.

Lemma group1_roundtrip (a : Z) :
  is_byte a ->
  let t := Z.shiftl a 16 in
  let t' := Z.shiftl (Z.land (Z.shiftr t 18) 63) 18
            + Z.shiftl (Z.land (Z.shiftr t 12) 63) 12 in
  Base64.byte_of t' 16 = a.
Proof.
  intros Ha. cbv zeta. shifts_to_arith.
  set (t := a * 65536).
  assert (Ht : 0 <= t < 16777216) by (unfold is_byte in *; subst t; lia).
  assert (H0 : t mod 64 = 0).
  { symmetry. apply (Z.mod_unique _ _ (a * 1024) 0); subst t; lia. }
  assert (H1 : (t / 64) mod 64 = 0).
  { replace (t / 64) with (a * 1024).
    - symmetry. apply (Z.mod_unique _ _ (a * 16) 0); lia.
    - apply (Z.div_unique _ _ (a * 1024) 0); subst t; unfold is_byte in *; lia. }
  pose proof (sextets_sum t Ht) as Hs.
  rewrite H0, H1, Z.add_0_r, Z.mul_0_l, Z.add_0_r in Hs. rewrite Hs.
  assert (Hz : is_byte 0) by (unfold is_byte; lia).
  destruct (bytes_of_group a 0 0 Ha Hz Hz) as [H _].
  subst t. rewrite Z.mul_0_l, !Z.add_0_r in H. exact H.
Qed.

Lemma base64_encode_nonempty (a : Z) (l : list Z) :
  exists c s, Base64.base64_encode (a :: l) = c :: s.
Proof.
  destruct l as [|b [|c l]]; cbn [Base64.base64_encode]; eauto.
Qed.

(** Decoding an encoded byte sequence gives the sequence back. *)
Lemma base64_decode_encode (data : list Z) :
  Forall is_byte data ->
  Base64.base64_decode (Base64.base64_encode data) = Some data.
Proof.
  induction data as [ | a | a b | a b c l IH ] using list_ind3; intros Hall.
  - reflexivity.
  - inversion Hall as [|? ? Ha _]; subst.
    cbn [Base64.base64_encode Base64.base64_decode].
    rewrite !decode_encode_sextet by apply sextet_range.
    change (Ascii.eqb Base64.pad Base64.pad) with true. cbv iota.
    now rewrite (group1_roundtrip a Ha).
  - inversion Hall as [|? ? Ha Hall']; subst.
    inversion Hall' as [|? ? Hb _]; subst.
    cbn [Base64.base64_encode Base64.base64_decode].
    rewrite !decode_encode_sextet by apply sextet_range.
    change (Ascii.eqb Base64.pad Base64.pad) with true. cbv iota.
    rewrite encode_sextet_not_pad by apply sextet_range.
    destruct (group2_roundtrip a b Ha Hb) as [H1 H2].
    now rewrite H1, H2.
  - inversion Hall as [|? ? Ha Hall']; subst.
    inversion Hall' as [|? ? Hb Hall'']; subst.
    inversion Hall'' as [|? ? Hc Hl]; subst.
    specialize (IH Hl).
    cbn [Base64.base64_encode Base64.base64_decode].
    rewrite !decode_encode_sextet by apply sextet_range.
    rewrite encode_sextet_not_pad by apply sextet_range.
    destruct (group3_roundtrip a b c Ha Hb Hc) as [H1 [H2 H3]].
    destruct l as [|x l].
    + cbn [Base64.base64_encode]. now rewrite H1, H2, H3.
    + destruct (base64_encode_nonempty x l) as [c0 [s Hs]].
      rewrite Hs in *. rewrite IH. now rewrite H1, H2, H3.
Qed.

(** ** Printed numbers and texts *)

Lemma all_ascii_complete (c : ascii) : In c all_ascii.
Proof.
  unfold all_ascii. apply in_map_iff. exists (nat_of_ascii c).
  split; [apply ascii_nat_embedding|].
  apply in_seq. pose proof (nat_ascii_bounded c). lia.
Qed.

Lemma ascii_implies (P Q : ascii -> bool) :
  forallb (fun c => implb (P c) (Q c)) all_ascii = true ->
  forall c, P c = true -> Q c = true.
Proof.
  intros H c Hp. rewrite forallb_forall in H.
  specialize (H c (all_ascii_complete c)). rewrite Hp in H. exact H.
Qed.

Lemma Forall_forallb {A : Type} (P : A -> bool) (l : list A) :
  forallb P l = true -> Forall (fun c => P c = true) l.
Proof. intros H. apply Forall_forall. now apply forallb_forall. Qed.

Lemma digit_is_word_char (c : ascii) : is_digit c = true -> Json.is_word_char c = true.
Proof. unfold Json.is_word_char. now intros ->. Qed.

Lemma word_char_is_plain (c : ascii) : Json.is_word_char c = true -> is_plain c = true.
Proof. revert c. apply ascii_implies. vm_compute. reflexivity. Qed.

Lemma digit_is_plain (c : ascii) : is_digit c = true -> is_plain c = true.
Proof. intros H. apply word_char_is_plain, digit_is_word_char, H. Qed.

Lemma word_char_lex_default (c : ascii) :
  Json.is_word_char c = true -> Json.lex_default c = ([], Some (Json.LWord [c])).
Proof.
  intros H. unfold Json.lex_default. rewrite H.
  assert (Hs : negb (Json.is_space c || (code c =? 123) || (code c =? 125)
                     || (code c =? 91) || (code c =? 93) || (code c =? 58)
                     || (code c =? 44) || (code c =? 34)) = true).
  { revert c H. apply ascii_implies. vm_compute. reflexivity. }
  apply negb_true_iff in Hs.
  apply orb_false_elim in Hs. destruct Hs as [Hs H34].
  apply orb_false_elim in Hs. destruct Hs as [Hs H44].
  apply orb_false_elim in Hs. destruct Hs as [Hs H58].
  apply orb_false_elim in Hs. destruct Hs as [Hs H93].
  apply orb_false_elim in Hs. destruct Hs as [Hs H91].
  apply orb_false_elim in Hs. destruct Hs as [Hs H125].
  apply orb_false_elim in Hs. destruct Hs as [Hs H123].
  now rewrite Hs, H123, H125, H91, H93, H58, H44, H34.
Qed.

Lemma plain_lex_string (c : ascii) (acc : text) :
  is_plain c = true ->
  Json.lex_step (Json.LString acc) c = ([], Some (Json.LString (c :: acc))).
Proof.
  unfold is_plain, Json.lex_step. intros H.
  apply andb_prop in H. destruct H as [H H32].
  apply andb_prop in H. destruct H as [H _].
  apply andb_prop in H. destruct H as [H34 H92].
  apply negb_true_iff in H34, H92. apply Z.leb_le in H32.
  assert (Hc : (code c <? 32) = false) by (apply Z.ltb_ge; exact H32).
  now rewrite H34, H92, Hc.
Qed.

(** *** The lexer, piece by piece *)

Lemma lex_run_cons (st : Json.lex_state) (c : ascii) (r : text) :
  lex_run st (c :: r)
  = let (ts, st') := Json.lex_step st c in
    match st' with
    | Some st'' => let (ts', st3) := lex_run st'' r in (ts ++ ts', st3)
    | None => (ts, None)
    end.
Proof. reflexivity. Qed.

Lemma lex_app (st : Json.lex_state) (s1 s2 : text) :
  Json.lex st (s1 ++ s2)
  = fst (lex_run st s1)
    ++ match snd (lex_run st s1) with
       | Some st' => Json.lex st' s2
       | None => []
       end.
Proof.
  revert st. induction s1 as [|c s1 IH]; intros st; [reflexivity|].
  cbn [app Json.lex lex_run].
  destruct (Json.lex_step st c) as [ts [st'|]]; [|reflexivity].
  rewrite IH. destruct (lex_run st' s1) as [ts' st3]. cbn [fst snd].
  now rewrite app_assoc.
Qed.

Lemma lex_run_string (s acc : text) :
  Forall (fun c => is_plain c = true) s ->
  lex_run (Json.LString acc) s = ([], Some (Json.LString (rev s ++ acc))).
Proof.
  intros H. revert acc. induction H as [|c s Hc _ IH]; intros acc; [reflexivity|].
  rewrite lex_run_cons, (plain_lex_string c acc Hc), IH.
  cbn [rev app]. now rewrite <- app_assoc.
Qed.

Lemma lex_run_word_more (s acc : text) :
  Forall (fun c => Json.is_word_char c = true) s ->
  lex_run (Json.LWord acc) s = ([], Some (Json.LWord (rev s ++ acc))).
Proof.
  intros H. revert acc. induction H as [|c s Hc _ IH]; intros acc; [reflexivity|].
  rewrite lex_run_cons. cbn [Json.lex_step]. rewrite Hc, IH.
  cbn [rev app]. now rewrite <- app_assoc.
Qed.

Lemma lex_run_word (s : text) :
  s <> [] -> Forall (fun c => Json.is_word_char c = true) s ->
  lex_run Json.LDefault s = ([], Some (Json.LWord (rev s))).
Proof.
  intros Hne H. destruct H as [|c s Hc Hs]; [congruence|].
  rewrite lex_run_cons. cbn [Json.lex_step]. rewrite (word_char_lex_default c Hc).
  rewrite (lex_run_word_more s [c] Hs). reflexivity.
Qed.

(** *** Decimal digits *)

Lemma digit_char_is_digit (d : Z) : 0 <= d < 10 -> is_digit (digit_char d) = true.
Proof.
  revert d. apply (forallb_range (fun d => is_digit (digit_char d)) 10).
  vm_compute. reflexivity.
Qed.

Lemma digit_char_nonzero (d : Z) : 1 <= d < 10 -> is_nonzero_digit (digit_char d) = true.
Proof.
  intros Hd.
  assert (H : (d =? 0) || is_nonzero_digit (digit_char d) = true).
  { revert d Hd. intros d Hd.
    apply (forallb_range (fun d => (d =? 0) || is_nonzero_digit (digit_char d)) 10);
      [vm_compute; reflexivity | lia]. }
  apply orb_prop in H. destruct H as [H | H]; [apply Z.eqb_eq in H; lia | exact H].
Qed.

Lemma dec_digits_all_digits (fuel : nat) (n : Z) (acc : text) :
  exists ds, dec_digits fuel n acc = ds ++ acc /\ Forall (fun c => is_digit c = true) ds.
Proof.
  revert n acc. induction fuel as [|f IH]; intros n acc.
  - exists []. split; [reflexivity | constructor].
  - cbn [dec_digits].
    assert (Hd : is_digit (digit_char (n mod 10)) = true)
      by (apply digit_char_is_digit, Z.mod_pos_bound; lia).
    destruct (n <? 10).
    + exists [digit_char (n mod 10)]. split; [reflexivity | now constructor].
    + destruct (IH (n / 10) (digit_char (n mod 10) :: acc)) as [ds [Heq Hds]].
      exists (ds ++ [digit_char (n mod 10)]). split.
      * rewrite Heq, <- app_assoc. reflexivity.
      * apply Forall_app. split; [exact Hds | now constructor].
Qed.

Lemma dec_digits_leading (fuel : nat) (n : Z) (acc : text) :
  0 < n < 10 ^ Z.of_nat fuel ->
  exists c ds, dec_digits fuel n acc = c :: ds ++ acc
               /\ is_nonzero_digit c = true
               /\ Forall (fun c => is_digit c = true) ds.
Proof.
  revert n acc. induction fuel as [|f IH]; intros n acc Hn.
  - simpl in Hn. lia.
  - cbn [dec_digits]. destruct (n <? 10) eqn:Hlt.
    + apply Z.ltb_lt in Hlt. exists (digit_char (n mod 10)), []. split; [reflexivity|].
      split; [|constructor]. rewrite Z.mod_small by lia. apply digit_char_nonzero. lia.
    + apply Z.ltb_ge in Hlt.
      assert (Hq : 0 < n / 10 < 10 ^ Z.of_nat f).
      { split; [apply Z.div_str_pos; lia|].
        apply Z.div_lt_upper_bound; [lia|].
        replace (Z.of_nat (S f)) with (Z.of_nat f + 1) in Hn by lia.
        rewrite Z.pow_add_r in Hn by lia. lia. }
      destruct (IH (n / 10) (digit_char (n mod 10) :: acc) Hq) as [c [ds [Heq [Hc Hds]]]].
      exists c, (ds ++ [digit_char (n mod 10)]). split.
      * rewrite Heq, <- app_assoc. reflexivity.
      * split; [exact Hc|]. apply Forall_app. split; [exact Hds|].
        constructor; [|constructor].
        apply digit_char_is_digit, Z.mod_pos_bound. lia.
Qed.

Lemma dec_u_fuel (n : Z) : 0 < n -> n < 10 ^ Z.of_nat (S (Z.to_nat (Z.log2 n))).
Proof.
  intros Hn. pose proof (Z.log2_spec n Hn) as [_ Hlt].
  pose proof (Z.log2_nonneg n) as Hl.
  replace (Z.of_nat (S (Z.to_nat (Z.log2 n)))) with (Z.succ (Z.log2 n)) by lia.
  apply Z.lt_le_trans with (1 := Hlt).
  apply Z.pow_le_mono_l. lia.
Qed.

(** A printed natural number is its digits, without a leading zero. *)
Lemma dec_u_shape (n : Z) :
  0 <= n ->
  (n = 0 /\ dec_u n = ["0"%char])
  \/ (0 < n /\ exists c ds, dec_u n = c :: ds /\ is_nonzero_digit c = true
                            /\ Forall (fun c => is_digit c = true) ds).
Proof.
  intros Hn. destruct (Z.eq_dec n 0) as [-> | Hne]; [left; split; reflexivity|].
  right. split; [lia|].
  destruct (dec_digits_leading (S (Z.to_nat (Z.log2 n))) n [] ) as [c [ds [Heq [Hc Hds]]]].
  - split; [lia | apply dec_u_fuel; lia].
  - exists c, ds. unfold dec_u. rewrite Heq, app_nil_r. auto.
Qed.

Lemma nonzero_digit_is_digit (c : ascii) : is_nonzero_digit c = true -> is_digit c = true.
Proof. unfold is_nonzero_digit. intros H. now apply andb_prop in H. Qed.

Lemma dec_u_digits (n : Z) :
  0 <= n -> dec_u n <> [] /\ Forall (fun c => is_digit c = true) (dec_u n).
Proof.
  intros Hn. destruct (dec_u_shape n Hn) as [[-> ->] | [_ [c [ds [-> [Hc Hds]]]]]].
  - split; [discriminate | repeat constructor].
  - split; [discriminate|]. constructor; [now apply nonzero_digit_is_digit | exact Hds].
Qed.

Lemma Forall_digit_word (s : text) :
  Forall (fun c => is_digit c = true) s -> Forall (fun c => Json.is_word_char c = true) s.
Proof. apply Forall_impl. exact digit_is_word_char. Qed.

Lemma Forall_digit_plain (s : text) :
  Forall (fun c => is_digit c = true) s -> Forall (fun c => is_plain c = true) s.
Proof. apply Forall_impl. exact digit_is_plain. Qed.

(** *** Numbers of the JSON grammar *)

Lemma num_step_digit (c : ascii) :
  is_digit c = true ->
  Json.num_step Json.NInt c = Some Json.NInt
  /\ Json.num_step Json.NFrac c = Some Json.NFrac
  /\ Json.num_step Json.NDot c = Some Json.NFrac.
Proof. intros H. unfold Json.num_step. now rewrite H. Qed.

Lemma num_step_nonzero (c : ascii) :
  is_nonzero_digit c = true ->
  Json.num_step Json.NStart c = Some Json.NInt
  /\ Json.num_step Json.NMinus c = Some Json.NInt.
Proof.
  intros H.
  assert (H45 : negb (code c =? 45) = true)
    by (revert c H; apply ascii_implies; vm_compute; reflexivity).
  unfold is_nonzero_digit in H. apply andb_prop in H. destruct H as [Hd H48].
  apply negb_true_iff in H45, H48.
  unfold Json.num_step. now rewrite H45, H48, Hd.
Qed.

Lemma is_number_digits_int (ds rest : text) :
  Forall (fun c => is_digit c = true) ds ->
  Json.is_number_from Json.NInt (ds ++ rest) = Json.is_number_from Json.NInt rest.
Proof.
  induction 1 as [|c ds Hc _ IH]; [reflexivity|].
  cbn [app Json.is_number_from].
  destruct (num_step_digit c Hc) as [-> _]. exact IH.
Qed.

Lemma is_number_digits_frac (ds rest : text) :
  Forall (fun c => is_digit c = true) ds ->
  Json.is_number_from Json.NFrac (ds ++ rest) = Json.is_number_from Json.NFrac rest.
Proof.
  induction 1 as [|c ds Hc _ IH]; [reflexivity|].
  cbn [app Json.is_number_from].
  destruct (num_step_digit c Hc) as [_ [-> _]]. exact IH.
Qed.

(** After an optional minus sign, a printed natural number is the integer
    part of a JSON number. *)
Lemma is_number_dec_u (st : Json.num_state) (n : Z) (rest : text) :
  st = Json.NStart \/ st = Json.NMinus -> 0 <= n ->
  Json.is_number_from st (dec_u n ++ rest)
  = Json.is_number_from (if n =? 0 then Json.NZero else Json.NInt) rest.
Proof.
  intros Hst Hn. destruct (dec_u_shape n Hn) as [[-> ->] | [Hpos [c [ds [-> [Hc Hds]]]]]].
  - destruct Hst as [-> | ->]; reflexivity.
  - assert (Hz : (n =? 0) = false) by (apply Z.eqb_neq; lia). rewrite Hz.
    cbn [app Json.is_number_from].
    destruct (num_step_nonzero c Hc) as [H1 H2].
    destruct Hst as [-> | ->]; [rewrite H1 | rewrite H2];
      apply is_number_digits_int, Hds.
Qed.

Lemma is_number_not_literal (w : text) :
  Json.is_number w = true -> Json.value_of_word w = Some (Json.JSONNumber w).
Proof.
  intros H. unfold Json.value_of_word. rewrite H.
  destruct w as [|c w]; [discriminate|].
  assert (Hc : negb (Ascii.eqb c "t" || Ascii.eqb c "f" || Ascii.eqb c "n") = true).
  { unfold Json.is_number in H. cbn [Json.is_number_from] in H.
    destruct (Json.num_step Json.NStart c) eqn:Hs; [|discriminate].
    assert (G : forall c, (match Json.num_step Json.NStart c with
                           | Some _ => true | None => false end) = true ->
                          negb (Ascii.eqb c "t" || Ascii.eqb c "f" || Ascii.eqb c "n")
                          = true).
    { apply ascii_implies. vm_compute. reflexivity. }
    apply G. now rewrite Hs. }
  apply negb_true_iff in Hc.
  apply orb_false_elim in Hc. destruct Hc as [Hc Hn].
  apply orb_false_elim in Hc. destruct Hc as [Ht Hf].
  change (lit "true") with ("t"%char :: lit "rue").
  change (lit "false") with ("f"%char :: lit "alse").
  change (lit "null") with ("n"%char :: lit "ull").
  cbn [Json.text_eqb]. now rewrite Ht, Hf, Hn.
Qed.

Lemma lex_run_after_string (acc s : text) :
  hd_error s = Some quote ->
  lex_run (Json.LString acc) s
  = (Json.TString (rev acc) :: fst (lex_run Json.LDefault (tl s)),
     snd (lex_run Json.LDefault (tl s))).
Proof.
  destruct s as [|c s]; [discriminate|]. intros H. inversion H; subst c.
  rewrite lex_run_cons. cbn [tl].
  change (Json.lex_step (Json.LString acc) quote)
    with ([Json.TString (rev acc)], Some Json.LDefault).
  cbv iota beta. destruct (lex_run Json.LDefault s). reflexivity.
Qed.

Lemma lex_after_string (acc s : text) :
  hd_error s = Some quote ->
  Json.lex (Json.LString acc) s = Json.TString (rev acc) :: Json.lex Json.LDefault (tl s).
Proof.
  destruct s as [|c s]; [discriminate|]. intros H. inversion H; subst c. reflexivity.
Qed.

Lemma lex_run_after_word (acc s : text) (c : ascii) :
  hd_error s = Some c -> Json.is_word_char c = false ->
  lex_run (Json.LWord acc) s
  = (Json.TWord (rev acc) :: fst (lex_run Json.LDefault s),
     snd (lex_run Json.LDefault s)).
Proof.
  destruct s as [|c' s]; [discriminate|]. intros H Hc. inversion H; subst c'.
  rewrite !lex_run_cons. cbn [Json.lex_step]. rewrite Hc.
  destruct (Json.lex_default c) as [ts [st|]].
  - destruct (lex_run st s). reflexivity.
  - reflexivity.
Qed.

(** *** The pieces of the printed line *)

Lemma dec_u_plain (n : Z) : 0 <= n -> Forall (fun c => is_plain c = true) (dec_u n).
Proof. intros H. apply Forall_digit_plain, dec_u_digits, H. Qed.

Lemma dec_d_plain (n : Z) : Forall (fun c => is_plain c = true) (dec_d n).
Proof.
  unfold dec_d. destruct (n <? 0) eqn:Hn.
  - apply Z.ltb_lt in Hn. constructor; [reflexivity | apply dec_u_plain; lia].
  - apply Z.ltb_ge in Hn. apply dec_u_plain; lia.
Qed.

Lemma dec_02d_plain (n : Z) : Forall (fun c => is_plain c = true) (dec_02d n).
Proof.
  unfold dec_02d. destruct (List.length (dec_d n) <? 2)%nat.
  - constructor; [reflexivity | apply dec_d_plain].
  - apply dec_d_plain.
Qed.

Lemma strftime_iso_plain (t : tm_t) : Forall (fun c => is_plain c = true) (strftime_iso t).
Proof.
  unfold strftime_iso.
  repeat first
    [ apply Forall_app; split
    | apply dec_d_plain
    | apply dec_02d_plain
    | apply Forall_cons; [reflexivity|] ].
  apply Forall_forallb. vm_compute. reflexivity.
Qed.

Lemma encode_sextet_plain (n : Z) :
  0 <= n < 64 -> is_plain (Base64.encode_sextet n) = true.
Proof.
  revert n. apply (forallb_range (fun n => is_plain (Base64.encode_sextet n)) 64).
  vm_compute. reflexivity.
Qed.

Lemma base64_encode_plain (data : list Z) :
  Forall (fun c => is_plain c = true) (Base64.base64_encode data).
Proof.
  induction data as [ | a | a b | a b c l IH ] using list_ind3;
    cbn [Base64.base64_encode];
    repeat first
      [ exact IH
      | apply Forall_nil
      | apply Forall_cons; [first [apply encode_sextet_plain, sextet_range | reflexivity]|] ].
Qed.

Lemma fixed_digits_digits (k : nat) (n : Z) :
  Forall (fun c => is_digit c = true) (fixed_digits k n).
Proof.
  induction k as [|k IH]; cbn [fixed_digits]; constructor; [|exact IH].
  apply digit_char_is_digit, Z.mod_pos_bound. lia.
Qed.

Lemma round_half_even_nonneg (n d : Z) : 0 <= n -> 0 < d -> 0 <= round_half_even n d.
Proof.
  intros Hn Hd. unfold round_half_even.
  assert (0 <= n / d) by (apply Z.div_pos; lia).
  destruct (2 * (n mod d) ?= d); [destruct (Z.even (n / d))| |]; lia.
Qed.

(** The text that [%f] prints for a finite value is a JSON number. *)
Lemma printf_f_number (x : spec_float) :
  is_finite x = true ->
  Json.is_number (printf_f x) = true
  /\ printf_f x <> []
  /\ Forall (fun c => Json.is_word_char c = true) (printf_f x).
Proof.
  destruct x as [s|s| |s m e]; try discriminate; intros _.
  - destruct s; (split; [vm_compute; reflexivity|]); (split; [discriminate|]);
      apply Forall_forallb; vm_compute; reflexivity.
  - unfold printf_f.
    set (n := if 0 <=? e then Z.pos m * 2 ^ e * 1000000
              else round_half_even (Z.pos m * 1000000) (2 ^ (- e))).
    assert (Hn : 0 <= n).
    { subst n. destruct (0 <=? e) eqn:He.
      - apply Z.leb_le in He. assert (0 < 2 ^ e) by (apply Z.pow_pos_nonneg; lia). nia.
      - apply Z.leb_gt in He. apply round_half_even_nonneg; [lia|].
        apply Z.pow_pos_nonneg; lia. }
    assert (Hip : 0 <= n / 1000000) by (apply Z.div_pos; lia).
    pose proof (fixed_digits_digits 6 (n mod 1000000)) as Hfd.
    destruct (dec_u_digits _ Hip) as [Hne Hds].
    assert (Hnum : forall st, st = Json.NStart \/ st = Json.NMinus ->
               Json.is_number_from st
                 (dec_u (n / 1000000) ++ "."%char :: fixed_digits 6 (n mod 1000000)) = true).
    { intros st Hst. rewrite (is_number_dec_u st _ _ Hst Hip).
      assert (Hdot : forall ds, ds <> [] -> Forall (fun c => is_digit c = true) ds ->
                Json.is_number_from Json.NDot ds = true).
      { intros ds Hne' Hall. destruct Hall as [|d ds Hd Hrest]; [congruence|].
        cbn [Json.is_number_from]. destruct (num_step_digit d Hd) as [_ [_ ->]].
        rewrite <- (app_nil_r ds), (is_number_digits_frac ds [] Hrest). reflexivity. }
      assert (Hgo : Json.is_number_from Json.NDot (fixed_digits 6 (n mod 1000000)) = true)
        by (apply Hdot; [discriminate | exact Hfd]).
      destruct (n / 1000000 =? 0); exact Hgo. }
    assert (Hw : Forall (fun c => Json.is_word_char c = true)
                   (dec_u (n / 1000000) ++ "."%char :: fixed_digits 6 (n mod 1000000))).
    { apply Forall_app. split; [apply Forall_digit_word, Hds|].
      constructor; [reflexivity | apply Forall_digit_word, Hfd]. }
    destruct s; cbn [lit list_ascii_of_string app].
    + split; [|split; [discriminate|constructor; [vm_compute; reflexivity | exact Hw]]].
      unfold Json.is_number. cbn [Json.is_number_from].
      replace (Json.num_step Json.NStart "-"%char) with (Some Json.NMinus)
        by (vm_compute; reflexivity).
      apply Hnum. now right.
    + split; [apply Hnum; now left|]. split; [|exact Hw].
      destruct (dec_u (n / 1000000)); [congruence | discriminate].
Qed.

Lemma dec_u_number (n : Z) :
  0 <= n ->
  Json.is_number (dec_u n) = true
  /\ dec_u n <> []
  /\ Forall (fun c => Json.is_word_char c = true) (dec_u n).
Proof.
  intros Hn. destruct (dec_u_digits n Hn) as [Hne Hds].
  split; [|split; [exact Hne | apply Forall_digit_word, Hds]].
  unfold Json.is_number. rewrite <- (app_nil_r (dec_u n)).
  rewrite (is_number_dec_u Json.NStart n [] (or_introl eq_refl) Hn).
  now destruct (n =? 0).
Qed.

Lemma digits_value_dec_u (n : Z) :
  is_uint8 n -> Json.digits_value (dec_u n) 0 = Some n.
Proof.
  intros Hn.
  assert (H : (match Json.digits_value (dec_u n) 0 with
               | Some m => m =? n | None => false end) = true).
  { revert n Hn.
    apply (forallb_range (fun n => match Json.digits_value (dec_u n) 0 with
                                   | Some m => m =? n | None => false end) 256).
    vm_compute. reflexivity. }
  destruct (Json.digits_value (dec_u n) 0); [|discriminate].
  apply Z.eqb_eq in H. now subst.
Qed.

(** ** Send *)

Ltac compute_lex_run s :=
  let v := eval vm_compute in (lex_run Json.LDefault s) in
  replace (lex_run Json.LDefault s) with v by (vm_compute; reflexivity);
  cbn [fst snd app].

Lemma lex_rxpk_line (time w1 w2 w3 data : text) :
  Forall (fun c => is_plain c = true) time ->
  Forall (fun c => is_plain c = true) data ->
  w1 <> [] -> Forall (fun c => Json.is_word_char c = true) w1 ->
  w2 <> [] -> Forall (fun c => Json.is_word_char c = true) w2 ->
  w3 <> [] -> Forall (fun c => Json.is_word_char c = true) w3 ->
  Json.lex Json.LDefault
    (dq "{'rxpk':[{'time':'" ++ time ++ dq "', 'tmst':" ++ w1
       ++ dq ",'chan':2,'rfch':0,'freq':" ++ w2
       ++ dq ",'stat':1,'modu':'LORA','datr':'SF7BW125','codr':'4/6','rssi':-35,'lsnr':5.1,'size':"
       ++ w3 ++ dq ",'data':'" ++ data ++ dq "'}]}" ++ [CR; LF])
  = rxpk_tokens time w1 (lit "2") (lit "0") w2 (lit "1") (lit "-35") (lit "5.1") w3 data.
Proof.
  intros Ht Hd Hn1 Hw1 Hn2 Hw2 Hn3 Hw3.
  rewrite lex_app. compute_lex_run (dq "{'rxpk':[{'time':'").
  rewrite lex_app, (lex_run_string time [] Ht). cbn [fst snd app].
  rewrite lex_app, (lex_run_after_string _ (dq "', 'tmst':") eq_refl).
  compute_lex_run (tl (dq "', 'tmst':")).
  rewrite lex_app, (lex_run_word w1 Hn1 Hw1). cbn [fst snd app].
  rewrite lex_app,
    (lex_run_after_word _ (dq ",'chan':2,'rfch':0,'freq':") ","%char eq_refl eq_refl).
  compute_lex_run (dq ",'chan':2,'rfch':0,'freq':").
  rewrite lex_app, (lex_run_word w2 Hn2 Hw2). cbn [fst snd app].
  rewrite lex_app,
    (lex_run_after_word _
       (dq ",'stat':1,'modu':'LORA','datr':'SF7BW125','codr':'4/6','rssi':-35,'lsnr':5.1,'size':")
       ","%char eq_refl eq_refl).
  compute_lex_run
    (dq ",'stat':1,'modu':'LORA','datr':'SF7BW125','codr':'4/6','rssi':-35,'lsnr':5.1,'size':").
  rewrite lex_app, (lex_run_word w3 Hn3 Hw3). cbn [fst snd app].
  rewrite lex_app, (lex_run_after_word _ (dq ",'data':'") ","%char eq_refl eq_refl).
  compute_lex_run (dq ",'data':'").
  rewrite lex_app, (lex_run_string data [] Hd). cbn [fst snd app].
  rewrite (lex_after_string _ (dq "'}]}" ++ [CR; LF]) eq_refl).
  replace (Json.lex Json.LDefault (tl (dq "'}]}" ++ [CR; LF])))
    with [Json.TRBrace; Json.TRBracket; Json.TRBrace] by (vm_compute; reflexivity).
  rewrite !app_nil_r, !rev_involutive. reflexivity.
Qed.

Lemma parse_value_word (f : nat) (w : text) (v : Json.JSON_Value) (r : list Json.token) :
  Json.value_of_word w = Some v ->
  Json.parse_value (S f) (Json.TWord w :: r) = Some (v, r).
Proof. intros H. cbn [Json.parse_value]. now rewrite H. Qed.

Lemma parse_value_string (f : nat) (s : text) (r : list Json.token) :
  Json.parse_value (S f) (Json.TString s :: r) = Some (Json.JSONString s, r).
Proof. reflexivity. Qed.

Lemma parse_members_comma (f : nat) (k : text) (v : Json.JSON_Value)
    (r r' : list Json.token) (acc : list (text * Json.JSON_Value)) :
  Json.parse_value f r = Some (v, Json.TComma :: r') ->
  Json.lookup k acc = None ->
  Json.parse_members (S f) (Json.TString k :: Json.TColon :: r) acc
  = Json.parse_members f r' ((k, v) :: acc).
Proof. intros Hv Hl. cbn [Json.parse_members]. now rewrite Hv, Hl. Qed.

Lemma parse_members_end (f : nat) (k : text) (v : Json.JSON_Value)
    (r r' : list Json.token) (acc : list (text * Json.JSON_Value)) :
  Json.parse_value f r = Some (v, Json.TRBrace :: r') ->
  Json.lookup k acc = None ->
  Json.parse_members (S f) (Json.TString k :: Json.TColon :: r) acc
  = Some (Json.JSONObject (rev ((k, v) :: acc)), r').
Proof. intros Hv Hl. cbn [Json.parse_members]. now rewrite Hv, Hl. Qed.

Lemma parse_value_object (f : nat) (k : text) (r : list Json.token) :
  Json.parse_value (S f) (Json.TLBrace :: Json.TString k :: r)
  = Json.parse_members f (Json.TString k :: r) [].
Proof. reflexivity. Qed.

Lemma parse_value_array1 (f : nat) (v : Json.JSON_Value) (r r' : list Json.token) :
  Json.parse_value f (Json.TLBrace :: r) = Some (v, Json.TRBracket :: r') ->
  Json.parse_value (S (S f)) (Json.TLBracket :: Json.TLBrace :: r)
  = Some (Json.JSONArray [v], r').
Proof. intros H. cbn [Json.parse_value Json.parse_items]. now rewrite H. Qed.

Ltac member_word H :=
  erewrite parse_members_comma;
  [ | apply parse_value_word; exact H | vm_compute; reflexivity ].

Ltac member_string :=
  erewrite parse_members_comma;
  [ | apply parse_value_string | vm_compute; reflexivity ].

Lemma parse_rxpk_tokens (time w1 w2 w3 w4 w5 w6 w7 w8 data : text) :
  Json.value_of_word w1 = Some (Json.JSONNumber w1) ->
  Json.value_of_word w2 = Some (Json.JSONNumber w2) ->
  Json.value_of_word w3 = Some (Json.JSONNumber w3) ->
  Json.value_of_word w4 = Some (Json.JSONNumber w4) ->
  Json.value_of_word w5 = Some (Json.JSONNumber w5) ->
  Json.value_of_word w6 = Some (Json.JSONNumber w6) ->
  Json.value_of_word w7 = Some (Json.JSONNumber w7) ->
  Json.value_of_word w8 = Some (Json.JSONNumber w8) ->
  Json.parse_value (S (List.length (rxpk_tokens time w1 w2 w3 w4 w5 w6 w7 w8 data)))
    (rxpk_tokens time w1 w2 w3 w4 w5 w6 w7 w8 data)
  = Some (Json.JSONObject
            [ (lit "rxpk",
               Json.JSONArray
                 [ Json.JSONObject (rxpk_members time w1 w2 w3 w4 w5 w6 w7 w8 data) ]) ],
          []).
Proof.
  intros H1 H2 H3 H4 H5 H6 H7 H8.
  unfold rxpk_tokens, rxpk_members. cbn [List.length].
  rewrite parse_value_object.
  erewrite parse_members_end; [reflexivity | | reflexivity].
  apply parse_value_array1.
  rewrite parse_value_object.
  member_string. member_word H1. member_word H2. member_word H3. member_word H4.
  member_word H5. member_string. member_string. member_string.
  member_word H6. member_word H7. member_word H8.
  erewrite parse_members_end;
    [reflexivity | apply parse_value_string | vm_compute; reflexivity].
Qed.

Lemma Forall_firstn {A : Type} (P : A -> Prop) (n : nat) (l : list A) :
  Forall P l -> Forall P (firstn n l).
Proof.
  intros H. rewrite <- (firstn_skipn n l) in H. apply Forall_app in H. tauto.
Qed.

Lemma skipn_app_length {A : Type} (l r : list A) : skipn (List.length l) (l ++ r) = r.
Proof. induction l as [|x l IH]; [reflexivity | exact IH]. Qed.

Lemma new_events_emit1 (w : World) (e1 : event) : new_events w (emit e1 w) = [e1].
Proof. unfold new_events, emit. cbn [trace]. apply skipn_app_length. Qed.

Lemma new_events_emit2 (w : World) (e1 e2 : event) :
  new_events w (emit e2 (emit e1 w)) = [e1; e2].
Proof.
  unfold new_events, emit. cbn [trace]. rewrite <- app_assoc. apply skipn_app_length.
Qed.

Lemma new_events_emit3 (w : World) (e1 e2 e3 : event) :
  new_events w (emit e3 (emit e2 (emit e1 w))) = [e1; e2; e3].
Proof.
  unfold new_events, emit. cbn [trace]. rewrite <- !app_assoc. apply skipn_app_length.
Qed.

Lemma plain_not_LF (s : text) : Forall (fun c => is_plain c = true) s -> ~ In LF s.
Proof.
  intros H Hin. rewrite Forall_forall in H. specialize (H LF Hin). discriminate.
Qed.

Lemma closed_not_LF (s : text) :
  forallb (fun c => negb (Ascii.eqb c LF)) s = true -> ~ In LF s.
Proof.
  intros H Hin. rewrite forallb_forall in H. specialize (H LF Hin).
  rewrite Ascii.eqb_refl in H. discriminate.
Qed.

Lemma one_line_app (a b : text) : ~ In LF a -> one_line b -> one_line (a ++ b).
Proof.
  intros Ha [body [-> Hb]]. exists (a ++ body). split; [apply app_assoc|].
  intros Hin. apply in_app_or in Hin. tauto.
Qed.

Lemma word_not_LF (s : text) : Forall (fun c => Json.is_word_char c = true) s -> ~ In LF s.
Proof.
  intros H. apply plain_not_LF. revert H. apply Forall_impl. exact word_char_is_plain.
Qed.

Lemma rxpk_line_one_line (time w1 w2 w3 data : text) :
  Forall (fun c => is_plain c = true) time ->
  Forall (fun c => is_plain c = true) data ->
  Forall (fun c => Json.is_word_char c = true) w1 ->
  Forall (fun c => Json.is_word_char c = true) w2 ->
  Forall (fun c => Json.is_word_char c = true) w3 ->
  one_line
    (dq "{'rxpk':[{'time':'" ++ time ++ dq "', 'tmst':" ++ w1
       ++ dq ",'chan':2,'rfch':0,'freq':" ++ w2
       ++ dq ",'stat':1,'modu':'LORA','datr':'SF7BW125','codr':'4/6','rssi':-35,'lsnr':5.1,'size':"
       ++ w3 ++ dq ",'data':'" ++ data ++ dq "'}]}" ++ [CR; LF]).
Proof.
  intros Ht Hd H1 H2 H3.
  repeat first
    [ apply one_line_app;
      [ first [ apply plain_not_LF; assumption
              | apply word_not_LF; assumption
              | apply closed_not_LF; vm_compute; reflexivity ] | ] ].
  exists [CR]. split; [reflexivity|].
  apply closed_not_LF. vm_compute. reflexivity.
Qed.

Lemma get_integer_lookup (members : Json.JSON_Object) (name w : text) :
  Json.lookup name members = Some (Json.JSONNumber w) -> w <> [] ->
  Json.json_object_get_integer (Some members) name = Json.digits_value w 0.
Proof.
  intros Hl Hw. unfold Json.json_object_get_integer, Json.json_object_get_value.
  rewrite Hl. destruct w; [congruence | reflexivity].
Qed.

Lemma tmst_nonneg (tv : timeval) : 0 <= tmst_of tv.
Proof. unfold tmst_of, uint32, wrap. apply Z.mod_pos_bound. reflexivity. Qed.

(** C5.  On a driver that was initialised with a TxDone callback and
    whose frequency is a finite number, for every buffer of bytes and
    every size within it, [RadioSend] returns after exactly one write to
    the output followed by exactly one call of TxDone; the text written is
    one line, it parses as a JSON document {rxpk: [ {...} ]}, the data
    member of that object base64-decodes back to the first [size] bytes
    of the buffer, and its size member is [size]. *)
Theorem Send_TxDone_and_json (now : tm_t) (tv : timeval) (buffer : list Z) (size : Z)
    (w : World) (ev : RadioEvents_t)
    (Hev : RadioEvents w = Some ev) (Hcb : cb_TxDone ev = true)
    (Hfreq : is_finite (frequency (radio w)) = true)
    (Hsize : is_uint8 size) (Hbuf : size <= Z.of_nat (List.length buffer))
    (Hbytes : Forall is_byte buffer) :
  exists w' line members data,
    RadioSend now tv buffer size w = Returned w'
    /\ new_events w w' = [Ev_printf line; Ev_TxDone]
    /\ calls is_TxDone (new_events w w') = 1%nat
    /\ calls is_printf (new_events w w') = 1%nat
    /\ one_line line
    /\ Json.json_parse_string line
       = Some (Json.JSONObject [(lit "rxpk", Json.JSONArray [Json.JSONObject members])])
    /\ Json.json_object_get_string (Some members) (lit "data") = Some data
    /\ Base64.base64_decode data = Some (firstn (Z.to_nat size) buffer)
    /\ Json.json_object_get_integer (Some members) (lit "size") = Some size.
Proof.
  set (time := strftime_iso now).
  set (data := Base64.base64_encode (firstn (Z.to_nat size) buffer)).
  set (w1 := dec_u (tmst_of tv)).
  set (w2 := printf_f (frequency (radio w))).
  set (w3 := dec_u size).
  set (line := rxpk_line time (tmst_of tv) (frequency (radio w)) size data).
  assert (Ht : Forall (fun c => is_plain c = true) time) by apply strftime_iso_plain.
  assert (Hd : Forall (fun c => is_plain c = true) data) by apply base64_encode_plain.
  destruct (dec_u_number (tmst_of tv) (tmst_nonneg tv)) as [N1 [E1 W1]].
  destruct (printf_f_number _ Hfreq) as [N2 [E2 W2]].
  destruct (dec_u_number size (proj1 Hsize)) as [N3 [E3 W3]].
  fold w1 in N1, E1, W1. fold w2 in N2, E2, W2. fold w3 in N3, E3, W3.
  exists (emit Ev_TxDone (emit (Ev_printf line) w)), line,
    (rxpk_members time w1 (lit "2") (lit "0") w2 (lit "1") (lit "-35") (lit "5.1") w3 data),
    data.
  split.
  { unfold RadioSend.
    assert (Hlt : (Z.of_nat (List.length buffer) <? size) = false) by (apply Z.ltb_ge; lia).
    rewrite Hlt. unfold call_event. cbn [emit RadioEvents]. rewrite Hev, Hcb. reflexivity. }
  rewrite new_events_emit2.
  split; [reflexivity|]. split; [reflexivity|]. split; [reflexivity|].
  split; [apply rxpk_line_one_line; assumption|].
  split.
  { unfold Json.json_parse_string, line, rxpk_line. fold w1 w2 w3.
    rewrite (lex_rxpk_line time w1 w2 w3 data Ht Hd E1 W1 E2 W2 E3 W3).
    rewrite parse_rxpk_tokens;
      [reflexivity | try (apply is_number_not_literal; first [assumption | vm_compute; reflexivity]) ..]. }
  split; [reflexivity|].
  split.
  { apply base64_decode_encode, Forall_firstn, Hbytes. }
  assert (Hdv : Json.digits_value w3 0 = Some size) by apply digits_value_dec_u, Hsize.
  clearbody w1 w2 w3 time data.
  rewrite <- Hdv. apply get_integer_lookup; [reflexivity | exact E3].
Qed.

Lemma Send_TxDone_and_json_witness :
  exists w' line members data,
    RadioSend sample_tm sample_tv hello 5 (sample_world []) = Returned w'
    /\ new_events (sample_world []) w' = [Ev_printf line; Ev_TxDone]
    /\ calls is_TxDone (new_events (sample_world []) w') = 1%nat
    /\ calls is_printf (new_events (sample_world []) w') = 1%nat
    /\ one_line line
    /\ Json.json_parse_string line
       = Some (Json.JSONObject [(lit "rxpk", Json.JSONArray [Json.JSONObject members])])
    /\ Json.json_object_get_string (Some members) (lit "data") = Some data
    /\ Base64.base64_decode data = Some (firstn (Z.to_nat 5) hello)
    /\ Json.json_object_get_integer (Some members) (lit "size") = Some 5.
Proof.
  apply (Send_TxDone_and_json sample_tm sample_tv hello 5 (sample_world [])
           all_callbacks).
  - reflexivity.
  - reflexivity.
  - reflexivity.
  - unfold is_uint8. lia.
  - vm_compute. discriminate.
  - repeat constructor; unfold is_byte; lia.
Defined.

(** The line that the driver prints for the five bytes of Hello. *)
Lemma Send_hello_trace :
  exists w',
    RadioSend sample_tm sample_tv hello 5 (sample_world []) = Returned w'
    /\ trace w'
       = [ Ev_printf
             (dq "{'rxpk':[{'time':'2026-10-30T09:05:07.000000Z', 'tmst':2348637691,'chan':2,'rfch':0,'freq':868.099976,'stat':1,'modu':'LORA','datr':'SF7BW125','codr':'4/6','rssi':-35,'lsnr':5.1,'size':5,'data':'SGVsbG8='}]}"
                ++ [CR; LF]);
           Ev_TxDone ].
Proof. eexists. split; vm_compute; reflexivity. Qed.

(** ** Rx *)

Lemma firstn_store (data buf : list Z) :
  firstn (Z.to_nat (Z.of_nat (List.length data))) (store data buf) = data.
Proof.
  unfold store. rewrite Nat2Z.id.
  rewrite firstn_app, Nat.sub_diag, firstn_all. cbn [firstn]. apply app_nil_r.
Qed.

Lemma fgets_chars_one_line (n : nat) (body rest : text) :
  ~ In LF body -> (List.length body < n)%nat ->
  fgets_chars n (body ++ LF :: rest) = (body ++ [LF], rest).
Proof.
  revert n. induction body as [|c body IH]; intros n Hno Hlen.
  - destruct n as [|n]; [cbn in Hlen; lia|]. reflexivity.
  - destruct n as [|n]; [cbn in Hlen; lia|].
    cbn [app fgets_chars].
    destruct (Ascii.eqb c LF) eqn:Hc.
    + apply Ascii.eqb_eq in Hc. subst c. exfalso. apply Hno. now left.
    + rewrite (IH n); [reflexivity | | cbn [List.length] in Hlen; lia].
      intros H. apply Hno. now right.
Qed.

Lemma fgets_chars_last_line (n : nat) (line : text) :
  ~ In LF line -> fgets_chars n line = (firstn n line, skipn n line).
Proof.
  revert n. induction line as [|c line IH]; intros n Hno.
  - destruct n; reflexivity.
  - destruct n as [|n]; [reflexivity|].
    cbn [fgets_chars firstn skipn].
    destruct (Ascii.eqb c LF) eqn:Hc.
    + apply Ascii.eqb_eq in Hc. subst c. exfalso. apply Hno. now left.
    + rewrite (IH n); [reflexivity|]. intros H. apply Hno. now right.
Qed.

Lemma fgets_first_line (line rest : text) :
  first_line line rest -> (List.length line <= 1023)%nat ->
  fgets 1024 (line ++ rest) = Some (line, rest).
Proof.
  intros Hfirst Hlen. unfold fgets.
  assert (Hn : (1024 - 1 = 1023)%nat) by reflexivity.
  revert Hn. generalize (1024 - 1)%nat. intros n Hn. subst n.
  destruct Hfirst as [[body [-> Hno]] | [Hne [Hno ->]]].
  - rewrite length_app in Hlen. cbn [List.length] in Hlen.
    rewrite <- app_assoc. cbn [app].
    rewrite fgets_chars_one_line by (assumption || lia).
    destruct body; reflexivity.
  - rewrite app_nil_r. rewrite fgets_chars_last_line by assumption.
    rewrite firstn_all2 by lia. rewrite skipn_all2 by lia.
    destruct line; [congruence | reflexivity].
Qed.

(** C6 (as amended).  On a driver initialised with an RxDone callback, for
    every input line of at most 1023 characters, its line feed included,
    that parses as a JSON object with a txpk sub-object whose data member
    is a base64 string of at most 512 decoded bytes, [RadioRx] reads the
    line and calls RxDone exactly once, with the decoded bytes, their
    number, rssi -110 and snr 5, and does not call RxTimeout. *)
Theorem Rx_delivers_payload (timeout : Z) (w : World) (line rest : text)
    (root : Json.JSON_Value) (txpk_obj : Json.JSON_Object) (str : text)
    (bytes : list Z) (ev : RadioEvents_t)
    (Hin : stdin w = line ++ rest)
    (Hfirst : first_line line rest)
    (Hlen : (List.length line <= 1023)%nat)
    (Hroot : Json.json_parse_string (cstring line) = Some root)
    (Htxpk : Json.json_object_get_object (Json.json_value_get_object (Some root))
               (lit "txpk") = Some txpk_obj)
    (Hdata : Json.json_object_get_string (Some txpk_obj) (lit "data") = Some str)
    (Hb64 : Base64.base64_decode (cstring str) = Some bytes)
    (Hfits : Z.of_nat (List.length bytes) <= rx_buffer_size)
    (Hev : RadioEvents w = Some ev) (Hcb : cb_RxDone ev = true) :
  exists w',
    RadioRx timeout 1 w = Returned w'
    /\ new_events w w'
       = [ Ev_printf (lit "Radio Rx with timeout " ++ dec_u timeout ++ [CR; LF]);
           Ev_PrintHexBuffer bytes;
           Ev_RxDone bytes (Z.of_nat (List.length bytes)) (-110) 5 ]
    /\ calls is_RxDone (new_events w w') = 1%nat
    /\ calls is_RxTimeout (new_events w w') = 0%nat
    /\ firstn (List.length bytes) (rx_buffer w') = bytes
    /\ stdin w' = rest.
Proof.
  pose proof (fgets_first_line line rest Hfirst Hlen) as Hline.
  rewrite <- Hin in Hline.
  unfold RadioRx. cbn [negb Z.eqb Pos.eqb emit stdin]. rewrite Hline.
  cbn [radio RadioEvents rx_buffer stdin trace].
  rewrite Hroot, Htxpk, Hdata, Hb64.
  assert (Hlt : (rx_buffer_size <? Z.of_nat (List.length bytes)) = false)
    by (apply Z.ltb_ge; exact Hfits).
  rewrite Hlt. cbn [rx_buffer]. rewrite firstn_store.
  unfold call_event. cbn [emit RadioEvents]. rewrite Hev, Hcb.
  assert (Hu : uint16 (Z.of_nat (List.length bytes)) = Z.of_nat (List.length bytes)).
  { unfold uint16, wrap. apply Z.mod_small. unfold rx_buffer_size in Hfits. lia. }
  rewrite Hu.
  eexists. split; [reflexivity|].
  split.
  { unfold new_events, emit. cbn [trace]. rewrite <- !app_assoc. apply skipn_app_length. }
  split.
  { unfold new_events, emit. cbn [trace]. rewrite <- !app_assoc, skipn_app_length. reflexivity. }
  split.
  { unfold new_events, emit. cbn [trace]. rewrite <- !app_assoc, skipn_app_length. reflexivity. }
  split; [|reflexivity].
  unfold emit. cbn [rx_buffer].
  rewrite <- (Nat2Z.id (List.length bytes)) at 1. apply firstn_store.
Qed.

Lemma txpk_line_one_line (data : text) :
  forallb is_plain data = true -> one_line (txpk_line data).
Proof.
  intros H. unfold txpk_line. rewrite !app_assoc.
  eexists. split; [reflexivity|].
  intros Hin. apply in_app_or in Hin. destruct Hin as [Hin|Hin].
  - apply in_app_or in Hin. destruct Hin as [Hin|Hin].
    + cbn in Hin. repeat (destruct Hin as [Hin|Hin]; [discriminate Hin|]). exact Hin.
    + rewrite forallb_forall in H. specialize (H LF Hin). discriminate H.
  - cbn in Hin. repeat (destruct Hin as [Hin|Hin]; [discriminate Hin|]). exact Hin.
Qed.

Lemma Rx_delivers_payload_witness :
  exists w',
    RadioRx 3000 1 (sample_world (txpk_line (lit "SGVsbG8="))) = Returned w'
    /\ new_events (sample_world (txpk_line (lit "SGVsbG8="))) w'
       = [ Ev_printf (lit "Radio Rx with timeout 3000" ++ [CR; LF]);
           Ev_PrintHexBuffer hello;
           Ev_RxDone hello 5 (-110) 5 ]
    /\ hello = map code (lit "Hello").
Proof.
  destruct (Rx_delivers_payload 3000 (sample_world (txpk_line (lit "SGVsbG8=")))
              (txpk_line (lit "SGVsbG8=")) []
              (Json.JSONObject
                 [(lit "txpk", Json.JSONObject [(lit "data", Json.JSONString (lit "SGVsbG8="))])])
              [(lit "data", Json.JSONString (lit "SGVsbG8="))]
              (lit "SGVsbG8=") hello all_callbacks)
    as [w' [H1 [H2 _]]]; try (vm_compute; reflexivity).
  - left. apply txpk_line_one_line. reflexivity.
  - vm_compute. lia.
  - vm_compute. discriminate.
  - exists w'. split; [exact H1|]. split; [exact H2 | reflexivity].
Defined.

(** A data member written with an escape by code point is delivered as
    well: backslash u0053 stands for the letter S. *)
Lemma Rx_delivers_escaped_payload :
  exists w',
    RadioRx 3000 1
      (sample_world (dq "{'txpk':{'data':'\u0053GVsbG8='}}" ++ [LF])) = Returned w'
    /\ new_events
         (sample_world (dq "{'txpk':{'data':'\u0053GVsbG8='}}" ++ [LF])) w'
       = [ Ev_printf (lit "Radio Rx with timeout 3000" ++ [CR; LF]);
           Ev_PrintHexBuffer hello;
           Ev_RxDone hello 5 (-110) 5 ].
Proof. eexists. split; vm_compute; reflexivity. Qed.

(** C6, counterexample.  A line whose data member is 688 base64
    characters decodes to 516 bytes; it parses as the claim requires, and
    [RadioRx] writes beyond the 512 bytes of [rx_buffer]: the call has no
    defined behaviour, and no RxDone call with the decoded bytes is
    reached.  And a line of 1029 characters, which parses as the claim
    requires and carries five bytes, is read up to its 1023rd character
    only: that piece does not parse, RxTimeout is called, and the rest of
    the line stays in the input. *)
Lemma Rx_payload_not_delivered :
  (Json.json_object_get_string
     (Json.json_object_get_object
        (Json.json_value_get_object
           (Json.json_parse_string (cstring (txpk_line (repeat "A"%char 688)))))
        (lit "txpk"))
     (lit "data") = Some (repeat "A"%char 688)
   /\ Base64.base64_decode (repeat "A"%char 688) = Some (repeat 0 516)
   /\ fgets 1024 (txpk_line (repeat "A"%char 688))
      = Some (txpk_line (repeat "A"%char 688), [])
   /\ RadioRx 3000 1 (sample_world (txpk_line (repeat "A"%char 688))) = Undefined)
  /\ (List.length long_txpk_line = 1029%nat
      /\ Json.json_object_get_string
           (Json.json_object_get_object
              (Json.json_value_get_object
                 (Json.json_parse_string (cstring long_txpk_line)))
              (lit "txpk"))
           (lit "data") = Some (lit "SGVsbG8=")
      /\ Base64.base64_decode (lit "SGVsbG8=") = Some hello
      /\ exists w',
           RadioRx 3000 1 (sample_world long_txpk_line) = Returned w'
           /\ new_events (sample_world long_txpk_line) w'
              = [ Ev_printf (lit "Radio Rx with timeout 3000" ++ [CR; LF]);
                  Ev_RxTimeout ]
           /\ stdin w' = dq "8='}}" ++ [LF]).
Proof.
  split; [repeat split; vm_compute; reflexivity|].
  split; [vm_compute; reflexivity|].
  split; [vm_compute; reflexivity|].
  split; [vm_compute; reflexivity|].
  eexists. split; [vm_compute; reflexivity|].
  split; vm_compute; reflexivity.
Qed.

(** C7.  On a driver initialised with an RxTimeout callback, for every
    input line that fails to parse as JSON, or parses to an object without
    a txpk member, [RadioRx] calls RxTimeout exactly once and does not
    call RxDone. *)
Theorem Rx_timeout_without_txpk (timeout : Z) (w : World) (line rest : text)
    (ev : RadioEvents_t)
    (Hline : fgets 1024 (stdin w) = Some (line, rest))
    (Hdoc : Json.json_parse_string (cstring line) = None
            \/ exists members,
                 Json.json_parse_string (cstring line) = Some (Json.JSONObject members)
                 /\ Json.lookup (lit "txpk") members = None)
    (Hev : RadioEvents w = Some ev) (Hcb : cb_RxTimeout ev = true) :
  exists w',
    RadioRx timeout 1 w = Returned w'
    /\ new_events w w'
       = [ Ev_printf (lit "Radio Rx with timeout " ++ dec_u timeout ++ [CR; LF]);
           Ev_RxTimeout ]
    /\ calls is_RxTimeout (new_events w w') = 1%nat
    /\ calls is_RxDone (new_events w w') = 0%nat
    /\ stdin w' = rest.
Proof.
  unfold RadioRx. cbn [negb Z.eqb Pos.eqb emit stdin]. rewrite Hline.
  cbn [radio RadioEvents rx_buffer stdin trace].
  assert (Hno : Json.json_object_get_object
                  (Json.json_value_get_object (Json.json_parse_string (cstring line)))
                  (lit "txpk") = None).
  { destruct Hdoc as [-> | [members [-> Hl]]]; [reflexivity|].
    unfold Json.json_object_get_object, Json.json_object_get_value.
    cbn [Json.json_value_get_object]. now rewrite Hl. }
  rewrite Hno. unfold call_event. cbn [emit RadioEvents]. rewrite Hev, Hcb.
  eexists. split; [reflexivity|].
  unfold new_events, emit. cbn [trace]. rewrite <- !app_assoc, skipn_app_length.
  repeat split.
Qed.

Lemma Rx_timeout_without_txpk_witness :
  exists w',
    RadioRx 3000 1 (sample_world (dq "{'foo':1}" ++ [LF])) = Returned w'
    /\ new_events (sample_world (dq "{'foo':1}" ++ [LF])) w'
       = [ Ev_printf (lit "Radio Rx with timeout 3000" ++ [CR; LF]); Ev_RxTimeout ]
    /\ Json.json_parse_string (dq "{'foo':1}" ++ [LF])
       = Some (Json.JSONObject [(lit "foo", Json.JSONNumber (lit "1"))]).
Proof.
  destruct (Rx_timeout_without_txpk 3000 (sample_world (dq "{'foo':1}" ++ [LF]))
              (dq "{'foo':1}" ++ [LF]) [] all_callbacks)
    as [w' [H1 [H2 _]]]; try (vm_compute; reflexivity).
  - right. exists [(lit "foo", Json.JSONNumber (lit "1"))].
    split; vm_compute; reflexivity.
  - exists w'. split; [exact H1|]. split; [exact H2 | vm_compute; reflexivity].
Defined.

(** A line that is not JSON at all times out as well. *)
Lemma Rx_timeout_on_garbage :
  Json.json_parse_string (lit "hello, world") = None
  /\ exists w',
       RadioRx 3000 1 (sample_world (lit "hello, world" ++ [LF])) = Returned w'
       /\ new_events (sample_world (lit "hello, world" ++ [LF])) w'
          = [ Ev_printf (lit "Radio Rx with timeout 3000" ++ [CR; LF]); Ev_RxTimeout ].
Proof.
  split; [vm_compute; reflexivity|].
  eexists. split; vm_compute; reflexivity.
Qed.

(** ** The rounding of IEEE-754 binary64 arithmetic *)

(** *** Digits of a mantissa *)
Lemma digits2_pos_bounds (m : positive) :
  2 ^ (Zpos (digits2_pos m) - 1) <= Zpos m < 2 ^ Zpos (digits2_pos m).
Proof.
  induction m as [m IH | m IH | ]; cbn [digits2_pos].
  - rewrite Pos2Z.inj_succ.
    replace (Z.succ (Z.pos (digits2_pos m)) - 1) with (Z.succ (Z.pos (digits2_pos m) - 1)) by lia.
    rewrite !Z.pow_succ_r by lia. lia.
  - rewrite Pos2Z.inj_succ.
    replace (Z.succ (Z.pos (digits2_pos m)) - 1) with (Z.succ (Z.pos (digits2_pos m) - 1)) by lia.
    rewrite !Z.pow_succ_r by lia. lia.
  - simpl. lia.
Qed.

Lemma digits2_pos_le (m : positive) (k : Z) :
  Zpos m < 2 ^ k -> Zpos (digits2_pos m) <= k.
Proof.
  intros H. pose proof (digits2_pos_bounds m) as [Hlo _].
  destruct (Z.le_gt_cases (Zpos (digits2_pos m)) k) as [|Hgt]; [assumption|].
  assert (2 ^ k <= 2 ^ (Zpos (digits2_pos m) - 1)) by (apply Z.pow_le_mono_r; lia).
  lia.
Qed.

Lemma digits2_pos_unique (m : positive) (k : Z) :
  2 ^ (k - 1) <= Zpos m < 2 ^ k -> Zpos (digits2_pos m) = k.
Proof.
  intros [Hlo Hhi]. pose proof (digits2_pos_bounds m) as [Hlo' Hhi'].
  assert (0 < k).
  { destruct (Z.lt_ge_cases 0 k); [assumption|].
    assert (2 ^ k <= 2 ^ 0) by (apply Z.pow_le_mono_r; lia). simpl in *. lia. }
  assert (Zpos (digits2_pos m) <= k) by (apply digits2_pos_le; assumption).
  destruct (Z.eq_dec (Zpos (digits2_pos m)) k); [assumption|].
  assert (2 ^ Zpos (digits2_pos m) <= 2 ^ (k - 1)) by (apply Z.pow_le_mono_r; lia).
  lia.
Qed.

(** *** Shifting a mantissa right *)
Lemma iter_pos_nat {A : Type} (f : A -> A) (p : positive) (x : A) :
  iter_pos f p x = Nat.iter (Pos.to_nat p) f x.
Proof.
  revert x. induction p as [p IH | p IH | ]; intros x; cbn [iter_pos].
  - rewrite !IH, Pos2Nat.inj_xI.
    replace (S (2 * Pos.to_nat p)) with (Pos.to_nat p + (Pos.to_nat p + 1))%nat by lia.
    rewrite !Nat.iter_add. reflexivity.
  - rewrite !IH, Pos2Nat.inj_xO.
    replace (2 * Pos.to_nat p)%nat with (Pos.to_nat p + Pos.to_nat p)%nat by lia.
    rewrite Nat.iter_add. reflexivity.
  - reflexivity.
Qed.

Lemma shr_1_spec (mrs : shr_record) :
  0 <= shr_m mrs ->
  shr_1 mrs = {| shr_m := shr_m mrs / 2; shr_r := Z.odd (shr_m mrs);
                 shr_s := shr_r mrs || shr_s mrs |}.
Proof.
  destruct mrs as [m r s]. cbn [shr_m shr_r shr_s]. intros Hm.
  destruct m as [|[p|p|]|p]; try lia; unfold shr_1; f_equal;
    try reflexivity.
  - rewrite Pos2Z.pos_xI. apply (Z.div_unique _ _ _ 1); lia.
  - rewrite Pos2Z.pos_xO. apply (Z.div_unique _ _ _ 0); lia.
Qed.

Lemma shr_inv_step (m n : Z) (mrs : shr_record) :
  0 <= m -> 0 <= n -> shr_inv m n mrs -> shr_inv m (n + 1) (shr_1 mrs).
Proof.
  intros Hm Hn [Hq [Hr Hs]].
  assert (Hp : 0 < 2 ^ n) by (apply Z.pow_pos_nonneg; lia).
  assert (Hq0 : 0 <= shr_m mrs) by (rewrite Hq; apply Z.div_pos; lia).
  rewrite (shr_1_spec mrs Hq0). unfold shr_inv. cbn [shr_m shr_r shr_s].
  rewrite Hq, Hr, Hs. clear Hq Hr Hs Hq0.
  rewrite Z.pow_add_r, Z.pow_1_r by lia.
  pose proof (Z.div_mod m (2 ^ n) ltac:(lia)) as Hdm.
  pose proof (Z.mod_pos_bound m (2 ^ n) Hp) as Hrem.
  set (q := m / 2 ^ n) in *. set (rem := m mod 2 ^ n) in *.
  pose proof (Z.div_mod q 2 ltac:(lia)) as Hq2.
  pose proof (Z.mod_pos_bound q 2 ltac:(lia)) as Hb2.
  assert (Hdiv : m / (2 ^ n * 2) = q / 2).
  { subst q. rewrite Z.div_div by lia. reflexivity. }
  assert (Hmod : m mod (2 ^ n * 2) = rem + (q mod 2) * 2 ^ n).
  { symmetry. apply (Z.mod_unique _ _ (q / 2)); [left; nia | nia]. }
  rewrite Hdiv, Hmod.
  assert (Hodd : Z.odd q = (q mod 2 =? 1)).
  { rewrite Zmod_odd. destruct (Z.odd q); reflexivity. }
  rewrite Hodd.
  split; [reflexivity|].
  destruct (Z.eq_dec (q mod 2) 1) as [E|E].
  - rewrite E. cbn [Z.eqb Pos.eqb].
    split.
    + symmetry. apply Z.leb_le. lia.
    + destruct (Z.eqb_spec rem 0), (Z.leb_spec (2 ^ n) (2 * rem)),
        (Z.eqb_spec (2 * rem) (2 ^ n)), (Z.eqb_spec (rem + 1 * 2 ^ n) 0),
        (Z.eqb_spec (2 * (rem + 1 * 2 ^ n)) (2 ^ n * 2)); cbn; try reflexivity; lia.
  - assert (E0 : q mod 2 = 0) by lia. rewrite E0. cbn [Z.eqb].
    split.
    + symmetry. apply Z.leb_gt. lia.
    + destruct (Z.eqb_spec rem 0), (Z.leb_spec (2 ^ n) (2 * rem)),
        (Z.eqb_spec (2 * rem) (2 ^ n)), (Z.eqb_spec (rem + 0 * 2 ^ n) 0),
        (Z.eqb_spec (2 * (rem + 0 * 2 ^ n)) (2 ^ n * 2)); cbn; try reflexivity; lia.
Qed.

Lemma shr_inv_iter (m : Z) (n : nat) :
  0 <= m ->
  shr_inv m (Z.of_nat n)
    (Nat.iter n shr_1 {| shr_m := m; shr_r := false; shr_s := false |}).
Proof.
  intros Hm. induction n as [|n IH].
  - cbn [Nat.iter Z.of_nat]. unfold shr_inv. cbn [shr_m shr_r shr_s].
    rewrite Z.pow_0_r, Z.div_1_r, Z.mod_1_r. repeat split.
  - rewrite Nat2Z.inj_succ. cbn [Nat.iter]. unfold Z.succ.
    apply shr_inv_step; [assumption | lia | assumption].
Qed.

(** *** Rounding the shifted mantissa *)
Lemma round_shr_bound (m n : Z) (mrs : shr_record) :
  0 <= m -> 0 <= n -> shr_inv m n mrs ->
  let m2 := round_nearest_even (shr_m mrs) (loc_of_shr_record mrs) in
  m / 2 ^ n <= m2 <= m / 2 ^ n + 1
  /\ 2 * Z.abs (m2 * 2 ^ n - m) <= 2 ^ n
  /\ (m mod 2 ^ n = 0 -> m2 * 2 ^ n = m).
Proof.
  intros Hm Hn [Hq [Hr Hs]]. cbv zeta.
  assert (Hp : 0 < 2 ^ n) by (apply Z.pow_pos_nonneg; lia).
  pose proof (Z.div_mod m (2 ^ n) ltac:(lia)) as Hdm.
  pose proof (Z.mod_pos_bound m (2 ^ n) Hp) as Hrem.
  destruct mrs as [q r s]. cbn [shr_m shr_r shr_s] in *. subst q.
  set (q := m / 2 ^ n) in *. set (rem := m mod 2 ^ n) in *.
  destruct r, s; cbn [loc_of_shr_record round_nearest_even];
    symmetry in Hr, Hs;
    [ apply Z.leb_le in Hr | apply Z.leb_le in Hr
    | apply Z.leb_gt in Hr | apply Z.leb_gt in Hr ];
    [ apply negb_true_iff, orb_false_elim in Hs; destruct Hs as [Hs1 Hs2];
      apply Z.eqb_neq in Hs1, Hs2
    | apply negb_false_iff, orb_true_iff in Hs
    | apply negb_true_iff, orb_false_elim in Hs; destruct Hs as [Hs1 Hs2];
      apply Z.eqb_neq in Hs1, Hs2
    | apply negb_false_iff, orb_true_iff in Hs ].
  - repeat split; try lia.
  - destruct Hs as [Hs|Hs]; apply Z.eqb_eq in Hs; [lia|].
    destruct (Z.even q); repeat split; try lia.
  - repeat split; try lia.
  - destruct Hs as [Hs|Hs]; apply Z.eqb_eq in Hs; [|lia].
    repeat split; try lia.
Qed.

(** *** Values *)

Lemma pow2_pos (e : Z) : (0 < pow2 e)%Q.
Proof. apply Qpower_0_lt. reflexivity. Qed.

Lemma pow2_add (a b : Z) : (pow2 (a + b) == pow2 a * pow2 b)%Q.
Proof. apply Qpower_plus. discriminate. Qed.

Lemma pow2_inject (n : Z) : 0 <= n -> (pow2 n == inject_Z (2 ^ n))%Q.
Proof. intros H. unfold pow2. rewrite Zpower_Qpower by assumption. reflexivity. Qed.

Lemma pow2_le (a b : Z) : a <= b -> (pow2 a <= pow2 b)%Q.
Proof. intros H. apply Qpower_le_compat_l; [assumption | discriminate]. Qed.

Lemma F2Q_shift (m e k : Z) : 0 <= k -> (F2Q (m * 2 ^ k) e == F2Q m (e + k))%Q.
Proof.
  intros Hk. unfold F2Q. rewrite inject_Z_mult, pow2_add, <- (pow2_inject k Hk). ring.
Qed.

Lemma shr_neutral (mrs : shr_record) (e n : Z) : n <= 0 -> shr mrs e n = (mrs, e).
Proof. intros H. destruct n; [reflexivity | lia | reflexivity]. Qed.

Lemma shr_pos (m e : Z) (p : positive) :
  0 <= m ->
  exists mrs, shr {| shr_m := m; shr_r := false; shr_s := false |} e (Zpos p)
              = (mrs, e + Zpos p)
              /\ shr_inv m (Zpos p) mrs.
Proof.
  intros Hm. eexists. split; [reflexivity|].
  rewrite iter_pos_nat, <- (positive_nat_Z p). apply shr_inv_iter, Hm.
Qed.

Lemma fexp_eq (e : Z) : fexp 53 1024 e = Z.max (e - 53) (-1074).
Proof. reflexivity. Qed.

Lemma shr_fexp_small (m e : Z) :
  -1074 <= e -> 0 <= m < 2 ^ 53 ->
  shr_fexp 53 1024 m e loc_Exact = ({| shr_m := m; shr_r := false; shr_s := false |}, e).
Proof.
  intros He Hm. unfold shr_fexp. cbn [shr_record_of_loc]. apply shr_neutral.
  rewrite fexp_eq.
  destruct m as [|p|p]; cbn [Zdigits2]; [lia| |lia].
  assert (Z.pos (digits2_pos p) <= 53) by (apply digits2_pos_le; lia).
  lia.
Qed.

Lemma shr_fexp_carry (e : Z) :
  -1074 <= e ->
  shr_fexp 53 1024 9007199254740992 e loc_Exact
  = ({| shr_m := 4503599627370496; shr_r := false; shr_s := false |}, e + 1).
Proof.
  intros He. unfold shr_fexp. cbn [shr_record_of_loc].
  change (Zdigits2 9007199254740992) with 54. rewrite fexp_eq.
  replace (Z.max (54 + e - 53) (-1074) - e) with 1 by lia.
  reflexivity.
Qed.

Lemma round_aux_unfold (mx : positive) (ex : Z) (mrs' mrs'' : shr_record) (e' e'' : Z) :
  shr_fexp 53 1024 (Zpos mx) ex loc_Exact = (mrs', e') ->
  shr_fexp 53 1024 (round_nearest_even (shr_m mrs') (loc_of_shr_record mrs')) e' loc_Exact
  = (mrs'', e'') ->
  binary_round_aux 53 1024 false (Zpos mx) ex loc_Exact
  = match shr_m mrs'' with
    | Z0 => S754_zero false
    | Zpos m => if e'' <=? 1024 - 53 then S754_finite false m e'' else S754_infinity false
    | Zneg _ => S754_nan
    end.
Proof. intros H1 H2. unfold binary_round_aux. rewrite H1, H2. reflexivity. Qed.

Lemma shr_fexp_first (mx : positive) (ex : Z) :
  shr_fexp 53 1024 (Zpos mx) ex loc_Exact
  = shr {| shr_m := Zpos mx; shr_r := false; shr_s := false |} ex
        (Z.max (Zpos (digits2_pos mx) + ex - 53) (-1074) - ex).
Proof. reflexivity. Qed.

(** The core: rounding a positive integer mantissa to nearest. *)
Lemma round_aux_spec (mx : positive) (ex : Z) :
  let sh := Z.max 0 (fexp 53 1024 (Zpos (digits2_pos mx) + ex) - ex) in
  ex + sh + 1 <= 1024 - 53 ->
  exists m2 : Z,
    0 <= m2
    /\ 2 * Z.abs (m2 * 2 ^ sh - Zpos mx) <= 2 ^ sh
    /\ (Zpos mx mod 2 ^ sh = 0 -> m2 * 2 ^ sh = Zpos mx)
    /\ nonneg_finite (binary_round_aux 53 1024 false (Zpos mx) ex loc_Exact) = true
    /\ expo (binary_round_aux 53 1024 false (Zpos mx) ex loc_Exact)
       <= Z.max ex (fexp 53 1024 (Zpos (digits2_pos mx) + ex) + 1)
    /\ (B2Q (binary_round_aux 53 1024 false (Zpos mx) ex loc_Exact)
        == F2Q m2 (ex + sh))%Q.
Proof.
  cbv zeta. rewrite !fexp_eq. intros Hov.
  pose proof (digits2_pos_bounds mx) as [Hdlo Hdhi].
  pose proof (shr_fexp_first mx ex) as H1.
  set (d := Zpos (digits2_pos mx)) in *.
  destruct (Z.max (d + ex - 53) (-1074) - ex) as [|p|p] eqn:Hsh.
  - (* no shift *)
    cbn [shr] in H1.
    assert (H2 : shr_fexp 53 1024 (Zpos mx) ex loc_Exact
                 = ({| shr_m := Zpos mx; shr_r := false; shr_s := false |}, ex)) by exact H1.
    rewrite (round_aux_unfold mx ex _ _ _ _ H1 H2). cbn [shr_m].
    cbn [Z.max Z.compare] in Hov |- *.
    assert (Hle : (ex <=? 1024 - 53) = true) by (apply Z.leb_le; lia).
    rewrite Hle. exists (Zpos mx). rewrite Z.pow_0_r, Z.mul_1_r, Z.sub_diag, Z.add_0_r.
    cbn [Z.abs nonneg_finite B2Q expo]. repeat split; try lia; try reflexivity.
  - (* shift right by p *)
    destruct (shr_pos (Zpos mx) ex p ltac:(lia)) as [mrs [Hshr Hinv]].
    rewrite Hshr in H1.
    replace (Z.max 0 (Z.pos p)) with (Z.pos p) in * by lia.
    destruct (round_shr_bound (Zpos mx) (Zpos p) mrs ltac:(lia) ltac:(lia) Hinv)
      as [Hm2 [Herr Hex]].
    set (m2 := round_nearest_even (shr_m mrs) (loc_of_shr_record mrs)) in *.
    assert (Hq : 0 <= Zpos mx / 2 ^ Zpos p < 2 ^ 53).
    { split; [apply Z.div_pos; [lia | apply Z.pow_pos_nonneg; lia]|].
      apply Z.div_lt_upper_bound; [apply Z.pow_pos_nonneg; lia|].
      rewrite <- Z.pow_add_r by lia.
      apply Z.lt_le_trans with (1 := Hdhi). apply Z.pow_le_mono_r; lia. }
    exists m2. split; [lia|]. split; [exact Herr|]. split; [exact Hex|].
    assert (He1 : -1074 <= ex + Zpos p) by lia.
    destruct (Z.eq_dec m2 (2 ^ 53)) as [Hc | Hc].
    + pose proof (shr_fexp_carry _ He1) as H2.
      change 9007199254740992 with (2 ^ 53) in H2. rewrite <- Hc in H2.
      rewrite (round_aux_unfold mx ex _ _ _ _ H1 H2). cbn [shr_m].
      assert (Hle : (ex + Zpos p + 1 <=? 1024 - 53) = true) by (apply Z.leb_le; lia).
      rewrite Hle. cbn [nonneg_finite B2Q expo]. split; [reflexivity|].
      split; [lia|].
      rewrite Hc. change (2 ^ 53) with (4503599627370496 * 2 ^ 1).
      rewrite F2Q_shift by lia. reflexivity.
    + pose proof (shr_fexp_small m2 _ He1 ltac:(lia)) as H2.
      rewrite (round_aux_unfold mx ex _ _ _ _ H1 H2). cbn [shr_m].
      destruct m2 as [|m2'|m2'] eqn:Em2; [| |lia].
      * cbn [nonneg_finite B2Q expo]. split; [reflexivity|].
        split; [lia|]. unfold F2Q. ring.
      * assert (Hle : (ex + Zpos p <=? 1024 - 53) = true) by (apply Z.leb_le; lia).
        rewrite Hle. cbn [nonneg_finite B2Q expo]. split; [reflexivity|].
        split; [lia|]. reflexivity.
  - (* negative shift *)
    cbn [shr] in H1.
    assert (H2 : shr_fexp 53 1024 (Zpos mx) ex loc_Exact
                 = ({| shr_m := Zpos mx; shr_r := false; shr_s := false |}, ex)) by exact H1.
    rewrite (round_aux_unfold mx ex _ _ _ _ H1 H2). cbn [shr_m].
    cbn [Z.max Z.compare] in Hov |- *.
    assert (Hle : (ex <=? 1024 - 53) = true) by (apply Z.leb_le; lia).
    rewrite Hle. exists (Zpos mx). rewrite Z.pow_0_r, Z.mul_1_r, Z.sub_diag, Z.add_0_r.
    cbn [Z.abs nonneg_finite B2Q expo]. repeat split; try lia; try reflexivity.
Qed.

(** ** Rounding, in rationals *)

Lemma pow2_lt_inv (a b : Z) : (pow2 a < pow2 b)%Q -> a < b.
Proof.
  intros H. destruct (Z.lt_ge_cases a b) as [|Hge]; [assumption|].
  apply pow2_le in Hge. lra.
Qed.

Lemma F2Q_lower (m : positive) (e : Z) :
  (pow2 (Zpos (digits2_pos m) - 1 + e) <= F2Q (Zpos m) e)%Q.
Proof.
  pose proof (digits2_pos_bounds m) as [Hlo _].
  rewrite pow2_add. unfold F2Q.
  apply Qmult_le_compat_r; [|apply Qlt_le_weak, pow2_pos].
  rewrite pow2_inject by lia. rewrite <- Zle_Qle. exact Hlo.
Qed.

Lemma F2Q_digits (m : positive) (e k : Z) :
  (F2Q (Zpos m) e < pow2 k)%Q -> Zpos (digits2_pos m) + e <= k.
Proof.
  intros H. pose proof (F2Q_lower m e) as Hlo.
  assert (Hlt : (pow2 (Zpos (digits2_pos m) - 1 + e) < pow2 k)%Q) by lra.
  apply pow2_lt_inv in Hlt. lia.
Qed.

Lemma F2Q_inj (a b e : Z) : (F2Q a e == F2Q b e)%Q -> a = b.
Proof.
  unfold F2Q. intros H. pose proof (pow2_pos e) as Hp.
  assert (Hne : ~ (pow2 e == 0)%Q)
    by (intros E; rewrite E in Hp; apply (Qlt_irrefl 0 Hp)).
  apply (proj1 (inject_Z_injective a b)).
  apply (proj1 (Qmult_inj_r _ _ _ Hne)). exact H.
Qed.

Lemma representable_divides (m : positive) (e sh : Z) :
  representable (F2Q (Zpos m) e) ->
  sh = Z.max 0 (Z.max (Zpos (digits2_pos m) + e - 53) (-1074) - e) ->
  Zpos m mod 2 ^ sh = 0.
Proof.
  intros [N [E [HN [HE Hv]]]] Hsh.
  destruct (Z.eq_dec sh 0) as [-> | Hne]; [apply Z.mod_1_r|].
  assert (Hpos : 0 < sh) by lia.
  assert (HNpos : 0 < N).
  { destruct (Z.eq_dec N 0) as [-> | ]; [|lia].
    pose proof (F2Q_lower m e) as Hlo. pose proof (pow2_pos (Zpos (digits2_pos m) - 1 + e)).
    assert (Hz : (F2Q 0 E == 0)%Q) by (unfold F2Q; change (inject_Z 0) with 0%Q; ring).
    rewrite Hz in Hv. lra. }
  assert (Hd : Zpos (digits2_pos m) + e - 53 <= E).
  { assert (Hlt : (F2Q (Zpos m) e < pow2 (53 + E))%Q).
    { rewrite Hv, pow2_add. unfold F2Q.
      apply Qmult_lt_compat_r; [apply pow2_pos|].
      rewrite pow2_inject by lia. rewrite <- Zlt_Qlt. lia. }
    apply F2Q_digits in Hlt. lia. }
  assert (Hge : e + sh <= E) by lia.
  assert (Hm : Zpos m = N * 2 ^ (E - e)).
  { apply (F2Q_inj _ _ e). rewrite Hv, F2Q_shift by lia.
    replace (e + (E - e)) with E by lia. reflexivity. }
  rewrite Hm. replace (E - e) with ((E - e - sh) + sh) by lia.
  rewrite Z.pow_add_r by lia. rewrite Z.mul_assoc. apply Z.mod_mul.
  apply Z.pow_nonzero; lia.
Qed.

(** The error of rounding a value below [2^k] is at most [2^(k-54)]; a
    representable value is not changed. *)
Lemma round_aux_Q (mx : positive) (ex k : Z) :
  (F2Q (Zpos mx) ex < pow2 k)%Q -> -1021 <= k <= 52 -> ex <= 0 ->
  nonneg_finite (binary_round_aux 53 1024 false (Zpos mx) ex loc_Exact) = true
  /\ expo (binary_round_aux 53 1024 false (Zpos mx) ex loc_Exact) <= 0
  /\ (B2Q (binary_round_aux 53 1024 false (Zpos mx) ex loc_Exact) - F2Q (Zpos mx) ex
      <= pow2 (k - 54))%Q
  /\ (F2Q (Zpos mx) ex - B2Q (binary_round_aux 53 1024 false (Zpos mx) ex loc_Exact)
      <= pow2 (k - 54))%Q
  /\ (representable (F2Q (Zpos mx) ex) ->
      (B2Q (binary_round_aux 53 1024 false (Zpos mx) ex loc_Exact) == F2Q (Zpos mx) ex)%Q).
Proof.
  intros Hlt Hk Hex.
  pose proof (F2Q_digits mx ex k Hlt) as Hd.
  pose proof (round_aux_spec mx ex) as Hspec. cbv zeta in Hspec.
  rewrite !fexp_eq in Hspec.
  set (sh := Z.max 0 (Z.max (Zpos (digits2_pos mx) + ex - 53) (-1074) - ex)) in *.
  destruct Hspec as [m2 [Hm2 [Herr [Hexact [Hfin [Hexp Hval]]]]]]; [lia|].
  set (r := binary_round_aux 53 1024 false (Zpos mx) ex loc_Exact) in *.
  split; [exact Hfin|]. split; [lia|].
  assert (Hdiff : (B2Q r - F2Q (Zpos mx) ex
                   == inject_Z (m2 * 2 ^ sh - Zpos mx) * pow2 ex)%Q).
  { rewrite Hval, <- F2Q_shift by lia. unfold F2Q. unfold Z.sub.
    rewrite inject_Z_plus, inject_Z_opp. ring. }
  assert (Hbound : (inject_Z (2 * Z.abs (m2 * 2 ^ sh - Zpos mx)) * pow2 ex
                    <= 2 * pow2 (k - 54))%Q).
  { destruct (Z.eq_dec sh 0) as [Hs0 | Hs0].
    - assert (E : 2 ^ sh = 1) by (rewrite Hs0; reflexivity).
      rewrite E in Herr |- *.
      replace (2 * Z.abs (m2 * 1 - Zpos mx)) with 0 by lia.
      pose proof (pow2_pos (k - 54)). change (inject_Z 0) with 0%Q. lra.
    - apply Qle_trans with (inject_Z (2 ^ sh) * pow2 ex)%Q.
      + apply Qmult_le_compat_r; [|apply Qlt_le_weak, pow2_pos].
        rewrite <- Zle_Qle. exact Herr.
      + rewrite <- pow2_inject, <- pow2_add by lia.
        replace (2 * pow2 (k - 54))%Q with (pow2 1 * pow2 (k - 54))%Q by reflexivity.
        rewrite <- pow2_add. apply pow2_le. lia. }
  set (delta := m2 * 2 ^ sh - Zpos mx) in *.
  assert (Habs : (inject_Z (2 * Z.abs delta) == 2 * inject_Z (Z.abs delta))%Q)
    by (rewrite inject_Z_mult; reflexivity).
  rewrite Habs in Hbound.
  pose proof (pow2_pos ex) as Hpex.
  assert (Hup : (inject_Z delta * pow2 ex <= inject_Z (Z.abs delta) * pow2 ex)%Q).
  { apply Qmult_le_compat_r; [|lra]. rewrite <- Zle_Qle. lia. }
  assert (Hdown : (- (inject_Z delta * pow2 ex) <= inject_Z (Z.abs delta) * pow2 ex)%Q).
  { setoid_replace (- (inject_Z delta * pow2 ex))%Q with (inject_Z (- delta) * pow2 ex)%Q
      by (rewrite inject_Z_opp; ring).
    apply Qmult_le_compat_r; [|lra]. rewrite <- Zle_Qle. lia. }
  split; [lra|]. split; [lra|].
  intros Hrep.
  pose proof (representable_divides mx ex sh Hrep eq_refl) as Hdiv.
  specialize (Hexact Hdiv).
  assert (Hd0 : delta = 0) by (subst delta; lia).
  rewrite Hd0 in Hdiff. change (inject_Z 0) with 0%Q in Hdiff. lra.
Qed.

(** *** Aligning a mantissa *)

Lemma Pos_iter_xO (m d : positive) : Zpos (Pos.iter xO m d) = Zpos m * 2 ^ Zpos d.
Proof.
  induction d as [|d IH] using Pos.peano_ind.
  - cbn [Pos.iter]. rewrite Pos2Z.pos_xO. change (2 ^ 1) with 2. lia.
  - rewrite Pos.iter_succ, Pos2Z.pos_xO, IH, Pos2Z.inj_succ, Z.pow_succ_r by lia. lia.
Qed.

Lemma shl_align_spec (mx : positive) (ex ex' : Z) :
  snd (shl_align mx ex ex') = Z.min ex ex'
  /\ Zpos (fst (shl_align mx ex ex')) = Zpos mx * 2 ^ (ex - Z.min ex ex').
Proof.
  unfold shl_align. destruct (ex' - ex) as [|p|p] eqn:Hd; cbn [fst snd].
  - replace (Z.min ex ex') with ex by lia. rewrite Z.sub_diag. split; lia.
  - replace (Z.min ex ex') with ex by lia. rewrite Z.sub_diag. split; lia.
  - replace (Z.min ex ex') with ex' by lia. split; [reflexivity|].
    rewrite Pos_iter_xO. f_equal. f_equal. lia.
Qed.

Lemma shl_align_value (mx : positive) (ex ex' : Z) :
  (F2Q (Zpos (fst (shl_align mx ex ex'))) (snd (shl_align mx ex ex')) == F2Q (Zpos mx) ex)%Q.
Proof.
  destruct (shl_align_spec mx ex ex') as [-> ->].
  rewrite F2Q_shift by lia. replace (Z.min ex ex' + (ex - Z.min ex ex')) with ex by lia.
  reflexivity.
Qed.

Lemma representable_eq (v w : Q) : (v == w)%Q -> representable v -> representable w.
Proof.
  intros Hvw [N [E [HN [HE Hv]]]]. exists N, E. repeat split; try lia.
  rewrite <- Hvw. exact Hv.
Qed.

(** Rounding after alignment: [binary_round]. *)
Lemma binary_round_Q (m : positive) (e k : Z) :
  (F2Q (Zpos m) e < pow2 k)%Q -> -1021 <= k <= 52 -> e <= 0 ->
  ok (binary_round 53 1024 false m e)
  /\ near (B2Q (binary_round 53 1024 false m e)) (F2Q (Zpos m) e) (pow2 (k - 54))
  /\ (representable (F2Q (Zpos m) e) ->
      (B2Q (binary_round 53 1024 false m e) == F2Q (Zpos m) e)%Q).
Proof.
  intros Hlt Hk He. unfold binary_round.
  pose proof (shl_align_value m e (fexp 53 1024 (Zpos (digits2_pos m) + e))) as Hv.
  destruct (shl_align_spec m e (fexp 53 1024 (Zpos (digits2_pos m) + e))) as [Hs _].
  destruct (shl_align m e (fexp 53 1024 (Z.pos (digits2_pos m) + e))) as [mz ez].
  cbn [fst snd] in Hv, Hs.
  assert (Hlt' : (F2Q (Zpos mz) ez < pow2 k)%Q) by (rewrite Hv; exact Hlt).
  destruct (round_aux_Q mz ez k Hlt' Hk ltac:(lia)) as [Hf [Hx [H1 [H2 H3]]]].
  split; [split; assumption|]. split.
  - unfold near. rewrite <- Hv. split; assumption.
  - intros Hrep. rewrite <- Hv. apply H3.
    apply (representable_eq (F2Q (Zpos m) e)); [symmetry; exact Hv | exact Hrep].
Qed.

(** *** The operations *)

Lemma ok_zero : ok (S754_zero false).
Proof. split; [reflexivity | cbn; lia]. Qed.

Lemma near_refl (v eps : Q) : (0 <= eps)%Q -> near v v eps.
Proof. intros H. unfold near. split; lra. Qed.

Lemma ok_cases (x : spec_float) :
  ok x -> x = S754_zero false \/ exists m e, x = S754_finite false m e /\ e <= 0.
Proof.
  intros [Hf He]. destruct x as [[|]|s| |[|] m e]; try discriminate.
  - now left.
  - right. exists m, e. split; [reflexivity | exact He].
Qed.

Lemma B2Q_nonneg (x : spec_float) : ok x -> (0 <= B2Q x)%Q.
Proof.
  intros H. destruct (ok_cases x H) as [-> | [m [e [-> _]]]]; cbn [B2Q]; [lra|].
  unfold F2Q. apply Qmult_le_0_compat; [|apply Qlt_le_weak, pow2_pos].
  change 0%Q with (inject_Z 0). rewrite <- Zle_Qle. lia.
Qed.

(** An integer below [2^52] converts to [double] exactly. *)
Lemma of_int_Q (n : Z) :
  0 <= n < 2 ^ 52 -> ok (Double.of_int n) /\ (B2Q (Double.of_int n) == inject_Z n)%Q.
Proof.
  intros Hn. unfold Double.of_int, binary_normalize, Double.prec, Double.emax.
  destruct n as [|p|p]; [split; [apply ok_zero | reflexivity] | | lia].
  assert (Hv : (F2Q (Zpos p) 0 == inject_Z (Zpos p))%Q).
  { unfold F2Q. change (pow2 0) with 1%Q. ring. }
  assert (Hlt : (F2Q (Zpos p) 0 < pow2 52)%Q).
  { rewrite Hv, pow2_inject by lia. rewrite <- Zlt_Qlt. lia. }
  destruct (binary_round_Q p 0 52 Hlt ltac:(lia) ltac:(lia)) as [Hok [_ Hex]].
  split; [exact Hok|]. rewrite <- Hv. apply Hex.
  exists (Zpos p), 0. repeat split; try lia; try reflexivity.
Qed.

(** The product of two [double]s below [2^k] is the exact product within
    [2^(k-54)]. *)
Lemma mul_Q (x y : spec_float) (k : Z) :
  ok x -> ok y -> (B2Q x * B2Q y < pow2 k)%Q -> -1021 <= k <= 52 ->
  ok (Double.mul x y)
  /\ near (B2Q (Double.mul x y)) (B2Q x * B2Q y) (pow2 (k - 54)).
Proof.
  intros Hx Hy Hlt Hk. pose proof (pow2_pos (k - 54)) as Hp.
  unfold Double.mul, Double.prec, Double.emax.
  destruct (ok_cases x Hx) as [-> | [mx [ex [-> Hex]]]];
    destruct (ok_cases y Hy) as [-> | [my [ey [-> Hey]]]]; cbn [SFmul xorb B2Q] in *.
  - split; [apply ok_zero|]. unfold near. split; lra.
  - split; [apply ok_zero|]. unfold near. split; lra.
  - split; [apply ok_zero|]. unfold near. split; lra.
  - assert (Hv : (F2Q (Zpos (mx * my)) (ex + ey) == F2Q (Zpos mx) ex * F2Q (Zpos my) ey)%Q).
    { unfold F2Q. rewrite Pos2Z.inj_mul, inject_Z_mult, pow2_add. ring. }
    assert (Hlt' : (F2Q (Zpos (mx * my)) (ex + ey) < pow2 k)%Q) by (rewrite Hv; exact Hlt).
    destruct (round_aux_Q (mx * my) (ex + ey) k Hlt' Hk ltac:(lia)) as [Hf [He [H1 [H2 _]]]].
    split; [split; assumption|]. unfold near. rewrite <- Hv. split; assumption.
Qed.

(** The sum of two [double]s below [2^k] is the exact sum within
    [2^(k-54)], and the exact sum when that is representable. *)
Lemma add_Q (x y : spec_float) (k : Z) :
  ok x -> ok y -> (B2Q x + B2Q y < pow2 k)%Q -> -1021 <= k <= 52 ->
  ok (Double.add x y)
  /\ near (B2Q (Double.add x y)) (B2Q x + B2Q y) (pow2 (k - 54))
  /\ (representable (B2Q x + B2Q y) -> (B2Q (Double.add x y) == B2Q x + B2Q y)%Q).
Proof.
  intros Hx Hy Hlt Hk. pose proof (pow2_pos (k - 54)) as Hp.
  unfold Double.add, Double.prec, Double.emax.
  destruct (ok_cases x Hx) as [-> | [mx [ex [-> Hex]]]];
    destruct (ok_cases y Hy) as [-> | [my [ey [-> Hey]]]]; cbn [SFadd B2Q] in *.
  - split; [apply ok_zero|]. split; [unfold near; split; lra | intros _; ring].
  - split; [exact Hy|]. split; [unfold near; cbn [B2Q]; split; lra | intros _; cbn [B2Q]; ring].
  - split; [exact Hx|]. split; [unfold near; cbn [B2Q]; split; lra | intros _; cbn [B2Q]; ring].
  - cbn [cond_Zopp].
    destruct (shl_align_spec mx ex (Z.min ex ey)) as [_ Hmx].
    destruct (shl_align_spec my ey (Z.min ex ey)) as [_ Hmy].
    replace (Z.min ex (Z.min ex ey)) with (Z.min ex ey) in Hmx by lia.
    replace (Z.min ey (Z.min ex ey)) with (Z.min ex ey) in Hmy by lia.
    set (ax := fst (shl_align mx ex (Z.min ex ey))) in *.
    set (ay := fst (shl_align my ey (Z.min ex ey))) in *.
    change (Zpos ax + Zpos ay) with (Zpos (ax + ay)). cbn [binary_normalize].
    assert (Hv : (F2Q (Zpos (ax + ay)) (Z.min ex ey)
                  == F2Q (Zpos mx) ex + F2Q (Zpos my) ey)%Q).
    { assert (E1 : (F2Q (Zpos mx * 2 ^ (ex - Z.min ex ey)) (Z.min ex ey)
                    == F2Q (Zpos mx) ex)%Q).
      { rewrite F2Q_shift by lia.
        replace (Z.min ex ey + (ex - Z.min ex ey)) with ex by lia. reflexivity. }
      assert (E2 : (F2Q (Zpos my * 2 ^ (ey - Z.min ex ey)) (Z.min ex ey)
                    == F2Q (Zpos my) ey)%Q).
      { rewrite F2Q_shift by lia.
        replace (Z.min ex ey + (ey - Z.min ex ey)) with ey by lia. reflexivity. }
      rewrite <- E1, <- E2, Pos2Z.inj_add, Hmx, Hmy. unfold F2Q.
      rewrite inject_Z_plus. ring. }
    assert (Hlt' : (F2Q (Zpos (ax + ay)) (Z.min ex ey) < pow2 k)%Q)
      by (rewrite Hv; exact Hlt).
    destruct (binary_round_Q (ax + ay) (Z.min ex ey) k Hlt' Hk ltac:(lia))
      as [Hok [[H1 H2] H3]].
    split; [exact Hok|]. split.
    + unfold near. rewrite <- Hv. split; assumption.
    + intros Hrep. rewrite <- Hv. apply H3.
      apply (representable_eq (F2Q (Zpos mx) ex + F2Q (Zpos my) ey));
        [symmetry; exact Hv | exact Hrep].
Qed.

(** *** [floor] and the conversion to [uint32_t] *)

Lemma to_uint32_integer (x : spec_float) (n : Z) :
  nonneg_finite x = true -> (B2Q x == inject_Z n)%Q -> 0 <= n < 4294967296 ->
  Double.to_uint32 x = Some n.
Proof.
  intros Hf Hv Hn. destruct x as [[|]|s| |[|] m e]; try discriminate.
  - cbn [B2Q] in Hv. change 0%Q with (inject_Z 0) in Hv.
    apply (proj1 (inject_Z_injective 0 n)) in Hv. subst n. reflexivity.
  - cbn [B2Q] in Hv. unfold Double.to_uint32.
    assert (Ht : (if 0 <=? e then Zpos m * 2 ^ e else Zpos m / 2 ^ (- e)) = n).
    { destruct (0 <=? e) eqn:He.
      - apply Z.leb_le in He. apply (proj1 (inject_Z_injective _ _)).
        rewrite <- Hv. unfold F2Q. rewrite inject_Z_mult, pow2_inject by lia. reflexivity.
      - apply Z.leb_gt in He.
        assert (Hm : Zpos m = n * 2 ^ (- e)).
        { apply (F2Q_inj _ _ e). rewrite Hv, F2Q_shift by lia.
          replace (e + - e) with 0 by lia. unfold F2Q. change (pow2 0) with 1%Q. ring. }
        rewrite Hm. apply Z.div_mul. apply Z.pow_nonzero; lia. }
    rewrite Ht. assert (Hlt : (n <? 4294967296) = true) by (apply Z.ltb_lt; lia).
    now rewrite Hlt.
Qed.

Lemma to_uint32_overflow (x : spec_float) (n : Z) :
  nonneg_finite x = true -> (B2Q x == inject_Z n)%Q -> 4294967296 <= n ->
  Double.to_uint32 x = None.
Proof.
  intros Hf Hv Hn. destruct x as [[|]|s| |[|] m e]; try discriminate.
  - cbn [B2Q] in Hv. change 0%Q with (inject_Z 0) in Hv.
    apply (proj1 (inject_Z_injective 0 n)) in Hv. lia.
  - cbn [B2Q] in Hv. unfold Double.to_uint32.
    assert (Ht : (if 0 <=? e then Zpos m * 2 ^ e else Zpos m / 2 ^ (- e)) = n).
    { destruct (0 <=? e) eqn:He.
      - apply Z.leb_le in He. apply (proj1 (inject_Z_injective _ _)).
        rewrite <- Hv. unfold F2Q. rewrite inject_Z_mult, pow2_inject by lia. reflexivity.
      - apply Z.leb_gt in He.
        assert (Hm : Zpos m = n * 2 ^ (- e)).
        { apply (F2Q_inj _ _ e). rewrite Hv, F2Q_shift by lia.
          replace (e + - e) with 0 by lia. unfold F2Q. change (pow2 0) with 1%Q. ring. }
        rewrite Hm. apply Z.div_mul. apply Z.pow_nonzero; lia. }
    rewrite Ht. assert (Hlt : (n <? 4294967296) = false) by (apply Z.ltb_ge; lia).
    now rewrite Hlt.
Qed.

(** [floor] of a [double] between [n] and [n + 1] is [n]. *)
Lemma floor_integer (x : spec_float) (n : Z) :
  ok x -> (inject_Z n <= B2Q x)%Q -> (B2Q x < inject_Z n + 1)%Q -> 0 <= n < 2 ^ 52 ->
  nonneg_finite (Double.floor x) = true /\ (B2Q (Double.floor x) == inject_Z n)%Q.
Proof.
  intros Hx Hlo Hhi Hn.
  destruct (ok_cases x Hx) as [-> | [m [e [-> He]]]].
  - cbn [B2Q] in *. change 0%Q with (inject_Z 0) in Hlo, Hhi.
    change 1%Q with (inject_Z 1) in Hhi.
    rewrite <- inject_Z_plus in Hhi. rewrite <- Zle_Qle in Hlo. rewrite <- Zlt_Qlt in Hhi.
    assert (n = 0) by lia. subst. split; reflexivity.
  - cbn [B2Q] in *. unfold Double.floor, Double.to_integral.
    destruct (0 <=? e) eqn:Hpos.
    + apply Z.leb_le in Hpos. assert (e = 0) by lia. subst e.
      split; [reflexivity|].
      cbn [B2Q]. unfold F2Q in *. change (pow2 0) with 1%Q in *.
      rewrite Qmult_1_r in *. change 1%Q with (inject_Z 1) in Hhi.
      rewrite <- inject_Z_plus in Hhi.
      rewrite <- Zle_Qle in Hlo. rewrite <- Zlt_Qlt in Hhi.
      assert (Zpos m = n) by lia. now rewrite H.
    + apply Z.leb_gt in Hpos. unfold Double.pick_floor.
      set (d := 2 ^ (- e)).
      assert (Hd : 0 < d) by (apply Z.pow_pos_nonneg; lia).
      assert (Hq : (F2Q (Zpos m) e * inject_Z d == inject_Z (Zpos m))%Q).
      { unfold F2Q, d. rewrite <- pow2_inject by lia.
        rewrite <- Qmult_assoc, <- pow2_add.
        replace (e + - e) with 0 by lia. change (pow2 0) with 1%Q. ring. }
      assert (Hdq : (0 < inject_Z d)%Q) by (change 0%Q with (inject_Z 0); rewrite <- Zlt_Qlt; lia).
      assert (H1 : (inject_Z (n * d) <= inject_Z (Zpos m))%Q).
      { rewrite inject_Z_mult, <- Hq. apply Qmult_le_compat_r; [exact Hlo | lra]. }
      assert (H2 : (inject_Z (Zpos m) < inject_Z ((n + 1) * d))%Q).
      { rewrite inject_Z_mult, inject_Z_plus, <- Hq. apply Qmult_lt_compat_r; [lra | exact Hhi]. }
      rewrite <- Zle_Qle in H1. rewrite <- Zlt_Qlt in H2.
      assert (Hdiv : Zpos m / d = n).
      { symmetry. apply (Z.div_unique _ _ _ (Zpos m - n * d)); lia. }
      rewrite Hdiv.
      destruct (of_int_Q n ltac:(lia)) as [[Hf _] Hv].
      split; assumption.
Qed.

Lemma floor_to_uint32 (x : spec_float) (n : Z) :
  ok x -> (inject_Z n <= B2Q x)%Q -> (B2Q x < inject_Z n + 1)%Q -> 0 <= n < 2 ^ 52 ->
  Double.to_uint32 (Double.floor x) = if n <? 4294967296 then Some n else None.
Proof.
  intros Hx Hlo Hhi Hn.
  destruct (floor_integer x n Hx Hlo Hhi Hn) as [Hf Hv].
  destruct (n <? 4294967296) eqn:Hlt.
  - apply Z.ltb_lt in Hlt. apply to_uint32_integer; [assumption | assumption | lia].
  - apply Z.ltb_ge in Hlt. apply (to_uint32_overflow _ n); assumption.
Qed.

(** *** The payload symbol count *)

Lemma ceil_div_exact_double (u v : Z) :
  -10 <= u <= 514 -> 5 <= v <= 12 ->
  Double.ceil (Double.div (Double.of_int (4 * u)) (Double.of_int (4 * v)))
  = ceil_result (ceil_div u v) (u <? 0).
Proof.
  intros Hu Hv. apply double_eqb_eq.
  assert (H : forallb
                (fun i => forallb
                   (fun j => double_eqb
                      (Double.ceil (Double.div (Double.of_int (4 * (i - 10)))
                                               (Double.of_int (4 * (j + 5)))))
                      (ceil_result (ceil_div (i - 10) (j + 5)) (i - 10 <? 0)))
                   (range 8))
                (range 525) = true) by (vm_compute; reflexivity).
  pose proof (forallb_range _ _ H (u + 10) ltac:(lia)) as H1. cbv beta in H1.
  pose proof (forallb_range _ _ H1 (v - 5) ltac:(lia)) as H2. cbv beta in H2.
  replace (u + 10 - 10) with u in H2 by lia.
  replace (v - 5 + 5) with v in H2 by lia. exact H2.
Qed.

Lemma nPayload_exact (c k : Z) (negative : bool) :
  -2 <= c <= 103 -> 4 <= k <= 7 ->
  nPayload_of (ceil_result c negative) k = Double.of_int (8 + Z.max 0 (c * k)).
Proof.
  intros Hc Hk. apply double_eqb_eq.
  assert (H : forallb
                (fun i => forallb
                   (fun j => forallb
                      (fun b => double_eqb
                         (nPayload_of (ceil_result (i - 2) b) (j + 4))
                         (Double.of_int (8 + Z.max 0 ((i - 2) * (j + 4)))))
                      [false; true])
                   (range 4))
                (range 106) = true) by (vm_compute; reflexivity).
  pose proof (forallb_range _ _ H (c + 2) ltac:(lia)) as H1. cbv beta in H1.
  pose proof (forallb_range _ _ H1 (k - 4) ltac:(lia)) as H2. cbv beta in H2.
  replace (c + 2 - 2) with c in H2 by lia.
  replace (k - 4 + 4) with k in H2 by lia.
  rewrite forallb_forall in H2. apply H2. destruct negative; simpl; tauto.
Qed.

(** The same for a numerator that was reduced modulo 2^32: a negative
    [4 * u] is the [unsigned int] [4 * (2^30 + u)]. *)
Lemma ceil_div_wrapped_double (u v : Z) :
  -10 <= u <= -1 -> 5 <= v <= 12 ->
  Double.ceil (Double.div (Double.of_int (4 * (1073741824 + u)))
                          (Double.of_int (4 * v)))
  = Double.of_int (ceil_div (1073741824 + u) v).
Proof.
  intros Hu Hv. apply double_eqb_eq.
  assert (H : forallb
                (fun i => forallb
                   (fun j => double_eqb
                      (Double.ceil (Double.div (Double.of_int (4 * (1073741824 + (i - 10))))
                                               (Double.of_int (4 * (j + 5)))))
                      (Double.of_int (ceil_div (1073741824 + (i - 10)) (j + 5))))
                   (range 8))
                (range 10) = true) by (vm_compute; reflexivity).
  pose proof (forallb_range _ _ H (u + 10) ltac:(lia)) as H1. cbv beta in H1.
  pose proof (forallb_range _ _ H1 (v - 5) ltac:(lia)) as H2. cbv beta in H2.
  replace (u + 10 - 10) with u in H2 by lia.
  replace (v - 5 + 5) with v in H2 by lia. exact H2.
Qed.

Lemma nPayload_wrapped (u v k : Z) :
  -10 <= u <= -1 -> 5 <= v <= 12 -> 4 <= k <= 7 ->
  nPayload_of (Double.of_int (ceil_div (1073741824 + u) v)) k
  = Double.of_int (8 + ceil_div (1073741824 + u) v * k).
Proof.
  intros Hu Hv Hk. apply double_eqb_eq.
  assert (H : forallb
                (fun i => forallb
                   (fun j => forallb
                      (fun l => double_eqb
                         (nPayload_of
                            (Double.of_int (ceil_div (1073741824 + (i - 10)) (j + 5)))
                            (l + 4))
                         (Double.of_int
                            (8 + ceil_div (1073741824 + (i - 10)) (j + 5) * (l + 4))))
                      (range 4))
                   (range 8))
                (range 10) = true) by (vm_compute; reflexivity).
  pose proof (forallb_range _ _ H (u + 10) ltac:(lia)) as H1. cbv beta in H1.
  pose proof (forallb_range _ _ H1 (v - 5) ltac:(lia)) as H2. cbv beta in H2.
  pose proof (forallb_range _ _ H2 (k - 4) ltac:(lia)) as H3. cbv beta in H3.
  replace (u + 10 - 10) with u in H3 by lia.
  replace (v - 5 + 5) with v in H3 by lia.
  replace (k - 4 + 4) with k in H3 by lia. exact H3.
Qed.

Lemma ceil_div_wrapped_bounds (u v : Z) :
  -10 <= u <= -1 -> 5 <= v <= 12 ->
  89478484 <= ceil_div (1073741824 + u) v <= 214748365.
Proof.
  intros Hu Hv. unfold ceil_div.
  assert (H1 : - (1073741824 + u) / v <= - 89478484).
  { apply Z.div_le_upper_bound; [lia|]. nia. }
  assert (H2 : - 214748365 <= - (1073741824 + u) / v).
  { apply Z.div_le_lower_bound; [lia|]. nia. }
  lia.
Qed.

Lemma ceil_div_scale (u v : Z) : 0 < v -> ceil_div (4 * u) (4 * v) = ceil_div u v.
Proof.
  intros Hv. unfold ceil_div. f_equal.
  replace (- (4 * u)) with (4 * - u) by lia.
  rewrite Z.div_mul_cancel_l by lia. reflexivity.
Qed.

Lemma ceil_div_bounds (u v : Z) :
  -10 <= u <= 514 -> 5 <= v <= 12 -> -2 <= ceil_div u v <= 103.
Proof.
  intros Hu Hv. unfold ceil_div.
  assert (- 514 / v <= - u / v) by (apply Z.div_le_mono; lia).
  assert (- u / v <= 10 / v) by (apply Z.div_le_mono; lia).
  assert (10 / v <= 10 / 5) by (apply Z.div_le_compat_l; lia).
  assert (- 103 <= - 514 / v).
  { apply Z.div_le_lower_bound; [lia|]. nia. }
  change (10 / 5) with 2 in *. lia.
Qed.

Lemma ceil_div_mono (a b v : Z) : 0 < v -> a <= b -> ceil_div a v <= ceil_div b v.
Proof.
  intros Hv Hab. unfold ceil_div.
  assert (- b / v <= - a / v) by (apply Z.div_le_mono; lia). lia.
Qed.

(** *** The airtime sum *)

Lemma inject_units (p n w : Z) :
  (inject_Z ((4 * p + 17 + 4 * n) * w + 999)
   == (4 * inject_Z p + 17 + 4 * inject_Z n) * inject_Z w + 999)%Q.
Proof.
  rewrite inject_Z_plus, inject_Z_mult, !inject_Z_plus, !inject_Z_mult. reflexivity.
Qed.

Lemma literal_425 :
  ok (Double.literal 425 100) /\ (B2Q (Double.literal 425 100) == 17 # 4)%Q.
Proof. split; [split; [reflexivity | vm_compute; discriminate] | vm_compute; reflexivity]. Qed.

Lemma literal_999 :
  ok (Double.literal 999 1000)
  /\ near (B2Q (Double.literal 999 1000)) (999 # 1000) (pow2 (- 53)).
Proof.
  split; [split; [reflexivity | vm_compute; discriminate]|].
  split; vm_compute; discriminate.
Qed.

(** A tabulated symbol time is the [double] next to [2^j / 1000]. *)
Lemma symbol_time_value (j : Z) :
  8 <= j <= 15 ->
  ok (Double.literal (2 ^ j) 1000)
  /\ near (B2Q (Double.literal (2 ^ j) 1000)) (inject_Z (2 ^ j) / 1000) (pow2 (- 48)).
Proof.
  intros Hj.
  assert (H : j = 8 \/ j = 9 \/ j = 10 \/ j = 11 \/ j = 12 \/ j = 13 \/ j = 14 \/ j = 15)
    by lia.
  destruct H as [-> | [-> | [-> | [-> | [-> | [-> | [-> | ->]]]]]]];
    (split; [split; [reflexivity | vm_compute; discriminate]
            | split; vm_compute; discriminate]).
Qed.

(** The preamble time, the payload time, their sum and the rounding term:
    for a symbol count of up to [2^31] the result stays within [2^-14] ms
    of the exact airtime. *)
Lemma airtime_sum_near (ts : spec_float) (t : Q) (p n : Z) :
  ok ts -> (1 # 4 <= t)%Q -> (t <= 33)%Q -> near (B2Q ts) t (pow2 (- 48)) ->
  0 <= p <= 65535 -> 8 <= n <= 2147483648 ->
  ok (Double.add
        (Double.add
           (Double.mul (Double.add (Double.of_int p) (Double.literal 425 100)) ts)
           (Double.mul (Double.of_int n) ts))
        (Double.literal 999 1000))
  /\ near
       (B2Q (Double.add
               (Double.add
                  (Double.mul (Double.add (Double.of_int p) (Double.literal 425 100)) ts)
                  (Double.mul (Double.of_int n) ts))
               (Double.literal 999 1000)))
       ((inject_Z p + (17 # 4) + inject_Z n) * t + (999 # 1000))
       (pow2 (- 14)).
Proof.
  intros Hts Htlo Hthi [Ht1 Ht2] Hp Hn.
  destruct literal_425 as [Hc_ok Hc]. destruct literal_999 as [H9_ok [H91 H92]].
  destruct (of_int_Q p ltac:(lia)) as [Hp_ok Hpv].
  destruct (of_int_Q n ltac:(lia)) as [Hn_ok Hnv].
  assert (Hqp : (0 <= inject_Z p <= 65535)%Q).
  { change 0%Q with (inject_Z 0). change 65535%Q with (inject_Z 65535).
    rewrite <- !Zle_Qle. lia. }
  assert (Hqn : (8 <= inject_Z n <= 2147483648)%Q).
  { change 8%Q with (inject_Z 8). change 2147483648%Q with (inject_Z 2147483648).
    rewrite <- !Zle_Qle. lia. }
  set (qp := inject_Z p) in *. set (qn := inject_Z n) in *.
  set (T := B2Q ts) in *.
  change (pow2 (- 48)) with (1 # 281474976710656)%Q in Ht1, Ht2.
  change (pow2 (- 53)) with (1 # 9007199254740992)%Q in H91, H92.
  (* the preamble length plus 4.25 is exact *)
  destruct (add_Q (Double.of_int p) (Double.literal 425 100) 17 Hp_ok Hc_ok) as [HP_ok [_ HPx]].
  { rewrite Hpv, Hc. change (pow2 17) with 131072%Q. lra. }
  { lia. }
  assert (HP : (B2Q (Double.add (Double.of_int p) (Double.literal 425 100))
                == qp + (17 # 4))%Q).
  { rewrite HPx; [rewrite Hpv, Hc; reflexivity|].
    exists (4 * p + 17), (-2). repeat split; try lia.
    rewrite Hpv, Hc. unfold F2Q. rewrite inject_Z_plus, inject_Z_mult.
    change (pow2 (-2)) with (1 # 4)%Q. change (inject_Z 4) with 4%Q.
    change (inject_Z 17) with 17%Q. fold qp. field. }
  set (P := Double.add (Double.of_int p) (Double.literal 425 100)) in *.
  (* products with bounded factors *)
  assert (HPT : (B2Q P * T <= 65540 * 34 + 1)%Q /\ (0 <= B2Q P * T)%Q).
  { rewrite HP. split.
    - apply Qle_trans with ((qp + (17 # 4)) * 34)%Q; [|lra].
      apply Qmult_le_l; lra.
    - apply Qmult_le_0_compat; lra. }
  assert (HNT : (B2Q (Double.of_int n) * T <= 2147483648 * 34 + 1)%Q
                /\ (0 <= B2Q (Double.of_int n) * T)%Q).
  { rewrite Hnv. split.
    - apply Qle_trans with (qn * 34)%Q; [|lra]. apply Qmult_le_l; lra.
    - apply Qmult_le_0_compat; lra. }
  destruct (mul_Q P ts 22 HP_ok Hts) as [HA_ok [HA1 HA2]].
  { change (pow2 22) with 4194304%Q. fold T. lra. }
  { lia. }
  destruct (mul_Q (Double.of_int n) ts 37 Hn_ok Hts) as [HB_ok [HB1 HB2]].
  { change (pow2 37) with 137438953472%Q. fold T. lra. }
  { lia. }
  fold T in HA1, HA2, HB1, HB2.
  change (pow2 (22 - 54)) with (1 # 4294967296)%Q in HA1, HA2.
  change (pow2 (37 - 54)) with (1 # 131072)%Q in HB1, HB2.
  set (A := Double.mul P ts) in *. set (B := Double.mul (Double.of_int n) ts) in *.
  destruct (add_Q A B 38 HA_ok HB_ok) as [HS_ok [[HS1 HS2] _]].
  { change (pow2 38) with 274877906944%Q. lra. }
  { lia. }
  change (pow2 (38 - 54)) with (1 # 65536)%Q in HS1, HS2.
  set (S := Double.add A B) in *.
  destruct (add_Q S (Double.literal 999 1000) 38 HS_ok H9_ok) as [HR_ok [[HR1 HR2] _]].
  { change (pow2 38) with 274877906944%Q. lra. }
  { lia. }
  change (pow2 (38 - 54)) with (1 # 65536)%Q in HR1, HR2.
  split; [exact HR_ok|].
  (* the symbol time is within 2^-48 of t, the factors below 2^17 and 2^31 *)
  assert (Hx : (B2Q P * T - (qp + (17 # 4)) * t <= 65540 * (1 # 281474976710656))%Q
               /\ ((qp + (17 # 4)) * t - B2Q P * T <= 65540 * (1 # 281474976710656))%Q).
  { rewrite HP.
    setoid_replace ((qp + (17 # 4)) * T - (qp + (17 # 4)) * t)%Q
      with ((qp + (17 # 4)) * (T - t))%Q by ring.
    setoid_replace ((qp + (17 # 4)) * t - (qp + (17 # 4)) * T)%Q
      with ((qp + (17 # 4)) * (t - T))%Q by ring.
    split.
    - apply Qle_trans with ((qp + (17 # 4)) * (1 # 281474976710656))%Q;
        [apply Qmult_le_l; lra | apply Qmult_le_compat_r; lra].
    - apply Qle_trans with ((qp + (17 # 4)) * (1 # 281474976710656))%Q;
        [apply Qmult_le_l; lra | apply Qmult_le_compat_r; lra]. }
  assert (Hy : (B2Q (Double.of_int n) * T - qn * t
                <= 2147483648 * (1 # 281474976710656))%Q
               /\ (qn * t - B2Q (Double.of_int n) * T
                   <= 2147483648 * (1 # 281474976710656))%Q).
  { rewrite Hnv.
    setoid_replace (qn * T - qn * t)%Q with (qn * (T - t))%Q by ring.
    setoid_replace (qn * t - qn * T)%Q with (qn * (t - T))%Q by ring.
    split.
    - apply Qle_trans with (qn * (1 # 281474976710656))%Q;
        [apply Qmult_le_l; lra | apply Qmult_le_compat_r; lra].
    - apply Qle_trans with (qn * (1 # 281474976710656))%Q;
        [apply Qmult_le_l; lra | apply Qmult_le_compat_r; lra]. }
  destruct Hx as [Hx1 Hx2]. destruct Hy as [Hy1 Hy2].
  change (pow2 (- 14)) with (1 # 16384)%Q.
  unfold near. split; lra.
Qed.

(** The airtime in whole milliseconds: the [double] sum, plus 0.999 and
    rounded down, is the exact sum plus 0.999 rounded down; the conversion
    to [uint32_t] is undefined when that is 2^32 or more. *)
Lemma airtime_floor (j p n : Z) :
  8 <= j <= 15 -> 0 <= p <= 65535 -> 8 <= n <= 2147483648 ->
  Double.to_uint32
    (Double.floor
       (Double.add
          (Double.add
             (Double.mul (Double.add (Double.of_int p) (Double.literal 425 100))
                         (Double.literal (2 ^ j) 1000))
             (Double.mul (Double.of_int n) (Double.literal (2 ^ j) 1000)))
          (Double.literal 999 1000)))
  = (let t := ((4 * p + 17 + 4 * n) * 2 ^ (j - 2) + 999) / 1000 in
     if t <? 4294967296 then Some t else None).
Proof.
  intros Hj Hp Hn. cbv zeta.
  destruct (symbol_time_value j Hj) as [Hts_ok Hts].
  set (w := 2 ^ (j - 2)).
  assert (Hw : 2 ^ j = 4 * w).
  { unfold w. replace j with (2 + (j - 2)) at 1 by lia.
    rewrite Z.pow_add_r by lia. reflexivity. }
  assert (Hw2 : exists w', w = 2 * w' /\ 32 <= w' <= 4096).
  { exists (2 ^ (j - 3)). split.
    - unfold w. replace (j - 2) with (1 + (j - 3)) by lia.
      rewrite Z.pow_add_r by lia. reflexivity.
    - split.
      + change 32 with (2 ^ 5). apply Z.pow_le_mono_r; lia.
      + change 4096 with (2 ^ 12). apply Z.pow_le_mono_r; lia. }
  destruct Hw2 as [w' [Hw' Hw'b]].
  rewrite Hw in *.
  assert (Hqw : (64 <= inject_Z w <= 8192)%Q).
  { change 64%Q with (inject_Z 64). change 8192%Q with (inject_Z 8192).
    rewrite <- !Zle_Qle. lia. }
  assert (Ht : (inject_Z (4 * w) / 1000 == inject_Z w * (4 # 1000))%Q).
  { rewrite inject_Z_mult. change (inject_Z 4) with 4%Q. field. }
  destruct (airtime_sum_near (Double.literal (4 * w) 1000) (inject_Z (4 * w) / 1000) p n
              Hts_ok) as [HR_ok [HR1 HR2]]; try assumption.
  { rewrite Ht. lra. }
  { rewrite Ht. lra. }
  set (R := Double.add _ (Double.literal 999 1000)) in *.
  set (K := (4 * p + 17 + 4 * n) * w + 999).
  pose proof (Z.div_mod K 1000 ltac:(lia)) as Hdm.
  pose proof (Z.mod_pos_bound K 1000 ltac:(lia)) as Hrr.
  set (N := K / 1000) in *. set (rr := K mod 1000) in *.
  assert (Hodd : 1 <= rr <= 999) by (unfold K in Hdm; lia).
  assert (HK : (inject_Z K == 1000 * inject_Z N + inject_Z rr)%Q).
  { rewrite Hdm at 1. rewrite inject_Z_plus, inject_Z_mult. reflexivity. }
  assert (Hqr : (1 <= inject_Z rr <= 999)%Q).
  { change 1%Q with (inject_Z 1). change 999%Q with (inject_Z 999).
    rewrite <- !Zle_Qle. lia. }
  assert (HV : ((inject_Z p + (17 # 4) + inject_Z n) * (inject_Z (4 * w) / 1000)
                + (999 # 1000) == inject_Z K / 1000)%Q).
  { unfold K. rewrite inject_units, Ht. field. }
  rewrite HV in HR1, HR2. rewrite HK in HR1, HR2.
  change (pow2 (- 14)) with (1 # 16384)%Q in HR1, HR2.
  apply floor_to_uint32; [exact HR_ok | | | ].
  - assert ((1000 * inject_Z N + inject_Z rr) / 1000 == inject_Z N + inject_Z rr * (1 # 1000))%Q
      as E by field.
    rewrite E in HR1, HR2. clear - HR1 HR2 Hqr. clearbody N rr R. lra.
  - assert ((1000 * inject_Z N + inject_Z rr) / 1000 == inject_Z N + inject_Z rr * (1 # 1000))%Q
      as E by field.
    rewrite E in HR1, HR2. clear - HR1 HR2 Hqr. clearbody N rr R. lra.
  - assert (0 <= K <= 8590196837 * 8192 + 999) by (unfold K; nia).
    subst N. split.
    + apply Z.div_pos; lia.
    + apply Z.div_lt_upper_bound; lia.
Qed.
(** *** The LoRa airtime, step by step in integers *)

Lemma lora_steps (t p SF l2 crc hdr20 k pktLen : Z) :
  2 ^ Z.log2 t = t -> 8 <= Z.log2 t <= 15 -> 0 <= p <= 65535 -> 7 <= SF <= 12 ->
  l2 = 0 \/ l2 = 2 -> crc = 0 \/ crc = 1 -> hdr20 = 0 \/ hdr20 = 20 ->
  4 <= k <= 7 -> 0 <= pktLen <= 255 ->
  Double.to_uint32
    (Double.floor
       (Double.add
          (Double.add
             (Double.mul (Double.add (Double.of_int p) (Double.literal 425 100))
                         (Double.literal t 1000))
             (Double.mul
                (nPayload_of
                   (Double.ceil
                      (Double.div
                         (Double.of_int
                            (uint32 (8 * pktLen - 4 * SF + 28 + 16 * crc - hdr20)))
                         (Double.of_int (4 * (SF - l2)))))
                   k)
                (Double.literal t 1000)))
          (Double.literal 999 1000)))
  = (let n := 8 + ceil_div (uint32 (8 * pktLen - 4 * SF + 28 + 16 * crc - hdr20))
                           (4 * (SF - l2)) * k in
     let v := ((4 * p + 17 + 4 * n) * 2 ^ (Z.log2 t - 2) + 999) / 1000 in
     if v <? 4294967296 then Some v else None).
Proof.
  intros Ht Hj Hp HSF Hl Hc Hh Hk Hlen. cbv zeta.
  set (u := 2 * pktLen - SF + 7 + 4 * crc - hdr20 / 4).
  assert (Hu : 8 * pktLen - 4 * SF + 28 + 16 * crc - hdr20 = 4 * u).
  { unfold u. destruct Hh as [-> | ->]; [change (0 / 4) with 0 | change (20 / 4) with 5]; lia. }
  assert (Hub : -10 <= u <= 514).
  { unfold u. destruct Hh as [-> | ->]; [change (0 / 4) with 0 | change (20 / 4) with 5]; lia. }
  assert (Hv : 5 <= SF - l2 <= 12) by lia.
  rewrite Hu. rewrite <- Ht at 1 2.
  destruct (Z_le_gt_dec 0 u) as [Hpos|Hneg].
  - rewrite uint32_small by lia.
    rewrite ceil_div_exact_double, ceil_div_scale by lia.
    pose proof (ceil_div_bounds u (SF - l2) Hub Hv) as Hc'.
    rewrite nPayload_exact by assumption.
    assert (Hc0 : 0 <= ceil_div u (SF - l2)).
    { unfold ceil_div. assert (- u / (SF - l2) <= 0 / (SF - l2))
        by (apply Z.div_le_mono; lia). rewrite Z.div_0_l in H by lia. lia. }
    set (c := ceil_div u (SF - l2)) in *.
    replace (Z.max 0 (c * k)) with (c * k) by nia.
    apply airtime_floor; try assumption. nia.
  - assert (Hw : uint32 (4 * u) = 4 * (1073741824 + u)).
    { unfold uint32, wrap. symmetry.
      apply (Z.mod_unique_pos _ _ (-1)); lia. }
    rewrite Hw.
    rewrite ceil_div_wrapped_double, ceil_div_scale by lia.
    rewrite nPayload_wrapped by lia.
    pose proof (ceil_div_wrapped_bounds u (SF - l2) ltac:(lia) Hv) as Hc'.
    set (c := ceil_div (1073741824 + u) (SF - l2)) in *.
    apply airtime_floor; try assumption. nia.
Qed.

Ltac lookup_symbol_time :=
  repeat match goal with
  | |- context [index ?tbl (uint32 ?i)] =>
      rewrite (uint32_small i) by lia
  | |- context [index ?tbl ?i] =>
      let v := eval cbn in (index tbl i) in
      change (index tbl i) with v; cbv beta iota
  end.

Ltac fold_nPayload :=
  lazymatch goal with
  | |- context [Double.mul (Double.ceil ?q) (Double.of_int ?k)] =>
      change (Double.add (Double.of_int 8)
                (if Double.ltb (Double.of_int 0) (Double.mul (Double.ceil q) (Double.of_int k))
                 then Double.mul (Double.ceil q) (Double.of_int k)
                 else Double.of_int 0))
        with (nPayload_of (Double.ceil q) k)
  end.

(** The closed form of the LoRa airtime: after a LoRa [RadioSetTxConfig]
    with a tabulated bandwidth index and a spreading factor from 7 to 12,
    [RadioTimeOnAir] is [lora_airtime_uint32] of the stored parameters,
    for every payload length and coding rate of a [uint8_t] and every
    preamble length of a [uint16_t]. *)
Lemma TimeOnAir_lora_closed_uint32
    (power fdev bandwidth datarate coderate preambleLen : Z)
    (fixLen crcOn freqHopOn : bool) (hopPeriod : Z) (iqInverted : bool)
    (timeout pktLen : Z) (r : Radio_t) :
  0 <= bandwidth <= 2 -> 7 <= datarate <= 12 -> 0 <= coderate ->
  is_uint16 preambleLen -> is_uint8 pktLen ->
  exists r',
    RadioSetTxConfig MODEM_LORA power fdev bandwidth datarate coderate preambleLen
      fixLen crcOn freqHopOn hopPeriod iqInverted timeout r = Some r'
    /\ RadioTimeOnAir MODEM_LORA pktLen r'
       = lora_airtime_uint32 datarate bandwidth coderate crcOn fixLen preambleLen pktLen.
Proof.
  intros Hbw Hsf Hcr Hpre Hlen.
  assert (Hb : bandwidth = 0 \/ bandwidth = 1 \/ bandwidth = 2) by lia.
  assert (Hs : datarate = 7 \/ datarate = 8 \/ datarate = 9 \/ datarate = 10
               \/ datarate = 11 \/ datarate = 12) by lia.
  unfold RadioSetTxConfig, RadioSetTxConfig_with. rewrite (index_Bandwidths_defined _ Hb).
  eexists. split; [reflexivity|].
  unfold RadioTimeOnAir, lora_airtime_uint32, payload_symbols_uint32, lora_numerator.
  pose proof (Z.rem_mod_nonneg coderate 4 Hcr ltac:(lia)) as Hrem.
  pose proof (Z.mod_pos_bound coderate 4 ltac:(lia)) as Hk.
  unfold is_uint16 in Hpre. unfold is_uint8 in Hlen.
  destruct Hb as [-> | [-> | ->]];
    destruct Hs as [-> | [-> | [-> | [-> | [-> | ->]]]]];
    destruct fixLen, crcOn;
    cbn -[Z.mul Z.add Z.sub Z.rem Z.modulo Z.pow Z.max Z.div ceil_div uint32];
    rewrite Hrem, (uint32_small (coderate mod 4 + 4)) by lia;
    match goal with
    | |- context [Double.of_int (uint32 (4 * ?z))] => rewrite (uint32_small (4 * z)) by lia
    end;
    lookup_symbol_time; fold_nPayload;
    (etransitivity;
     [ apply lora_steps;
       first [ reflexivity | assumption | lia | now left | now right
             | split; apply Z.leb_le; reflexivity ]
     | reflexivity ]).
Qed.

Lemma payload_symbols_uint32_nonneg (SF : Z) (ldro : bool) (codingRate : Z)
    (crcOn fixedHeader : bool) (payloadLength : Z) :
  7 <= SF <= 12 -> is_uint8 payloadLength ->
  0 <= lora_numerator SF crcOn fixedHeader payloadLength ->
  payload_symbols_uint32 SF ldro codingRate crcOn fixedHeader payloadLength
  = payload_symbols SF ldro codingRate crcOn fixedHeader payloadLength
  /\ 8 <= payload_symbols SF ldro codingRate crcOn fixedHeader payloadLength <= 729.
Proof.
  intros HSF Hlen Hnum. unfold payload_symbols_uint32, payload_symbols.
  unfold lora_numerator in *. unfold is_uint8 in Hlen.
  set (N := 8 * payloadLength - 4 * SF + 28 + 16 * Z_of_bool crcOn
            - (if fixedHeader then 20 else 0)) in *.
  set (u := 2 * payloadLength - SF + 7 + 4 * Z_of_bool crcOn
            - (if fixedHeader then 5 else 0)).
  assert (HN : N = 4 * u) by (unfold N, u; destruct fixedHeader; lia).
  assert (Hu : 0 <= u <= 514)
    by (unfold N, u in *; destruct fixedHeader, crcOn; cbn [Z_of_bool] in *; lia).
  assert (Hv : 5 <= SF - 2 * Z_of_bool ldro <= 12) by (destruct ldro; cbn [Z_of_bool]; lia).
  rewrite uint32_small by lia.
  rewrite HN, ceil_div_scale by lia.
  pose proof (ceil_div_bounds u _ ltac:(lia) Hv) as Hc.
  assert (Hc0 : 0 <= ceil_div u (SF - 2 * Z_of_bool ldro)).
  { unfold ceil_div.
    assert (H : - u / (SF - 2 * Z_of_bool ldro) <= 0 / (SF - 2 * Z_of_bool ldro))
      by (apply Z.div_le_mono; lia).
    rewrite Z.div_0_l in H by lia. lia. }
  pose proof (Z.mod_pos_bound codingRate 4 ltac:(lia)) as Hk.
  set (c := ceil_div u _) in *. set (k := codingRate mod 4 + 4).
  assert (Hk' : 4 <= k <= 7) by (unfold k; lia).
  replace (Z.max 0 (c * k)) with (c * k) by nia.
  split; [reflexivity | nia].
Qed.

Lemma lora_airtime_uint32_nonneg (SF bandwidth codingRate : Z) (crcOn fixedHeader : bool)
    (preambleLength payloadLength : Z) :
  0 <= bandwidth <= 2 -> 7 <= SF <= 12 ->
  is_uint16 preambleLength -> is_uint8 payloadLength ->
  0 <= lora_numerator SF crcOn fixedHeader payloadLength ->
  lora_airtime_uint32 SF bandwidth codingRate crcOn fixedHeader preambleLength
    payloadLength
  = Some (lora_airtime_ms SF bandwidth codingRate crcOn fixedHeader preambleLength
            payloadLength).
Proof.
  intros Hbw HSF Hpre Hlen Hnum. unfold lora_airtime_uint32, lora_airtime_ms.
  destruct (payload_symbols_uint32_nonneg SF
              (low_datarate_required (bandwidth_kHz bandwidth) SF) codingRate crcOn
              fixedHeader payloadLength HSF Hlen Hnum) as [-> Hn].
  set (n := payload_symbols _ _ _ _ _ _) in *.
  unfold is_uint16 in Hpre.
  assert (Hw : 0 < 2 ^ (SF - bandwidth + 1) <= 2 ^ 13).
  { split; [apply Z.pow_pos_nonneg; lia | apply Z.pow_le_mono_r; lia]. }
  change (2 ^ 13) with 8192 in Hw.
  set (w := 2 ^ (SF - bandwidth + 1)) in *.
  assert (Hlt : ((4 * preambleLength + 17 + 4 * n) * w + 999) / 1000 < 4294967296).
  { apply Z.div_lt_upper_bound; [lia|]. nia. }
  apply Z.ltb_lt in Hlt. cbv zeta. now rewrite Hlt.
Qed.

(** For a payload length whose numerator is not negative the airtime is
    the integer [lora_airtime_ms] of the stored parameters. *)
Lemma TimeOnAir_lora_closed
    (power fdev bandwidth datarate coderate preambleLen : Z)
    (fixLen crcOn freqHopOn : bool) (hopPeriod : Z) (iqInverted : bool)
    (timeout pktLen : Z) (r : Radio_t) :
  0 <= bandwidth <= 2 -> 7 <= datarate <= 12 -> 0 <= coderate ->
  is_uint16 preambleLen -> is_uint8 pktLen ->
  0 <= lora_numerator datarate crcOn fixLen pktLen ->
  exists r',
    RadioSetTxConfig MODEM_LORA power fdev bandwidth datarate coderate preambleLen
      fixLen crcOn freqHopOn hopPeriod iqInverted timeout r = Some r'
    /\ RadioTimeOnAir MODEM_LORA pktLen r'
       = Some (lora_airtime_ms datarate bandwidth coderate crcOn fixLen preambleLen pktLen).
Proof.
  intros Hbw Hsf Hcr Hpre Hlen Hnum.
  destruct (TimeOnAir_lora_closed_uint32 power fdev bandwidth datarate coderate
              preambleLen fixLen crcOn freqHopOn hopPeriod iqInverted timeout pktLen r
              Hbw Hsf Hcr Hpre Hlen) as [r' [Hc Ht]].
  exists r'. split; [exact Hc|]. rewrite Ht.
  apply lora_airtime_uint32_nonneg; assumption.
Qed.

(** *** Monotonicity of the LoRa airtime in the payload length *)

Lemma payload_symbols_mono (SF : Z) (ldro : bool) (codingRate : Z) (crcOn fixedHeader : bool)
    (len1 len2 : Z) :
  5 <= SF -> len1 <= len2 ->
  payload_symbols SF ldro codingRate crcOn fixedHeader len1
  <= payload_symbols SF ldro codingRate crcOn fixedHeader len2.
Proof.
  intros HSF Hlen. unfold payload_symbols.
  pose proof (Z.mod_pos_bound codingRate 4 ltac:(lia)) as Hk.
  set (k := codingRate mod 4 + 4).
  set (v := 4 * (SF - 2 * Z_of_bool ldro)).
  assert (Hv : 0 < v) by (unfold v; destruct ldro; cbn [Z_of_bool]; lia).
  set (a := 8 * len1 - 4 * SF + 28 + 16 * Z_of_bool crcOn - (if fixedHeader then 20 else 0)).
  set (b := 8 * len2 - 4 * SF + 28 + 16 * Z_of_bool crcOn - (if fixedHeader then 20 else 0)).
  assert (Hab : a <= b) by (unfold a, b; lia).
  pose proof (ceil_div_mono a b v Hv Hab) as Hc.
  assert (ceil_div a v * k <= ceil_div b v * k) by (apply Z.mul_le_mono_nonneg_r; lia).
  lia.
Qed.

Lemma lora_airtime_ms_mono (SF bandwidth codingRate : Z) (crcOn fixedHeader : bool)
    (preambleLength len1 len2 : Z) :
  5 <= SF -> 0 <= SF - bandwidth + 1 -> len1 <= len2 ->
  lora_airtime_ms SF bandwidth codingRate crcOn fixedHeader preambleLength len1
  <= lora_airtime_ms SF bandwidth codingRate crcOn fixedHeader preambleLength len2.
Proof.
  intros HSF He Hlen. unfold lora_airtime_ms.
  pose proof (payload_symbols_mono SF (low_datarate_required (bandwidth_kHz bandwidth) SF)
                codingRate crcOn fixedHeader len1 len2 HSF Hlen) as Hn.
  set (n1 := payload_symbols _ _ _ _ _ len1) in *.
  set (n2 := payload_symbols _ _ _ _ _ len2) in *.
  assert (Hw : 0 < 2 ^ (SF - bandwidth + 1)) by (apply Z.pow_pos_nonneg; lia).
  apply Z.div_le_mono; [lia|].
  apply Z.add_le_mono_r. apply Z.mul_le_mono_nonneg_r; lia.
Qed.

(** C8, the failing input.  At spreading factor 7, 500 kHz, coding rate
    4/5, CRC off, fixed header and a preamble of 8 symbols, the numerator
    is -4 for a payload of two bytes and 4 for one of three bytes; the
    driver computes the first as the [unsigned int] 4294967292 and returns
    196341368 ms for two bytes and 7 ms for three: the airtime decreases
    when the payload grows.  The reference computation gives 6 ms and
    7 ms. *)
Theorem TimeOnAir_lora_not_monotone :
  lora_numerator 7 false true 2 = -4
  /\ lora_numerator 7 false true 3 = 4
  /\ TimeOnAir_after MODEM_LORA 2 (SetTxConfig_LoRa 2 7 1 8 true false Radio_start)
     = Some 196341368
  /\ TimeOnAir_after MODEM_LORA 3 (SetTxConfig_LoRa 2 7 1 8 true false Radio_start)
     = Some 7
  /\ lora_airtime_reference 7 500 1 false true 8 2 = Some 6
  /\ lora_airtime_reference 7 500 1 false true 8 3 = Some 7.
Proof. repeat split; vm_compute; reflexivity. Qed.

Lemma lora_numerator_mono (SF : Z) (crcOn fixedHeader : bool) (len1 len2 : Z) :
  len1 <= len2 ->
  lora_numerator SF crcOn fixedHeader len1 <= lora_numerator SF crcOn fixedHeader len2.
Proof. unfold lora_numerator. lia. Qed.

(** X25.  For every LoRa configuration that [RadioSetTxConfig] stores
    with a spreading factor from 7 to 12 and a bandwidth index 0, 1 or 2,
    from the first payload length whose numerator is not negative on,
    [RadioTimeOnAir] returns a value, the value does not decrease when the
    payload length grows, and it is a function of the configuration and
    the payload length alone: the same configuration stored from any
    other driver state gives the identical value. *)
Theorem TimeOnAir_lora_payload_monotone
    (power fdev bandwidth datarate coderate preambleLen : Z)
    (fixLen crcOn freqHopOn : bool) (hopPeriod : Z) (iqInverted : bool)
    (timeout len1 len2 : Z) (ra rb : Radio_t)
    (Hbw : 0 <= bandwidth <= 2) (Hsf : 7 <= datarate <= 12) (Hcr : 0 <= coderate)
    (Hpre : is_uint16 preambleLen) (H1 : is_uint8 len1) (H2 : is_uint8 len2)
    (Hnum : 0 <= lora_numerator datarate crcOn fixLen len1)
    (Hle : len1 <= len2) :
  exists ra' rb' t1 t2,
    RadioSetTxConfig MODEM_LORA power fdev bandwidth datarate coderate preambleLen
      fixLen crcOn freqHopOn hopPeriod iqInverted timeout ra = Some ra'
    /\ RadioSetTxConfig MODEM_LORA power fdev bandwidth datarate coderate preambleLen
         fixLen crcOn freqHopOn hopPeriod iqInverted timeout rb = Some rb'
    /\ RadioTimeOnAir MODEM_LORA len1 ra' = Some t1
    /\ RadioTimeOnAir MODEM_LORA len2 ra' = Some t2
    /\ t1 <= t2
    /\ RadioTimeOnAir MODEM_LORA len1 rb' = Some t1
    /\ RadioTimeOnAir MODEM_LORA len2 rb' = Some t2.
Proof.
  pose proof (lora_numerator_mono datarate crcOn fixLen len1 len2 Hle) as Hmono.
  assert (Hnum2 : 0 <= lora_numerator datarate crcOn fixLen len2) by lia.
  destruct (TimeOnAir_lora_closed power fdev bandwidth datarate coderate preambleLen
              fixLen crcOn freqHopOn hopPeriod iqInverted timeout len1 ra
              Hbw Hsf Hcr Hpre H1 Hnum) as [ra' [Ha Ha1]].
  destruct (TimeOnAir_lora_closed power fdev bandwidth datarate coderate preambleLen
              fixLen crcOn freqHopOn hopPeriod iqInverted timeout len2 ra
              Hbw Hsf Hcr Hpre H2 Hnum2) as [ra2 [Ha' Ha2]].
  destruct (TimeOnAir_lora_closed power fdev bandwidth datarate coderate preambleLen
              fixLen crcOn freqHopOn hopPeriod iqInverted timeout len1 rb
              Hbw Hsf Hcr Hpre H1 Hnum) as [rb' [Hb Hb1]].
  destruct (TimeOnAir_lora_closed power fdev bandwidth datarate coderate preambleLen
              fixLen crcOn freqHopOn hopPeriod iqInverted timeout len2 rb
              Hbw Hsf Hcr Hpre H2 Hnum2) as [rb2 [Hb' Hb2]].
  assert (ra2 = ra') by congruence. assert (rb2 = rb') by congruence. subst ra2 rb2.
  exists ra', rb',
    (lora_airtime_ms datarate bandwidth coderate crcOn fixLen preambleLen len1),
    (lora_airtime_ms datarate bandwidth coderate crcOn fixLen preambleLen len2).
  repeat split; try assumption.
  apply lora_airtime_ms_mono; lia.
Qed.

Lemma TimeOnAir_lora_payload_monotone_witness :
  exists ra' rb',
    SetTxConfig_LoRa 0 7 1 8 false true Radio_start = Some ra'
    /\ SetTxConfig_LoRa 0 7 1 8 false true (RadioSetChannel 868100000 Radio_start) = Some rb'
    /\ RadioTimeOnAir MODEM_LORA 13 ra' = Some 47
    /\ RadioTimeOnAir MODEM_LORA 51 ra' = Some 103
    /\ RadioTimeOnAir MODEM_LORA 13 rb' = Some 47
    /\ RadioTimeOnAir MODEM_LORA 51 rb' = Some 103.
Proof.
  destruct (TimeOnAir_lora_payload_monotone 14 0 0 7 1 8 false true false 0 false 3000
              13 51 Radio_start (RadioSetChannel 868100000 Radio_start))
    as [ra' [rb' [t1 [t2 [Ha [Hb [Ha1 [Ha2 [Hle [Hb1 Hb2]]]]]]]]]];
    try (unfold is_uint16, is_uint8; lia); [vm_compute; discriminate|].
  exists ra', rb'. unfold SetTxConfig_LoRa.
  assert (E1 : Some t1 = Some 47).
  { rewrite <- Ha1. inversion Ha. vm_compute. reflexivity. }
  assert (E2 : Some t2 = Some 103).
  { rewrite <- Ha2. inversion Ha. vm_compute. reflexivity. }
  rewrite <- E1, <- E2. repeat split; assumption.
Defined.

(** * Further properties of the driver *)

(** ** Configuration calls *)

Lemma index_out_of_range {A : Type} (a : list A) (i : Z) :
  i < 0 \/ Z.of_nat (List.length a) <= i -> index a i = None.
Proof.
  intros H. unfold index. destruct (i <? 0) eqn:Hneg; [reflexivity|].
  apply Z.ltb_ge in Hneg.
  destruct (Z.of_nat (List.length a) <=? i) eqn:Hup; [reflexivity|].
  apply Z.leb_gt in Hup. lia.
Qed.

Lemma SetTxConfig_defined_iff_lora
    (power fdev bandwidth datarate coderate preambleLen : Z)
    (fixLen crcOn freqHopOn : bool) (hopPeriod : Z) (iqInverted : bool) (timeout : Z)
    (r r' : Radio_t) :
  RadioSetTxConfig MODEM_LORA power fdev bandwidth datarate coderate preambleLen
    fixLen crcOn freqHopOn hopPeriod iqInverted timeout r = Some r' ->
  0 <= bandwidth <= 2 /\ LoRa_Bandwidth (Mod_LoRa (ModulationParams (MockRadio r'))) = bandwidth + 4.
Proof.
  unfold RadioSetTxConfig, RadioSetTxConfig_with. intros H.
  destruct (index Bandwidths bandwidth) as [bw|] eqn:Hbw; [|discriminate].
  apply index_Bandwidths in Hbw. destruct Hbw as [Hb ->].
  inversion H; subst r'. split; [lia | reflexivity].
Qed.

(** X1.  [RadioSetTxConfig] validates nothing: for the FSK modem it stores
    whatever it is given, and for the LoRa modem it is defined exactly
    when the bandwidth index is 0, 1 or 2; any other index reads
    [Bandwidths] outside its three entries. *)
Theorem SetTxConfig_defined_iff (modem : RadioModems_t)
    (power fdev bandwidth datarate coderate preambleLen : Z)
    (fixLen crcOn freqHopOn : bool) (hopPeriod : Z) (iqInverted : bool) (timeout : Z)
    (r : Radio_t) :
  RadioSetTxConfig modem power fdev bandwidth datarate coderate preambleLen
    fixLen crcOn freqHopOn hopPeriod iqInverted timeout r <> None
  <-> (modem = MODEM_FSK \/ 0 <= bandwidth <= 2).
Proof.
  destruct modem.
  - split; [intros _; now left | intros _; discriminate].
  - unfold RadioSetTxConfig, RadioSetTxConfig_with. split.
    + intros H. right.
      destruct (Z_lt_ge_dec bandwidth 0) as [Hn|Hn];
        [rewrite index_out_of_range in H by (left; exact Hn); congruence|].
      destruct (Z_le_gt_dec 3 bandwidth) as [Hg|Hg];
        [rewrite index_out_of_range in H by (right; exact Hg); congruence|].
      lia.
    + intros [H|H]; [discriminate|].
      rewrite (index_Bandwidths_defined bandwidth) by lia. discriminate.
Qed.

(** X2.  The last configuration call for a modem wins: a
    [RadioSetTxConfig] call that follows another one for the same modem
    leaves the driver in the state that it alone would have produced, so
    nothing of the earlier call survives (and repeating a call changes
    nothing). *)
Theorem SetTxConfig_last_call_wins (modem : RadioModems_t)
    (power fdev bandwidth datarate coderate preambleLen : Z)
    (fixLen crcOn freqHopOn : bool) (hopPeriod : Z) (iqInverted : bool) (timeout : Z)
    (power' fdev' bandwidth' datarate' coderate' preambleLen' : Z)
    (fixLen' crcOn' freqHopOn' : bool) (hopPeriod' : Z) (iqInverted' : bool)
    (timeout' : Z) (r r1 : Radio_t)
    (Hfirst : RadioSetTxConfig modem power fdev bandwidth datarate coderate preambleLen
                fixLen crcOn freqHopOn hopPeriod iqInverted timeout r = Some r1) :
  RadioSetTxConfig modem power' fdev' bandwidth' datarate' coderate' preambleLen'
    fixLen' crcOn' freqHopOn' hopPeriod' iqInverted' timeout' r1
  = RadioSetTxConfig modem power' fdev' bandwidth' datarate' coderate' preambleLen'
      fixLen' crcOn' freqHopOn' hopPeriod' iqInverted' timeout' r.
Proof.
  destruct modem; unfold RadioSetTxConfig, RadioSetTxConfig_with in *.
  - inversion Hfirst; subst r1; clear Hfirst. reflexivity.
  - destruct (index Bandwidths bandwidth) as [bw|]; [|discriminate].
    inversion Hfirst; subst r1; clear Hfirst.
    destruct (index Bandwidths bandwidth'); reflexivity.
Qed.

Lemma SetTxConfig_last_call_wins_witness :
  exists r1,
    SetTxConfig_LoRa 0 12 1 8 false true Radio_start = Some r1
    /\ SetTxConfig_LoRa 2 7 4 6 true false r1
       = SetTxConfig_LoRa 2 7 4 6 true false Radio_start.
Proof.
  eexists. split; [reflexivity|].
  unfold SetTxConfig_LoRa.
  apply (SetTxConfig_last_call_wins MODEM_LORA 14 0 0 12 1 8 false true false 0 false 3000).
  reflexivity.
Defined.

(** ** Time on air: where it is defined *)

Lemma symbol_time_row (bandwidth : Z) :
  0 <= bandwidth <= 2 ->
  exists row, index RadioLoRaSymbTime (uint32 (bandwidth + 4 - 4)) = Some row
              /\ List.length row = 6%nat.
Proof.
  intros H. assert (Hb : bandwidth = 0 \/ bandwidth = 1 \/ bandwidth = 2) by lia.
  destruct Hb as [-> | [-> | ->]]; eexists; (split; [reflexivity | reflexivity]).
Qed.

Lemma uint32_column (datarate : Z) :
  is_uint32 datarate -> datarate < 7 \/ 12 < datarate -> 6 <= uint32 (12 - datarate).
Proof.
  intros Hd Hsf. unfold is_uint32 in Hd. unfold uint32, wrap.
  destruct (Z_le_gt_dec datarate 12) as [Hle|Hgt].
  - rewrite Z.mod_small by lia. lia.
  - rewrite <- (Z_mod_plus_full (12 - datarate) 1 (2 ^ 32)).
    rewrite Z.mod_small by lia. lia.
Qed.

Lemma TimeOnAir_lora_outside (power fdev bandwidth datarate coderate preambleLen : Z)
    (fixLen crcOn freqHopOn : bool) (hopPeriod : Z) (iqInverted : bool)
    (timeout pktLen : Z) (r r' : Radio_t) :
  RadioSetTxConfig MODEM_LORA power fdev bandwidth datarate coderate preambleLen
    fixLen crcOn freqHopOn hopPeriod iqInverted timeout r = Some r' ->
  is_uint32 datarate -> datarate < 7 \/ 12 < datarate ->
  RadioTimeOnAir MODEM_LORA pktLen r' = None.
Proof.
  intros Hcfg Hd Hsf. unfold RadioSetTxConfig, RadioSetTxConfig_with in Hcfg.
  destruct (index Bandwidths bandwidth) as [bw|] eqn:Hbw; [|discriminate].
  apply index_Bandwidths in Hbw. destruct Hbw as [Hb ->].
  inversion Hcfg; subst r'; clear Hcfg.
  unfold RadioTimeOnAir.
  cbn [MockRadio ModulationParams PacketParams Mod_LoRa Pkt_LoRa LoRa_Bandwidth
       LoRa_SpreadingFactor with_TxTimeout with_MockRadio RadioSetModem RadioStandby].
  destruct (symbol_time_row bandwidth ltac:(lia)) as [row [-> Hlen]].
  pose proof (uint32_column datarate Hd Hsf) as Hcol.
  rewrite (index_out_of_range row (uint32 (12 - datarate))) by (rewrite Hlen; lia).
  reflexivity.
Qed.

(** X3.  After a LoRa [RadioSetTxConfig], which accepts every spreading
    factor (and treats 5 and 6 specially), [RadioTimeOnAir] is defined
    only for the spreading factors 7 to 12: for any other one it reads
    the symbol-time table outside its six columns.  For the spreading
    factors 7 to 12 it is defined for every payload length whose
    numerator is not negative. *)
Theorem TimeOnAir_lora_defined
    (power fdev bandwidth datarate coderate preambleLen : Z)
    (fixLen crcOn freqHopOn : bool) (hopPeriod : Z) (iqInverted : bool)
    (timeout pktLen : Z) (r r' : Radio_t)
    (Hcfg : RadioSetTxConfig MODEM_LORA power fdev bandwidth datarate coderate
              preambleLen fixLen crcOn freqHopOn hopPeriod iqInverted timeout r
            = Some r')
    (Hsf32 : is_uint32 datarate) (Hcr : 0 <= coderate)
    (Hpre : is_uint16 preambleLen) (Hlen : is_uint8 pktLen) :
  (RadioTimeOnAir MODEM_LORA pktLen r' <> None -> 7 <= datarate <= 12)
  /\ (7 <= datarate <= 12 -> 0 <= lora_numerator datarate crcOn fixLen pktLen ->
      RadioTimeOnAir MODEM_LORA pktLen r' <> None).
Proof.
  split.
  - intros Hdef.
    destruct (Z_lt_ge_dec datarate 7) as [Hlo|Hlo];
      [exfalso; apply Hdef; eapply TimeOnAir_lora_outside;
         [exact Hcfg | exact Hsf32 | now left]|].
    destruct (Z_lt_ge_dec 12 datarate) as [Hhi|Hhi];
      [exfalso; apply Hdef; eapply TimeOnAir_lora_outside;
         [exact Hcfg | exact Hsf32 | now right]|].
    lia.
  - intros Hsf Hnum.
    assert (Hbw : 0 <= bandwidth <= 2).
    { apply (proj1 (SetTxConfig_defined_iff_lora _ _ _ _ _ _ _ _ _ _ _ _ _ _ Hcfg)). }
    destruct (TimeOnAir_lora_closed power fdev bandwidth datarate coderate preambleLen
                fixLen crcOn freqHopOn hopPeriod iqInverted timeout pktLen r
                Hbw Hsf Hcr Hpre Hlen Hnum) as [r2 [Hc Ht]].
    assert (r2 = r') by congruence. subst r2. rewrite Ht. discriminate.
Qed.

Lemma TimeOnAir_lora_defined_witness :
  exists r5 r7,
    SetTxConfig_LoRa 0 5 1 8 false true Radio_start = Some r5
    /\ SetTxConfig_LoRa 0 7 1 8 false true Radio_start = Some r7
    /\ ~ RadioTimeOnAir MODEM_LORA 13 r5 <> None
    /\ RadioTimeOnAir MODEM_LORA 13 r7 <> None.
Proof.
  eexists. eexists. split; [reflexivity|]. split; [reflexivity|]. split.
  - intros H.
    apply (TimeOnAir_lora_defined 14 0 0 5 1 8 false true false 0 false 3000 13
             Radio_start) in H;
      [lia | reflexivity | unfold is_uint32; lia | lia | unfold is_uint16; lia
       | unfold is_uint8; lia].
  - apply (TimeOnAir_lora_defined 14 0 0 7 1 8 false true false 0 false 3000 13
             Radio_start);
      [reflexivity | unfold is_uint32; lia | lia | unfold is_uint16; lia
       | unfold is_uint8; lia | lia | vm_compute; discriminate].
Defined.

(** ** Time on air: LoRa, against exact arithmetic *)

Lemma floor_div_Q (K : Z) :
  (inject_Z (K / 1000) <= inject_Z K / 1000)%Q
  /\ (inject_Z K / 1000 < inject_Z (K / 1000) + 1)%Q.
Proof.
  pose proof (Z.div_mod K 1000 ltac:(lia)) as Hdm.
  pose proof (Z.mod_pos_bound K 1000 ltac:(lia)) as Hrr.
  set (N := K / 1000) in *. set (rr := K mod 1000) in *.
  assert (HK : (inject_Z K == 1000 * inject_Z N + inject_Z rr)%Q).
  { rewrite Hdm at 1. rewrite inject_Z_plus, inject_Z_mult. reflexivity. }
  assert (Hqr : (0 <= inject_Z rr <= 999)%Q).
  { change 0%Q with (inject_Z 0). change 999%Q with (inject_Z 999).
    rewrite <- !Zle_Qle. lia. }
  assert (E : (inject_Z K / 1000 == inject_Z N + inject_Z rr * (1 # 1000))%Q)
    by (rewrite HK; field).
  rewrite E. clear - Hqr. clearbody N rr. split; lra.
Qed.

Lemma airtime_exact_units (p n w : Z) :
  ((inject_Z p + (17 # 4) + inject_Z n) * (inject_Z (4 * w) / 1000) + (999 # 1000)
   == inject_Z ((4 * p + 17 + 4 * n) * w + 999) / 1000)%Q.
Proof. rewrite inject_units, inject_Z_mult. change (inject_Z 4) with 4%Q. field. Qed.

(** X4.  For every LoRa configuration with a spreading factor from 7 to
    12 and a tabulated bandwidth, and every payload length whose numerator
    is not negative, the rounding errors of the [double] arithmetic never
    show in the result: [RadioTimeOnAir] returns the integer part of the
    exact airtime in milliseconds plus 0.999, the exact airtime being
    (preamble + 4.25 + payload symbols) symbol times of 2^SF / bandwidth. *)
Theorem TimeOnAir_lora_exact
    (power fdev bandwidth datarate coderate preambleLen : Z)
    (fixLen crcOn freqHopOn : bool) (hopPeriod : Z) (iqInverted : bool)
    (timeout pktLen : Z) (r : Radio_t)
    (Hbw : 0 <= bandwidth <= 2) (Hsf : 7 <= datarate <= 12) (Hcr : 0 <= coderate)
    (Hpre : is_uint16 preambleLen) (Hlen : is_uint8 pktLen)
    (Hnum : 0 <= lora_numerator datarate crcOn fixLen pktLen) :
  exists r' t,
    RadioSetTxConfig MODEM_LORA power fdev bandwidth datarate coderate preambleLen
      fixLen crcOn freqHopOn hopPeriod iqInverted timeout r = Some r'
    /\ RadioTimeOnAir MODEM_LORA pktLen r' = Some t
    /\ (inject_Z t
        <= lora_airtime_exact datarate bandwidth coderate crcOn fixLen preambleLen pktLen
           + (999 # 1000))%Q
    /\ (lora_airtime_exact datarate bandwidth coderate crcOn fixLen preambleLen pktLen
        + (999 # 1000) < inject_Z t + 1)%Q.
Proof.
  destruct (TimeOnAir_lora_closed power fdev bandwidth datarate coderate preambleLen
              fixLen crcOn freqHopOn hopPeriod iqInverted timeout pktLen r
              Hbw Hsf Hcr Hpre Hlen Hnum) as [r' [Hc Ht]].
  exists r', (lora_airtime_ms datarate bandwidth coderate crcOn fixLen preambleLen pktLen).
  split; [exact Hc|]. split; [exact Ht|].
  unfold lora_airtime_exact, lora_airtime_ms, symbol_time_ms.
  set (n := payload_symbols _ _ _ _ _ _).
  set (w := 2 ^ (datarate - bandwidth + 1)).
  assert (Hw : 2 ^ (datarate - bandwidth + 3) = 4 * w).
  { unfold w. replace (datarate - bandwidth + 3) with (2 + (datarate - bandwidth + 1)) by lia.
    rewrite Z.pow_add_r by lia. reflexivity. }
  rewrite Hw, airtime_exact_units.
  apply floor_div_Q.
Qed.

Lemma TimeOnAir_lora_exact_witness :
  exists r',
    SetTxConfig_LoRa 0 7 1 8 false true Radio_start = Some r'
    /\ RadioTimeOnAir MODEM_LORA 13 r' = Some 47
    /\ (lora_airtime_exact 7 0 1 true false 8 13 == 46336 # 1000)%Q.
Proof.
  destruct (TimeOnAir_lora_exact 14 0 0 7 1 8 false true false 0 false 3000 13 Radio_start)
    as [r' [t [Hc [Ht _]]]]; try (unfold is_uint16, is_uint8; lia);
    [vm_compute; discriminate|].
  exists r'. split; [exact Hc|]. split; [|vm_compute; reflexivity].
  inversion Hc. vm_compute. reflexivity.
Defined.

(** ** Time on air: LoRa, in the other parameters *)

Lemma payload_symbols_mono_cr (SF : Z) (ldro : bool) (c1 c2 : Z) (crcOn fixedHeader : bool)
    (len : Z) :
  c1 mod 4 <= c2 mod 4 ->
  payload_symbols SF ldro c1 crcOn fixedHeader len
  <= payload_symbols SF ldro c2 crcOn fixedHeader len.
Proof.
  intros Hc. unfold payload_symbols.
  pose proof (Z.mod_pos_bound c1 4 ltac:(lia)) as H1.
  pose proof (Z.mod_pos_bound c2 4 ltac:(lia)) as H2.
  set (q := ceil_div _ _).
  destruct (Z_le_gt_dec 0 q) as [Hq|Hq].
  - assert (q * (c1 mod 4 + 4) <= q * (c2 mod 4 + 4)) by (apply Z.mul_le_mono_nonneg_l; lia).
    lia.
  - assert (q * (c1 mod 4 + 4) <= 0) by nia.
    assert (q * (c2 mod 4 + 4) <= 0) by nia.
    lia.
Qed.

Lemma airtime_units_mono (p1 n1 p2 n2 w : Z) :
  0 < w -> p1 <= p2 -> n1 <= n2 ->
  ((4 * p1 + 17 + 4 * n1) * w + 999) / 1000 <= ((4 * p2 + 17 + 4 * n2) * w + 999) / 1000.
Proof.
  intros Hw Hp Hn. apply Z.div_le_mono; [lia|].
  apply Z.add_le_mono_r. apply Z.mul_le_mono_nonneg_r; lia.
Qed.

(** X5.  For a payload length whose numerator is not negative, the LoRa
    airtime depends on the coding rate only through its remainder modulo
    4, and does not decrease when that remainder grows:
    the coding rate 4 (4/8) is counted like 0 and gives an airtime no
    longer than the coding rates 1, 2 and 3 (4/5, 4/6, 4/7) give. *)
Theorem TimeOnAir_lora_coding_rate
    (power fdev bandwidth datarate coderate1 coderate2 preambleLen : Z)
    (fixLen crcOn freqHopOn : bool) (hopPeriod : Z) (iqInverted : bool)
    (timeout pktLen : Z) (r : Radio_t)
    (Hbw : 0 <= bandwidth <= 2) (Hsf : 7 <= datarate <= 12)
    (Hcr1 : 0 <= coderate1) (Hcr2 : 0 <= coderate2)
    (Hpre : is_uint16 preambleLen) (Hlen : is_uint8 pktLen)
    (Hnum : 0 <= lora_numerator datarate crcOn fixLen pktLen)
    (Hmod : coderate1 mod 4 <= coderate2 mod 4) :
  exists r1 r2 t1 t2,
    RadioSetTxConfig MODEM_LORA power fdev bandwidth datarate coderate1 preambleLen
      fixLen crcOn freqHopOn hopPeriod iqInverted timeout r = Some r1
    /\ RadioSetTxConfig MODEM_LORA power fdev bandwidth datarate coderate2 preambleLen
         fixLen crcOn freqHopOn hopPeriod iqInverted timeout r = Some r2
    /\ RadioTimeOnAir MODEM_LORA pktLen r1 = Some t1
    /\ RadioTimeOnAir MODEM_LORA pktLen r2 = Some t2
    /\ t1 <= t2
    /\ (coderate1 mod 4 = coderate2 mod 4 -> t1 = t2).
Proof.
  destruct (TimeOnAir_lora_closed power fdev bandwidth datarate coderate1 preambleLen
              fixLen crcOn freqHopOn hopPeriod iqInverted timeout pktLen r
              Hbw Hsf Hcr1 Hpre Hlen Hnum) as [r1 [Hc1 Ht1]].
  destruct (TimeOnAir_lora_closed power fdev bandwidth datarate coderate2 preambleLen
              fixLen crcOn freqHopOn hopPeriod iqInverted timeout pktLen r
              Hbw Hsf Hcr2 Hpre Hlen Hnum) as [r2 [Hc2 Ht2]].
  exists r1, r2,
    (lora_airtime_ms datarate bandwidth coderate1 crcOn fixLen preambleLen pktLen),
    (lora_airtime_ms datarate bandwidth coderate2 crcOn fixLen preambleLen pktLen).
  repeat (split; [assumption|]).
  assert (Hw : 0 < 2 ^ (datarate - bandwidth + 1)) by (apply Z.pow_pos_nonneg; lia).
  unfold lora_airtime_ms. split.
  - apply airtime_units_mono; [exact Hw | lia |].
    apply payload_symbols_mono_cr. exact Hmod.
  - intros Heq. unfold payload_symbols. rewrite Heq. reflexivity.
Qed.

Lemma TimeOnAir_lora_coding_rate_witness :
  exists r4 r1,
    SetTxConfig_LoRa 0 7 4 8 false true Radio_start = Some r4
    /\ SetTxConfig_LoRa 0 7 1 8 false true Radio_start = Some r1
    /\ RadioTimeOnAir MODEM_LORA 13 r4 = Some 42
    /\ RadioTimeOnAir MODEM_LORA 13 r1 = Some 47.
Proof.
  destruct (TimeOnAir_lora_coding_rate 14 0 0 7 4 1 8 false true false 0 false 3000 13
              Radio_start) as [r4 [r1 [t1 [t2 [Hc1 [Hc2 [Ht1 [Ht2 _]]]]]]]];
    try (unfold is_uint16, is_uint8; lia);
    [vm_compute; discriminate | cbv; discriminate |].
  exists r4, r1. split; [exact Hc1|]. split; [exact Hc2|].
  inversion Hc1. inversion Hc2. split; vm_compute; reflexivity.
Defined.

(** X6.  For a payload length whose numerator is not negative, the LoRa
    airtime does not decrease when the preamble grows, all other
    parameters of the configuration and the payload length being the
    same. *)
Theorem TimeOnAir_lora_preamble_monotone
    (power fdev bandwidth datarate coderate preambleLen1 preambleLen2 : Z)
    (fixLen crcOn freqHopOn : bool) (hopPeriod : Z) (iqInverted : bool)
    (timeout pktLen : Z) (r : Radio_t)
    (Hbw : 0 <= bandwidth <= 2) (Hsf : 7 <= datarate <= 12) (Hcr : 0 <= coderate)
    (Hpre1 : is_uint16 preambleLen1) (Hpre2 : is_uint16 preambleLen2)
    (Hlen : is_uint8 pktLen)
    (Hnum : 0 <= lora_numerator datarate crcOn fixLen pktLen)
    (Hle : preambleLen1 <= preambleLen2) :
  exists r1 r2 t1 t2,
    RadioSetTxConfig MODEM_LORA power fdev bandwidth datarate coderate preambleLen1
      fixLen crcOn freqHopOn hopPeriod iqInverted timeout r = Some r1
    /\ RadioSetTxConfig MODEM_LORA power fdev bandwidth datarate coderate preambleLen2
         fixLen crcOn freqHopOn hopPeriod iqInverted timeout r = Some r2
    /\ RadioTimeOnAir MODEM_LORA pktLen r1 = Some t1
    /\ RadioTimeOnAir MODEM_LORA pktLen r2 = Some t2
    /\ t1 <= t2.
Proof.
  destruct (TimeOnAir_lora_closed power fdev bandwidth datarate coderate preambleLen1
              fixLen crcOn freqHopOn hopPeriod iqInverted timeout pktLen r
              Hbw Hsf Hcr Hpre1 Hlen Hnum) as [r1 [Hc1 Ht1]].
  destruct (TimeOnAir_lora_closed power fdev bandwidth datarate coderate preambleLen2
              fixLen crcOn freqHopOn hopPeriod iqInverted timeout pktLen r
              Hbw Hsf Hcr Hpre2 Hlen Hnum) as [r2 [Hc2 Ht2]].
  exists r1, r2,
    (lora_airtime_ms datarate bandwidth coderate crcOn fixLen preambleLen1 pktLen),
    (lora_airtime_ms datarate bandwidth coderate crcOn fixLen preambleLen2 pktLen).
  repeat (split; [assumption|]).
  assert (Hw : 0 < 2 ^ (datarate - bandwidth + 1)) by (apply Z.pow_pos_nonneg; lia).
  unfold lora_airtime_ms. apply airtime_units_mono; [exact Hw | exact Hle | lia].
Qed.

Lemma TimeOnAir_lora_preamble_monotone_witness :
  exists r1 r2,
    SetTxConfig_LoRa 0 12 1 8 false true Radio_start = Some r1
    /\ SetTxConfig_LoRa 0 12 1 16 false true Radio_start = Some r2
    /\ RadioTimeOnAir MODEM_LORA 13 r1 = Some 1156
    /\ RadioTimeOnAir MODEM_LORA 13 r2 = Some 1418.
Proof.
  destruct (TimeOnAir_lora_preamble_monotone 14 0 0 12 1 8 16 false true false 0 false
              3000 13 Radio_start) as [r1 [r2 [t1 [t2 [Hc1 [Hc2 [Ht1 [Ht2 _]]]]]]]];
    try (unfold is_uint16, is_uint8; lia); [vm_compute; discriminate|].
  exists r1, r2. split; [exact Hc1|]. split; [exact Hc2|].
  inversion Hc1. inversion Hc2. split; vm_compute; reflexivity.
Defined.

(** ** Time on air: FSK *)

(** X7.  The FSK airtime does not depend on the CRC setting: whatever the
    other parameters, the configurations with the CRC on and with the CRC
    off give the same [RadioTimeOnAir] for every payload length, because
    [RadioSetTxConfig] stores [RADIO_CRC_2_BYTES_CCIT] and
    [RadioTimeOnAir] counts two bytes for [RADIO_CRC_2_BYTES] only. *)
Theorem TimeOnAir_fsk_crc_not_counted
    (power fdev bandwidth datarate coderate preambleLen : Z)
    (fixLen freqHopOn : bool) (hopPeriod : Z) (iqInverted : bool)
    (timeout pktLen : Z) (r : Radio_t) :
  exists r_on r_off,
    RadioSetTxConfig MODEM_FSK power fdev bandwidth datarate coderate preambleLen
      fixLen true freqHopOn hopPeriod iqInverted timeout r = Some r_on
    /\ RadioSetTxConfig MODEM_FSK power fdev bandwidth datarate coderate preambleLen
         fixLen false freqHopOn hopPeriod iqInverted timeout r = Some r_off
    /\ RadioTimeOnAir MODEM_FSK pktLen r_on = RadioTimeOnAir MODEM_FSK pktLen r_off.
Proof.
  eexists. eexists. split; [reflexivity|]. split; [reflexivity|].
  unfold RadioTimeOnAir.
  cbn [MockRadio ModulationParams PacketParams Mod_Gfsk Pkt_Gfsk Gfsk_CrcLength
       Gfsk_PreambleLength Gfsk_SyncWordLength Gfsk_HeaderType Gfsk_BitRate
       with_TxTimeout with_MockRadio RadioSetModem RadioStandby RadioCrcTypes_eqb].
  reflexivity.
Qed.

Lemma positive_is_finite (x : spec_float) :
  ok x -> (0 < B2Q x)%Q -> exists m e, x = S754_finite false m e.
Proof.
  intros Hx Hpos. destruct (ok_cases x Hx) as [-> | [m [e [-> _]]]].
  - cbn [B2Q] in Hpos. lra.
  - exists m, e. reflexivity.
Qed.

Lemma add_small (x y : spec_float) (a b : Z) :
  ok x -> ok y -> (B2Q x == inject_Z a)%Q -> (B2Q y == inject_Z b)%Q ->
  0 <= a -> 0 <= b -> a + b < 2 ^ 52 ->
  ok (Double.add x y) /\ (B2Q (Double.add x y) == inject_Z (a + b))%Q.
Proof.
  intros Hx Hy Ha Hb Ha0 Hb0 Hlt.
  assert (Hs : (B2Q x + B2Q y == inject_Z (a + b))%Q)
    by (rewrite Ha, Hb, inject_Z_plus; reflexivity).
  assert (Hlt' : (B2Q x + B2Q y < pow2 52)%Q).
  { rewrite Hs, pow2_inject by lia. rewrite <- Zlt_Qlt. exact Hlt. }
  destruct (add_Q x y 52 Hx Hy Hlt' ltac:(lia)) as [Hok [_ Hex]].
  split; [exact Hok|]. rewrite <- Hs. apply Hex.
  apply (representable_eq (inject_Z (a + b))); [symmetry; exact Hs|].
  exists (a + b), 0. repeat split; try lia.
  unfold F2Q. change (pow2 0) with 1%Q. ring.
Qed.

(** The byte count of the FSK airtime, times eight, is a positive finite
    number. *)
Lemma fsk_bits_positive (P h len c : Z) :
  3 <= P < 2 ^ 20 -> 0 <= h <= 1 -> 0 <= len < 256 -> 0 <= c <= 2 ->
  exists m e,
    Double.mul (Double.of_int 8)
      (Double.add (Double.add (Double.add (Double.of_int P) (Double.of_int h))
                              (Double.of_int len))
                  (Double.of_int c))
    = S754_finite false m e.
Proof.
  intros HP Hh Hlen Hc.
  assert (B : 2 ^ 20 < 2 ^ 52) by (apply Z.pow_lt_mono_r; lia).
  destruct (of_int_Q P ltac:(lia)) as [okP vP].
  destruct (of_int_Q h ltac:(lia)) as [okh vh].
  destruct (of_int_Q len ltac:(lia)) as [okl vl].
  destruct (of_int_Q c ltac:(lia)) as [okc vc].
  destruct (of_int_Q 8 ltac:(lia)) as [ok8 v8].
  destruct (add_small _ _ P h okP okh vP vh ltac:(lia) ltac:(lia) ltac:(lia)) as [ok1 v1].
  destruct (add_small _ _ (P + h) len ok1 okl v1 vl ltac:(lia) ltac:(lia) ltac:(lia))
    as [ok2 v2].
  destruct (add_small _ _ (P + h + len) c ok2 okc v2 vc ltac:(lia) ltac:(lia) ltac:(lia))
    as [ok3 v3].
  set (bytes := Double.add _ (Double.of_int c)) in *.
  assert (Hb : (3 <= B2Q bytes)%Q).
  { rewrite v3. change 3%Q with (inject_Z 3). rewrite <- Zle_Qle. lia. }
  assert (Hb2 : (B2Q bytes < inject_Z (2 ^ 21))%Q).
  { rewrite v3. rewrite <- Zlt_Qlt.
    replace (2 ^ 21) with (2 * 2 ^ 20) by (change 21 with (1 + 20); rewrite Z.pow_add_r; lia).
    lia. }
  assert (Hprod : (B2Q (Double.of_int 8) * B2Q bytes < pow2 24)%Q).
  { rewrite v8. rewrite pow2_inject by lia.
    change (inject_Z (2 ^ 24)) with (8 * inject_Z (2 ^ 21))%Q.
    change (inject_Z 8) with 8%Q. lra. }
  destruct (mul_Q _ _ 24 ok8 ok3 Hprod ltac:(lia)) as [okm [Hn1 Hn2]].
  apply positive_is_finite; [exact okm|].
  rewrite v8 in Hn2. change (inject_Z 8) with 8%Q in Hn2.
  change (pow2 (24 - 54)) with (1 # 1073741824)%Q in Hn2.
  clear - Hn2 Hb. set (X := B2Q (Double.mul _ _)) in *. clearbody X.
  set (Y := B2Q bytes) in *. clearbody Y. lra.
Qed.

(** X8.  A bit rate of 0 is stored like any other, and [RadioTimeOnAir]
    then divides by it: the quotient is infinite and its conversion to
    [uint32_t] is undefined, for every preamble length, header type, CRC
    setting and payload length. *)
Theorem TimeOnAir_fsk_zero_bit_rate
    (power fdev bandwidth coderate preambleLen : Z)
    (fixLen crcOn freqHopOn : bool) (hopPeriod : Z) (iqInverted : bool)
    (timeout pktLen : Z) (r : Radio_t)
    (Hlen : is_uint8 pktLen) :
  exists r',
    RadioSetTxConfig MODEM_FSK power fdev bandwidth 0 coderate preambleLen
      fixLen crcOn freqHopOn hopPeriod iqInverted timeout r = Some r'
    /\ RadioTimeOnAir MODEM_FSK pktLen r' = None.
Proof.
  eexists. split; [reflexivity|].
  unfold RadioTimeOnAir.
  cbn [MockRadio ModulationParams PacketParams Mod_Gfsk Pkt_Gfsk Gfsk_CrcLength
       Gfsk_PreambleLength Gfsk_SyncWordLength Gfsk_HeaderType Gfsk_BitRate
       with_TxTimeout with_MockRadio RadioSetModem RadioStandby].
  set (P := uint16 (Z.shiftl preambleLen 3) + Z.shiftr (Z.shiftl 3 3) 3).
  assert (HP : 3 <= P < 2 ^ 20).
  { unfold P. change (Z.shiftr (Z.shiftl 3 3) 3) with 3.
    pose proof (Z.mod_pos_bound (Z.shiftl preambleLen 3) (2 ^ 16) ltac:(lia)) as Hm.
    unfold uint16, wrap. change (2 ^ 16) with 65536 in *.
    change (2 ^ 20) with 1048576. lia. }
  set (h := if RadioPacketLengthModes_eqb _ RADIO_PACKET_FIXED_LENGTH
            then Double.of_int 0 else Double.of_int 1).
  set (c := if RadioCrcTypes_eqb _ RADIO_CRC_2_BYTES
            then Double.of_int 2 else Double.of_int 0).
  assert (Hh : exists hz, h = Double.of_int hz /\ 0 <= hz <= 1).
  { unfold h. destruct (RadioPacketLengthModes_eqb _ _);
      [exists 0 | exists 1]; (split; [reflexivity | lia]). }
  assert (Hc : exists cz, c = Double.of_int cz /\ 0 <= cz <= 2).
  { unfold c. destruct (RadioCrcTypes_eqb _ _);
      [exists 2 | exists 0]; (split; [reflexivity | lia]). }
  destruct Hh as [hz [-> Hhz]]. destruct Hc as [cz [-> Hcz]].
  destruct (fsk_bits_positive P hz pktLen cz HP Hhz Hlen Hcz) as [m [e ->]].
  reflexivity.
Qed.

Lemma TimeOnAir_fsk_zero_bit_rate_witness :
  exists r',
    SetTxConfig_FSK 0 50000 5 false true = Some r'
    /\ RadioTimeOnAir MODEM_FSK 10 r' = None.
Proof.
  unfold SetTxConfig_FSK.
  apply (TimeOnAir_fsk_zero_bit_rate 14 25000 50000 0 5 false true false 0 false 3000 10
           Radio_start).
  unfold is_uint8. lia.
Defined.

(** ** Send: when it returns, and the time stamp *)

(** X9.  [RadioSend] calls [RadioEvents->TxDone] without a test: it
    returns exactly when the driver was initialised with a TxDone callback
    (and the buffer holds [size] bytes), and is undefined otherwise; it
    never ends the process, and when it returns it has changed nothing of
    the driver but the output. *)
Theorem Send_returns_iff (now : tm_t) (tv : timeval) (buffer : list Z) (size : Z)
    (w : World) :
  ((exists w', RadioSend now tv buffer size w = Returned w')
   <-> (size <= Z.of_nat (List.length buffer)
        /\ exists ev, RadioEvents w = Some ev /\ cb_TxDone ev = true))
  /\ RadioSend now tv buffer size w <> Exited
  /\ (forall w', RadioSend now tv buffer size w = Returned w' ->
        radio w' = radio w /\ RadioEvents w' = RadioEvents w
        /\ rx_buffer w' = rx_buffer w /\ stdin w' = stdin w).
Proof.
  unfold RadioSend, call_event.
  destruct (Z.of_nat (List.length buffer) <? size) eqn:Hlt.
  - apply Z.ltb_lt in Hlt. split; [|split].
    + split; [intros [w' H]; discriminate | intros [H _]; lia].
    + discriminate.
    + intros w' H. discriminate.
  - apply Z.ltb_ge in Hlt. cbn [emit RadioEvents].
    destruct (RadioEvents w) as [ev|] eqn:Hev; [destruct (cb_TxDone ev) eqn:Hcb|].
    + split; [|split].
      * split; [intros _; split; [lia | exists ev; split; [reflexivity | exact Hcb]]
               | intros _; eexists; reflexivity].
      * discriminate.
      * intros w' H. inversion H; subst w'. cbn. rewrite Hev. repeat split; reflexivity.
    + split; [|split].
      * split; [intros [w' H]; discriminate
               | intros [_ [ev' [He Hc]]]; inversion He; subst; congruence].
      * discriminate.
      * intros w' H. discriminate.
    + split; [|split].
      * split; [intros [w' H]; discriminate | intros [_ [ev' [He _]]]; discriminate].
      * discriminate.
      * intros w' H. discriminate.
Qed.

Lemma wrap32_wrap64 (x : Z) : uint32 (wrap 64 x) = x mod 2 ^ 32.
Proof.
  unfold uint32, wrap.
  pose proof (Z.div_mod x (2 ^ 64) ltac:(lia)) as H.
  replace (x mod 2 ^ 64) with (x + (- (x / 2 ^ 64) * 2 ^ 32) * 2 ^ 32)
    by (change (2 ^ 64) with (2 ^ 32 * 2 ^ 32) in *; lia).
  apply Z_mod_plus_full.
Qed.

Lemma tmst_of_millis (tv : timeval) :
  0 <= tv_usec tv < 2 ^ 64 -> tmst_of tv = millis_of tv mod 2 ^ 32.
Proof.
  intros Hu. unfold tmst_of, millis_of. rewrite wrap32_wrap64.
  unfold wrap at 2. rewrite (Z.mod_small (tv_usec tv)) by lia.
  unfold wrap.
  pose proof (Z.div_mod (tv_sec tv) (2 ^ 64) ltac:(lia)) as H.
  replace (tv_sec tv mod 2 ^ 64 * 1000 + tv_usec tv / 1000)
    with (tv_sec tv * 1000 + tv_usec tv / 1000
          + (- (tv_sec tv / 2 ^ 64) * 1000 * 2 ^ 32) * 2 ^ 32)
    by (change (2 ^ 64) with (2 ^ 32 * 2 ^ 32) in *; lia).
  apply Z_mod_plus_full.
Qed.

(** X10.  The time stamp tmst that [RadioSend] prints is the time of day
    in milliseconds modulo 2^32: two calls whose times of day are a
    multiple of 2^32 ms (49.7 days) apart print the same tmst, and their
    lines differ in the time member only. *)
Theorem Send_tmst_wraps (now now' : tm_t) (tv tv' : timeval) (buffer : list Z) (size : Z)
    (w : World) (ev : RadioEvents_t)
    (Hu : 0 <= tv_usec tv < 1000000) (Hu' : 0 <= tv_usec tv' < 1000000)
    (Hmod : millis_of tv' mod 2 ^ 32 = millis_of tv mod 2 ^ 32)
    (Hsize : size <= Z.of_nat (List.length buffer))
    (Hev : RadioEvents w = Some ev) (Hcb : cb_TxDone ev = true) :
  exists rest : text,
    RadioSend now tv buffer size w
    = Returned
        (emit Ev_TxDone
           (emit (Ev_printf (dq "{'rxpk':[{'time':'" ++ strftime_iso now
                             ++ dq "', 'tmst':" ++ dec_u (millis_of tv mod 2 ^ 32)
                             ++ rest)) w))
    /\ RadioSend now' tv' buffer size w
       = Returned
           (emit Ev_TxDone
              (emit (Ev_printf (dq "{'rxpk':[{'time':'" ++ strftime_iso now'
                                ++ dq "', 'tmst':" ++ dec_u (millis_of tv mod 2 ^ 32)
                                ++ rest)) w)).
Proof.
  assert (B : 1000000 < 2 ^ 64) by reflexivity.
  pose proof (tmst_of_millis tv ltac:(lia)) as H1.
  pose proof (tmst_of_millis tv' ltac:(lia)) as H2.
  unfold tmst_of in H1, H2. unfold RadioSend.
  assert (Hlt : (Z.of_nat (List.length buffer) <? size) = false)
    by (apply Z.ltb_ge; exact Hsize).
  rewrite Hlt, H1, H2, Hmod. unfold call_event. cbn [emit RadioEvents].
  rewrite Hev, Hcb. unfold rxpk_line.
  eexists. split; reflexivity.
Qed.

Lemma Send_tmst_wraps_witness :
  millis_of {| tv_sec := 1793350000 + 4294967; tv_usec := 123456 + 296000 |}
  = millis_of sample_tv + 2 ^ 32
  /\ exists rest : text,
       RadioSend
         {| tm_year := 126; tm_mon := 9; tm_mday := 30;
            tm_hour := 8; tm_min := 46; tm_sec := 40 |}
         sample_tv hello 5 (sample_world [])
       = Returned
           (emit Ev_TxDone
              (emit (Ev_printf (dq "{'rxpk':[{'time':'2026-10-30T08:46:40.000000Z"
                                ++ dq "', 'tmst':" ++ dec_u (millis_of sample_tv mod 2 ^ 32)
                                ++ rest)) (sample_world [])))
       /\ RadioSend
            {| tm_year := 126; tm_mon := 11; tm_mday := 19;
               tm_hour := 1; tm_min := 49; tm_sec := 27 |}
            {| tv_sec := 1793350000 + 4294967; tv_usec := 123456 + 296000 |}
            hello 5 (sample_world [])
          = Returned
              (emit Ev_TxDone
                 (emit (Ev_printf (dq "{'rxpk':[{'time':'2026-12-19T01:49:27.000000Z"
                                   ++ dq "', 'tmst':"
                                   ++ dec_u (millis_of sample_tv mod 2 ^ 32)
                                   ++ rest)) (sample_world []))).
Proof.
  split; [vm_compute; reflexivity|].
  destruct (Send_tmst_wraps
              {| tm_year := 126; tm_mon := 9; tm_mday := 30;
                 tm_hour := 8; tm_min := 46; tm_sec := 40 |}
              {| tm_year := 126; tm_mon := 11; tm_mday := 19;
                 tm_hour := 1; tm_min := 49; tm_sec := 27 |}
              sample_tv
              {| tv_sec := 1793350000 + 4294967; tv_usec := 123456 + 296000 |}
              hello 5 (sample_world []) all_callbacks) as [rest [Ha Hb]].
  - cbn. lia.
  - cbn. lia.
  - vm_compute. reflexivity.
  - cbn. lia.
  - reflexivity.
  - reflexivity.
  - exists rest. split; [exact Ha | exact Hb].
Defined.

(** ** Rx: the line it reads and the callback it calls *)

Lemma fgets_chars_spec (n : nat) (s l r : text) :
  fgets_chars n s = (l, r) ->
  s = l ++ r /\ (List.length l <= n)%nat
  /\ ((exists body, l = body ++ [LF] /\ ~ In LF body)
      \/ (~ In LF l /\ (List.length l = n \/ r = []))).
Proof.
  revert s l r. induction n as [|n IH]; intros s l r H.
  - cbn in H. inversion H; subst. split; [reflexivity|]. split; [cbn; lia|].
    right. split; [intros []| now left].
  - destruct s as [|c s]; cbn in H.
    + inversion H; subst. split; [reflexivity|]. split; [cbn; lia|].
      right. split; [intros [] | now right].
    + destruct (Ascii.eqb c LF) eqn:Hc.
      * apply Ascii.eqb_eq in Hc. subst c. inversion H; subst.
        split; [reflexivity|]. split; [cbn; lia|].
        left. exists []. split; [reflexivity | intros []].
      * destruct (fgets_chars n s) as [l' r'] eqn:Hrec. inversion H; subst l r; clear H.
        destruct (IH s l' r' Hrec) as [Hs [Hlen Hend]].
        assert (Hne : c <> LF) by (intros ->; rewrite Ascii.eqb_refl in Hc; discriminate).
        split; [cbn; rewrite <- Hs; reflexivity|]. split; [cbn [List.length]; lia|].
        destruct Hend as [[body [Hb Hnin]] | [Hnin Hstop]].
        -- left. exists (c :: body). split; [cbn; rewrite Hb; reflexivity|].
           intros [Heq | Hin]; [congruence | contradiction].
        -- right. split; [intros [Heq | Hin]; [congruence | contradiction]|].
           destruct Hstop as [Hfull | Hempty]; [left; cbn; lia | now right].
Qed.

Lemma fgets_chars_nonempty (n : nat) (c : ascii) (s l r : text) :
  n <> 0%nat -> fgets_chars n (c :: s) = (l, r) -> l <> [].
Proof.
  destruct n as [|n]; [congruence|]. intros _. cbn [fgets_chars].
  destruct (Ascii.eqb c LF); [intros H; inversion H; discriminate|].
  destruct (fgets_chars n s). intros H; inversion H; discriminate.
Qed.

(** The banner that [RadioRx] prints first. *)
Lemma call_event_not_Exited (f : RadioEvents_t -> bool) (e : event) (w : World) :
  call_event f e w <> Exited.
Proof.
  unfold call_event. destruct (RadioEvents w) as [ev|]; [destruct (f ev)|]; discriminate.
Qed.

Lemma call_event_Returned (f : RadioEvents_t -> bool) (e : event) (w w' : World) :
  call_event f e w = Returned w' -> w' = emit e w.
Proof.
  unfold call_event. destruct (RadioEvents w) as [ev|]; [destruct (f ev)|];
    intros H; inversion H; reflexivity.
Qed.

(** What a returning [RadioRx] has done, case by case. *)
Lemma Rx_returned (timeout poll_result : Z) (w w' : World) :
  RadioRx timeout poll_result w = Returned w' ->
  exists line rest,
    fgets 1024 (stdin w) = Some (line, rest)
    /\ let banner := Ev_printf (lit "Radio Rx with timeout " ++ dec_u timeout ++ [CR; LF]) in
       (w' = {| radio := radio w; RadioEvents := RadioEvents w; rx_buffer := rx_buffer w;
                stdin := rest; trace := (trace w ++ [banner]) ++ [Ev_RxTimeout] |}
        \/ exists bytes,
             Z.of_nat (List.length bytes) <= rx_buffer_size
             /\ w' = {| radio := radio w; RadioEvents := RadioEvents w;
                        rx_buffer := store bytes (rx_buffer w); stdin := rest;
                        trace := ((trace w ++ [banner]) ++ [Ev_PrintHexBuffer bytes])
                                 ++ [Ev_RxDone bytes (Z.of_nat (List.length bytes))
                                       (-110) 5] |}).
Proof.
  unfold RadioRx. intros H.
  destruct (negb (poll_result =? 1)); [discriminate|].
  cbn [emit stdin] in H.
  destruct (fgets 1024 (stdin w)) as [[line rest]|]; [|discriminate].
  exists line, rest. split; [reflexivity|]. cbv zeta.
  cbn [radio RadioEvents rx_buffer stdin trace] in H.
  destruct (Json.json_object_get_object _ _) as [txpk_obj|].
  - destruct (Json.json_object_get_string _ _) as [str|]; [|discriminate].
    destruct (Base64.base64_decode _) as [bytes|]; [|discriminate].
    destruct (rx_buffer_size <? Z.of_nat (List.length bytes)) eqn:Hfit; [discriminate|].
    apply Z.ltb_ge in Hfit.
    apply call_event_Returned in H. subst w'.
    right. exists bytes. split; [exact Hfit|].
    cbn [rx_buffer]. rewrite firstn_store.
    assert (Hu : uint16 (Z.of_nat (List.length bytes)) = Z.of_nat (List.length bytes)).
    { unfold uint16, wrap. apply Z.mod_small. unfold rx_buffer_size in Hfit. lia. }
    rewrite Hu. reflexivity.
  - apply call_event_Returned in H. subst w'. left. reflexivity.
Qed.

Lemma Rx_consumes_one_line_parts' (timeout poll_result : Z) (w w' : World) :
  RadioRx timeout poll_result w = Returned w' ->
  radio w' = radio w /\ RadioEvents w' = RadioEvents w.
Proof.
  intros Hret.
  destruct (Rx_returned timeout poll_result w w' Hret) as [line [rest [_ Hw]]].
  cbv zeta in Hw. destruct Hw as [-> | [bytes [_ ->]]]; split; reflexivity.
Qed.

Lemma fgets_split (n : nat) (s line rest : text) :
  fgets n s = Some (line, rest) -> s = line ++ rest.
Proof.
  unfold fgets. destruct s as [|c s]; [discriminate|].
  generalize (n - 1)%nat. intros k H.
  assert (Hc : fgets_chars k (c :: s) = (line, rest)) by congruence.
  exact (proj1 (fgets_chars_spec _ _ _ _ Hc)).
Qed.

Lemma Rx_consumes_one_line_parts (timeout poll_result : Z) (w w' : World) :
  RadioRx timeout poll_result w = Returned w' ->
  exists line, stdin w = line ++ stdin w'.
Proof.
  intros Hret.
  destruct (Rx_returned timeout poll_result w w' Hret) as [line [rest [Hf Hw]]].
  cbv zeta in Hw. exists line.
  assert (Hs : stdin w' = rest) by (destruct Hw as [-> | [bytes [_ ->]]]; reflexivity).
  rewrite Hs. apply (fgets_split 1024). exact Hf.
Qed.

(** X11.  [RadioRx] ends the process exactly when [poll] does not report
    one ready descriptor or the input is at its end; a missing callback or
    a malformed line never ends it. *)
Theorem Rx_exits_iff (timeout poll_result : Z) (w : World) :
  RadioRx timeout poll_result w = Exited <-> (poll_result <> 1 \/ stdin w = []).
Proof.
  unfold RadioRx. cbn [emit stdin].
  destruct (poll_result =? 1) eqn:Hp; cbn [negb].
  - apply Z.eqb_eq in Hp.
    destruct (stdin w) as [|c s] eqn:Hs; cbn [fgets].
    + split; [intros _; now right | reflexivity].
    + split; [|intros [H|H]; [contradiction | discriminate]].
      destruct (fgets_chars (1024 - 1) (c :: s)) as [line rest].
      cbn [radio RadioEvents rx_buffer stdin trace].
      intros H. exfalso.
      destruct (Json.json_object_get_object _ _) as [txpk_obj|].
      * destruct (Json.json_object_get_string _ _) as [str|]; [|discriminate].
        destruct (Base64.base64_decode _) as [bytes|]; [|discriminate].
        destruct (rx_buffer_size <? Z.of_nat (List.length bytes)); [discriminate|].
        exact (call_event_not_Exited _ _ _ H).
      * exact (call_event_not_Exited _ _ _ H).
  - apply Z.eqb_neq in Hp. split; [intros _; now left | reflexivity].
Qed.

(** X12.  A [RadioRx] call that returns has consumed exactly one chunk of
    the input, as [fgets] cuts it: at least one and at most 1023
    characters, up to and with the first line feed; a longer line is cut
    after 1023 characters and its rest is left for the next call.  The
    configuration and the callbacks of the driver are unchanged. *)
Theorem Rx_consumes_one_line (timeout poll_result : Z) (w w' : World)
    (Hret : RadioRx timeout poll_result w = Returned w') :
  radio w' = radio w /\ RadioEvents w' = RadioEvents w
  /\ exists line,
       stdin w = line ++ stdin w' /\ line <> [] /\ (List.length line <= 1023)%nat
       /\ ((exists body, line = body ++ [LF] /\ ~ In LF body)
           \/ (~ In LF line /\ (List.length line = 1023%nat \/ stdin w' = []))).
Proof.
  destruct (Rx_returned timeout poll_result w w' Hret) as [line [rest [Hf Hw]]].
  cbv zeta in Hw.
  assert (Hfields : radio w' = radio w /\ RadioEvents w' = RadioEvents w /\ stdin w' = rest).
  { destruct Hw as [-> | [bytes [_ ->]]]; repeat split; reflexivity. }
  destruct Hfields as [Hr [He Hs]]. split; [exact Hr|]. split; [exact He|].
  exists line. rewrite Hs.
  unfold fgets in Hf. destruct (stdin w) as [|c s] eqn:Hin; [discriminate|].
  assert (Hn : (1024 - 1 = 1023)%nat) by reflexivity.
  revert Hf Hn. generalize (1024 - 1)%nat. intros n Hf Hn.
  assert (Hc : fgets_chars n (c :: s) = (line, rest)) by congruence.
  destruct (fgets_chars_spec _ _ _ _ Hc) as [Happ [Hlen Hend]].
  split; [exact Happ|].
  split; [apply (fgets_chars_nonempty n c s line rest); [lia | exact Hc]|].
  split; [lia|].
  destruct Hend as [Hend | [Hnin [Hfull | Hempty]]];
    [left; exact Hend | right; split; [exact Hnin | left; lia]
    | right; split; [exact Hnin | right; exact Hempty]].
Qed.

Lemma Rx_consumes_one_line_witness :
  exists w',
    RadioRx 3000 1 (sample_world (lit "garbage" ++ [LF] ++ lit "next")) = Returned w'
    /\ stdin w' = lit "next".
Proof.
  eexists. split; [vm_compute; reflexivity|].
  destruct (Rx_consumes_one_line 3000 1
              (sample_world (lit "garbage" ++ [LF] ++ lit "next")) _ eq_refl)
    as [_ [_ [line [Happ _]]]].
  reflexivity.
Defined.

Lemma calls_app (p : event -> bool) (a b : list event) :
  calls p (a ++ b) = (calls p a + calls p b)%nat.
Proof. unfold calls. rewrite filter_app, length_app. reflexivity. Qed.

Lemma new_events_app (w w' : World) (l : list event) :
  trace w' = trace w ++ l -> new_events w w' = l.
Proof. intros H. unfold new_events. rewrite H. apply skipn_app_length. Qed.

(** X13.  Every [RadioRx] call that returns has called exactly one
    callback, after the banner: either RxTimeout, and then the receive
    buffer is untouched, or RxDone, and then with rssi -110 and snr 5, a
    payload of at most 512 bytes that was dumped in hexadecimal just
    before and that is what the receive buffer now starts with, and its
    length as size.  No other callback is called and nothing else is
    printed. *)
Theorem Rx_calls_one_callback (timeout poll_result : Z) (w w' : World)
    (Hret : RadioRx timeout poll_result w = Returned w') :
  let banner := Ev_printf (lit "Radio Rx with timeout " ++ dec_u timeout ++ [CR; LF]) in
  (calls is_RxDone (new_events w w') + calls is_RxTimeout (new_events w w') = 1)%nat
  /\ calls is_TxDone (new_events w w') = 0%nat
  /\ calls is_printf (new_events w w') = 1%nat
  /\ ((new_events w w' = [banner; Ev_RxTimeout] /\ rx_buffer w' = rx_buffer w)
      \/ exists payload,
           new_events w w'
           = [banner; Ev_PrintHexBuffer payload;
              Ev_RxDone payload (Z.of_nat (List.length payload)) (-110) 5]
           /\ (List.length payload <= 512)%nat
           /\ firstn (List.length payload) (rx_buffer w') = payload).
Proof.
  cbv zeta.
  destruct (Rx_returned timeout poll_result w w' Hret) as [line [rest [_ Hw]]].
  cbv zeta in Hw. destruct Hw as [-> | [bytes [Hfit ->]]].
  - rewrite (new_events_app w _ [Ev_printf (lit "Radio Rx with timeout " ++ dec_u timeout
                                               ++ [CR; LF]); Ev_RxTimeout])
      by (cbn [trace]; rewrite <- app_assoc; reflexivity).
    repeat split; try reflexivity. left. split; reflexivity.
  - rewrite (new_events_app w _ [Ev_printf (lit "Radio Rx with timeout " ++ dec_u timeout
                                               ++ [CR; LF]);
                                 Ev_PrintHexBuffer bytes;
                                 Ev_RxDone bytes (Z.of_nat (List.length bytes)) (-110) 5])
      by (cbn [trace]; rewrite <- !app_assoc; reflexivity).
    repeat split; try reflexivity. right. exists bytes.
    split; [reflexivity|]. split; [unfold rx_buffer_size in Hfit; lia|].
    cbn [rx_buffer]. rewrite <- (Nat2Z.id (List.length bytes)) at 1. apply firstn_store.
Qed.

Lemma Rx_calls_one_callback_witness :
  exists w',
    RadioRx 3000 1 (sample_world (txpk_line (lit "SGVsbG8="))) = Returned w'
    /\ calls is_RxDone (new_events (sample_world (txpk_line (lit "SGVsbG8="))) w') = 1%nat
    /\ calls is_RxTimeout (new_events (sample_world (txpk_line (lit "SGVsbG8="))) w')
       = 0%nat.
Proof.
  eexists. split; [vm_compute; reflexivity|].
  destruct (Rx_calls_one_callback 3000 1 (sample_world (txpk_line (lit "SGVsbG8="))) _
              eq_refl) as [Hone _].
  split; vm_compute; reflexivity.
Defined.

(** X14.  [RadioRx] passes the data member of a txpk object to [strlen]
    and to the decoder without a test: on a line with a txpk object whose
    data member is missing or is not a string the call is undefined,
    whatever callbacks are installed. *)
Theorem Rx_txpk_without_data (timeout : Z) (w : World) (line rest : text)
    (txpk_obj : Json.JSON_Object)
    (Hline : fgets 1024 (stdin w) = Some (line, rest))
    (Htxpk : Json.json_object_get_object
               (Json.json_value_get_object (Json.json_parse_string (cstring line)))
               (lit "txpk") = Some txpk_obj)
    (Hdata : Json.json_object_get_string (Some txpk_obj) (lit "data") = None) :
  RadioRx timeout 1 w = Undefined.
Proof.
  unfold RadioRx. cbn [negb Z.eqb Pos.eqb emit stdin]. rewrite Hline.
  cbn [radio RadioEvents rx_buffer stdin trace].
  rewrite Htxpk, Hdata. reflexivity.
Qed.

Lemma Rx_txpk_without_data_witness :
  RadioRx 3000 1 (sample_world (dq "{'txpk':{'size':5}}" ++ [LF])) = Undefined
  /\ RadioRx 3000 1 (sample_world (dq "{'txpk':{'data':5}}" ++ [LF])) = Undefined.
Proof.
  split.
  - apply (Rx_txpk_without_data 3000 _ (dq "{'txpk':{'size':5}}" ++ [LF]) []
             [(lit "size", Json.JSONNumber (lit "5"))]); vm_compute; reflexivity.
  - apply (Rx_txpk_without_data 3000 _ (dq "{'txpk':{'data':5}}" ++ [LF]) []
             [(lit "data", Json.JSONNumber (lit "5"))]); vm_compute; reflexivity.
Defined.

(** ** Sequences of operations *)

Lemma Send_returned (now : tm_t) (tv : timeval) (buffer : list Z) (size : Z)
    (w w' : World) :
  RadioSend now tv buffer size w = Returned w' ->
  radio w' = radio w /\ stdin w' = stdin w
  /\ exists line, trace w' = trace w ++ [Ev_printf line; Ev_TxDone].
Proof.
  unfold RadioSend. destruct (Z.of_nat (List.length buffer) <? size); [discriminate|].
  intros H. apply call_event_Returned in H. subst w'.
  split; [reflexivity|]. split; [reflexivity|].
  eexists. cbn [emit trace]. rewrite <- app_assoc. reflexivity.
Qed.

(** What one returning operation adds to the trace and takes from the
    input. *)
Lemma run_operation_effect (o : operation) (w w' : World) :
  run_operation o w = Returned w' ->
  exists l consumed,
    trace w' = trace w ++ l /\ stdin w = consumed ++ stdin w'
    /\ calls is_TxDone l = (if is_Op_Send o then 1 else 0)%nat
    /\ (calls is_RxDone l + calls is_RxTimeout l = if is_Op_Rx o then 1 else 0)%nat
    /\ (is_Op_Rx o = false -> consumed = []).
Proof.
  destruct o; cbn [run_operation is_Op_Send is_Op_Rx]; intros H;
    try (inversion H; subst w'; exists [], [];
         cbn [RadioInit with_radio trace stdin]; rewrite app_nil_r;
         repeat split; reflexivity).
  - destruct (RadioSetTxConfig _ _ _ _ _ _ _ _ _ _ _ _ _ _); [|discriminate].
    inversion H; subst w'. exists [], [].
    cbn [with_radio trace stdin]. rewrite app_nil_r. repeat split; reflexivity.
  - destruct (Send_returned _ _ _ _ _ _ H) as [_ [Hs [line Ht]]].
    exists [Ev_printf line; Ev_TxDone], []. rewrite Hs.
    repeat split; try reflexivity. exact Ht.
  - destruct (Rx_consumes_one_line_parts _ _ _ _ H) as [line Hline].
    destruct (Rx_returned _ _ _ _ H) as [line' [rest [_ Hw]]]. cbv zeta in Hw.
    destruct Hw as [-> | [bytes [_ ->]]]; cbn [trace stdin] in *.
    + eexists. exists line. split; [rewrite <- app_assoc; reflexivity|].
      split; [exact Hline|]. repeat split; try reflexivity. discriminate.
    + eexists. exists line. split; [rewrite <- !app_assoc; reflexivity|].
      split; [exact Hline|]. repeat split; try reflexivity. discriminate.
Qed.

(** X15.  Over every sequence of driver operations that returns, the
    output only grows and the input is only consumed from its front;
    TxDone has been called once for each Send of the sequence, and one of
    RxDone and RxTimeout once for each Rx, whatever the other operations
    and the order; only Rx consumes input. *)
Theorem run_callbacks_match_operations (ops : list operation) (w w' : World)
    (Hrun : run ops w = Returned w') :
  exists l consumed,
    trace w' = trace w ++ l /\ new_events w w' = l
    /\ stdin w = consumed ++ stdin w'
    /\ calls is_TxDone l = count_ops is_Op_Send ops
    /\ (calls is_RxDone l + calls is_RxTimeout l)%nat = count_ops is_Op_Rx ops
    /\ (count_ops is_Op_Rx ops = 0%nat -> consumed = []).
Proof.
  revert w Hrun. induction ops as [|o ops IH]; intros w Hrun.
  - cbn in Hrun. inversion Hrun; subst w'. exists [], [].
    rewrite app_nil_r. unfold new_events. rewrite skipn_all.
    repeat split; reflexivity.
  - cbn [run] in Hrun. destruct (run_operation o w) as [w1| |] eqn:Ho;
      cbn [bind] in Hrun; try discriminate.
    destruct (run_operation_effect o w w1 Ho) as [l1 [c1 [Ht1 [Hs1 [Htx1 [Hrx1 Hc1]]]]]].
    destruct (IH w1 Hrun) as [l2 [c2 [Ht2 [_ [Hs2 [Htx2 [Hrx2 Hc2]]]]]]].
    exists (l1 ++ l2), (c1 ++ c2).
    assert (Ht : trace w' = trace w ++ l1 ++ l2) by (rewrite Ht2, Ht1, app_assoc; reflexivity).
    split; [exact Ht|]. split; [apply new_events_app; exact Ht|].
    split; [rewrite Hs1, Hs2, app_assoc; reflexivity|].
    unfold count_ops in *. cbn [filter].
    rewrite !calls_app.
    split; [destruct (is_Op_Send o); cbn [List.length]; lia|].
    split; [destruct (is_Op_Rx o); cbn [List.length]; lia|].
    destruct (is_Op_Rx o) eqn:Hrx; cbn [List.length]; [discriminate|].
    intros Hz. rewrite (Hc1 eq_refl), (Hc2 Hz). reflexivity.
Qed.

Lemma run_callbacks_match_operations_witness :
  exists w',
    run [ Op_Init (Some all_callbacks); Op_SetChannel 868100000;
          Op_Send sample_tm sample_tv hello 5; Op_Rx 3000 1;
          Op_Send sample_tm sample_tv hello 5 ]
        (World_start (txpk_line (lit "SGVsbG8="))) = Returned w'
    /\ calls is_TxDone (trace w') = 2%nat
    /\ (calls is_RxDone (trace w') + calls is_RxTimeout (trace w') = 1)%nat.
Proof.
  assert (H : exists w',
            run [ Op_Init (Some all_callbacks); Op_SetChannel 868100000;
                  Op_Send sample_tm sample_tv hello 5; Op_Rx 3000 1;
                  Op_Send sample_tm sample_tv hello 5 ]
                (World_start (txpk_line (lit "SGVsbG8="))) = Returned w')
    by (eexists; vm_compute; reflexivity).
  destruct H as [w' H]. exists w'. split; [exact H|].
  destruct (run_callbacks_match_operations _ _ _ H) as [l [c [Ht [_ [_ [Htx [Hrx _]]]]]]].
  cbn [World_start trace app] in Ht. rewrite Ht, Htx, Hrx. split; reflexivity.
Defined.

(** The stored LoRa bandwidth of the driver. *)
Lemma run_operation_keeps_LoRa (o : operation) (w w' : World) :
  run_operation o w = Returned w' -> is_LoRa_SetTxConfig o = false ->
  Mod_LoRa (ModulationParams (MockRadio (radio w')))
  = Mod_LoRa (ModulationParams (MockRadio (radio w))).
Proof.
  destruct o; cbn [run_operation is_LoRa_SetTxConfig]; intros H Hno;
    try (inversion H; subst w'; reflexivity).
  - destruct modem; [|discriminate].
    cbn [RadioSetTxConfig] in H. inversion H; subst w'. reflexivity.
  - destruct (Send_returned _ _ _ _ _ _ H) as [-> _]. reflexivity.
  - destruct (Rx_consumes_one_line_parts' _ _ _ _ H) as [-> _]. reflexivity.
Qed.

(** X16.  [RadioTimeOnAir] for the LoRa modem needs an earlier LoRa
    [RadioSetTxConfig]: after any sequence of operations from the start
    of the program that holds none, be it [RadioSetRxConfig] calls for
    LoRa or [RadioSetTxConfig] calls for FSK, it reads the symbol-time
    table at row 0 - 4, far outside its three rows, and is undefined for
    every payload length. *)
Theorem TimeOnAir_lora_needs_SetTxConfig (ops : list operation) (input : text)
    (w' : World) (pktLen : Z)
    (Hrun : run ops (World_start input) = Returned w')
    (Hno : forallb (fun o => negb (is_LoRa_SetTxConfig o)) ops = true) :
  RadioTimeOnAir MODEM_LORA pktLen (radio w') = None.
Proof.
  assert (Hinv : forall w, run ops w = Returned w' ->
            Mod_LoRa (ModulationParams (MockRadio (radio w')))
            = Mod_LoRa (ModulationParams (MockRadio (radio w)))).
  { clear Hrun. induction ops as [|o ops IH]; intros w Hrun.
    - cbn in Hrun. inversion Hrun. reflexivity.
    - cbn [run] in Hrun. cbn [forallb] in Hno. apply andb_prop in Hno.
      destruct Hno as [Ho Hrest].
      destruct (run_operation o w) as [w1| |] eqn:Hop; cbn [bind] in Hrun;
        try discriminate.
      rewrite (IH Hrest w1 Hrun).
      apply (run_operation_keeps_LoRa o w w1 Hop).
      destruct (is_LoRa_SetTxConfig o); [discriminate | reflexivity]. }
  specialize (Hinv _ Hrun).
  unfold RadioTimeOnAir. rewrite Hinv. reflexivity.
Qed.

Lemma TimeOnAir_lora_needs_SetTxConfig_witness :
  exists w',
    run [ Op_Init (Some all_callbacks);
          Op_SetRxConfig MODEM_LORA 0 7 1 0 8 5 false 0 true false 0 false false;
          Op_SetTxConfig MODEM_FSK 14 25000 50000 50000 0 5 false true false 0 false 3000 ]
        (World_start []) = Returned w'
    /\ RadioTimeOnAir MODEM_LORA 13 (radio w') = None.
Proof.
  eexists. split; [vm_compute; reflexivity|].
  apply (TimeOnAir_lora_needs_SetTxConfig
           [ Op_Init (Some all_callbacks);
             Op_SetRxConfig MODEM_LORA 0 7 1 0 8 5 false 0 true false 0 false false;
             Op_SetTxConfig MODEM_FSK 14 25000 50000 50000 0 5 false true false 0 false
               3000 ]
           [] _ 13); reflexivity.
Defined.

(** X19.  [RadioSend] does not read the Tx configuration: after any
    [RadioSetTxConfig] call, for either modem and with any spreading
    factor, bandwidth, coding rate or power, it prints the very line that
    it would have printed before the call (which announces SF7BW125 and
    4/6 whatever is configured) and calls TxDone likewise. *)
Theorem Send_ignores_TxConfig (modem : RadioModems_t)
    (power fdev bandwidth datarate coderate preambleLen : Z)
    (fixLen crcOn freqHopOn : bool) (hopPeriod : Z) (iqInverted : bool) (timeout : Z)
    (now : tm_t) (tv : timeval) (buffer : list Z) (size : Z) (w w1 : World) (r' : Radio_t)
    (Hcfg : RadioSetTxConfig modem power fdev bandwidth datarate coderate preambleLen
              fixLen crcOn freqHopOn hopPeriod iqInverted timeout (radio w) = Some r')
    (Hsend : RadioSend now tv buffer size w = Returned w1) :
  exists w2,
    RadioSend now tv buffer size (with_radio w r') = Returned w2
    /\ new_events (with_radio w r') w2 = new_events w w1
    /\ radio w2 = r'.
Proof.
  assert (Hf : frequency r' = frequency (radio w)).
  { destruct modem; unfold RadioSetTxConfig, RadioSetTxConfig_with in Hcfg.
    - inversion Hcfg; reflexivity.
    - destruct (index Bandwidths bandwidth); [|discriminate].
      inversion Hcfg; reflexivity. }
  unfold RadioSend in *.
  destruct (Z.of_nat (List.length buffer) <? size); [discriminate|].
  unfold call_event in *. cbn [emit RadioEvents with_radio radio] in *.
  rewrite Hf.
  destruct (RadioEvents w) as [ev|]; [|discriminate].
  destruct (cb_TxDone ev); [|discriminate].
  inversion Hsend; subst w1. eexists. split; [reflexivity|].
  split; [|reflexivity].
  rewrite !new_events_emit2. reflexivity.
Qed.

Lemma Send_ignores_TxConfig_witness :
  exists r' w1 w2,
    SetTxConfig_LoRa 2 12 4 8 false true (radio (sample_world [])) = Some r'
    /\ RadioSend sample_tm sample_tv hello 5 (sample_world []) = Returned w1
    /\ RadioSend sample_tm sample_tv hello 5 (with_radio (sample_world []) r') = Returned w2
    /\ new_events (with_radio (sample_world []) r') w2 = new_events (sample_world []) w1.
Proof.
  assert (H : exists w1, RadioSend sample_tm sample_tv hello 5 (sample_world [])
                         = Returned w1) by (eexists; vm_compute; reflexivity).
  destruct H as [w1 H1].
  assert (H : exists r', SetTxConfig_LoRa 2 12 4 8 false true (radio (sample_world []))
                         = Some r') by (eexists; reflexivity).
  destruct H as [r' Hr].
  destruct (Send_ignores_TxConfig MODEM_LORA 14 0 2 12 4 8 false true false 0 false 3000
              sample_tm sample_tv hello 5 (sample_world []) w1 r' Hr H1)
    as [w2 [H2 [He _]]].
  exists r', w1, w2. repeat split; assumption.
Defined.

(** ** What no operation writes *)

Lemma run_operation_frame (o : operation) (w w' : World) :
  run_operation o w = Returned w' ->
  RxTimeout (radio w') = RxTimeout (radio w)
  /\ RxContinuous (radio w') = RxContinuous (radio w)
  /\ MaxPayloadLength (radio w') = MaxPayloadLength (radio w)
  /\ OperatingMode (radio w') = OperatingMode (radio w)
  /\ (IrqFired (radio w') = true -> IrqFired (radio w) = true).
Proof.
  destruct o; cbn [run_operation]; intros H;
    try (inversion H; subst w'; repeat split; try reflexivity; cbn; auto; discriminate).
  - destruct (RadioSetTxConfig _ _ _ _ _ _ _ _ _ _ _ _ _ _) as [r|] eqn:Hcfg;
      [|discriminate].
    inversion H; subst w'. cbn [with_radio radio].
    destruct modem; unfold RadioSetTxConfig, RadioSetTxConfig_with in Hcfg.
    + inversion Hcfg; subst r. repeat split; try reflexivity. auto.
    + destruct (index Bandwidths bandwidth0); [|discriminate].
      inversion Hcfg; subst r. repeat split; try reflexivity. auto.
  - destruct (Send_returned _ _ _ _ _ _ H) as [-> _]. repeat split; try reflexivity. auto.
  - destruct (Rx_consumes_one_line_parts' _ _ _ _ H) as [-> _].
    repeat split; try reflexivity. auto.
Qed.

(** X17.  No driver operation writes the Rx timeout, the Rx-continuous
    flag, the maximum payload length or the operating mode, and none sets
    the interrupt flag: over every returning sequence of operations
    (configuration calls with any arguments, Send, Rx, sleep, standby)
    the four keep their values, and the interrupt flag is set afterwards
    only if it was set before. *)
Theorem run_never_writes (ops : list operation) (w w' : World)
    (Hrun : run ops w = Returned w') :
  RxTimeout (radio w') = RxTimeout (radio w)
  /\ RxContinuous (radio w') = RxContinuous (radio w)
  /\ MaxPayloadLength (radio w') = MaxPayloadLength (radio w)
  /\ OperatingMode (radio w') = OperatingMode (radio w)
  /\ (IrqFired (radio w') = true -> IrqFired (radio w) = true).
Proof.
  revert w Hrun. induction ops as [|o ops IH]; intros w Hrun.
  - cbn in Hrun. inversion Hrun; subst w'. repeat split; try reflexivity. auto.
  - cbn [run] in Hrun. destruct (run_operation o w) as [w1| |] eqn:Ho;
      cbn [bind] in Hrun; try discriminate.
    destruct (run_operation_frame o w w1 Ho) as [A1 [A2 [A3 [A4 A5]]]].
    destruct (IH w1 Hrun) as [B1 [B2 [B3 [B4 B5]]]].
    rewrite B1, B2, B3, B4, A1, A2, A3, A4. repeat split; try reflexivity. auto.
Qed.

Lemma run_never_writes_witness :
  exists w',
    run [ Op_Init (Some all_callbacks);
          Op_SetRxConfig MODEM_LORA 0 7 1 0 8 5 false 0 true false 0 false true;
          Op_SetTxConfig MODEM_LORA 14 0 0 7 1 8 false true false 0 false 3000;
          Op_Send sample_tm sample_tv hello 5; Op_Standby ]
        (World_start []) = Returned w'
    /\ RxContinuous (radio w') = false /\ RxTimeout (radio w') = 0
    /\ MaxPayloadLength (radio w') = 255.
Proof.
  assert (H : exists w',
            run [ Op_Init (Some all_callbacks);
                  Op_SetRxConfig MODEM_LORA 0 7 1 0 8 5 false 0 true false 0 false true;
                  Op_SetTxConfig MODEM_LORA 14 0 0 7 1 8 false true false 0 false 3000;
                  Op_Send sample_tm sample_tv hello 5; Op_Standby ]
                (World_start []) = Returned w')
    by (eexists; vm_compute; reflexivity).
  destruct H as [w' H]. exists w'. split; [exact H|].
  destruct (run_never_writes _ _ _ H) as [A1 [A2 [A3 _]]].
  rewrite A1, A2, A3. repeat split; reflexivity.
Defined.

(** ** The interrupt dispatcher *)

Lemma irq_is_zero (mask : Z) : mask <> 0 -> irq_is 0 mask = false.
Proof. intros H. unfold irq_is. rewrite Z.land_0_l. apply Z.eqb_neq. auto. Qed.

Lemma clear_IrqFired_idle (w : World) :
  IrqFired (radio w) = false -> with_radio w (with_IrqFired (radio w) false) = w.
Proof.
  destruct w as [r ev buf input tr]. destruct r. cbn. intros ->. reflexivity.
Qed.

(** X18.  [RadioIrqProcess] dispatches an interrupt register that is the
    constant 0: whatever the interrupt masks, provided that those of the
    six handled interrupts are not 0, and whatever [poll_timers] does, it
    calls no callback and changes no operating mode; after the timers are
    polled its whole effect is that the interrupt flag is clear. *)
Theorem IrqProcess_calls_nothing
    (IRQ_TX_DONE IRQ_RX_DONE IRQ_PREAMBLE_DETECTED IRQ_SYNCWORD_VALID
     IRQ_HEADER_VALID IRQ_HEADER_ERROR IRQ_CRC_ERROR IRQ_CAD_DONE
     IRQ_CAD_ACTIVITY_DETECTED IRQ_RX_TX_TIMEOUT : Z)
    (poll_timers : World -> outcome World) (w : World)
    (Htx : IRQ_TX_DONE <> 0) (Hrx : IRQ_RX_DONE <> 0) (Hcrc : IRQ_CRC_ERROR <> 0)
    (Hcad : IRQ_CAD_DONE <> 0) (Hto : IRQ_RX_TX_TIMEOUT <> 0)
    (Hhe : IRQ_HEADER_ERROR <> 0) :
  RadioIrqProcess IRQ_TX_DONE IRQ_RX_DONE IRQ_PREAMBLE_DETECTED IRQ_SYNCWORD_VALID
    IRQ_HEADER_VALID IRQ_HEADER_ERROR IRQ_CRC_ERROR IRQ_CAD_DONE
    IRQ_CAD_ACTIVITY_DETECTED IRQ_RX_TX_TIMEOUT poll_timers w
  = (w1 <- poll_timers w ;;
     Returned (with_radio w1 (with_IrqFired (radio w1) false), [])).
Proof.
  unfold RadioIrqProcess. destruct (poll_timers w) as [w1| |]; cbn [bind];
    try reflexivity.
  destruct (IrqFired (radio w1)) eqn:Hf.
  - unfold irq_dispatch.
    rewrite (irq_is_zero _ Htx), (irq_is_zero _ Hrx), (irq_is_zero _ Hcrc),
      (irq_is_zero _ Hcad), (irq_is_zero _ Hto), (irq_is_zero _ Hhe).
    cbn [bind].
    destruct (irq_is 0 IRQ_PREAMBLE_DETECTED), (irq_is 0 IRQ_SYNCWORD_VALID),
      (irq_is 0 IRQ_HEADER_VALID); reflexivity.
  - rewrite (clear_IrqFired_idle w1 Hf). reflexivity.
Qed.

Lemma IrqProcess_calls_nothing_witness :
  RadioIrqProcess 1 2 4 8 16 32 64 128 256 512 (fun w => Returned w)
    (with_radio (sample_world []) (with_IrqFired Radio_start true))
  = Returned (with_radio (sample_world []) (with_IrqFired Radio_start false), []).
Proof.
  rewrite (IrqProcess_calls_nothing 1 2 4 8 16 32 64 128 256 512 (fun w => Returned w));
    try discriminate.
  reflexivity.
Defined.

(** ** The event sink *)

Lemma run_operation_callbacks (o : operation) (w w' : World) :
  run_operation o w = Returned w' ->
  RadioEvents w' = match o with Op_Init e => e | _ => RadioEvents w end.
Proof.
  destruct o; cbn [run_operation]; intros H;
    try (inversion H; subst w'; reflexivity).
  - destruct (RadioSetTxConfig _ _ _ _ _ _ _ _ _ _ _ _ _ _); [|discriminate].
    inversion H; subst w'. reflexivity.
  - unfold RadioSend in H.
    destruct (Z.of_nat (List.length buffer) <? size); [discriminate|].
    apply call_event_Returned in H. subst w'. reflexivity.
  - exact (proj2 (Rx_consumes_one_line_parts' _ _ _ _ H)).
Qed.

(** X24.  The event sink is whatever the last [RadioInit] installed:
    over every returning sequence of operations the callbacks are those
    of the last [RadioInit] of the sequence, be they NULL, and those from
    before the sequence when it holds no [RadioInit]; no other operation
    changes them. *)
Theorem run_callbacks_from_last_Init (ops : list operation) (w w' : World)
    (Hrun : run ops w = Returned w') :
  RadioEvents w' = callbacks_after ops (RadioEvents w).
Proof.
  revert w Hrun. unfold callbacks_after.
  induction ops as [|o ops IH]; intros w Hrun.
  - cbn in Hrun. inversion Hrun; subst w'. reflexivity.
  - cbn [run] in Hrun. destruct (run_operation o w) as [w1| |] eqn:Ho;
      cbn [bind] in Hrun; try discriminate.
    cbn [fold_left]. rewrite <- (run_operation_callbacks o w w1 Ho).
    apply IH. exact Hrun.
Qed.

Lemma run_callbacks_from_last_Init_witness :
  exists w',
    run [ Op_Init (Some all_callbacks); Op_SetChannel 868100000;
          Op_Send sample_tm sample_tv hello 5; Op_Init None ]
        (World_start []) = Returned w'
    /\ RadioEvents w' = None
    /\ RadioSend sample_tm sample_tv hello 5 w' = Undefined.
Proof.
  assert (H : exists w',
            run [ Op_Init (Some all_callbacks); Op_SetChannel 868100000;
                  Op_Send sample_tm sample_tv hello 5; Op_Init None ]
                (World_start []) = Returned w')
    by (eexists; vm_compute; reflexivity).
  destruct H as [w' H]. exists w'. split; [exact H|].
  pose proof (run_callbacks_from_last_Init _ _ _ H) as He. cbn in He.
  split; [exact He|].
  unfold RadioSend. destruct (Z.of_nat (List.length hello) <? 5); [reflexivity|].
  unfold call_event. cbn [emit RadioEvents]. rewrite He. reflexivity.
Defined.

(** ** The channel frequency *)

(** *** Rounding at any precision and from any location *)

Lemma shr_m_iter (n : nat) (mrs : shr_record) :
  0 <= shr_m mrs -> shr_m (Nat.iter n shr_1 mrs) = shr_m mrs / 2 ^ Z.of_nat n.
Proof.
  intros Hm. induction n as [|n IH].
  - cbn. rewrite Z.div_1_r. reflexivity.
  - assert (Hn : 0 <= shr_m (Nat.iter n shr_1 mrs)).
    { rewrite IH. apply Z.div_pos; [exact Hm | apply Z.pow_pos_nonneg; lia]. }
    rewrite Nat.iter_succ, (shr_1_spec _ Hn). cbn [shr_m].
    rewrite IH, Nat2Z.inj_succ, Z.pow_succ_r by lia.
    rewrite Z.div_div by (try apply Z.pow_pos_nonneg; try apply Z.pow_nonzero; lia).
    rewrite (Z.mul_comm 2). reflexivity.
Qed.

Lemma shr_general (mrs : shr_record) (e n : Z) :
  0 <= shr_m mrs ->
  snd (shr mrs e n) = e + Z.max 0 n
  /\ shr_m (fst (shr mrs e n)) = shr_m mrs / 2 ^ Z.max 0 n.
Proof.
  intros Hm. destruct n as [|p|p]; cbn [shr fst snd].
  - cbn [Z.max Z.compare]. rewrite Z.add_0_r, Z.pow_0_r, Z.div_1_r. split; reflexivity.
  - replace (Z.max 0 (Zpos p)) with (Zpos p) by lia. split; [reflexivity|].
    rewrite iter_pos_nat, (shr_m_iter _ _ Hm), positive_nat_Z. reflexivity.
  - replace (Z.max 0 (Zneg p)) with 0 by lia.
    rewrite Z.add_0_r, Z.pow_0_r, Z.div_1_r. split; reflexivity.
Qed.

Lemma shr_record_of_loc_m (m : Z) (l : location) : shr_m (shr_record_of_loc m l) = m.
Proof. destruct l as [|[]]; reflexivity. Qed.

Lemma shr_fexp_general (prec emax m e : Z) (l : location) :
  0 <= m ->
  snd (shr_fexp prec emax m e l) = Z.max e (fexp prec emax (Zdigits2 m + e))
  /\ shr_m (fst (shr_fexp prec emax m e l))
     = m / 2 ^ (Z.max e (fexp prec emax (Zdigits2 m + e)) - e).
Proof.
  intros Hm. unfold shr_fexp.
  destruct (shr_general (shr_record_of_loc m l) e
              (fexp prec emax (Zdigits2 m + e) - e)) as [H1 H2].
  { rewrite shr_record_of_loc_m. exact Hm. }
  rewrite H1, H2, shr_record_of_loc_m. split; [lia|]. f_equal. f_equal. lia.
Qed.

Lemma Zdigits2_lt (m : Z) : 0 <= m -> m < 2 ^ Zdigits2 m.
Proof.
  destruct m as [|p|p]; intros H; [reflexivity | | lia].
  apply (digits2_pos_bounds p).
Qed.

Lemma Zdigits2_le (m k : Z) : 0 <= m -> 0 <= k -> m < 2 ^ k -> Zdigits2 m <= k.
Proof.
  destruct m as [|p|p]; intros H Hk Hlt; [exact Hk | | lia].
  apply digits2_pos_le. exact Hlt.
Qed.

Lemma round_nearest_even_bounds (m : Z) (l : location) :
  m <= round_nearest_even m l <= m + 1.
Proof. destruct l as [|[]]; cbn; try lia. destruct (Z.even m); lia. Qed.

Lemma shifted_below (prec emax m e : Z) :
  0 < prec -> 0 <= m ->
  0 <= m / 2 ^ (Z.max e (fexp prec emax (Zdigits2 m + e)) - e) < 2 ^ prec.
Proof.
  intros Hp Hm. set (n := Z.max e (fexp prec emax (Zdigits2 m + e)) - e).
  assert (Hn : 0 <= n) by (unfold n; lia).
  assert (Hd : Zdigits2 m - prec <= n) by (unfold n, fexp; lia).
  assert (H2 : 0 < 2 ^ n) by (apply Z.pow_pos_nonneg; lia).
  split; [apply Z.div_pos; lia|].
  apply Z.div_lt_upper_bound; [exact H2|].
  rewrite <- Z.pow_add_r by lia.
  apply Z.lt_le_trans with (1 := Zdigits2_lt m Hm).
  assert (0 <= Zdigits2 m) by (destruct m; cbn; lia).
  apply Z.pow_le_mono_r; lia.
Qed.

(** Rounding a mantissa [mx] with exponent [ex] and any location: the
    result is [m2 * 2^E] for the exponent [E] of the format and a mantissa
    [m2] that is the shifted [mx] or the next integer. *)
Lemma round_aux_general (prec emax mx ex : Z) (lx : location) :
  0 < prec -> 0 <= mx ->
  Z.max ex (fexp prec emax (Zdigits2 mx + ex)) + 1 <= emax - prec ->
  exists m2,
    mx / 2 ^ (Z.max ex (fexp prec emax (Zdigits2 mx + ex)) - ex) <= m2
    /\ m2 <= mx / 2 ^ (Z.max ex (fexp prec emax (Zdigits2 mx + ex)) - ex) + 1
    /\ nonneg_finite (binary_round_aux prec emax false mx ex lx) = true
    /\ (forall m e, binary_round_aux prec emax false mx ex lx = S754_finite false m e ->
        e <= Z.max ex (fexp prec emax (Zdigits2 mx + ex)) + 1)
    /\ (B2Q (binary_round_aux prec emax false mx ex lx)
        == F2Q m2 (Z.max ex (fexp prec emax (Zdigits2 mx + ex))))%Q.
Proof.
  intros Hp Hmx Hov.
  set (E := Z.max ex (fexp prec emax (Zdigits2 mx + ex))) in *.
  unfold binary_round_aux.
  destruct (shr_fexp_general prec emax mx ex lx Hmx) as [He' Hm'].
  destruct (shr_fexp prec emax mx ex lx) as [mrs' e'] eqn:H1. cbn [fst snd] in He', Hm'.
  fold E in He', Hm'. subst e'.
  pose proof (shifted_below prec emax mx ex Hp Hmx) as Hq0. fold E in Hq0.
  pose proof (round_nearest_even_bounds (shr_m mrs') (loc_of_shr_record mrs')) as Hr.
  set (m2 := round_nearest_even (shr_m mrs') (loc_of_shr_record mrs')) in *.
  rewrite Hm' in Hr.
  assert (Hm2 : 0 <= m2 <= 2 ^ prec) by lia.
  assert (Hemin : emin prec emax <= E) by (unfold E, fexp; lia).
  destruct (shr_fexp_general prec emax m2 E loc_Exact (proj1 Hm2)) as [He'' Hm''].
  destruct (shr_fexp prec emax m2 E loc_Exact) as [mrs'' e''] eqn:H2.
  cbn [fst snd] in He'', Hm''. rewrite <- He'' in Hm''.
  exists m2. split; [lia|]. split; [lia|].
  destruct (Z.eq_dec m2 (2 ^ prec)) as [Hc|Hc].
  - (* the mantissa overflows: one more shift *)
    assert (Hdig : Zdigits2 m2 = prec + 1).
    { assert (Hpos : 0 < 2 ^ prec) by (apply Z.pow_pos_nonneg; lia).
      destruct m2 as [|p|p]; try lia. cbn [Zdigits2].
      apply digits2_pos_unique. rewrite Hc.
      replace (prec + 1 - 1) with prec by lia. split; [lia|].
      rewrite Z.pow_add_r by lia. lia. }
    assert (HE' : e'' = E + 1) by (rewrite He'', Hdig; unfold fexp; lia).
    rewrite HE' in Hm''. replace (E + 1 - E) with 1 in Hm'' by lia.
    assert (Hhalf : m2 / 2 ^ 1 = 2 ^ (prec - 1)).
    { rewrite Hc. replace prec with (prec - 1 + 1) at 1 by lia.
      rewrite Z.pow_add_r by lia. apply Z.div_mul. discriminate. }
    rewrite Hhalf in Hm''. rewrite Hm''.
    assert (Hpos : 0 < 2 ^ (prec - 1)) by (apply Z.pow_pos_nonneg; lia).
    destruct (2 ^ (prec - 1)) as [|p|p] eqn:Hpw; try lia.
    assert (Hle : (e'' <=? emax - prec) = true) by (apply Z.leb_le; lia).
    rewrite Hle. split; [reflexivity|].
    split; [intros m e Heq; inversion Heq; lia|].
    cbn [B2Q]. rewrite HE', <- Hpw, Hc.
    replace prec with (prec - 1 + 1) at 2 by lia.
    rewrite Z.pow_add_r by lia.
    rewrite (F2Q_shift (2 ^ (prec - 1)) E 1) by lia. reflexivity.
  - (* the mantissa fits *)
    assert (Hdig : Zdigits2 m2 <= prec) by (apply Zdigits2_le; lia).
    assert (HE' : e'' = E) by (rewrite He''; unfold fexp; unfold emin in Hemin; unfold emin; lia).
    rewrite HE', Z.sub_diag, Z.pow_0_r, Z.div_1_r in Hm''. rewrite Hm''.
    destruct m2 as [|p|p]; try lia.
    + split; [reflexivity|]. split; [intros m e Heq; discriminate|].
      cbn [B2Q]. unfold F2Q. ring.
    + assert (Hle : (e'' <=? emax - prec) = true) by (apply Z.leb_le; lia).
      rewrite Hle. split; [reflexivity|].
      split; [intros m e Heq; inversion Heq; lia|].
      cbn [B2Q]. rewrite HE'. reflexivity.
Qed.

Lemma F2Q_le (a b e : Z) : a <= b -> (F2Q a e <= F2Q b e)%Q.
Proof.
  intros H. unfold F2Q. apply Qmult_le_compat_r; [|apply Qlt_le_weak, pow2_pos].
  rewrite <- Zle_Qle. exact H.
Qed.

Lemma F2Q_lt (a b e : Z) : a < b -> (F2Q a e < F2Q b e)%Q.
Proof.
  intros H. unfold F2Q. apply Qmult_lt_compat_r; [apply pow2_pos|].
  rewrite <- Zlt_Qlt. exact H.
Qed.

Lemma F2Q_succ (a e : Z) : (F2Q (a + 1) e == F2Q a e + pow2 e)%Q.
Proof. unfold F2Q. rewrite inject_Z_plus. change (inject_Z 1) with 1%Q. ring. Qed.

(** The rounded value is less than one unit of the result's exponent away
    from the value that was rounded. *)
Lemma round_aux_near (prec emax mx ex E : Z) (lx : location) :
  0 < prec -> 0 <= mx ->
  E = Z.max ex (fexp prec emax (Zdigits2 mx + ex)) ->
  E + 1 <= emax - prec ->
  nonneg_finite (binary_round_aux prec emax false mx ex lx) = true
  /\ (forall m e, binary_round_aux prec emax false mx ex lx = S754_finite false m e ->
      e <= E + 1)
  /\ (F2Q mx ex - pow2 E <= B2Q (binary_round_aux prec emax false mx ex lx))%Q
  /\ (B2Q (binary_round_aux prec emax false mx ex lx) <= F2Q mx ex + pow2 E)%Q.
Proof.
  intros Hp Hmx HE Hov. rewrite HE in Hov.
  destruct (round_aux_general prec emax mx ex lx Hp Hmx Hov)
    as [m2 [Hlo [Hhi [Hfin [Hexp Hval]]]]].
  rewrite <- HE in *.
  split; [exact Hfin|]. split; [exact Hexp|].
  set (n := E - ex) in *. assert (Hn : 0 <= n) by (unfold n; lia).
  set (q0 := mx / 2 ^ n) in *.
  assert (H2 : 0 < 2 ^ n) by (apply Z.pow_pos_nonneg; lia).
  pose proof (Z.div_mod mx (2 ^ n) ltac:(lia)) as Hdm.
  pose proof (Z.mod_pos_bound mx (2 ^ n) H2) as Hrem. fold q0 in Hdm.
  assert (Hs1 : (F2Q (q0 * 2 ^ n) ex == F2Q q0 E)%Q).
  { rewrite F2Q_shift by lia. unfold n. replace (ex + (E - ex)) with E by lia. reflexivity. }
  assert (Hs2 : (F2Q ((q0 + 1) * 2 ^ n) ex == F2Q q0 E + pow2 E)%Q).
  { rewrite F2Q_shift by lia. unfold n. replace (ex + (E - ex)) with E by lia.
    apply F2Q_succ. }
  assert (A1 : (F2Q q0 E <= F2Q mx ex)%Q) by (rewrite <- Hs1; apply F2Q_le; lia).
  assert (A2 : (F2Q mx ex <= F2Q q0 E + pow2 E)%Q) by (rewrite <- Hs2; apply F2Q_le; lia).
  assert (A3 : (F2Q q0 E <= F2Q m2 E)%Q) by (apply F2Q_le; exact Hlo).
  assert (A4 : (F2Q m2 E <= F2Q q0 E + pow2 E)%Q)
    by (rewrite <- F2Q_succ; apply F2Q_le; exact Hhi).
  rewrite Hval. split; lra.
Qed.

(** *** Division *)

Lemma div_core_spec (prec emax : Z) (m1 m2 : positive) (e1 e2 : Z) :
  exists q e' l,
    SFdiv_core_binary prec emax (Zpos m1) e1 (Zpos m2) e2 = (q, e', l)
    /\ 0 <= q
    /\ e' = Z.min (fexp prec emax (Zpos (digits2_pos m1) + e1 - (Zpos (digits2_pos m2) + e2)))
                  (e1 - e2)
    /\ q * Zpos m2 <= Zpos m1 * 2 ^ (e1 - e2 - e')
    /\ Zpos m1 * 2 ^ (e1 - e2 - e') < (q + 1) * Zpos m2.
Proof.
  unfold SFdiv_core_binary. cbn [Zdigits2].
  set (e' := Z.min _ (e1 - e2)).
  assert (Hs : 0 <= e1 - e2 - e') by (unfold e'; lia).
  set (m' := match e1 - e2 - e' with
             | 0 => Zpos m1
             | Zpos _ => Z.shiftl (Zpos m1) (e1 - e2 - e')
             | Zneg _ => 0
             end).
  assert (Hm' : m' = Zpos m1 * 2 ^ (e1 - e2 - e')).
  { unfold m'. destruct (e1 - e2 - e') as [|p|p] eqn:Hse; [|apply Z.shiftl_mul_pow2|]; lia. }
  pose proof (Z_div_mod m' (Zpos m2) ltac:(lia)) as Hdiv.
  destruct (Z.div_eucl m' (Zpos m2)) as [q r].
  exists q, e', (new_location (Zpos m2) r).
  split; [reflexivity|]. rewrite <- Hm'. destruct Hdiv as [Heq Hr].
  repeat split; try reflexivity; nia.
Qed.

(** *** The quotient [freq / 1000000.0] and its conversion to [float] *)

Lemma literal_million : Double.literal 1000000 1 = S754_finite false 8589934592000000 (-33).
Proof. vm_compute. reflexivity. Qed.

Lemma F2Q_mantissa_mul (a b e : Z) : (F2Q (a * b) e == F2Q a e * inject_Z b)%Q.
Proof. unfold F2Q. rewrite inject_Z_mult. ring. Qed.

Lemma F2Q_exponent_add (a e k : Z) : (F2Q a (e + k) == F2Q a e * pow2 k)%Q.
Proof. unfold F2Q. rewrite pow2_add. ring. Qed.

Lemma channel_div (freq : Z) :
  0 <= freq < 2 ^ 32 ->
  ok (Double.div (Double.of_int freq) (Double.literal 1000000 1))
  /\ near (B2Q (Double.div (Double.of_int freq) (Double.literal 1000000 1)))
          (inject_Z freq * (1 # 1000000)) (pow2 (- 39)).
Proof.
  intros Hf. rewrite literal_million.
  assert (B : 2 ^ 32 < 2 ^ 52) by (apply Z.pow_lt_mono_r; lia).
  destruct (of_int_Q freq ltac:(lia)) as [Hok Hval].
  destruct (ok_cases _ Hok) as [Hz | [m1 [e1 [Hx He1]]]].
  - rewrite Hz in *. cbn [B2Q] in Hval.
    split; [apply ok_zero|]. unfold Double.div. cbn [SFdiv xorb B2Q].
    unfold near. change (pow2 (- 39)) with (1 # 549755813888)%Q.
    split; lra.
  - rewrite Hx in *. cbn [B2Q] in Hval.
    assert (HF : (inject_Z freq < 4294967296)%Q).
    { change 4294967296%Q with (inject_Z (2 ^ 32)). rewrite <- Zlt_Qlt. lia. }
    assert (HF0 : (0 <= inject_Z freq)%Q).
    { change 0%Q with (inject_Z 0). rewrite <- Zle_Qle. lia. }
    assert (Hd1 : Zpos (digits2_pos m1) + e1 <= 32).
    { apply F2Q_digits. rewrite Hval. change (pow2 32) with 4294967296%Q. exact HF. }
    unfold Double.div, Double.prec, Double.emax. cbn [SFdiv xorb].
    destruct (div_core_spec 53 1024 m1 8589934592000000 e1 (-33))
      as [q [e' [l [Hcore [Hq [He' [Hlo Hhi]]]]]]].
    rewrite Hcore.
    change (Zpos (digits2_pos 8589934592000000)) with 53 in He'.
    assert (He'41 : e' <= -41) by (rewrite He'; unfold fexp, emin; lia).
    assert (Hs : 0 <= e1 - -33 - e') by (rewrite He'; lia).
    set (A := F2Q q e').
    assert (Hscale : (F2Q (Zpos m1 * 2 ^ (e1 - -33 - e')) e' == inject_Z freq * 8589934592)%Q).
    { rewrite F2Q_shift by exact Hs.
      replace (e' + (e1 - -33 - e')) with (e1 + 33) by lia.
      rewrite F2Q_exponent_add, Hval. reflexivity. }
    assert (HA1 : (A * 8589934592000000 <= inject_Z freq * 8589934592)%Q).
    { rewrite <- Hscale. unfold A.
      change 8589934592000000%Q with (inject_Z 8589934592000000).
      rewrite <- F2Q_mantissa_mul. apply F2Q_le. exact Hlo. }
    assert (HA2 : (inject_Z freq * 8589934592 < (A + pow2 e') * 8589934592000000)%Q).
    { rewrite <- Hscale. unfold A. rewrite <- F2Q_succ.
      change 8589934592000000%Q with (inject_Z 8589934592000000).
      rewrite <- F2Q_mantissa_mul. apply F2Q_lt. exact Hhi. }
    assert (HA13 : (A < pow2 13)%Q).
    { change (pow2 13) with 8192%Q. clear - HA1 HF. clearbody A. lra. }
    assert (Hdq : fexp 53 1024 (Zdigits2 q + e') <= -40).
    { destruct q as [|p|p]; [unfold fexp, emin; cbn [Zdigits2]; lia | | lia].
      cbn [Zdigits2]. pose proof (F2Q_digits p e' 13 HA13). unfold fexp, emin. lia. }
    set (E := Z.max e' (fexp 53 1024 (Zdigits2 q + e'))).
    assert (HE : E <= -40) by (unfold E; lia).
    destruct (round_aux_near 53 1024 q e' E l ltac:(lia) Hq eq_refl ltac:(lia))
      as [Hfin [Hexp [Hn1 Hn2]]].
    fold A in Hn1, Hn2.
    set (R := binary_round_aux 53 1024 false q e' l) in *.
    split.
    + split; [exact Hfin|].
      destruct R as [[|]|s| |[|] m e] eqn:HR; cbn [expo]; try lia; try discriminate.
      specialize (Hexp m e eq_refl). lia.
    + pose proof (pow2_le E (-40) HE) as P1. pose proof (pow2_le e' (-41) He'41) as P2.
      pose proof (pow2_pos E) as P3. pose proof (pow2_pos e') as P4.
      change (pow2 (-40)) with (1 # 1099511627776)%Q in P1.
      change (pow2 (-41)) with (1 # 2199023255552)%Q in P2.
      unfold near. change (pow2 (- 39)) with (1 # 549755813888)%Q.
      clear - Hn1 Hn2 HA1 HA2 P1 P2 P3 P4.
      set (X := B2Q R) in *. clearbody X. clearbody A.
      set (pE := pow2 E) in *. clearbody pE. set (pe := pow2 e') in *. clearbody pe.
      set (F := inject_Z freq) in *. clearbody F.
      split; lra.
Qed.

Lemma channel_float32 (d : spec_float) :
  ok d -> (B2Q d < pow2 13)%Q ->
  nonneg_finite (Double.to_float32 d) = true
  /\ near (B2Q (Double.to_float32 d)) (B2Q d) (pow2 (- 11)).
Proof.
  intros Hok Hlt. destruct (ok_cases d Hok) as [-> | [m [e [-> He]]]].
  - cbn [Double.to_float32 B2Q]. split; [reflexivity|]. apply near_refl.
    apply Qlt_le_weak, pow2_pos.
  - cbn [Double.to_float32 B2Q] in *. unfold binary_round.
    pose proof (shl_align_value m e (fexp 24 128 (Zpos (digits2_pos m) + e))) as Hv.
    destruct (shl_align_spec m e (fexp 24 128 (Zpos (digits2_pos m) + e))) as [Hs _].
    destruct (shl_align m e (fexp 24 128 (Z.pos (digits2_pos m) + e))) as [mz ez].
    cbn [fst snd] in Hv, Hs.
    pose proof (F2Q_digits m e 13 Hlt) as Hd.
    assert (Hlt' : (F2Q (Zpos mz) ez < pow2 13)%Q) by (rewrite Hv; exact Hlt).
    pose proof (F2Q_digits mz ez 13 Hlt') as Hdz.
    assert (Hez : ez <= -11) by (rewrite Hs; unfold fexp, emin; lia).
    set (E := Z.max ez (fexp 24 128 (Zdigits2 (Zpos mz) + ez))).
    assert (HE : E <= -11) by (unfold E, fexp, emin; cbn [Zdigits2]; lia).
    destruct (round_aux_near 24 128 (Zpos mz) ez E loc_Exact ltac:(lia) ltac:(lia)
                eq_refl ltac:(lia)) as [Hfin [_ [Hn1 Hn2]]].
    split; [exact Hfin|].
    pose proof (pow2_le E (-11) HE) as P1. rewrite Hv in Hn1, Hn2.
    unfold near. split; lra.
Qed.

(** X20.  For every 32-bit frequency in Hz, [RadioSetChannel] stores a
    finite, non-negative [float] that is within 0.0005 MHz (500 Hz) of the
    frequency in MHz, however the division and the conversion to [float]
    round; [%f] prints it as an unsigned decimal with six decimals, never
    as inf or nan; and nothing else of the driver is changed. *)
Theorem SetChannel_frequency (freq : Z) (r : Radio_t) (Hfreq : is_uint32 freq) :
  nonneg_finite (frequency (RadioSetChannel freq r)) = true
  /\ near (B2Q (frequency (RadioSetChannel freq r))) (inject_Z freq * (1 # 1000000))
          (1 # 2000)
  /\ (exists n, 0 <= n
        /\ printf_f (frequency (RadioSetChannel freq r))
           = dec_u (n / 1000000) ++ "."%char :: fixed_digits 6 (n mod 1000000))
  /\ MockRadio (RadioSetChannel freq r) = MockRadio r
  /\ TxTimeout (RadioSetChannel freq r) = TxTimeout r
  /\ IrqFired (RadioSetChannel freq r) = IrqFired r.
Proof.
  unfold is_uint32 in Hfreq.
  assert (Hf : 0 <= freq < 2 ^ 32) by (change (2 ^ 32) with 4294967296; lia).
  destruct (channel_div freq Hf) as [Hok [Hd1 Hd2]].
  unfold RadioSetChannel. cbn [frequency with_frequency MockRadio TxTimeout IrqFired].
  set (d := Double.div (Double.of_int freq) (Double.literal 1000000 1)) in *.
  assert (HF : (inject_Z freq < 4294967296)%Q).
  { change 4294967296%Q with (inject_Z 4294967296). rewrite <- Zlt_Qlt. lia. }
  change (pow2 (- 39)) with (1 # 549755813888)%Q in Hd1, Hd2.
  assert (Hlt : (B2Q d < pow2 13)%Q) by (change (pow2 13) with 8192%Q; lra).
  destruct (channel_float32 d Hok Hlt) as [Hfin [Hn1 Hn2]].
  change (pow2 (- 11)) with (1 # 2048)%Q in Hn1, Hn2.
  set (f := Double.to_float32 d) in *.
  split; [exact Hfin|].
  split; [unfold near; split; lra|].
  split; [|repeat split; reflexivity].
  destruct f as [[|]|s| |[|] m e]; try discriminate.
  - exists 0. split; [lia | reflexivity].
  - unfold printf_f. cbn [app].
    eexists. split; [|reflexivity].
    destruct (0 <=? e) eqn:He.
    + apply Z.leb_le in He. assert (0 < 2 ^ e) by (apply Z.pow_pos_nonneg; lia). nia.
    + apply Z.leb_gt in He. apply round_half_even_nonneg; [lia|].
      apply Z.pow_pos_nonneg; lia.
Qed.

Lemma SetChannel_frequency_witness :
  nonneg_finite (frequency (RadioSetChannel 868100000 Radio_start)) = true
  /\ near (B2Q (frequency (RadioSetChannel 868100000 Radio_start)))
          (inject_Z 868100000 * (1 # 1000000)) (1 # 2000)
  /\ printf_f (frequency (RadioSetChannel 868100000 Radio_start)) = lit "868.099976".
Proof.
  destruct (SetChannel_frequency 868100000 Radio_start) as [H1 [H2 _]].
  - unfold is_uint32. lia.
  - split; [exact H1|]. split; [exact H2|]. vm_compute. reflexivity.
Defined.

(** ** Time on air: FSK, against exact arithmetic *)

Lemma F2Q_upper (m : positive) (e : Z) :
  (F2Q (Zpos m) e < pow2 (Zpos (digits2_pos m) + e))%Q.
Proof.
  pose proof (digits2_pos_bounds m) as [_ Hhi].
  rewrite pow2_add. unfold F2Q.
  apply Qmult_lt_compat_r; [apply pow2_pos|].
  rewrite pow2_inject by lia. rewrite <- Zlt_Qlt. exact Hhi.
Qed.

Lemma F2Q_pos (m : positive) (e : Z) : (0 < F2Q (Zpos m) e)%Q.
Proof.
  unfold F2Q. apply Qmult_lt_0_compat; [|apply pow2_pos].
  change 0%Q with (inject_Z 0). rewrite <- Zlt_Qlt. lia.
Qed.

Lemma pow2_double (k : Z) : (pow2 (k - 52) == 2 * pow2 (k - 53))%Q.
Proof.
  replace (k - 52) with (1 + (k - 53)) by lia. rewrite pow2_add. reflexivity.
Qed.

(** Division by a positive finite number: the quotient times the divisor
    is within [2^(k-52)] divisors of the dividend. *)
Lemma div_near (x : spec_float) (m2 : positive) (e2 k : Z) :
  ok x -> -1021 <= k <= 52 ->
  (B2Q x < pow2 k * F2Q (Zpos m2) e2)%Q ->
  ok (Double.div x (S754_finite false m2 e2))
  /\ (B2Q (Double.div x (S754_finite false m2 e2)) * F2Q (Zpos m2) e2 - B2Q x
      <= pow2 (k - 52) * F2Q (Zpos m2) e2)%Q
  /\ (B2Q x - B2Q (Double.div x (S754_finite false m2 e2)) * F2Q (Zpos m2) e2
      <= pow2 (k - 52) * F2Q (Zpos m2) e2)%Q.
Proof.
  intros Hok Hk Hlt.
  pose proof (F2Q_pos m2 e2) as HY. pose proof (pow2_pos (k - 52)) as Hpk.
  set (Y := F2Q (Zpos m2) e2) in *.
  destruct (ok_cases x Hok) as [-> | [m1 [e1 [-> He1]]]].
  - unfold Double.div. cbn [SFdiv xorb B2Q]. split; [apply ok_zero|].
    assert (0 <= pow2 (k - 52) * Y)%Q by (apply Qmult_le_0_compat; lra).
    split; lra.
  - cbn [B2Q] in *. set (X := F2Q (Zpos m1) e1) in *.
    unfold Double.div, Double.prec, Double.emax. cbn [SFdiv xorb].
    destruct (div_core_spec 53 1024 m1 m2 e1 e2)
      as [q [e' [l [Hcore [Hq [He' [Hlo Hhi]]]]]]].
    rewrite Hcore.
    assert (Hs : 0 <= e1 - e2 - e') by (rewrite He'; lia).
    set (A := F2Q q e').
    assert (Hscale : (F2Q (Zpos m1 * 2 ^ (e1 - e2 - e')) (e' + e2) == X)%Q).
    { rewrite F2Q_shift by exact Hs.
      replace (e' + e2 + (e1 - e2 - e')) with e1 by lia. reflexivity. }
    assert (Hprod : forall a, (F2Q (a * Zpos m2) (e' + e2) == F2Q a e' * Y)%Q).
    { intros a. unfold Y, F2Q. rewrite inject_Z_mult, pow2_add. ring. }
    assert (HA1 : (A * Y <= X)%Q).
    { unfold A. rewrite <- Hprod, <- Hscale. apply F2Q_le. exact Hlo. }
    assert (HA2 : (X < (A + pow2 e') * Y)%Q).
    { unfold A. rewrite <- F2Q_succ, <- Hprod, <- Hscale. apply F2Q_lt. exact Hhi. }
    (* magnitudes *)
    assert (HD : Zpos (digits2_pos m1) + e1 - (Zpos (digits2_pos m2) + e2) <= k).
    { pose proof (F2Q_lower m1 e1) as L1. fold X in L1.
      pose proof (F2Q_upper m2 e2) as U2. fold Y in U2.
      assert (U3 : (pow2 k * Y < pow2 k * pow2 (Zpos (digits2_pos m2) + e2))%Q)
        by (apply Qmult_lt_l; [apply pow2_pos | exact U2]).
      rewrite <- pow2_add in U3.
      assert (L2 : (pow2 (Zpos (digits2_pos m1) - 1 + e1)
                    < pow2 (k + (Zpos (digits2_pos m2) + e2)))%Q) by lra.
      apply pow2_lt_inv in L2. lia. }
    assert (He'k : e' <= k - 53) by (rewrite He'; unfold fexp, emin; lia).
    assert (HAk : (A < pow2 k)%Q).
    { apply (Qmult_lt_r _ _ Y HY). lra. }
    assert (Hdq : fexp 53 1024 (Zdigits2 q + e') <= k - 53).
    { destruct q as [|p|p]; [unfold fexp, emin; cbn [Zdigits2]; lia | | lia].
      cbn [Zdigits2]. pose proof (F2Q_digits p e' k HAk). unfold fexp, emin. lia. }
    set (E := Z.max e' (fexp 53 1024 (Zdigits2 q + e'))).
    assert (HE : E <= k - 53) by (unfold E; lia).
    destruct (round_aux_near 53 1024 q e' E l ltac:(lia) Hq eq_refl ltac:(lia))
      as [Hfin [Hexp [Hn1 Hn2]]].
    fold A in Hn1, Hn2.
    set (R := binary_round_aux 53 1024 false q e' l) in *.
    split.
    + split; [exact Hfin|].
      destruct R as [[|]|s| |[|] m e] eqn:HR; cbn [expo]; try lia; try discriminate.
      specialize (Hexp m e eq_refl). lia.
    + pose proof (pow2_le E (k - 53) HE) as P1.
      pose proof (pow2_le e' (k - 53) He'k) as P2.
      pose proof (pow2_pos (k - 53)) as P3.
      rewrite pow2_double.
      set (c := pow2 (k - 53)) in *. set (pE := pow2 E) in *. set (pe := pow2 e') in *.
      set (V := B2Q R) in *.
      clearbody c pE pe V A X Y.
      clear - P1 P2 P3 Hn1 Hn2 HA1 HA2 HY.
      assert (M1 : ((V - A) * Y <= c * Y)%Q) by (apply Qmult_le_compat_r; lra).
      assert (M2 : ((A - V + pe) * Y <= (2 * c) * Y)%Q) by (apply Qmult_le_compat_r; lra).
      split.
      * setoid_replace (V * Y - X)%Q with ((V - A) * Y + (A * Y - X))%Q by ring.
        setoid_replace (2 * c * Y)%Q with (c * Y + c * Y)%Q by ring.
        assert (0 <= c * Y)%Q by (apply Qmult_le_0_compat; lra). lra.
      * setoid_replace (X - V * Y)%Q with ((X - (A + pe) * Y) + (A - V + pe) * Y)%Q by ring.
        lra.
Qed.

Lemma inject_Z_sub (a b : Z) : (inject_Z (a - b) == inject_Z a - inject_Z b)%Q.
Proof. unfold Z.sub. rewrite inject_Z_plus, inject_Z_opp. reflexivity. Qed.

(** [rint] and the conversion to [uint32_t]: the nearest integer, at most
    one half away. *)
Lemma rint_to_uint32 (x : spec_float) :
  ok x -> (B2Q x < 4294967295)%Q ->
  exists n,
    Double.to_uint32 (Double.rint x) = Some n /\ 0 <= n
    /\ (inject_Z n - B2Q x <= 1 # 2)%Q /\ (B2Q x - inject_Z n <= 1 # 2)%Q.
Proof.
  intros Hx Hlt.
  destruct (ok_cases x Hx) as [-> | [m [e [-> He]]]].
  - exists 0. cbn [B2Q]. change (inject_Z 0) with 0%Q.
    split; [reflexivity|]. split; [lia|]. split; discriminate.
  - cbn [B2Q] in *. unfold Double.rint, Double.to_integral.
    destruct (0 <=? e) eqn:Hpos.
    + apply Z.leb_le in Hpos. assert (e = 0) by lia. subst e.
      assert (Hv : (F2Q (Zpos m) 0 == inject_Z (Zpos m))%Q)
        by (unfold F2Q; change (pow2 0) with 1%Q; ring).
      rewrite Hv in Hlt. change 4294967295%Q with (inject_Z 4294967295) in Hlt.
      rewrite <- Zlt_Qlt in Hlt.
      exists (Zpos m). split; [apply to_uint32_integer; [reflexivity | exact Hv | lia]|].
      split; [lia|]. rewrite Hv. split; lra.
    + apply Z.leb_gt in Hpos.
      set (d := 2 ^ (- e)).
      assert (Hd : 0 < d) by (apply Z.pow_pos_nonneg; lia).
      assert (Hq : (F2Q (Zpos m) e * inject_Z d == inject_Z (Zpos m))%Q).
      { unfold F2Q, d. rewrite <- pow2_inject by lia.
        rewrite <- Qmult_assoc, <- pow2_add.
        replace (e + - e) with 0 by lia. change (pow2 0) with 1%Q. ring. }
      assert (Hdq : (0 < inject_Z d)%Q)
        by (change 0%Q with (inject_Z 0); rewrite <- Zlt_Qlt; lia).
      pose proof (Z.div_mod (Zpos m) d ltac:(lia)) as Hdm.
      pose proof (Z.mod_pos_bound (Zpos m) d Hd) as Hrem.
      set (q := Zpos m / d) in *. set (r := Zpos m mod d) in *.
      assert (Hq0 : 0 <= q) by (apply Z.div_pos; lia).
      set (n := Double.pick_rint false q r d).
      assert (Hn : q <= n <= q + 1 /\ 2 * (n * d - Zpos m) <= d /\ 2 * (Zpos m - n * d) <= d).
      { unfold n, Double.pick_rint.
        destruct (2 * r ?= d) eqn:Hc;
          [apply Z.compare_eq in Hc
          | apply (proj1 (Z.compare_lt_iff _ _)) in Hc
          | apply (proj1 (Z.compare_gt_iff _ _)) in Hc ];
          try (destruct (Z.even q)); nia. }
      destruct Hn as [Hnq [Hn1 Hn2]].
      set (V := F2Q (Zpos m) e) in *.
      assert (Q1 : ((inject_Z n - V) * inject_Z d <= (1 # 2) * inject_Z d)%Q).
      { setoid_replace ((inject_Z n - V) * inject_Z d)%Q
          with (inject_Z n * inject_Z d - V * inject_Z d)%Q by ring.
        rewrite Hq, <- inject_Z_mult.
        apply (Qmult_le_l _ _ 2); [reflexivity|].
        setoid_replace (2 * ((1 # 2) * inject_Z d))%Q with (inject_Z d) by ring.
        setoid_replace (2 * (inject_Z (n * d) - inject_Z (Zpos m)))%Q
          with (inject_Z (2 * (n * d - Zpos m)))
          by (rewrite (inject_Z_mult 2), inject_Z_sub; reflexivity).
        rewrite <- Zle_Qle. exact Hn1. }
      assert (Q2 : ((V - inject_Z n) * inject_Z d <= (1 # 2) * inject_Z d)%Q).
      { setoid_replace ((V - inject_Z n) * inject_Z d)%Q
          with (V * inject_Z d - inject_Z n * inject_Z d)%Q by ring.
        rewrite Hq, <- inject_Z_mult.
        apply (Qmult_le_l _ _ 2); [reflexivity|].
        setoid_replace (2 * ((1 # 2) * inject_Z d))%Q with (inject_Z d) by ring.
        setoid_replace (2 * (inject_Z (Zpos m) - inject_Z (n * d)))%Q
          with (inject_Z (2 * (Zpos m - n * d)))
          by (rewrite (inject_Z_mult 2), inject_Z_sub; reflexivity).
        rewrite <- Zle_Qle. exact Hn2. }
      apply Qmult_le_r in Q1; [|exact Hdq]. apply Qmult_le_r in Q2; [|exact Hdq].
      assert (Hnlt : n < 4294967296).
      { assert (H : (inject_Z n < inject_Z 4294967296)%Q)
          by (change (inject_Z 4294967296) with 4294967296%Q; lra).
        rewrite <- Zlt_Qlt in H. exact H. }
      exists n. split; [|split; [lia | split; assumption]].
      destruct (of_int_Q n) as [[Hf _] Hvn].
      { split; [lia|]. apply Z.lt_trans with (1 := Hnlt). reflexivity. }
      change (binary_normalize Double.prec Double.emax n 0 false) with (Double.of_int n).
      apply to_uint32_integer; [exact Hf | exact Hvn | lia].
Qed.

Lemma fsk_bits_value (P h len c : Z) :
  3 <= P < 65539 -> 0 <= h <= 1 -> 0 <= len < 256 -> 0 <= c <= 2 ->
  ok (Double.mul (Double.of_int 8)
        (Double.add (Double.add (Double.add (Double.of_int P) (Double.of_int h))
                                (Double.of_int len))
                    (Double.of_int c)))
  /\ near (B2Q (Double.mul (Double.of_int 8)
                  (Double.add (Double.add (Double.add (Double.of_int P) (Double.of_int h))
                                          (Double.of_int len))
                              (Double.of_int c))))
          (inject_Z (8 * (P + h + len + c))) (pow2 (- 30)).
Proof.
  intros HP Hh Hlen Hc.
  assert (B : 65539 + 1 + 256 + 2 < 2 ^ 52) by reflexivity.
  destruct (of_int_Q P ltac:(lia)) as [okP vP].
  destruct (of_int_Q h ltac:(lia)) as [okh vh].
  destruct (of_int_Q len ltac:(lia)) as [okl vl].
  destruct (of_int_Q c ltac:(lia)) as [okc vc].
  destruct (of_int_Q 8 ltac:(lia)) as [ok8 v8].
  destruct (add_small _ _ P h okP okh vP vh ltac:(lia) ltac:(lia) ltac:(lia)) as [ok1 v1].
  destruct (add_small _ _ (P + h) len ok1 okl v1 vl ltac:(lia) ltac:(lia) ltac:(lia))
    as [ok2 v2].
  destruct (add_small _ _ (P + h + len) c ok2 okc v2 vc ltac:(lia) ltac:(lia) ltac:(lia))
    as [ok3 v3].
  set (bytes := Double.add _ (Double.of_int c)) in *.
  assert (Hb2 : (inject_Z (P + h + len + c) < 131072)%Q).
  { change 131072%Q with (inject_Z 131072). rewrite <- Zlt_Qlt. lia. }
  assert (Hprod : (B2Q (Double.of_int 8) * B2Q bytes < pow2 24)%Q).
  { rewrite v8, v3. change (pow2 24) with 16777216%Q. change (inject_Z 8) with 8%Q. lra. }
  destruct (mul_Q _ _ 24 ok8 ok3 Hprod ltac:(lia)) as [okm [Hn1 Hn2]].
  split; [exact okm|].
  rewrite v8, v3 in Hn1, Hn2. change (24 - 54) with (- 30) in Hn1, Hn2.
  unfold near. rewrite inject_Z_mult. split; assumption.
Qed.

Lemma near_scaled (v w eps y : Q) :
  (0 < y)%Q -> (v * y - w <= eps * y)%Q -> (w - v * y <= eps * y)%Q ->
  near v (w / y) eps.
Proof.
  intros Hy H1 H2. assert (Hne : ~ (y == 0)%Q) by lra.
  unfold near. split; apply (Qmult_le_r _ _ y Hy).
  - setoid_replace ((v - w / y) * y)%Q with (v * y - w)%Q by (field; exact Hne).
    exact H1.
  - setoid_replace ((w / y - v) * y)%Q with (w - v * y)%Q by (field; exact Hne).
    exact H2.
Qed.

(** X21.  For every FSK configuration with a bit rate that is not 0
    (CRC on or off, any preamble, header type and payload length),
    [RadioTimeOnAir] is defined and is the integer within one half, and
    2^-19 for the rounding of the [double] operations, of
    8000 x bytes / bitRate ms, where the byte count takes the stored
    preamble length as it is, that is the 16-bit value of eight times the
    preamble bytes, and no CRC bytes. *)
Theorem TimeOnAir_fsk_value
    (power fdev bandwidth datarate coderate preambleLen : Z)
    (fixLen crcOn freqHopOn : bool) (hopPeriod : Z) (iqInverted : bool)
    (timeout pktLen : Z) (r : Radio_t)
    (Hrate : is_uint32 datarate) (Hnz : datarate <> 0) (Hlen : is_uint8 pktLen) :
  exists r' t,
    RadioSetTxConfig MODEM_FSK power fdev bandwidth datarate coderate preambleLen
      fixLen crcOn freqHopOn hopPeriod iqInverted timeout r = Some r'
    /\ RadioTimeOnAir MODEM_FSK pktLen r' = Some t
    /\ near (inject_Z t)
            (inject_Z (8000 * fsk_airtime_bytes preambleLen fixLen pktLen)
             / inject_Z datarate)
            ((1 # 2) + (1 # 524288)).
Proof.
  unfold is_uint32 in Hrate. unfold is_uint8 in Hlen.
  eexists. 
  assert (Hgoal : exists t,
    RadioTimeOnAir MODEM_FSK pktLen
      (with_TxTimeout
         (RadioSetModem
            (modem_of_PacketType PACKET_TYPE_GFSK)
            (RadioStandby
               (with_MockRadio r
                  {| ModulationParams :=
                       {| Mod_PacketType := PACKET_TYPE_GFSK;
                          Mod_Gfsk := {| Gfsk_BitRate := datarate; Gfsk_Fdev := fdev;
                                         Gfsk_ModulationShaping := MOD_SHAPING_G_BT_1;
                                         Gfsk_Bandwidth := bandwidth |};
                          Mod_LoRa := Mod_LoRa (ModulationParams (MockRadio r)) |};
                     PacketParams :=
                       {| Pkt_PacketType := PACKET_TYPE_GFSK;
                          Pkt_Gfsk :=
                            {| Gfsk_PreambleLength := uint16 (Z.shiftl preambleLen 3);
                               Gfsk_PreambleMinDetect := RADIO_PREAMBLE_DETECTOR_08_BITS;
                               Gfsk_SyncWordLength := Z.shiftl 3 3;
                               Gfsk_AddrComp := RADIO_ADDRESSCOMP_FILT_OFF;
                               Gfsk_HeaderType := if fixLen then RADIO_PACKET_FIXED_LENGTH
                                                  else RADIO_PACKET_VARIABLE_LENGTH;
                               Gfsk_PayloadLength :=
                                 Gfsk_PayloadLength (Pkt_Gfsk (PacketParams (MockRadio r)));
                               Gfsk_CrcLength := if crcOn then RADIO_CRC_2_BYTES_CCIT
                                                 else RADIO_CRC_OFF;
                               Gfsk_DcFree := RADIO_DC_FREEWHITENING |};
                          Pkt_LoRa := Pkt_LoRa (PacketParams (MockRadio r)) |} |})))
         timeout) = Some t
    /\ near (inject_Z t)
            (inject_Z (8000 * fsk_airtime_bytes preambleLen fixLen pktLen)
             / inject_Z datarate)
            ((1 # 2) + (1 # 524288))).
  2: { destruct Hgoal as [t Ht]. exists t. split; [reflexivity | exact Ht]. }
  unfold RadioTimeOnAir.
  cbn [MockRadio ModulationParams PacketParams Mod_Gfsk Pkt_Gfsk Gfsk_CrcLength
       Gfsk_PreambleLength Gfsk_SyncWordLength Gfsk_HeaderType Gfsk_BitRate
       with_TxTimeout with_MockRadio RadioSetModem RadioStandby].
  change (Z.shiftr (Z.shiftl 3 3) 3) with 3.
  set (p16 := uint16 (Z.shiftl preambleLen 3)).
  assert (Hp16 : 0 <= p16 < 65536)
    by (unfold p16, uint16, wrap; apply Z.mod_pos_bound; reflexivity).
  set (hz := if fixLen then 0 else 1).
  assert (Hh : (if RadioPacketLengthModes_eqb
                     (if fixLen then RADIO_PACKET_FIXED_LENGTH
                      else RADIO_PACKET_VARIABLE_LENGTH) RADIO_PACKET_FIXED_LENGTH
                then Double.of_int 0 else Double.of_int 1) = Double.of_int hz)
    by (unfold hz; destruct fixLen; reflexivity).
  assert (Hc : (if RadioCrcTypes_eqb
                     (if crcOn then RADIO_CRC_2_BYTES_CCIT else RADIO_CRC_OFF)
                     RADIO_CRC_2_BYTES
                then Double.of_int 2 else Double.of_int 0) = Double.of_int 0)
    by (destruct crcOn; reflexivity).
  rewrite Hh, Hc.
  assert (Hhz : 0 <= hz <= 1) by (unfold hz; destruct fixLen; lia).
  assert (HB : fsk_airtime_bytes preambleLen fixLen pktLen = p16 + 3 + hz + pktLen + 0)
    by (unfold fsk_airtime_bytes; fold p16; fold hz; lia).
  destruct (fsk_bits_value (p16 + 3) hz pktLen 0 ltac:(lia) Hhz Hlen ltac:(lia))
    as [okb [Hb1 Hb2]].
  set (bits := Double.mul (Double.of_int 8) _) in *.
  set (B := p16 + 3 + hz + pktLen + 0) in *.
  assert (HBq : (0 <= inject_Z (8 * B) <= 526352)%Q).
  { change 0%Q with (inject_Z 0). change 526352%Q with (inject_Z 526352).
    rewrite <- !Zle_Qle. unfold B. lia. }
  (* the divisor *)
  assert (B52 : 4294967296 < 2 ^ 52) by reflexivity.
  destruct (of_int_Q datarate ltac:(lia)) as [oky vy].
  assert (HR1 : (1 <= inject_Z datarate)%Q)
    by (change 1%Q with (inject_Z 1); rewrite <- Zle_Qle; lia).
  destruct (positive_is_finite _ oky ltac:(rewrite vy; lra)) as [m2 [e2 Hy]].
  rewrite Hy in *. cbn [B2Q] in vy.
  change (pow2 (- 30)) with (1 # 1073741824)%Q in Hb1, Hb2.
  destruct (div_near bits m2 e2 20 okb ltac:(lia)) as [okq [Hq1 Hq2]].
  { rewrite vy. change (pow2 20) with 1048576%Q.
    apply Qlt_le_trans with (y := 1048576%Q); [lra|].
    setoid_replace 1048576%Q with (1048576 * 1)%Q at 1 by ring.
    apply Qmult_le_l; [reflexivity | exact HR1]. }
  rewrite vy in Hq1, Hq2. change (pow2 (20 - 52)) with (1 # 4294967296)%Q in Hq1, Hq2.
  set (Q1 := Double.div bits (S754_finite false m2 e2)) in *.
  set (R := inject_Z datarate) in *.
  pose proof (B2Q_nonneg Q1 okq) as HQ0.
  assert (HQ1 : (B2Q Q1 <= 526353)%Q).
  { destruct (Qlt_le_dec 526353 (B2Q Q1)) as [Hgt|Hle]; [exfalso|exact Hle].
    assert (M : ((B2Q Q1 - 526353) * (R - 1) >= 0)%Q) by (apply Qmult_le_0_compat; lra).
    assert (M' : ((B2Q Q1 - 526353) * (R - 1)
                  == B2Q Q1 * R - B2Q Q1 - 526353 * R + 526353)%Q) by ring.
    rewrite M' in M. clear M'.
    set (QR := (B2Q Q1 * R)%Q) in *. clearbody QR. lra. }
  (* times 1000 *)
  rewrite literal_1000.
  destruct (of_int_Q 1000 ltac:(lia)) as [okk vk].
  destruct (mul_Q Q1 (Double.of_int 1000) 30 okq okk) as [okp [Hp1 Hp2]]; [|lia|].
  { rewrite vk. change (inject_Z 1000) with 1000%Q. change (pow2 30) with 1073741824%Q.
    lra. }
  rewrite vk in Hp1, Hp2. change (inject_Z 1000) with 1000%Q in Hp1, Hp2.
  change (pow2 (30 - 54)) with (1 # 16777216)%Q in Hp1, Hp2.
  set (Pr := Double.mul Q1 (Double.of_int 1000)) in *.
  destruct (rint_to_uint32 Pr okp ltac:(lra)) as [t [Ht [Ht0 [Ht1 Ht2]]]].
  exists t. split; [exact Ht|].
  rewrite HB. apply near_scaled; [fold R; lra | |]; fold R.
  - assert (M1 : ((inject_Z t - B2Q Pr) * R <= (1 # 2) * R)%Q)
      by (apply Qmult_le_compat_r; lra).
    assert (M2 : ((B2Q Pr - B2Q Q1 * 1000) * R <= (1 # 16777216) * R)%Q)
      by (apply Qmult_le_compat_r; lra).
    rewrite (inject_Z_mult 8000 B). 
    assert (E8 : (inject_Z (8 * B) == 8 * inject_Z B)%Q) by (rewrite inject_Z_mult; reflexivity).
    rewrite E8 in *. change (inject_Z 8000) with 8000%Q.
    set (b := inject_Z B) in *. set (T := inject_Z t) in *.
    set (P := B2Q Pr) in *. set (Q := B2Q Q1) in *. set (X := B2Q bits) in *.
    clearbody b T P Q X R.
    clear - M1 M2 Hq1 Hq2 Hb1 Hb2 HR1.
    assert (E1 : ((T - P) * R == T * R - P * R)%Q) by ring.
    assert (E2 : ((P - Q * 1000) * R == P * R - 1000 * (Q * R))%Q) by ring.
    rewrite E1 in M1. rewrite E2 in M2.
    set (TR := (T * R)%Q) in *. set (PR := (P * R)%Q) in *. set (QR := (Q * R)%Q) in *.
    clearbody TR PR QR.
    setoid_replace (((1 # 2) + (1 # 524288)) * R)%Q
      with ((1 # 2) * R + (1 # 524288) * R)%Q by ring.
    lra.
  - assert (M1 : ((B2Q Pr - inject_Z t) * R <= (1 # 2) * R)%Q)
      by (apply Qmult_le_compat_r; lra).
    assert (M2 : ((B2Q Q1 * 1000 - B2Q Pr) * R <= (1 # 16777216) * R)%Q)
      by (apply Qmult_le_compat_r; lra).
    rewrite (inject_Z_mult 8000 B).
    assert (E8 : (inject_Z (8 * B) == 8 * inject_Z B)%Q) by (rewrite inject_Z_mult; reflexivity).
    rewrite E8 in *. change (inject_Z 8000) with 8000%Q.
    set (b := inject_Z B) in *. set (T := inject_Z t) in *.
    set (P := B2Q Pr) in *. set (Q := B2Q Q1) in *. set (X := B2Q bits) in *.
    clearbody b T P Q X R.
    clear - M1 M2 Hq1 Hq2 Hb1 Hb2 HR1.
    assert (E1 : ((P - T) * R == P * R - T * R)%Q) by ring.
    assert (E2 : ((Q * 1000 - P) * R == 1000 * (Q * R) - P * R)%Q) by ring.
    rewrite E1 in M1. rewrite E2 in M2.
    set (TR := (T * R)%Q) in *. set (PR := (P * R)%Q) in *. set (QR := (Q * R)%Q) in *.
    clearbody TR PR QR.
    setoid_replace (((1 # 2) + (1 # 524288)) * R)%Q
      with ((1 # 2) * R + (1 # 524288) * R)%Q by ring.
    lra.
Qed.

Lemma TimeOnAir_fsk_value_witness :
  exists r' t,
    SetTxConfig_FSK 50000 50000 5 false true = Some r'
    /\ RadioTimeOnAir MODEM_FSK 10 r' = Some t
    /\ t = 9
    /\ near (inject_Z t) (inject_Z (8000 * 54) / inject_Z 50000) ((1 # 2) + (1 # 524288)).
Proof.
  destruct (TimeOnAir_fsk_value 14 25000 50000 50000 0 5 false true false 0 false 3000 10
              Radio_start) as [r' [t [Hc [Ht Hn]]]];
    [unfold is_uint32; lia | lia | unfold is_uint8; lia |].
  exists r', t. split; [exact Hc|]. split; [exact Ht|]. split; [|exact Hn].
  inversion Hc; subst r'. vm_compute in Ht. congruence.
Defined.

(** ** Time on air: LoRa, across bandwidths and spreading factors *)

Lemma ceil_div_nonpos (a v : Z) : 0 < v -> a <= 0 -> ceil_div a v <= 0.
Proof.
  intros Hv Ha. unfold ceil_div.
  assert (0 <= - a / v) by (apply Z.div_pos; lia). lia.
Qed.

Lemma ceil_div_antimono (a v1 v2 : Z) :
  0 <= a -> 0 < v1 <= v2 -> ceil_div a v2 <= ceil_div a v1.
Proof.
  intros Ha Hv. unfold ceil_div.
  assert (H : - a / v1 <= - a / v2).
  { apply Z.div_le_lower_bound; [lia|].
    pose proof (Z.div_mod (- a) v1 ltac:(lia)) as Hdm.
    pose proof (Z.mod_pos_bound (- a) v1 ltac:(lia)) as Hr.
    assert (- a / v1 <= 0) by (apply Z.div_le_upper_bound; lia).
    nia. }
  lia.
Qed.

Lemma payload_symbols_mono_ldro (SF : Z) (l1 l2 : bool) (codingRate : Z)
    (crcOn fixedHeader : bool) (len : Z) :
  5 <= SF -> (l2 = true -> l1 = true) ->
  payload_symbols SF l2 codingRate crcOn fixedHeader len
  <= payload_symbols SF l1 codingRate crcOn fixedHeader len.
Proof.
  intros HSF Hl. unfold payload_symbols.
  pose proof (Z.mod_pos_bound codingRate 4 ltac:(lia)) as Hk.
  set (k := codingRate mod 4 + 4).
  set (a := 8 * len - 4 * SF + 28 + 16 * Z_of_bool crcOn - (if fixedHeader then 20 else 0)).
  destruct l1, l2;
    [apply Z.le_refl | | specialize (Hl eq_refl); discriminate | apply Z.le_refl].
  cbn [Z_of_bool].
  destruct (Z_le_gt_dec 0 a) as [Ha|Ha].
  - pose proof (ceil_div_antimono a (4 * (SF - 2 * 1)) (4 * (SF - 2 * 0)) Ha ltac:(lia)).
    assert (ceil_div a (4 * (SF - 2 * 0)) * k <= ceil_div a (4 * (SF - 2 * 1)) * k)
      by (apply Z.mul_le_mono_nonneg_r; lia).
    lia.
  - pose proof (ceil_div_nonpos a (4 * (SF - 2 * 0)) ltac:(lia) ltac:(lia)).
    pose proof (ceil_div_nonpos a (4 * (SF - 2 * 1)) ltac:(lia) ltac:(lia)).
    assert (ceil_div a (4 * (SF - 2 * 0)) * k <= 0) by nia.
    assert (ceil_div a (4 * (SF - 2 * 1)) * k <= 0) by nia.
    lia.
Qed.

Lemma low_datarate_required_bandwidth (bw1 bw2 SF : Z) :
  0 <= bw1 -> bw1 <= bw2 -> bw2 <= 2 ->
  low_datarate_required (bandwidth_kHz bw2) SF = true ->
  low_datarate_required (bandwidth_kHz bw1) SF = true.
Proof.
  intros H0 H1 H2.
  assert (Hb1 : bw1 = 0 \/ bw1 = 1 \/ bw1 = 2) by lia.
  assert (Hb2 : bw2 = 0 \/ bw2 = 1 \/ bw2 = 2) by lia.
  unfold low_datarate_required.
  destruct Hb1 as [-> | [-> | ->]]; destruct Hb2 as [-> | [-> | ->]]; try lia;
    cbn; destruct (SF =? 11), (SF =? 12); cbn; congruence.
Qed.

Lemma payload_symbols_nonneg (SF : Z) (l : bool) (codingRate : Z) (crcOn fixedHeader : bool)
    (len : Z) : 8 <= payload_symbols SF l codingRate crcOn fixedHeader len.
Proof. unfold payload_symbols. lia. Qed.

(** X22.  With the same spreading factor (7 to 12), coding rate, CRC,
    header, preamble and payload length, the numerator of the payload
    length not being negative, a wider bandwidth never gives a longer LoRa
    airtime. *)
Theorem TimeOnAir_lora_bandwidth
    (power fdev bandwidth1 bandwidth2 datarate coderate preambleLen : Z)
    (fixLen crcOn freqHopOn : bool) (hopPeriod : Z) (iqInverted : bool)
    (timeout pktLen : Z) (r : Radio_t)
    (Hbw1 : 0 <= bandwidth1) (Hle : bandwidth1 <= bandwidth2) (Hbw2 : bandwidth2 <= 2)
    (Hsf : 7 <= datarate <= 12) (Hcr : 0 <= coderate)
    (Hpre : is_uint16 preambleLen) (Hlen : is_uint8 pktLen)
    (Hnum : 0 <= lora_numerator datarate crcOn fixLen pktLen) :
  exists r1 r2 t1 t2,
    RadioSetTxConfig MODEM_LORA power fdev bandwidth1 datarate coderate preambleLen
      fixLen crcOn freqHopOn hopPeriod iqInverted timeout r = Some r1
    /\ RadioSetTxConfig MODEM_LORA power fdev bandwidth2 datarate coderate preambleLen
         fixLen crcOn freqHopOn hopPeriod iqInverted timeout r = Some r2
    /\ RadioTimeOnAir MODEM_LORA pktLen r1 = Some t1
    /\ RadioTimeOnAir MODEM_LORA pktLen r2 = Some t2
    /\ t2 <= t1.
Proof.
  destruct (TimeOnAir_lora_closed power fdev bandwidth1 datarate coderate preambleLen
              fixLen crcOn freqHopOn hopPeriod iqInverted timeout pktLen r
              ltac:(lia) Hsf Hcr Hpre Hlen Hnum) as [r1 [Hc1 Ht1]].
  destruct (TimeOnAir_lora_closed power fdev bandwidth2 datarate coderate preambleLen
              fixLen crcOn freqHopOn hopPeriod iqInverted timeout pktLen r
              ltac:(lia) Hsf Hcr Hpre Hlen Hnum) as [r2 [Hc2 Ht2]].
  exists r1, r2,
    (lora_airtime_ms datarate bandwidth1 coderate crcOn fixLen preambleLen pktLen),
    (lora_airtime_ms datarate bandwidth2 coderate crcOn fixLen preambleLen pktLen).
  repeat (split; [assumption|]).
  unfold lora_airtime_ms.
  pose proof (payload_symbols_mono_ldro datarate
                (low_datarate_required (bandwidth_kHz bandwidth1) datarate)
                (low_datarate_required (bandwidth_kHz bandwidth2) datarate)
                coderate crcOn fixLen pktLen ltac:(lia)
                (low_datarate_required_bandwidth bandwidth1 bandwidth2 datarate
                   Hbw1 Hle Hbw2)) as Hn.
  pose proof (payload_symbols_nonneg datarate
                (low_datarate_required (bandwidth_kHz bandwidth2) datarate)
                coderate crcOn fixLen pktLen) as Hn0.
  set (n1 := payload_symbols _ (low_datarate_required (bandwidth_kHz bandwidth1) datarate)
               _ _ _ _) in *.
  set (n2 := payload_symbols _ (low_datarate_required (bandwidth_kHz bandwidth2) datarate)
               _ _ _ _) in *.
  assert (Hw : 0 < 2 ^ (datarate - bandwidth2 + 1)) by (apply Z.pow_pos_nonneg; lia).
  assert (Hww : 2 ^ (datarate - bandwidth2 + 1) <= 2 ^ (datarate - bandwidth1 + 1))
    by (apply Z.pow_le_mono_r; lia).
  unfold is_uint16 in Hpre.
  apply Z.div_le_mono; [lia|]. apply Z.add_le_mono_r.
  apply Z.mul_le_mono_nonneg; lia.
Qed.

Lemma TimeOnAir_lora_bandwidth_witness :
  exists r1 r2,
    SetTxConfig_LoRa 0 12 1 8 false true Radio_start = Some r1
    /\ SetTxConfig_LoRa 2 12 1 8 false true Radio_start = Some r2
    /\ RadioTimeOnAir MODEM_LORA 13 r1 = Some 1156
    /\ RadioTimeOnAir MODEM_LORA 13 r2 = Some 289.
Proof.
  destruct (TimeOnAir_lora_bandwidth 14 0 0 2 12 1 8 false true false 0 false 3000 13
              Radio_start) as [r1 [r2 [t1 [t2 [Hc1 [Hc2 _]]]]]];
    try (unfold is_uint16, is_uint8; lia); [vm_compute; discriminate|].
  exists r1, r2. split; [exact Hc1|]. split; [exact Hc2|].
  inversion Hc1. inversion Hc2. split; vm_compute; reflexivity.
Defined.

Lemma payload_symbols_mod (SF : Z) (l : bool) (codingRate : Z) (crcOn fixedHeader : bool)
    (len : Z) :
  payload_symbols SF l codingRate crcOn fixedHeader len
  = payload_symbols SF l (codingRate mod 4) crcOn fixedHeader len.
Proof. unfold payload_symbols. rewrite Z.mod_mod by lia. reflexivity. Qed.

(** One spreading factor more, and the payload takes more than half as
    many symbols: checked for every bandwidth, spreading factor, coding
    rate, CRC, header and payload length. *)
Lemma payload_symbols_sf_step (bandwidth SF codingRate : Z) (crcOn fixedHeader : bool)
    (len : Z) :
  0 <= bandwidth <= 2 -> 7 <= SF <= 11 -> 0 <= len < 256 ->
  payload_symbols SF (low_datarate_required (bandwidth_kHz bandwidth) SF)
    codingRate crcOn fixedHeader len + 1
  <= 2 * payload_symbols (SF + 1)
           (low_datarate_required (bandwidth_kHz bandwidth) (SF + 1))
           codingRate crcOn fixedHeader len.
Proof.
  intros Hbw Hsf Hlen.
  rewrite (payload_symbols_mod SF), (payload_symbols_mod (SF + 1)).
  pose proof (Z.mod_pos_bound codingRate 4 ltac:(lia)) as Hk.
  set (k := codingRate mod 4) in *. clearbody k.
  assert (H : forallb (fun b => forallb (fun s => forallb (fun c => forallb (fun l =>
                forallb (fun crc => forallb (fun hdr =>
                  payload_symbols (s + 7)
                    (low_datarate_required (bandwidth_kHz b) (s + 7)) c crc hdr l + 1
                  <=? 2 * payload_symbols (s + 7 + 1)
                            (low_datarate_required (bandwidth_kHz b) (s + 7 + 1)) c crc hdr l)
                  [false; true]) [false; true]) (range 256)) (range 4)) (range 5)) (range 3)
              = true) by (vm_compute; reflexivity).
  pose proof (forallb_range _ 3 H bandwidth ltac:(lia)) as H1.
  pose proof (forallb_range _ 5 H1 (SF - 7) ltac:(lia)) as H2.
  pose proof (forallb_range _ 4 H2 k ltac:(lia)) as H3.
  pose proof (forallb_range _ 256 H3 len ltac:(lia)) as H4.
  replace (SF - 7 + 7) with SF in H4 by lia.
  assert (Hin : forall b : bool, In b [false; true])
    by (intros []; [right; left; reflexivity | left; reflexivity]).
  rewrite forallb_forall in H4. specialize (H4 crcOn (Hin crcOn)).
  rewrite forallb_forall in H4. specialize (H4 fixedHeader (Hin fixedHeader)).
  apply Z.leb_le in H4. exact H4.
Qed.

(** X23.  With the same bandwidth, coding rate, CRC, header, preamble and
    payload length, one spreading factor more (from 7 up to 11) always
    gives a strictly longer LoRa airtime, provided that the numerator of
    the payload length is not negative at the larger spreading factor. *)
Theorem TimeOnAir_lora_spreading_factor
    (power fdev bandwidth datarate coderate preambleLen : Z)
    (fixLen crcOn freqHopOn : bool) (hopPeriod : Z) (iqInverted : bool)
    (timeout pktLen : Z) (r : Radio_t)
    (Hbw : 0 <= bandwidth <= 2) (Hsf : 7 <= datarate <= 11) (Hcr : 0 <= coderate)
    (Hpre : is_uint16 preambleLen) (Hlen : is_uint8 pktLen)
    (Hnum : 0 <= lora_numerator (datarate + 1) crcOn fixLen pktLen) :
  exists r1 r2 t1 t2,
    RadioSetTxConfig MODEM_LORA power fdev bandwidth datarate coderate preambleLen
      fixLen crcOn freqHopOn hopPeriod iqInverted timeout r = Some r1
    /\ RadioSetTxConfig MODEM_LORA power fdev bandwidth (datarate + 1) coderate preambleLen
         fixLen crcOn freqHopOn hopPeriod iqInverted timeout r = Some r2
    /\ RadioTimeOnAir MODEM_LORA pktLen r1 = Some t1
    /\ RadioTimeOnAir MODEM_LORA pktLen r2 = Some t2
    /\ t1 < t2.
Proof.
  assert (Hnum1 : 0 <= lora_numerator datarate crcOn fixLen pktLen)
    by (unfold lora_numerator in *; lia).
  destruct (TimeOnAir_lora_closed power fdev bandwidth datarate coderate preambleLen
              fixLen crcOn freqHopOn hopPeriod iqInverted timeout pktLen r
              Hbw ltac:(lia) Hcr Hpre Hlen Hnum1) as [r1 [Hc1 Ht1]].
  destruct (TimeOnAir_lora_closed power fdev bandwidth (datarate + 1) coderate preambleLen
              fixLen crcOn freqHopOn hopPeriod iqInverted timeout pktLen r
              Hbw ltac:(lia) Hcr Hpre Hlen Hnum) as [r2 [Hc2 Ht2]].
  exists r1, r2,
    (lora_airtime_ms datarate bandwidth coderate crcOn fixLen preambleLen pktLen),
    (lora_airtime_ms (datarate + 1) bandwidth coderate crcOn fixLen preambleLen pktLen).
  repeat (split; [assumption|]).
  unfold lora_airtime_ms. unfold is_uint16 in Hpre. unfold is_uint8 in Hlen.
  pose proof (payload_symbols_sf_step bandwidth datarate coderate crcOn fixLen pktLen
                Hbw Hsf Hlen) as Hn.
  pose proof (payload_symbols_nonneg datarate
                (low_datarate_required (bandwidth_kHz bandwidth) datarate)
                coderate crcOn fixLen pktLen) as Hn0.
  set (n1 := payload_symbols datarate _ _ _ _ _) in *.
  set (n2 := payload_symbols (datarate + 1) _ _ _ _ _) in *.
  replace (datarate + 1 - bandwidth + 1) with (1 + (datarate - bandwidth + 1)) by lia.
  rewrite (Z.pow_add_r 2 1 (datarate - bandwidth + 1)) by lia. change (2 ^ 1) with 2.
  assert (Hw : 2 ^ 6 <= 2 ^ (datarate - bandwidth + 1)) by (apply Z.pow_le_mono_r; lia).
  change (2 ^ 6) with 64 in Hw.
  set (w := 2 ^ (datarate - bandwidth + 1)) in *.
  assert (HK : (4 * preambleLen + 17 + 4 * n1) * w + 999 + 1 * 1000
               <= (4 * preambleLen + 17 + 4 * n2) * (2 * w) + 999) by nia.
  assert (Hstep : ((4 * preambleLen + 17 + 4 * n1) * w + 999) / 1000 + 1
                  <= ((4 * preambleLen + 17 + 4 * n2) * (2 * w) + 999) / 1000).
  { rewrite <- Z.div_add by lia. apply Z.div_le_mono; [lia | exact HK]. }
  lia.
Qed.

Lemma TimeOnAir_lora_spreading_factor_witness :
  exists r1 r2,
    SetTxConfig_LoRa 0 7 1 8 false true Radio_start = Some r1
    /\ SetTxConfig_LoRa 0 8 1 8 false true Radio_start = Some r2
    /\ RadioTimeOnAir MODEM_LORA 13 r1 = Some 47
    /\ RadioTimeOnAir MODEM_LORA 13 r2 = Some 83.
Proof.
  destruct (TimeOnAir_lora_spreading_factor 14 0 0 7 1 8 false true false 0 false 3000 13
              Radio_start) as [r1 [r2 [t1 [t2 [Hc1 [Hc2 _]]]]]];
    try (unfold is_uint16, is_uint8; lia); [vm_compute; discriminate|].
  exists r1, r2. split; [exact Hc1|]. split; [exact Hc2|].
  inversion Hc1. inversion Hc2. split; vm_compute; reflexivity.
Defined.
(** ** Time on air: LoRa, for the payload lengths whose numerator is negative *)

(** X26.  For every LoRa configuration with a spreading factor from 7 to
    12 and a tabulated bandwidth, and every preamble and payload length,
    the [double] arithmetic of [RadioTimeOnAir] comes to integer
    arithmetic: with the numerator reduced modulo 2^32, the payload takes
    n = 8 + ceil(numerator / (4 (SF - 2 ldro))) (coding rate mod 4 + 4)
    symbols, and the result is
    ((4 preamble + 17 + 4 n) 2^(SF - bandwidth + 1) + 999) / 1000, rounded
    down, where that is below 2^32; it is undefined where it is not. *)
Theorem TimeOnAir_lora_value
    (power fdev bandwidth datarate coderate preambleLen : Z)
    (fixLen crcOn freqHopOn : bool) (hopPeriod : Z) (iqInverted : bool)
    (timeout pktLen : Z) (r : Radio_t)
    (Hbw : 0 <= bandwidth <= 2) (Hsf : 7 <= datarate <= 12) (Hcr : 0 <= coderate)
    (Hpre : is_uint16 preambleLen) (Hlen : is_uint8 pktLen) :
  exists r',
    RadioSetTxConfig MODEM_LORA power fdev bandwidth datarate coderate preambleLen
      fixLen crcOn freqHopOn hopPeriod iqInverted timeout r = Some r'
    /\ RadioTimeOnAir MODEM_LORA pktLen r'
       = lora_airtime_uint32 datarate bandwidth coderate crcOn fixLen preambleLen pktLen.
Proof.
  exact (TimeOnAir_lora_closed_uint32 power fdev bandwidth datarate coderate preambleLen
           fixLen crcOn freqHopOn hopPeriod iqInverted timeout pktLen r
           Hbw Hsf Hcr Hpre Hlen).
Qed.

Lemma TimeOnAir_lora_value_witness :
  exists r500 r125,
    SetTxConfig_LoRa 2 12 1 8 false true Radio_start = Some r500
    /\ SetTxConfig_LoRa 0 12 1 8 false true Radio_start = Some r125
    /\ RadioTimeOnAir MODEM_LORA 0 r500 = Some 3665038953
    /\ RadioTimeOnAir MODEM_LORA 1 r500 = Some 207
    /\ RadioTimeOnAir MODEM_LORA 0 r125 = None
    /\ RadioTimeOnAir MODEM_LORA 1 r125 = Some 828.
Proof.
  destruct (TimeOnAir_lora_value 14 0 2 12 1 8 false true false 0 false 3000 0
              Radio_start) as [r500 [Hc1 Ht1]];
    try (unfold is_uint16, is_uint8; lia).
  destruct (TimeOnAir_lora_value 14 0 0 12 1 8 false true false 0 false 3000 0
              Radio_start) as [r125 [Hc2 Ht2]];
    try (unfold is_uint16, is_uint8; lia).
  exists r500, r125. split; [exact Hc1|]. split; [exact Hc2|].
  split; [rewrite Ht1; vm_compute; reflexivity|].
  split; [inversion Hc1; vm_compute; reflexivity|].
  split; [rewrite Ht2; vm_compute; reflexivity|].
  inversion Hc2; vm_compute; reflexivity.
Defined.

Lemma payload_symbols_uint32_negative (SF : Z) (ldro : bool) (codingRate : Z)
    (crcOn fixedHeader : bool) (payloadLength : Z) :
  7 <= SF <= 12 -> is_uint8 payloadLength ->
  lora_numerator SF crcOn fixedHeader payloadLength < 0 ->
  357913944 <= payload_symbols_uint32 SF ldro codingRate crcOn fixedHeader payloadLength.
Proof.
  intros HSF Hlen Hnum. unfold payload_symbols_uint32.
  unfold lora_numerator in *. unfold is_uint8 in Hlen.
  set (N := 8 * payloadLength - 4 * SF + 28 + 16 * Z_of_bool crcOn
            - (if fixedHeader then 20 else 0)) in *.
  set (u := 2 * payloadLength - SF + 7 + 4 * Z_of_bool crcOn
            - (if fixedHeader then 5 else 0)).
  assert (HN : N = 4 * u) by (unfold N, u; destruct fixedHeader; lia).
  assert (Hu : -10 <= u <= -1)
    by (unfold N, u in *; destruct fixedHeader, crcOn; cbn [Z_of_bool] in *; lia).
  assert (Hv : 5 <= SF - 2 * Z_of_bool ldro <= 12) by (destruct ldro; cbn [Z_of_bool]; lia).
  assert (Hw : uint32 N = 4 * (1073741824 + u)).
  { rewrite HN. unfold uint32, wrap. symmetry.
    apply (Z.mod_unique_pos _ _ (-1)); lia. }
  rewrite Hw, ceil_div_scale by lia.
  pose proof (ceil_div_wrapped_bounds u _ Hu Hv) as Hc.
  pose proof (Z.mod_pos_bound codingRate 4 ltac:(lia)) as Hk.
  set (c := ceil_div _ _) in *. nia.
Qed.

(** X27.  For a payload length whose numerator is negative (at most four
    bytes, depending on the spreading factor, the CRC and the header) the
    clamp of a negative symbol count is never reached: [RadioTimeOnAir]
    is undefined or returns more than 90000000 ms (25 hours). *)
Theorem TimeOnAir_lora_small_payload
    (power fdev bandwidth datarate coderate preambleLen : Z)
    (fixLen crcOn freqHopOn : bool) (hopPeriod : Z) (iqInverted : bool)
    (timeout pktLen : Z) (r : Radio_t)
    (Hbw : 0 <= bandwidth <= 2) (Hsf : 7 <= datarate <= 12) (Hcr : 0 <= coderate)
    (Hpre : is_uint16 preambleLen) (Hlen : is_uint8 pktLen)
    (Hneg : lora_numerator datarate crcOn fixLen pktLen < 0) :
  pktLen <= 4
  /\ exists r',
       RadioSetTxConfig MODEM_LORA power fdev bandwidth datarate coderate preambleLen
         fixLen crcOn freqHopOn hopPeriod iqInverted timeout r = Some r'
       /\ (RadioTimeOnAir MODEM_LORA pktLen r' = None
           \/ exists t, RadioTimeOnAir MODEM_LORA pktLen r' = Some t /\ 90000000 < t).
Proof.
  split.
  { unfold lora_numerator in Hneg. destruct crcOn, fixLen; cbn [Z_of_bool] in Hneg; lia. }
  destruct (TimeOnAir_lora_closed_uint32 power fdev bandwidth datarate coderate
              preambleLen fixLen crcOn freqHopOn hopPeriod iqInverted timeout pktLen r
              Hbw Hsf Hcr Hpre Hlen) as [r' [Hc Ht]].
  exists r'. split; [exact Hc|]. rewrite Ht. unfold lora_airtime_uint32.
  pose proof (payload_symbols_uint32_negative datarate
                (low_datarate_required (bandwidth_kHz bandwidth) datarate) coderate crcOn
                fixLen pktLen Hsf Hlen Hneg) as Hn.
  set (n := payload_symbols_uint32 _ _ _ _ _ _) in *.
  assert (Hw : 2 ^ 6 <= 2 ^ (datarate - bandwidth + 1)) by (apply Z.pow_le_mono_r; lia).
  change (2 ^ 6) with 64 in Hw.
  set (w := 2 ^ (datarate - bandwidth + 1)) in *.
  unfold is_uint16 in Hpre. cbv zeta.
  destruct (_ <? 4294967296); [right | now left].
  eexists. split; [reflexivity|].
  apply Z.lt_le_trans with (90000001 * 1000 / 1000); [rewrite Z.div_mul; lia|].
  apply Z.div_le_mono; [lia|]. nia.
Qed.

Lemma TimeOnAir_lora_small_payload_witness :
  exists r',
    SetTxConfig_LoRa 2 7 1 8 true false Radio_start = Some r'
    /\ RadioTimeOnAir MODEM_LORA 2 r' = Some 196341368
    /\ RadioTimeOnAir MODEM_LORA 3 r' = Some 7.
Proof.
  destruct (TimeOnAir_lora_small_payload 14 0 2 7 1 8 true false false 0 false 3000 2
              Radio_start) as [_ [r' [Hc _]]];
    try (unfold is_uint16, is_uint8; lia); [vm_compute; reflexivity|].
  exists r'. split; [exact Hc|].
  inversion Hc. split; vm_compute; reflexivity.
Defined.
